(** * Immunization / diagnostic-report FHIR bundle builders

    A shallow embedding of the two form components of the repository:
    [App] (the immunization record builder, src/App.js) and
    [DiagnosticReportForm] (src/working-with-global.js), together with the
    JavaScript primitives they rely on.

    Conventions of the embedding.
    - A JavaScript string is a [string]; each [ascii] stands for one code
      unit in the range 0..255.
    - A JavaScript number that the code handles is an integer, a [Z];
      [NaN] is written out where the code can meet it (invalid dates).
    - Object literals and JSON data are [value]s; [VUndef] is [undefined].
    - [Math.random], the clock, the local time zone, [Date.parse] and
      [String.prototype.localeCompare] are read from an environment [Env];
      the position in the random and clock sequences is threaded through
      the state monad [M]. *)

From Stdlib Require Import ZArith NArith List String Ascii Bool Lia.
From Stdlib Require Import Sorting.Sorted Sorting.Permutation Structures.OrderedTypeEx.
Import ListNotations.
Open Scope string_scope.
Open Scope list_scope.

Set Warnings "-register-all".

Notation "a ^^ b" := (String.append a b) (at level 60, right associativity).

(* ------------------------------------------------------------------ *)
(** ** JavaScript primitives *)

Module JS.

(** [ToBoolean] on a string: only the empty string is falsy. *)
Definition truthy (s : string) : bool := negb (s =? EmptyString).

(** [a || b] on strings. *)
Definition or_else (a b : string) : string := if truthy a then a else b.

Definition isDigit (c : ascii) : bool :=
  let n := nat_of_ascii c in (48 <=? n)%nat && (n <=? 57)%nat.

(** White space and line terminators below code unit 256. *)
Definition isWhiteSpace (c : ascii) : bool :=
  let n := nat_of_ascii c in
  ((9 <=? n)%nat && (n <=? 13)%nat) || (n =? 32)%nat || (n =? 160)%nat.

Fixpoint trimStart (s : string) : string :=
  match s with
  | EmptyString => EmptyString
  | String c r => if isWhiteSpace c then trimStart r else s
  end.

Fixpoint trimEnd (s : string) : string :=
  match s with
  | EmptyString => EmptyString
  | String c r =>
      let r' := trimEnd r in
      if (r' =? EmptyString) && isWhiteSpace c then EmptyString else String c r'
  end.

(** [String.prototype.trim]. *)
Definition trim (s : string) : string := trimEnd (trimStart s).

(** [s.includes(c)] for a one-character needle. *)
Fixpoint includes (s : string) (c : ascii) : bool :=
  match s with
  | EmptyString => false
  | String d r => (d =? c)%char || includes r c
  end.

(** [s.split(sep)] for a one-character separator: never the empty list. *)
Fixpoint split (s : string) (sep : ascii) : list string :=
  match s with
  | EmptyString => [EmptyString]
  | String c r =>
      if (c =? sep)%char then EmptyString :: split r sep
      else match split r sep with
           | h :: t => String c h :: t
           | [] => [String c EmptyString]
           end
  end.

(** The first [n] characters of [fill] repeated. *)
Fixpoint repeatTo (fill cur : string) (n : nat) : string :=
  match n with
  | O => EmptyString
  | S k =>
      match cur with
      | String c r => String c (repeatTo fill r k)
      | EmptyString =>
          match fill with
          | String c r => String c (repeatTo fill r k)
          | EmptyString => EmptyString
          end
      end
  end.

(** [s.padStart(targetLength, fill)]. *)
Definition padStart (s : string) (targetLength : nat) (fill : string) : string :=
  if (targetLength <=? String.length s)%nat then s
  else repeatTo fill fill (targetLength - String.length s) ^^ s.

Definition lowerChar (c : ascii) : ascii :=
  let n := nat_of_ascii c in
  if ((65 <=? n)%nat && (n <=? 90)%nat)
     || ((192 <=? n)%nat && (n <=? 222)%nat && negb (n =? 215)%nat)
  then ascii_of_nat (n + 32) else c.

(** [String.prototype.toLowerCase]. *)
Fixpoint toLowerCase (s : string) : string :=
  match s with
  | EmptyString => EmptyString
  | String c r => String (lowerChar c) (toLowerCase r)
  end.

(** [s.startsWith(p)]. *)
Definition startsWith (s p : string) : bool := String.prefix p s.

(** [s.indexOf(needle)]: [None] stands for -1. *)
Definition indexOf (s needle : string) : option nat := String.index 0 needle s.

(** [s.slice(i)] for [0 <= i]. *)
Definition sliceFrom (s : string) (i : nat) : string :=
  String.substring i (String.length s - i) s.

(** [s.replace(pattern, replacement)] for a pattern that is a string:
    the first occurrence only. *)
Definition replaceFirst (s pattern replacement : string) : string :=
  match indexOf s pattern with
  | Some i => String.substring 0 i s ^^ replacement ^^ sliceFrom s (i + String.length pattern)
  | None => s
  end.

(** The regular expression [/^\d{4}-\d{2}-\d{2}$/], as [.test(s)]. *)
Definition test_yyyy_mm_dd (s : string) : bool :=
  match list_ascii_of_string s with
  | [y1; y2; y3; y4; h1; m1; m2; h2; d1; d2] =>
      isDigit y1 && isDigit y2 && isDigit y3 && isDigit y4
      && (h1 =? "-")%char && isDigit m1 && isDigit m2
      && (h2 =? "-")%char && isDigit d1 && isDigit d2
  | _ => false
  end.

(** Digits of a number in a radix of at most 16, lower case. *)
Definition digitChar (d : N) : ascii :=
  ascii_of_N (if (d <? 10)%N then 48 + d else 87 + d)%N.

Fixpoint toRadix (fuel : nat) (radix n : N) (acc : string) : string :=
  match fuel with
  | O => acc
  | S f =>
      let acc' := String (digitChar (n mod radix)%N) acc in
      if (n <? radix)%N then acc' else toRadix f radix (n / radix)%N acc'
  end.

(** [Number.prototype.toString(radix)] on an integer. *)
Definition toStringRadix (radix : N) (z : Z) : string :=
  let n := Z.abs_N z in
  let digits := toRadix (S (N.to_nat (N.log2 n))) radix n EmptyString in
  if (z <? 0)%Z then "-" ^^ digits else digits.

(** [String(n)] on an integer. *)
Definition Number_toString (z : Z) : string := toStringRadix 10 z.

(** A number as the code can meet it: an integer or [NaN]. *)
Definition number := option Z.

Definition String_of_number (n : number) : string :=
  match n with
  | Some z => Number_toString z
  | None => "NaN"
  end.

(** [arr.join(sep)] on strings. *)
Fixpoint join (l : list string) (sep : string) : string :=
  match l with
  | [] => EmptyString
  | [x] => x
  | x :: r => x ^^ sep ^^ join r sep
  end.

(* ---------------------------------------------------------------- *)
(** *** Values: object literals and JSON data *)

Inductive value : Type :=
| VUndef
| VNull
| VBool (b : bool)
| VNum (n : Z)
| VStr (s : string)
| VArr (xs : list value)
| VObj (fields : list (string * value)).

(** The value of a key.  The objects of this development are written as
    object literals, whose keys are distinct; with a repeated key the
    first field would be read here. *)
Fixpoint lookup (fs : list (string * value)) (k : string) : value :=
  match fs with
  | [] => VUndef
  | (k', v) :: r => if k' =? k then v else lookup r k
  end.

(** Property read [v.k] (on [null] and [undefined] only under [?.]). *)
Definition get (v : value) (k : string) : value :=
  match v with
  | VObj fs => lookup fs k
  | _ => VUndef
  end.

Definition ToBoolean (v : value) : bool :=
  match v with
  | VUndef | VNull => false
  | VBool b => b
  | VNum n => negb (n =? 0)%Z
  | VStr s => truthy s
  | VArr _ | VObj _ => true
  end.

Definition isArray (v : value) : bool :=
  match v with VArr _ => true | _ => false end.

Definition elements (v : value) : list value :=
  match v with VArr xs => xs | _ => [] end.

(** [String(v)], also the conversion inside a template literal. *)
Fixpoint ToString (v : value) : string :=
  match v with
  | VUndef => "undefined"
  | VNull => "null"
  | VBool true => "true"
  | VBool false => "false"
  | VNum n => Number_toString n
  | VStr s => s
  | VArr xs =>
      join (map (fun x => match x with
                          | VUndef | VNull => EmptyString
                          | _ => ToString x
                          end) xs) ","
  | VObj _ => "[object Object]"
  end.

Definition hex4 (n : nat) : string :=
  padStart (toStringRadix 16 (Z.of_nat n)) 4 "0".

(** The one-character string holding a double quote. *)
Definition dq : string := String (ascii_of_nat 34) EmptyString.

(** [QuoteJSONString]. *)
Fixpoint quoteBody (s : string) : string :=
  match s with
  | EmptyString => EmptyString
  | String c r =>
      let n := nat_of_ascii c in
      (if (n =? 34)%nat then "\" ^^ dq
       else if (n =? 92)%nat then "\\"
       else if (n =? 8)%nat then "\b"
       else if (n =? 12)%nat then "\f"
       else if (n =? 10)%nat then "\n"
       else if (n =? 13)%nat then "\r"
       else if (n =? 9)%nat then "\t"
       else if (n <? 32)%nat then "\u" ^^ hex4 n
       else String c EmptyString) ^^ quoteBody r
  end.


(** [JSON.stringify(v)] without indentation; [None] is [undefined].
    Fields are written in the order of the list, which is the order of
    insertion: the order of [JSON.stringify] as long as no key is the
    text of an array index.  No key that the code writes is one; a
    roster object with such a key is outside this model. *)
Fixpoint JSON_stringify (v : value) : option string :=
  match v with
  | VUndef => None
  | VNull => Some "null"
  | VBool true => Some "true"
  | VBool false => Some "false"
  | VNum n => Some (Number_toString n)
  | VStr s => Some (dq ^^ quoteBody s ^^ dq)
  | VArr xs =>
      Some ("[" ^^ join (map (fun x => match JSON_stringify x with
                                       | Some t => t
                                       | None => "null"
                                       end) xs) "," ^^ "]")
  | VObj fs =>
      Some ("{" ^^ join ((fix members (fs : list (string * value)) : list string :=
                            match fs with
                            | [] => []
                            | (k, x) :: r =>
                                match JSON_stringify x with
                                | Some t => (dq ^^ quoteBody k ^^ dq ^^ ":" ^^ t) :: members r
                                | None => members r
                                end
                            end) fs) "," ^^ "}")
  end.

End JS.

(* ------------------------------------------------------------------ *)
(** ** Dates, the environment and the effect monad *)

Module JSDate.
Import JS.
Local Open Scope Z_scope.

Definition msPerDay : Z := 86400000.

(** Year, month (1..12) and day of month of a day number counted from
    1970-01-01, in the proleptic Gregorian calendar. *)
Definition civil (days : Z) : Z * Z * Z :=
  let z := days + 719468 in
  let era := z / 146097 in
  let doe := z - era * 146097 in
  let yoe := (doe - doe / 1460 + doe / 36524 - doe / 146096) / 365 in
  let doy := doe - (365 * yoe + yoe / 4 - yoe / 100) in
  let mp := (5 * doy + 2) / 153 in
  let d := doy - (153 * mp + 2) / 5 + 1 in
  let m := if mp <? 10 then mp + 3 else mp - 9 in
  let y := yoe + era * 400 in
  (if m <=? 2 then y + 1 else y, m, d).

Definition YearFromTime (t : Z) : Z := let '(y, _, _) := civil (t / msPerDay) in y.
Definition MonthFromTime (t : Z) : Z := let '(_, m, _) := civil (t / msPerDay) in m - 1.
Definition DateFromTime (t : Z) : Z := let '(_, _, d) := civil (t / msPerDay) in d.
Definition HourFromTime (t : Z) : Z := (t / 3600000) mod 24.
Definition MinFromTime (t : Z) : Z := (t / 60000) mod 60.
Definition SecFromTime (t : Z) : Z := (t / 1000) mod 60.
Definition msFromTime (t : Z) : Z := t mod 1000.

(** A [Date] object is its time value, milliseconds since the epoch;
    [None] is the invalid date, whose time value is [NaN]. *)
Definition Date := option Z.

(** What the program reads from its surroundings. *)
Record Env : Type := {
  (** the k-th value of [(Math.random() * 16) | 0], an integer in 0..15 *)
  random16 : nat -> Z;
  (** the time value of the k-th [new Date()] *)
  clock : nat -> Z;
  (** [getTimezoneOffset()] of a date with this time value, in minutes *)
  timezoneOffset : Z -> Z;
  (** the time value of [new Date(text)]; [None] is [NaN] *)
  Date_parse : string -> option Z;
  (** the sign of [a.localeCompare(b)] *)
  localeCompare : string -> string -> Z
}.

Section Getters.
Variable E : Env.

(** The local time value.  The offset is a whole number of minutes, as
    it is for every zone offset in force since 1972; an offset with
    seconds, as some zones had before, is outside this model. *)
Definition LocalTime (t : Z) : Z := t - timezoneOffset E t * 60000.

Definition getTimezoneOffset (d : Date) : number := option_map (timezoneOffset E) d.
Definition getFullYear (d : Date) : number := option_map (fun t => YearFromTime (LocalTime t)) d.
Definition getMonth (d : Date) : number := option_map (fun t => MonthFromTime (LocalTime t)) d.
Definition getDate (d : Date) : number := option_map (fun t => DateFromTime (LocalTime t)) d.
Definition getHours (d : Date) : number := option_map (fun t => HourFromTime (LocalTime t)) d.
Definition getMinutes (d : Date) : number := option_map (fun t => MinFromTime (LocalTime t)) d.
Definition getSeconds (d : Date) : number := option_map (fun t => SecFromTime (LocalTime t)) d.

End Getters.

Definition pad0 (width : nat) (z : Z) : string := padStart (Number_toString z) width "0".

(** The year of [toISOString]: four digits, or a sign and six digits. *)
Definition isoYear (y : Z) : string :=
  if (0 <=? y) && (y <=? 9999) then pad0 4 y
  else (if y <? 0 then "-" else "+") ^^ pad0 6 (Z.abs y).

(** [Date.prototype.toISOString]: UTC fields with milliseconds and a
    final Z; [None] is the [RangeError] thrown on an invalid date. *)
Definition toISOString (d : Date) : option string :=
  match d with
  | None => None
  | Some t =>
      Some (isoYear (YearFromTime t) ^^ "-" ^^ pad0 2 (MonthFromTime t + 1) ^^ "-"
            ^^ pad0 2 (DateFromTime t) ^^ "T" ^^ pad0 2 (HourFromTime t) ^^ ":"
            ^^ pad0 2 (MinFromTime t) ^^ ":" ^^ pad0 2 (SecFromTime t) ^^ "."
            ^^ pad0 3 (msFromTime t) ^^ "Z")
  end.

End JSDate.

Module Effects.
Import JS JSDate.

(** How many random numbers and clock readings have been consumed. *)
Record World : Type := { rand_pos : nat; clock_pos : nat }.

Definition start : World := {| rand_pos := 0; clock_pos := 0 |}.

Inductive result (A : Type) : Type :=
| Ok (a : A) (w : World)
| Throw (message : string).
Arguments Ok {A} a w.
Arguments Throw {A} message.

Definition M (A : Type) : Type := World -> result A.

Definition ret {A} (a : A) : M A := fun w => Ok a w.

Definition bind {A B} (m : M A) (k : A -> M B) : M B :=
  fun w => match m w with
           | Ok a w' => k a w'
           | Throw e => Throw e
           end.

Definition throw {A} (message : string) : M A := fun _ => Throw message.

Fixpoint mapM {A B} (f : A -> M B) (l : list A) : M (list B) :=
  match l with
  | [] => ret []
  | x :: r => bind (f x) (fun y => bind (mapM f r) (fun ys => ret (y :: ys)))
  end.

End Effects.

Declare Scope js_scope.
Delimit Scope js_scope with js.
Notation "x <- m ;; k" := (Effects.bind m (fun x => k))
  (at level 61, m at next level, right associativity) : js_scope.

Module Runtime.
Import JS JSDate Effects.
Local Open Scope js_scope.

Section WithEnv.
Variable E : Env.

(** [(Math.random() * 16) | 0]. *)
Definition Math_random16 : M Z :=
  fun w => Ok (random16 E (rand_pos w))
              {| rand_pos := S (rand_pos w); clock_pos := clock_pos w |}.

(** [new Date()]. *)
Definition new_Date_now : M Date :=
  fun w => Ok (Some (clock E (clock_pos w)))
              {| rand_pos := rand_pos w; clock_pos := S (clock_pos w) |}.

(** [new Date(text)]. *)
Definition new_Date (text : string) : Date := Date_parse E text.

(** The replacement function of [uuidv4], on one character of the template. *)
Definition uuid_char (c : ascii) : M string :=
  if (c =? "x")%char || (c =? "y")%char then
    r <- Math_random16 ;;
    let v := if (c =? "x")%char then r else Z.lor (Z.land r 3) 8 in
    ret (toStringRadix 16 v)
  else ret (String c EmptyString).

Fixpoint replace_xy (template : string) : M string :=
  match template with
  | EmptyString => ret EmptyString
  | String c r => a <- uuid_char c ;; b <- replace_xy r ;; ret (a ^^ b)
  end.

(** [uuidv4], the same text in both source files. *)
Definition uuidv4 : M string := replace_xy "xxxxxxxx-xxxx-4xxx-yxxx-xxxxxxxxxxxx".

End WithEnv.

End Runtime.
(* ------------------------------------------------------------------ *)
(** ** The patient roster shared by both forms *)

Module Roster.
Import JS.

(** One element of [/patients.json].  Scalar fields are text, the empty
    string standing for a missing field; the two address lists keep
    whatever JSON the roster holds ([VUndef] when the field is missing). *)
Record Patient : Type := {
  p_id : string;
  p_name : string;
  p_gender : string;
  p_dob : string;
  p_birthDate : string;
  p_mobile : string;
  p_phone : string;
  p_email : string;
  p_address : string;
  p_mrn : string;
  p_user_ref_id : string;
  p_user_id : string;
  p_abha_ref : string;
  p_additional_attributes_abha_addresses : value;
  p_abha_addresses : value
}.

(** An element of the normalized address list. *)
Record AbhaOption : Type := {
  value : string;
  label : string;
  primary : bool
}.

(** The object [{ value, label, primary }] an [AbhaOption] is in the program. *)
Definition AbhaOption_object (a : AbhaOption) : JS.value :=
  VObj [("value", VStr (value a)); ("label", VStr (label a)); ("primary", VBool (primary a))].

End Roster.

(* ------------------------------------------------------------------ *)
(** ** src/App.js: the immunization record builder *)

Module App.
Import JS JSDate Effects Runtime Roster.
Local Open Scope js_scope.

Record Practitioner : Type := {
  prac_id : string;
  prac_name : string;
  qualification : string;
  prac_phone : string;
  prac_email : string;
  registration_system : string;
  registration_value : string
}.

Definition PRACTITIONERS : list Practitioner := [
  {| prac_id := "prac-1"; prac_name := "Dr. A. Verma"; qualification := "MBBS, MD";
     prac_phone := "+919000011111"; prac_email := "verma@example.org";
     registration_system := "https://nmc.org.in"; registration_value := "NMC-123" |};
  {| prac_id := "prac-2"; prac_name := "Dr. B. Rao"; qualification := "MBBS, MS";
     prac_phone := "+919000022222"; prac_email := "rao@example.org";
     registration_system := "https://nmc.org.in"; registration_value := "NMC-456" |}
].

(** [PRACTITIONERS[i]], [None] being [undefined]. *)
Definition practitioner_at (i : Z) : option Practitioner :=
  if (0 <=? i)%Z then nth_error PRACTITIONERS (Z.to_nat i) else None.

(** [ddmmyyyyToISO]; [None] is [undefined]. *)
Definition ddmmyyyyToISO (v : string) : option string :=
  if negb (truthy v) then None
  else
    let s := trim v in
    if test_yyyy_mm_dd s then Some s
    else
      let sep := if includes s "-" then Some "-"%char
                 else if includes s "/" then Some "/"%char else None in
      match sep with
      | None => None
      | Some sep =>
          match split s sep with
          | [dd; mm; yyyy] => Some (yyyy ^^ "-" ^^ padStart mm 2 "0" ^^ "-" ^^ padStart dd 2 "0")
          | _ => None
          end
      end.

(** [a || b] where [a] may be [undefined]. *)
Definition orElse (a : option string) (b : string) : string :=
  match a with
  | Some s => if truthy s then s else b
  | None => b
  end.

Section WithEnv.
Variable E : Env.

(** The local helper [pad] of [isoWithLocalOffsetFromDate]. *)
Definition pad (n : number) : string :=
  padStart (String_of_number (option_map Z.abs n)) 2 "0".

Definition isoWithLocalOffsetFromDate (date : Date) : string :=
  let tzo := option_map Z.opp (getTimezoneOffset E date) in
  let sign := match tzo with
              | Some z => if (0 <=? z)%Z then "+" else "-"
              | None => "-"
              end in
  let hh := pad (option_map (fun z => Z.abs z / 60)%Z tzo) in
  let mm := pad (option_map (fun z => Z.rem (Z.abs z) 60) tzo) in
  String_of_number (getFullYear E date)
  ^^ "-" ^^ pad (option_map (fun m => m + 1)%Z (getMonth E date))
  ^^ "-" ^^ pad (getDate E date)
  ^^ "T" ^^ pad (getHours E date)
  ^^ ":" ^^ pad (getMinutes E date)
  ^^ ":" ^^ pad (getSeconds E date)
  ^^ sign ^^ hh ^^ ":" ^^ mm.

Definition localDatetimeToISOWithOffset (localDatetime : string) : M string :=
  if negb (truthy localDatetime) then
    d <- new_Date_now E ;; ret (isoWithLocalOffsetFromDate d)
  else ret (isoWithLocalOffsetFromDate (new_Date E localDatetime)).

(** The opening tag of every narrative. *)
Definition narrative_open : string :=
  "<div xmlns=" ^^ dq ^^ "http://www.w3.org/1999/xhtml" ^^ dq
  ^^ " lang=" ^^ dq ^^ "en-IN" ^^ dq ^^ " xml:lang=" ^^ dq ^^ "en-IN" ^^ dq ^^ ">".

Definition buildNarrative (title innerHtml : string) : JS.value :=
  VObj [("status", VStr "generated");
        ("div", VStr (narrative_open ^^ "<h3>" ^^ title ^^ "</h3>" ^^ innerHtml ^^ "</div>"))].

(** A picked file: its name, its media type and what the reader yields;
    [f_result = None] when reading fails. *)
Record File : Type := {
  f_name : string;
  f_type : string;
  f_result : option string
}.

Definition fileToBase64NoPrefix (file : File) : M string :=
  match f_result file with
  | None => throw "File read error"
  | Some res =>
      match indexOf res "base64," with
      | Some idx => ret (sliceFrom res (idx + 7))
      | None => ret res
      end
  end.

Definition PLACEHOLDER_PDF_B64 : string := "JVBERi0xLjQKJeLjz9MK".

Definition SNOMED_IMM_RECORD : JS.value :=
  VObj [("system", VStr "http://snomed.info/sct"); ("code", VStr "41000179103");
        ("display", VStr "Immunization record")].

Definition normalizeItem (item : JS.value) : option AbhaOption :=
  if negb (ToBoolean item) then None
  else
    match item with
    | VStr s => Some {| value := s; label := s; primary := false |}
    | VArr _ | VObj _ =>
        if ToBoolean (get item "address") then
          Some {| value := ToString (get item "address");
                  label := if ToBoolean (get item "isPrimary")
                           then ToString (get item "address") ^^ " (primary)"
                           else ToString (get item "address");
                  primary := ToBoolean (get item "isPrimary") |}
        else
          match JSON_stringify item with
          | Some v => Some {| value := v; label := v; primary := ToBoolean (get item "isPrimary") |}
          | None => None
          end
    | _ => None
    end.

(** [.map(...).filter(Boolean)]. *)
Fixpoint mapFilter (raw : list JS.value) : list AbhaOption :=
  match raw with
  | [] => []
  | item :: r =>
      match normalizeItem item with
      | Some a => a :: mapFilter r
      | None => mapFilter r
      end
  end.

Definition Z_of_bool (b : bool) : Z := if b then 1%Z else 0%Z.

(** The comparator handed to [sort]. *)
Definition compareAbha (a b : AbhaOption) : Z :=
  let d := (Z_of_bool (primary b) - Z_of_bool (primary a))%Z in
  if negb (d =? 0)%Z then d else localeCompare E (value a) (value b).

(** [Array.prototype.sort] is stable; it is modelled as insertion from the
    left, an element going in front of the first one it is strictly
    smaller than. *)
Fixpoint insert (x : AbhaOption) (sorted : list AbhaOption) : list AbhaOption :=
  match sorted with
  | [] => [x]
  | y :: r => if (compareAbha x y <? 0)%Z then x :: y :: r else y :: insert x r
  end.

Definition sort (l : list AbhaOption) : list AbhaOption :=
  fold_left (fun acc x => insert x acc) l [].

Definition normalizeAbhaAddresses (patientObj : option Patient) : list AbhaOption :=
  let raw :=
    match patientObj with
    | None => []
    | Some p =>
        if ToBoolean (p_additional_attributes_abha_addresses p)
           && isArray (p_additional_attributes_abha_addresses p)
        then elements (p_additional_attributes_abha_addresses p)
        else if isArray (p_abha_addresses p) then elements (p_abha_addresses p)
        else []
    end in
  sort (mapFilter raw).

(** One row of the immunization list. *)
Record Immunization : Type := {
  vaccineText : string;
  occurrenceDate : string;
  imm_status : string;
  lotNumber : string
}.

(** The component state read by a build. *)
Record State : Type := {
  selectedPatient : option Patient;
  selectedAbha : string;
  selectedPractitionerIdx : Z;
  status : string;
  title : string;
  dateTimeLocal : string;
  encounterText : string;
  custodianName : string;
  immunizations : list Immunization;
  immRecText : string;
  immRecDateLocal : string;
  files : list File
}.

Variable st : State.

Definition hasImms : bool :=
  negb (List.length (immunizations st) =? 0)%nat
  && existsb (fun i => truthy (vaccineText i) && truthy (trim (vaccineText i))) (immunizations st).
Definition hasImmRec : bool := truthy (immRecText st) && truthy (trim (immRecText st)).
Definition hasDocs : bool := negb (List.length (files st) =? 0)%nat.

Definition validateBeforeBuild : list string :=
  (match selectedPatient st with None => ["Select a patient (required)."] | Some _ => [] end)
  ++ (if negb (truthy (status st)) then ["Status is required."] else [])
  ++ (if negb (truthy (title st)) || negb (truthy (trim (title st))) then ["Title is required."] else [])
  ++ (if negb (hasImms || hasImmRec || hasDocs)
      then ["Add at least one immunization, or an immunization recommendation, or upload at least one document."]
      else []).

(** The identifiers drawn at the start of a build; [None] is [null]. *)
Record Ids : Type := {
  compId : string;
  patientId : string;
  practitionerId : string;
  encounterId : option string;
  custodianId : option string;
  immIds : list string;
  immRecId : option string;
  docBinaryIds : list string;
  docRefIds : list string
}.

(** [cond ? uuidv4() : null]. *)
Definition uuid_if (cond : bool) : M (option string) :=
  if cond then id <- uuidv4 E ;; ret (Some id) else ret None.

(** Truthiness of an identifier that may be [null]. *)
Definition truthy_id (id : option string) : bool :=
  match id with Some s => truthy s | None => false end.

(** [ids[i]], [VUndef] past the end. *)
Definition at_index (ids : list string) (i : nat) : JS.value :=
  match nth_error ids i with Some s => VStr s | None => VUndef end.

Definition urn (id : JS.value) : string := "urn:uuid:" ^^ ToString id.

Definition reference (id : JS.value) : JS.value := VObj [("reference", VStr (urn id))].

Definition profile (url : string) : JS.value := VObj [("profile", VArr [VStr url])].

(** [xs.length ? xs : undefined]. *)
Definition nonempty_or_undefined (xs : list JS.value) : JS.value :=
  match xs with [] => VUndef | _ => VArr xs end.

(** [s || undefined] and [s ? [{ text: s }] : undefined]. *)
Definition str_or_undefined (s : string) : JS.value := if truthy s then VStr s else VUndef.
Definition text_or_undefined (s : string) : JS.value :=
  if truthy s then VArr [VObj [("text", VStr s)]] else VUndef.

Variable ids : Ids.
Variable authoredOn : string.

(** [buildPatientResource], called once the gate has found a patient. *)
Definition buildPatientResource (p : Patient) : JS.value :=
  let mrn := or_else (p_mrn p) (or_else (p_user_ref_id p) (or_else (p_abha_ref p) (p_id p))) in
  let identifiers :=
    (if truthy mrn then [VObj [("system", VStr "https://healthid.ndhm.gov.in"); ("value", VStr mrn)]] else [])
    ++ (if truthy (p_abha_ref p)
        then [VObj [("system", VStr "https://abdm.gov.in/abha"); ("value", VStr (p_abha_ref p))]] else []) in
  let telecom :=
    (if truthy (p_mobile p) then [VObj [("system", VStr "phone"); ("value", VStr (p_mobile p))]] else [])
    ++ (if truthy (p_email p) then [VObj [("system", VStr "email"); ("value", VStr (p_email p))]] else [])
    ++ (if truthy (selectedAbha st)
        then [VObj [("system", VStr "url"); ("value", VStr ("abha://" ^^ selectedAbha st))]] else []) in
  VObj [("resourceType", VStr "Patient");
        ("id", VStr (patientId ids));
        ("language", VStr "en-IN");
        ("meta", profile "http://hl7.org/fhir/StructureDefinition/Patient");
        ("text", buildNarrative "Patient"
                   ("<p>" ^^ p_name p ^^ "</p><p>" ^^ p_gender p ^^ " " ^^ p_dob p ^^ "</p>"));
        ("identifier", nonempty_or_undefined identifiers);
        ("name", text_or_undefined (p_name p));
        ("gender", if truthy (p_gender p) then VStr (toLowerCase (p_gender p)) else VUndef);
        ("birthDate", match ddmmyyyyToISO (p_dob p) with
                      | Some s => str_or_undefined s
                      | None => VUndef
                      end);
        ("telecom", nonempty_or_undefined telecom);
        ("address", text_or_undefined (p_address p))].

(** [PRACTITIONERS[selectedPractitionerIdx] || PRACTITIONERS[0]]. *)
Definition selectedPractitioner : option Practitioner :=
  match practitioner_at (selectedPractitionerIdx st) with
  | Some p => Some p
  | None => practitioner_at 0
  end.

Definition buildPractitionerResource (p : Practitioner) : JS.value :=
  VObj [("resourceType", VStr "Practitioner");
        ("id", VStr (practitionerId ids));
        ("language", VStr "en-IN");
        ("meta", profile "http://hl7.org/fhir/StructureDefinition/Practitioner");
        ("text", buildNarrative "Practitioner"
                   ("<p>" ^^ prac_name p ^^ "</p><p>" ^^ qualification p ^^ "</p>"));
        ("identifier",
           if truthy (registration_system p) && truthy (registration_value p)
           then VArr [VObj [("system", VStr (registration_system p));
                            ("value", VStr (registration_value p))]]
           else VUndef);
        ("name", VArr [VObj [("text", VStr (prac_name p))]]);
        ("telecom", VArr (
           (if truthy (prac_phone p)
            then [VObj [("system", VStr "phone"); ("value", VStr (prac_phone p))]] else [])
           ++ (if truthy (prac_email p)
               then [VObj [("system", VStr "email"); ("value", VStr (prac_email p))]] else [])))].

(** The object literal of [buildEncounterResource]. *)
Definition encounterResource (id start : string) : JS.value :=
  VObj [("resourceType", VStr "Encounter");
        ("id", VStr id);
        ("language", VStr "en-IN");
        ("meta", profile "http://hl7.org/fhir/StructureDefinition/Encounter");
        ("text", buildNarrative "Encounter" ("<p>" ^^ encounterText st ^^ "</p>"));
        ("status", VStr "finished");
        ("class", VObj [("system", VStr "http://terminology.hl7.org/CodeSystem/v3-ActCode");
                        ("code", VStr "AMB"); ("display", VStr "ambulatory")]);
        ("subject", reference (VStr (patientId ids)));
        ("period", VObj [("start", VStr start); ("end", VStr start)])].

(** [None] is the [null] returned when there is no encounter. *)
Definition buildEncounterResource : M (option JS.value) :=
  match encounterId ids with
  | Some id =>
      if negb (truthy id) then ret None
      else
        d <- new_Date_now E ;;
        let start := isoWithLocalOffsetFromDate d in
        ret (Some (encounterResource id start))
  | None => ret None
  end.

Definition buildCustodianOrg : option JS.value :=
  match custodianId ids with
  | Some id =>
      if negb (truthy id) then None
      else Some (VObj [
        ("resourceType", VStr "Organization");
        ("id", VStr id);
        ("language", VStr "en-IN");
        ("meta", profile "http://hl7.org/fhir/StructureDefinition/Organization");
        ("text", buildNarrative "Organization" ("<p>" ^^ custodianName st ^^ "</p>"));
        ("name", VStr (custodianName st))])
  | None => None
  end.

(** [d.toISOString()], which throws on an invalid date. *)
Definition toISOString_or_throw (d : Date) : M string :=
  match toISOString d with
  | Some s => ret s
  | None => throw "Invalid time value"
  end.

Definition now_toISOString : M string := d <- new_Date_now E ;; toISOString_or_throw d.

(** The value of [occ] in [buildImmunizationResources]. *)
Definition occurrence (m : Immunization) : M string :=
  if truthy (occurrenceDate m) then
    if includes (occurrenceDate m) "T"
    then toISOString_or_throw (new_Date E (occurrenceDate m))
    else match ddmmyyyyToISO (occurrenceDate m) with
         | Some s => if truthy s then ret s else now_toISOString
         | None => now_toISOString
         end
  else now_toISOString.

(** The object literal of [buildImmunizationResources]. *)
Definition immunizationResource (m : Immunization) (id : JS.value) (occ : string) : JS.value :=
  VObj [("resourceType", VStr "Immunization");
        ("id", id);
        ("language", VStr "en-IN");
        ("meta", profile "http://hl7.org/fhir/StructureDefinition/Immunization");
        ("text", buildNarrative "Immunization"
                   ("Vaccine: " ^^ or_else (vaccineText m) "Unknown" ^^ ", Date: " ^^ occ));
        ("status", VStr (or_else (imm_status m) "completed"));
        ("vaccineCode", VObj [("text", VStr (or_else (vaccineText m) "Unknown vaccine"))]);
        ("patient", reference (VStr (patientId ids)));
        ("occurrenceDateTime", VStr occ);
        ("lotNumber", str_or_undefined (lotNumber m))].

Definition buildImmunization (m : Immunization) (idx : nat) : M JS.value :=
  let id := at_index (immIds ids) idx in
  occ <- occurrence m ;;
  ret (immunizationResource m id occ).

(** [arr.map((m, idx) => ...)] with effects, [idx] counted from [i]. *)
Fixpoint mapM_indexed {A B} (f : A -> nat -> M B) (l : list A) (i : nat) : M (list B) :=
  match l with
  | [] => ret []
  | x :: r => y <- f x i ;; ys <- mapM_indexed f r (S i) ;; ret (y :: ys)
  end.

Definition buildImmunizationResources : M (list JS.value) :=
  mapM_indexed buildImmunization (immunizations st) 0.

Definition buildImmRecResource : option JS.value :=
  match immRecId ids with
  | Some id =>
      if negb (truthy id) then None
      else Some (VObj [
        ("resourceType", VStr "ImmunizationRecommendation");
        ("id", VStr id);
        ("language", VStr "en-IN");
        ("meta", profile "http://hl7.org/fhir/StructureDefinition/ImmunizationRecommendation");
        ("patient", reference (VStr (patientId ids)));
        ("date", VStr (if truthy (immRecDateLocal st)
                       then isoWithLocalOffsetFromDate (new_Date E (immRecDateLocal st))
                       else authoredOn));
        ("recommendation", VArr [VObj [
           ("vaccineCode", text_or_undefined (immRecText st));
           ("forecastStatus", if truthy (immRecText st)
                              then VObj [("text", VStr "Recommended")] else VUndef)]])])
  | None => None
  end.

(** [files.length > 0 ? files : [null]]. *)
Definition toProcess : list (option File) :=
  match files st with
  | [] => [None]
  | fs => map Some fs
  end.

(** The two object literals of [buildDocAndBinaryResources]. *)
Definition binaryResource (binId : JS.value) (contentType dataB64 : string) : JS.value :=
  VObj [("resourceType", VStr "Binary");
        ("id", binId);
        ("language", VStr "en-IN");
        ("meta", profile "https://nrces.in/ndhm/fhir/r4/StructureDefinition/Binary");
        ("contentType", VStr contentType);
        ("data", VStr dataB64)].

Definition docRefResource (docId binId : JS.value) (contentType title : string) : JS.value :=
  VObj [("resourceType", VStr "DocumentReference");
        ("id", docId);
        ("language", VStr "en-IN");
        ("meta", profile "http://hl7.org/fhir/StructureDefinition/DocumentReference");
        ("text", buildNarrative "DocumentReference" ("<p>" ^^ title ^^ "</p>"));
        ("status", VStr "current");
        ("type", VObj [("coding", VArr [SNOMED_IMM_RECORD]); ("text", VStr "Immunization document")]);
        ("subject", reference (VStr (patientId ids)));
        ("date", VStr authoredOn);
        ("content", VArr [VObj [("attachment", VObj [
           ("contentType", VStr contentType); ("title", VStr title);
           ("url", VStr (urn binId))])]])].

(** The media type, payload and title of one element of [toProcess]. *)
Definition contentOf (f : option File) : M (string * string * string) :=
  match f with
  | Some f =>
      dataB64 <- fileToBase64NoPrefix f ;;
      ret (or_else (f_type f) "application/pdf", dataB64, or_else (f_name f) "placeholder.pdf")
  | None => ret ("application/pdf", PLACEHOLDER_PDF_B64, "placeholder.pdf")
  end.

(** The loop of [buildDocAndBinaryResources], from index [i]: the
    binaries and the document references it pushes, in order. *)
Fixpoint docLoop (fs : list (option File)) (i : nat) : M (list JS.value * list JS.value) :=
  match fs with
  | [] => ret ([], [])
  | f :: r =>
      let binId := at_index (docBinaryIds ids) i in
      let docId := at_index (docRefIds ids) i in
      content <- contentOf f ;;
      let '(contentType, dataB64, title) := content in
      let binary := binaryResource binId contentType dataB64 in
      let docRef := docRefResource docId binId contentType title in
      rest <- docLoop r (S i) ;;
      ret (binary :: fst rest, docRef :: snd rest)
  end.

Definition buildDocAndBinaryResources : M (list JS.value * list JS.value) :=
  docLoop toProcess 0.

(** [PRACTITIONERS[selectedPractitionerIdx]?.name]. *)
Definition authorName : option string :=
  option_map prac_name (practitioner_at (selectedPractitionerIdx st)).

Definition sectionEntry (id : JS.value) (type : string) : JS.value :=
  VObj [("reference", VStr (urn id)); ("type", VStr type)].

Definition buildComposition (docRefsArr : list JS.value) : JS.value :=
  let entries :=
    map (fun id => sectionEntry (VStr id) "Immunization") (immIds ids)
    ++ (match immRecId ids with
        | Some id => if truthy id then [sectionEntry (VStr id) "ImmunizationRecommendation"] else []
        | None => []
        end)
    ++ map (fun dr => sectionEntry (get dr "id") "DocumentReference") docRefsArr in
  VObj ([("resourceType", VStr "Composition");
         ("id", VStr (compId ids));
         ("language", VStr "en-IN");
         ("meta", profile "http://hl7.org/fhir/StructureDefinition/Composition");
         ("text", buildNarrative "Composition"
                    ("<p>" ^^ title st ^^ "</p><p>Author: " ^^ orElse authorName EmptyString ^^ "</p>"));
         ("status", VStr (status st));
         ("type", VObj [("coding", VArr [SNOMED_IMM_RECORD]); ("text", VStr "Immunization record")]);
         ("subject", reference (VStr (patientId ids)))]
        ++ (if truthy_id (encounterId ids)
            then [("encounter", reference (match encounterId ids with Some id => VStr id | None => VNull end))]
            else [])
        ++ [("date", VStr authoredOn);
            ("author", VArr [VObj [("reference", VStr (urn (VStr (practitionerId ids))));
                                   ("display", match authorName with Some n => VStr n | None => VUndef end)]]);
            ("title", VStr (title st))]
        ++ (if truthy_id (custodianId ids)
            then [("custodian", reference (match custodianId ids with Some id => VStr id | None => VNull end))]
            else [])
        ++ [("section", VArr [VObj [
              ("title", VStr "Immunization section");
              ("code", VObj [("coding", VArr [SNOMED_IMM_RECORD]); ("text", VStr "Immunization record")]);
              ("entry", nonempty_or_undefined entries);
              ("text", match entries with
                       | [] => VObj [("status", VStr "generated");
                                     ("div", VStr ("<div xmlns=" ^^ dq ^^ "http://www.w3.org/1999/xhtml" ^^ dq
                                                   ^^ " lang=" ^^ dq ^^ "en-IN" ^^ dq ^^ " xml:lang=" ^^ dq
                                                   ^^ "en-IN" ^^ dq ^^ "><p>No immunization entries</p></div>"))]
                       | _ => VUndef
                       end)]])]).

(** [{ fullUrl: `urn:uuid:${r.id}`, resource: r }]. *)
Definition bundleEntry (r : JS.value) : JS.value :=
  VObj [("fullUrl", VStr (urn (get r "id"))); ("resource", r)].

Definition optional (r : option JS.value) : list JS.value :=
  match r with Some x => [bundleEntry x] | None => [] end.

End WithEnv.

(** The part of [onBuildBundle] after the gate. *)
Definition build (E : Env) (st : State) (p : Patient) : M JS.value :=
  authoredOn <- localDatetimeToISOWithOffset E (dateTimeLocal st) ;;
  compId <- uuidv4 E ;;
  patientId <- uuidv4 E ;;
  practitionerId <- uuidv4 E ;;
  encounterId <- uuid_if E (truthy (encounterText st)) ;;
  custodianId <- uuid_if E (truthy (custodianName st)) ;;
  immIds <- mapM (fun _ => uuidv4 E) (immunizations st) ;;
  immRecId <- uuid_if E (truthy (immRecText st)) ;;
  docBinaryIds <- mapM (fun _ => uuidv4 E) (toProcess st) ;;
  docRefIds <- mapM (fun _ => uuidv4 E) docBinaryIds ;;
  let ids := {| compId := compId; patientId := patientId; practitionerId := practitionerId;
                encounterId := encounterId; custodianId := custodianId; immIds := immIds;
                immRecId := immRecId; docBinaryIds := docBinaryIds; docRefIds := docRefIds |} in
  let patientRes := buildPatientResource st ids p in
  practitionerRes <- match selectedPractitioner st with
                     | Some pr => ret (buildPractitionerResource ids pr)
                     | None => throw "Cannot read properties of undefined"
                     end ;;
  encounterRes <- buildEncounterResource E st ids ;;
  let custodianRes := buildCustodianOrg st ids in
  immunizationResources <- buildImmunizationResources E st ids ;;
  let immRecResource := buildImmRecResource E st ids authoredOn in
  docs <- buildDocAndBinaryResources st ids authoredOn ;;
  let '(binaries, docRefs) := docs in
  let compositionRes := buildComposition st ids authoredOn docRefs in
  bundleUuid <- uuidv4 E ;;
  let bundleId := "ImmunizationBundle-" ^^ bundleUuid in
  lastUpdated <- new_Date_now E ;;
  identifierUuid <- uuidv4 E ;;
  timestamp <- new_Date_now E ;;
  ret (VObj [
    ("resourceType", VStr "Bundle");
    ("id", VStr bundleId);
    ("meta", VObj [("profile", VArr [VStr "http://hl7.org/fhir/StructureDefinition/Bundle"]);
                   ("lastUpdated", VStr (isoWithLocalOffsetFromDate E lastUpdated))]);
    ("identifier", VObj [("system", VStr "urn:ietf:rfc:3986");
                         ("value", VStr ("urn:uuid:" ^^ identifierUuid))]);
    ("type", VStr "document");
    ("timestamp", VStr (isoWithLocalOffsetFromDate E timestamp));
    ("entry", VArr (
       [bundleEntry compositionRes; bundleEntry patientRes; bundleEntry practitionerRes]
       ++ optional encounterRes
       ++ optional custodianRes
       ++ map bundleEntry immunizationResources
       ++ optional immRecResource
       ++ map bundleEntry docRefs
       ++ map bundleEntry binaries))]).

(** What a click on the build button leads to. *)
Inductive Outcome : Type :=
| Rejected (errors : list string)
| Failed (message : string)
| Built (bundle : JS.value).

Definition onBuildBundle (E : Env) (st : State) : Outcome :=
  let errors := validateBeforeBuild st in
  if negb (List.length errors =? 0)%nat then Rejected errors
  else
    match selectedPatient st with
    | None => Failed "Cannot read properties of null"
    | Some p =>
        match build E st p start with
        | Ok bundle _ => Built bundle
        | Throw message => Failed message
        end
    end.

End App.

(* ------------------------------------------------------------------ *)
(** ** src/working-with-global.js: the diagnostic report builder *)

Module DiagnosticReportForm.
Import JS JSDate Effects Runtime Roster.
Local Open Scope js_scope.

(** [ddmmyyyyToISO] of this file: it hands back what it does not recognize. *)
Definition ddmmyyyyToISO (value : string) : string :=
  if negb (truthy value) then EmptyString
  else
    let s := trim value in
    if test_yyyy_mm_dd s then s
    else
      let sep := if includes s "-" then Some "-"%char
                 else if includes s "/" then Some "/"%char else None in
      match sep with
      | None => s
      | Some sep =>
          match split s sep with
          | [d; m; y] =>
              if (String.length d =? 4)%nat then s
              else if (String.length y =? 4)%nat
                   then y ^^ "-" ^^ padStart m 2 "0" ^^ "-" ^^ padStart d 2 "0"
                   else s
          | _ => s
          end
      end.

Definition mapGender (g : string) : string :=
  if negb (truthy g) then EmptyString
  else
    let s := toLowerCase g in
    if startsWith s "m" then "male"
    else if startsWith s "f" then "female"
    else if startsWith s "o" then "other"
    else "unknown".

(** The same text as in src/App.js. *)
Definition normalizeAbhaAddresses := App.normalizeAbhaAddresses.

(** The narrative wrapper of this file returns the markup itself. *)
Definition buildNarrative (title html : string) : string :=
  App.narrative_open ^^ "<h3>" ^^ title ^^ "</h3>" ^^ html ^^ "</div>".

(** The flattened practitioner held in the component state. *)
Record PractitionerForm : Type := {
  prac_id : string;
  prac_name : string;
  license : string
}.

(** The patient fields held in the component state. *)
Record PatientForm : Type := {
  name : string;
  mrn : string;
  birthDate : string;
  gender : string;
  phone : string
}.

(** What [handlePatientSelect] stores for the roster entry [p]. *)
Definition patientFormOf (p : Patient) : PatientForm :=
  let derivedMrn := or_else (p_mrn p) (or_else (p_user_ref_id p) (or_else (p_abha_ref p) (p_user_id p))) in
  let phone := if truthy (p_mobile p)
               then (if startsWith (p_mobile p) "+" then p_mobile p else "+91" ^^ p_mobile p)
               else p_phone p in
  {| name := p_name p;
     mrn := derivedMrn;
     birthDate := ddmmyyyyToISO (or_else (p_dob p) (p_birthDate p));
     gender := mapGender (p_gender p);
     phone := phone |}.

Record ResultRow : Type := {
  res_id : string;
  codeText : string;
  codeSnomed : string;
  res_value : string
}.

Record SpecimenRow : Type := {
  spec_id : string;
  typeText : string
}.

Record Attachment : Type := {
  att_id : string;
  att_name : string;
  mime : string;
  base64 : string
}.

(** The component state read by a build. *)
Record State : Type := {
  practitioner : PractitionerForm;
  patient : PatientForm;
  title : string;
  diagStatus : string;
  diagCategory : string;
  diagCodeText : string;
  diagCodeSNOMED : string;
  issuedDate : string;
  effectiveDate : string;
  results : list ResultRow;
  specimens : list SpecimenRow;
  attachments : list Attachment
}.

Section WithEnv.
Variable E : Env.

(** [getISOWithOffsetFromDateInput]; the empty string stands for a call
    without argument. *)
Definition getISOWithOffsetFromDateInput (dateInput : string) : M string :=
  now <- new_Date_now E ;;
  d <- (if truthy dateInput then
          if test_yyyy_mm_dd dateInput then
            ret (new_Date E (dateInput ^^ "T"
                             ^^ padStart (String_of_number (getHours E now)) 2 "0" ^^ ":"
                             ^^ padStart (String_of_number (getMinutes E now)) 2 "0" ^^ ":"
                             ^^ padStart (String_of_number (getSeconds E now)) 2 "0"))
          else new_Date_now E
        else ret now) ;;
  let tzOffsetMin := getTimezoneOffset E d in
  let sign := match tzOffsetMin with
              | Some z => if (0 <? z)%Z then "-" else "+"
              | None => "+"
              end in
  let pad := fun n : number => padStart (String_of_number n) 2 "0" in
  let offsetHr := pad (option_map (fun z => Z.abs z / 60)%Z tzOffsetMin) in
  let offsetMin := pad (option_map (fun z => Z.rem (Z.abs z) 60) tzOffsetMin) in
  iso <- App.toISOString_or_throw d ;;
  ret (replaceFirst iso "Z" (sign ^^ offsetHr ^^ ":" ^^ offsetMin)).

Variable st : State.

Definition urn (id : JS.value) : string := "urn:uuid:" ^^ ToString id.

(** [{ reference: `urn:uuid:${id}`, display }]. *)
Definition referenceTo (id : string) (display : string) : JS.value :=
  VObj [("reference", VStr (urn (VStr id))); ("display", VStr display)].

Definition profile (url : string) : JS.value := VObj [("profile", VArr [VStr url])].

Definition narrative (title html : string) : JS.value :=
  VObj [("status", VStr "generated"); ("div", VStr (buildNarrative title html))].

Definition at_index (ids : list string) (i : nat) : JS.value :=
  match nth_error ids i with Some s => VStr s | None => VUndef end.

Definition LOINC_LAB_REPORT : JS.value :=
  VObj [("system", VStr "http://loinc.org"); ("code", VStr "11502-2");
        ("display", VStr "Laboratory report")].

(** [snomed && snomed.trim() ? { coding: [...], text } : { text }]. *)
Definition codeOf (snomed text : string) : JS.value :=
  if truthy snomed && truthy (trim snomed)
  then VObj [("coding", VArr [VObj [("system", VStr "http://snomed.info/sct");
                                    ("code", VStr (trim snomed));
                                    ("display", VStr text)]]);
             ("text", VStr text)]
  else VObj [("text", VStr text)].

Variables compId patientId practitionerId diagId : string.
Variables obsIds specimenIds docIds : list string.

(** The composition as first written; [docEntries] are pushed onto its
    section afterwards, when there are attachments. *)
Definition compositionResource (docEntries : list JS.value) : JS.value :=
  VObj [("resourceType", VStr "Composition");
        ("id", VStr compId);
        ("meta", profile "http://hl7.org/fhir/StructureDefinition/Composition");
        ("language", VStr "en-IN");
        ("text", narrative "Laboratory report"
                   ("<p>" ^^ title st ^^ "</p><p>Date: " ^^ issuedDate st ^^ "</p>"));
        ("status", VStr "final");
        ("type", VObj [("coding", VArr [LOINC_LAB_REPORT]); ("text", VStr "Laboratory report")]);
        ("subject", referenceTo patientId (name (patient st)));
        ("date", VStr (issuedDate st ^^ "T00:00:00+05:30"));
        ("author", VArr [referenceTo practitionerId (prac_name (practitioner st))]);
        ("title", VStr (title st));
        ("section", VArr [VObj [
           ("title", VStr "Laboratory report");
           ("code", VObj [("coding", VArr [LOINC_LAB_REPORT])]);
           ("entry", VArr (VObj [("reference", VStr (urn (VStr diagId)));
                                 ("type", VStr "DiagnosticReport")] :: docEntries))]])].

Definition patientResource : JS.value :=
  VObj [("resourceType", VStr "Patient");
        ("id", VStr patientId);
        ("meta", profile "http://hl7.org/fhir/StructureDefinition/Patient");
        ("text", narrative "Patient"
                   ("<p>" ^^ name (patient st) ^^ " (MRN: " ^^ mrn (patient st) ^^ ")</p>"));
        ("identifier", VArr [VObj [("system", VStr "https://healthid.ndhm.gov.in");
                                   ("value", VStr (mrn (patient st)))]]);
        ("name", VArr [VObj [("text", VStr (name (patient st)))]]);
        ("telecom", if truthy (phone (patient st))
                    then VArr [VObj [("system", VStr "phone"); ("value", VStr (phone (patient st)));
                                     ("use", VStr "home")]]
                    else VArr []);
        ("gender", VStr (gender (patient st)));
        ("birthDate", if truthy (birthDate (patient st)) then VStr (birthDate (patient st)) else VUndef)].

Definition practitionerResource : JS.value :=
  VObj [("resourceType", VStr "Practitioner");
        ("id", VStr practitionerId);
        ("meta", profile "http://hl7.org/fhir/StructureDefinition/Practitioner");
        ("text", narrative "Practitioner" ("<p>" ^^ prac_name (practitioner st) ^^ "</p>"));
        ("identifier", VArr [VObj [("system", VStr "https://doctor.ndhm.gov.in");
                                   ("value", VStr (license (practitioner st)))]]);
        ("name", VArr [VObj [("text", VStr (prac_name (practitioner st)))]])].

Definition observationResource (r : ResultRow) (id : JS.value) (effectiveDateTime : string)
  : JS.value :=
  VObj [("resourceType", VStr "Observation");
        ("id", id);
        ("meta", profile "http://hl7.org/fhir/StructureDefinition/Observation");
        ("text", narrative "Result" ("<p>" ^^ codeText r ^^ ": " ^^ res_value r ^^ "</p>"));
        ("status", VStr "final");
        ("code", codeOf (codeSnomed r) (codeText r));
        ("subject", referenceTo patientId (name (patient st)));
        ("performer", VArr [referenceTo practitionerId (prac_name (practitioner st))]);
        ("effectiveDateTime", VStr effectiveDateTime);
        ("valueString", if truthy (res_value r) then VStr (res_value r) else VUndef)].

(** One step of [results.map((r, idx) => ...)]. *)
Definition buildObservation (r : ResultRow) (idx : nat) : M JS.value :=
  effectiveDateTime <- (if truthy (effectiveDate st)
                        then getISOWithOffsetFromDateInput (effectiveDate st)
                        else getISOWithOffsetFromDateInput (issuedDate st)) ;;
  ret (observationResource r (at_index obsIds idx) effectiveDateTime).

Definition specimenResource (s : SpecimenRow) (id : JS.value) (receivedTime : string) : JS.value :=
  VObj [("resourceType", VStr "Specimen");
        ("id", id);
        ("meta", profile "http://hl7.org/fhir/StructureDefinition/Specimen");
        ("text", narrative "Specimen" ("<p>" ^^ typeText s ^^ "</p>"));
        ("subject", referenceTo patientId (name (patient st)));
        ("type", if truthy (typeText s) then VObj [("text", VStr (typeText s))] else VUndef);
        ("receivedTime", VStr receivedTime)].

(** One step of [specimens.map((s, idx) => ...)]. *)
Definition buildSpecimen (s : SpecimenRow) (idx : nat) : M JS.value :=
  receivedTime <- getISOWithOffsetFromDateInput (issuedDate st) ;;
  ret (specimenResource s (at_index specimenIds idx) receivedTime).

Definition documentResource (att : Attachment) (id : JS.value) (date : string) : JS.value :=
  VObj [("resourceType", VStr "DocumentReference");
        ("id", id);
        ("meta", profile "http://hl7.org/fhir/StructureDefinition/DocumentReference");
        ("text", narrative "Document" ("<p>" ^^ att_name att ^^ "</p>"));
        ("status", VStr "current");
        ("type", VObj [("coding", VArr [LOINC_LAB_REPORT]); ("text", VStr "Laboratory report")]);
        ("subject", referenceTo patientId (name (patient st)));
        ("date", VStr date);
        ("content", VArr [VObj [("attachment", VObj [
           ("contentType", VStr (mime att)); ("data", VStr (base64 att));
           ("title", VStr (att_name att))])]])].

(** One step of [attachments.map((att, idx) => ...)]. *)
Definition buildDocument (att : Attachment) (idx : nat) : M JS.value :=
  let id := at_index docIds idx in
  date <- getISOWithOffsetFromDateInput (issuedDate st) ;;
  ret (documentResource att id date).

Definition diagCategoryCoding : JS.value :=
  if diagCategory st =? "IMG"
  then VObj [("system", VStr "http://terminology.hl7.org/CodeSystem/v2-0074");
             ("code", VStr "RAD"); ("display", VStr "Imaging")]
  else VObj [("system", VStr "http://terminology.hl7.org/CodeSystem/v2-0074");
             ("code", VStr "LAB"); ("display", VStr "Laboratory")].

Definition diagnosticReportResource (observationResources specimenResources : list JS.value)
  (issued : string) : JS.value :=
  VObj [("resourceType", VStr "DiagnosticReport");
        ("id", VStr diagId);
        ("meta", profile "http://hl7.org/fhir/StructureDefinition/DiagnosticReport");
        ("text", narrative "DiagnosticReport"
                   ("<p>" ^^ diagCodeText st ^^ " (" ^^ diagCategory st ^^ ")</p>"));
        ("status", VStr (diagStatus st));
        ("category", VArr [VObj [("coding", VArr [diagCategoryCoding]);
                                 ("text", get diagCategoryCoding "display")]]);
        ("code", codeOf (diagCodeSNOMED st) (diagCodeText st));
        ("subject", referenceTo patientId (name (patient st)));
        ("performer", VArr [referenceTo practitionerId (prac_name (practitioner st))]);
        ("issued", VStr issued);
        ("result", VArr (map (fun o => VObj [("reference", VStr (urn (get o "id")))])
                             observationResources));
        ("specimen", VArr (map (fun s => VObj [("reference", VStr (urn (get s "id")))])
                               specimenResources))].

End WithEnv.

Definition bundleEntry (id : JS.value) (r : JS.value) : JS.value :=
  VObj [("fullUrl", VStr (urn id)); ("resource", r)].

(** [buildBundle]; a failed check throws its message. *)
Definition buildBundle (E : Env) (st : State) : M JS.value :=
  if negb (truthy (prac_name (practitioner st))) || negb (truthy (license (practitioner st)))
  then throw "Practitioner name and license required."
  else if negb (truthy (name (patient st))) || negb (truthy (mrn (patient st)))
          || negb (truthy (gender (patient st)))
  then throw "Patient name, MRN and gender required."
  else if negb (truthy (diagCodeText st)) then throw "Diagnostic test code/name is required."
  else if negb (truthy (issuedDate st)) then throw "Issued date is required."
  else
    compId <- uuidv4 E ;;
    patientId <- uuidv4 E ;;
    practitionerId <- uuidv4 E ;;
    diagId <- uuidv4 E ;;
    obsIds <- mapM (fun _ => uuidv4 E) (results st) ;;
    specimenIds <- mapM (fun _ => uuidv4 E) (specimens st) ;;
    docIds <- mapM (fun _ => uuidv4 E) (attachments st) ;;
    bundleUuid <- uuidv4 E ;;
    lastUpdated <- getISOWithOffsetFromDateInput E EmptyString ;;
    identifierUuid <- uuidv4 E ;;
    timestamp <- getISOWithOffsetFromDateInput E EmptyString ;;
    observationResources <-
      App.mapM_indexed (buildObservation E st patientId practitionerId obsIds) (results st) 0 ;;
    specimenResources <-
      App.mapM_indexed (buildSpecimen E st patientId specimenIds) (specimens st) 0 ;;
    documentResources <-
      App.mapM_indexed (buildDocument E st patientId docIds) (attachments st) 0 ;;
    let docEntries :=
      map (fun d => VObj [("reference", VStr (urn (get d "id"))); ("type", VStr "DocumentReference")])
          documentResources in
    issued <- getISOWithOffsetFromDateInput E (issuedDate st) ;;
    let diagnostic := diagnosticReportResource st patientId practitionerId diagId
                        observationResources specimenResources issued in
    ret (VObj [
      ("resourceType", VStr "Bundle");
      ("id", VStr ("DiagnosticReportBundle-" ^^ bundleUuid));
      ("meta", VObj [("versionId", VStr "1");
                     ("lastUpdated", VStr lastUpdated);
                     ("profile", VArr [VStr "http://hl7.org/fhir/StructureDefinition/Bundle"])]);
      ("identifier", VObj [("system", VStr "https://ndhm.gov.in/fhir/bundles");
                           ("value", VStr ("diagnostic-report-" ^^ identifierUuid))]);
      ("type", VStr "document");
      ("timestamp", VStr timestamp);
      ("entry", VArr (
         [bundleEntry (VStr compId) (compositionResource st compId patientId practitionerId diagId docEntries);
          bundleEntry (VStr patientId) (patientResource st patientId);
          bundleEntry (VStr practitionerId) (practitionerResource st practitionerId);
          bundleEntry (VStr diagId) diagnostic]
         ++ map (fun r => bundleEntry (get r "id") r) observationResources
         ++ map (fun s => bundleEntry (get s "id") s) specimenResources
         ++ map (fun d => bundleEntry (get d "id") d) documentResources))]).

(** What [handleSubmit] ends with: the bundle logged, or the message of
    the error it caught. *)
Inductive Outcome : Type :=
| ErrorMsg (message : string)
| Bundle (bundle : JS.value).

Definition handleSubmit (E : Env) (st : State) : Outcome :=
  match buildBundle E st start with
  | Ok bundle _ => Bundle bundle
  | Throw message => ErrorMsg message
  end.

End DiagnosticReportForm.

(* ------------------------------------------------------------------ *)
(** ** Reading a bundle, and well-formed markup *)

Module Bundle.
Import JS.

Definition entries (bundle : value) : list value := elements (get bundle "entry").
Definition fullUrl (entry : value) : value := get entry "fullUrl".
Definition resource (entry : value) : value := get entry "resource".
Definition resources (bundle : value) : list value := map resource (entries bundle).
Definition resourceType (r : value) : string := ToString (get r "resourceType").
Definition id_of (r : value) : string := ToString (get r "id").
Definition entry_ids (bundle : value) : list string := map id_of (resources bundle).
Definition of_type (type : string) (rs : list value) : list value :=
  filter (fun r => resourceType r =? type) rs.

(** The keys whose text is a reference to another resource. *)
Definition is_reference_key (k : string) : bool := (k =? "reference") || (k =? "url").

(** Every reference text held anywhere inside a value. *)
Fixpoint references (v : value) : list string :=
  match v with
  | VArr xs => flat_map references xs
  | VObj fs =>
      (fix fields (fs : list (string * value)) : list string :=
         match fs with
         | [] => []
         | (k, x) :: r =>
             (if is_reference_key k then match x with VStr s => [s] | _ => [] end else [])
             ++ references x ++ fields r
         end) fs
  | _ => []
  end.

(** The place of a resource type in the entry order of a document. *)
Definition rank (type : string) : nat :=
  if type =? "Composition" then 0
  else if type =? "Patient" then 1
  else if type =? "Practitioner" then 2
  else if type =? "Encounter" then 3
  else if type =? "Organization" then 4
  else if (type =? "Immunization") || (type =? "DiagnosticReport") then 5
  else if type =? "ImmunizationRecommendation" then 6
  else if type =? "Observation" then 7
  else if type =? "Specimen" then 8
  else if type =? "DocumentReference" then 9
  else if type =? "Binary" then 10
  else 11.

End Bundle.

Module Xhtml.
Import JS.

(** Where a scan of a markup fragment stands: in text, inside a tag whose
    text so far is [body], or inside a character reference of [n]
    characters so far. *)
Inductive mode : Type :=
| Text
| Tag (body : string)
| Entity (n : nat).

Definition isLetter (c : ascii) : bool :=
  let n := nat_of_ascii c in
  ((65 <=? n)%nat && (n <=? 90)%nat) || ((97 <=? n)%nat && (n <=? 122)%nat).

(** The element name of a tag body: up to the first blank or slash. *)
Fixpoint tagName (body : string) : string :=
  match body with
  | EmptyString => EmptyString
  | String c r => if isWhiteSpace c || (c =? "/")%char then EmptyString else String c (tagName r)
  end.

Definition validName (name : string) : bool :=
  match name with
  | String c _ => isLetter c
  | EmptyString => false
  end.

Fixpoint endsWithSlash (body : string) : bool :=
  match body with
  | EmptyString => false
  | String c EmptyString => (c =? "/")%char
  | String _ r => endsWithSlash r
  end.

(** The stack of open elements after the tag with text [body]; [None]
    when the tag is malformed or closes the wrong element. *)
Definition afterTag (body : string) (stack : list string) : option (list string) :=
  match body with
  | String c name =>
      if (c =? "/")%char then
        match stack with
        | top :: below => if top =? name then Some below else None
        | [] => None
        end
      else if validName (tagName body)
           then Some (if endsWithSlash body then stack else tagName body :: stack)
           else None
  | EmptyString => None
  end.

Fixpoint scan (s : string) (stack : list string) (m : mode) : bool :=
  match s with
  | EmptyString =>
      match m, stack with
      | Text, [] => true
      | _, _ => false
      end
  | String c r =>
      match m with
      | Text =>
          if (c =? "<")%char then scan r stack (Tag EmptyString)
          else if (c =? "&")%char then scan r stack (Entity 0)
          else scan r stack Text
      | Tag body =>
          if (c =? ">")%char then
            match afterTag body stack with
            | Some stack' => scan r stack' Text
            | None => false
            end
          else if (c =? "<")%char then false
          else scan r stack (Tag (body ^^ String c EmptyString))
      | Entity n =>
          if (c =? ";")%char then (if (n =? 0)%nat then false else scan r stack Text)
          else if isLetter c || isDigit c || (c =? "#")%char then scan r stack (Entity (S n))
          else false
      end
  end.

(** A fragment is well formed when every tag is well formed, every
    element that is opened is closed in order, and every ampersand starts
    a character reference. *)
Definition well_formed (s : string) : bool := scan s [] Text.

(** Text without the characters that markup gives a meaning to. *)
Definition plain (s : string) : bool := negb (includes s "<") && negb (includes s "&").

End Xhtml.

(* ------------------------------------------------------------------ *)
(** ** src/App.js: the handlers of the immunization form *)

Module AppHandlers.
Import JS JSDate Effects Runtime Roster App.

(** [arr.map((x, idx) => f(x, idx))], counting from [idx]. *)
Fixpoint mapi {A B : Type} (f : A -> nat -> B) (l : list A) (idx : nat) : list B :=
  match l with
  | [] => []
  | x :: r => f x idx :: mapi f r (S idx)
  end.

(** [arr.filter((x, idx) => keep(x, idx))], counting from [idx]. *)
Fixpoint filteri {A : Type} (keep : A -> nat -> bool) (l : list A) (idx : nat) : list A :=
  match l with
  | [] => []
  | x :: r => if keep x idx then x :: filteri keep r (S idx) else filteri keep r (S idx)
  end.

(** The rows the form opens with. *)
Definition initialImmunizations : list Immunization :=
  [{| vaccineText := "BCG"; occurrenceDate := EmptyString; imm_status := "completed";
      lotNumber := EmptyString |}].

Definition addImmunization (prev : list Immunization) : list Immunization :=
  prev ++ [{| vaccineText := EmptyString; occurrenceDate := EmptyString;
              imm_status := "completed"; lotNumber := EmptyString |}].

(** The keys the form passes to [updateImmunization]. *)
Inductive Key : Type := vaccineTextKey | occurrenceDateKey | statusKey | lotNumberKey.

(** [{ ...m, [key]: val }]. *)
Definition withKey (m : Immunization) (key : Key) (val : string) : Immunization :=
  match key with
  | vaccineTextKey =>
      {| vaccineText := val; occurrenceDate := occurrenceDate m;
         imm_status := imm_status m; lotNumber := lotNumber m |}
  | occurrenceDateKey =>
      {| vaccineText := vaccineText m; occurrenceDate := val;
         imm_status := imm_status m; lotNumber := lotNumber m |}
  | statusKey =>
      {| vaccineText := vaccineText m; occurrenceDate := occurrenceDate m;
         imm_status := val; lotNumber := lotNumber m |}
  | lotNumberKey =>
      {| vaccineText := vaccineText m; occurrenceDate := occurrenceDate m;
         imm_status := imm_status m; lotNumber := val |}
  end.

Definition updateImmunization (i : nat) (key : Key) (val : string)
    (prev : list Immunization) : list Immunization :=
  mapi (fun m idx => if (idx =? i)%nat then withKey m key val else m) prev 0.

Definition removeImmunization (i : nat) (prev : list Immunization) : list Immunization :=
  filteri (fun _ idx => negb (idx =? i)%nat) prev 0.

(** What the user can do to the rows: the remove button of a row is
    disabled while the row is the only one, and a row that is not on the
    screen has no controls. *)
Inductive RowEvent : Type :=
| ClickAdd
| Edit (i : nat) (key : Key) (val : string)
| ClickRemove (i : nat).

Definition enabled (rows : list Immunization) (e : RowEvent) : bool :=
  match e with
  | ClickAdd => true
  | Edit i _ _ => (i <? List.length rows)%nat
  | ClickRemove i => (i <? List.length rows)%nat && negb (List.length rows =? 1)%nat
  end.

Definition handle (rows : list Immunization) (e : RowEvent) : list Immunization :=
  match e with
  | ClickAdd => addImmunization rows
  | Edit i key val => updateImmunization i key val rows
  | ClickRemove i => removeImmunization i rows
  end.

(** The rows after a run of events; [None] when one of them cannot
    happen on the screen. *)
Fixpoint after (rows : list Immunization) (events : list RowEvent) : option (list Immunization) :=
  match events with
  | [] => Some rows
  | e :: r => if enabled rows e then after (handle rows e) r else None
  end.

(** The picked files and the names shown for them. *)
Record Uploads : Type := {
  files : list File;
  filePreviewNames : list string
}.

(** [onFilesPicked]; [None] is an event without a file list. *)
Definition onFilesPicked (picked : option (list File)) : Uploads :=
  let list := match picked with Some l => l | None => [] end in
  {| files := list; filePreviewNames := map f_name list |}.

Definition removeFileAtIndex (i : nat) (prev : Uploads) : Uploads :=
  {| files := filteri (fun _ idx => negb (idx =? i)%nat) (files prev) 0;
     filePreviewNames := filteri (fun _ idx => negb (idx =? i)%nat) (filePreviewNames prev) 0 |}.

(** The effect that follows a change of the selected patient
    ([None] when no patient is selected): the address options and the
    selected address. *)
Definition abhaEffect (E : Env) (selectedPatient : option Patient) : list AbhaOption * string :=
  match selectedPatient with
  | None => ([], EmptyString)
  | Some p =>
      let abhas := normalizeAbhaAddresses E (Some p) in
      (abhas, match abhas with a :: _ => value a | [] => EmptyString end)
  end.

End AppHandlers.

(* ------------------------------------------------------------------ *)
(** ** src/working-with-global.js: the handlers of the diagnostic-report form *)

Module DiagnosticHandlers.
Import JS JSDate Effects Runtime Roster DiagnosticReportForm.
Local Open Scope js_scope.

(** A value when it is an object or an array ([typeof v === "object"],
    [null] apart). *)
Definition isObject (v : JS.value) : bool :=
  match v with VObj _ | VArr _ => true | _ => false end.

Definition isString (v : JS.value) : bool :=
  match v with VStr _ => true | _ => false end.

(** [a || b] and [a && b] on values. *)
Definition or_value (a b : JS.value) : JS.value := if ToBoolean a then a else b.
Definition and_value (a b : JS.value) : JS.value := if ToBoolean a then b else a.

(** [v[0]]. *)
Definition first (v : JS.value) : JS.value :=
  match v with
  | VArr (x :: _) => x
  | _ => VUndef
  end.

(** The flattened practitioner as [resolveGlobalPractitioner] returns it. *)
Record Resolved : Type := {
  r_id : JS.value;
  r_name : JS.value;
  r_license : JS.value
}.

Section WithEnv.
Variable E : Env.

(** [resolveGlobalPractitioner], given what [window.GlobalPractitionerFHIR]
    and [window.GlobalPractitioner] hold ([VUndef] when they are not set). *)
Definition resolveGlobalPractitioner (GlobalPractitionerFHIR GlobalPractitioner : JS.value)
    : M Resolved :=
  let gp := or_value (or_value GlobalPractitionerFHIR GlobalPractitioner) VNull in
  u <- uuidv4 E ;;
  let fallback := {| r_id := VStr ("TEMP-" ^^ u);
                     r_name := VStr "Dr. ABC";
                     r_license := VStr "LIC-TEMP-0001" |} in
  if negb (ToBoolean gp) then ret fallback
  else if isObject gp && ToBoolean (get gp "name") && isString (get gp "name") then
    ret {| r_id := or_value (get gp "id") (r_id fallback);
           r_name := or_value (get gp "name") (r_name fallback);
           r_license := or_value (get gp "license") (r_license fallback) |}
  else
    let id := or_value (get gp "id") (r_id fallback) in
    let name :=
      or_value (and_value (and_value (VBool (isArray (get gp "name"))) (first (get gp "name")))
                          (get (first (get gp "name")) "text"))
               (r_name fallback) in
    let license :=
      or_value (and_value (and_value (VBool (isArray (get gp "identifier")))
                                     (first (get gp "identifier")))
                          (get (first (get gp "identifier")) "value"))
               (r_license fallback) in
    ret {| r_id := id; r_name := name; r_license := license |}.

(** What the form keeps about the selection of a patient. *)
Record Selection : Type := {
  selectedPatientIdx : number;
  patientForm : PatientForm;
  abhaList : list AbhaOption;
  selectedAbha : string;
  selectedAbhaNumber : string
}.

(** [patientsList[idx]]. *)
Definition patient_at (patientsList : list Patient) (idx : number) : option Patient :=
  match idx with
  | Some i => if (0 <=? i)%Z then nth_error patientsList (Z.to_nat i) else None
  | None => None
  end.

(** [handlePatientSelect], [idx] being [Number(e.target.value)]. *)
Definition handlePatientSelect (patientsList : list Patient) (idx : number) (prev : Selection)
    : Selection :=
  match patient_at patientsList idx with
  | None =>
      {| selectedPatientIdx := idx; patientForm := patientForm prev;
         abhaList := []; selectedAbha := EmptyString; selectedAbhaNumber := EmptyString |}
  | Some p =>
      let abhas := normalizeAbhaAddresses E (Some p) in
      {| selectedPatientIdx := idx; patientForm := patientFormOf p;
         abhaList := abhas;
         selectedAbha := match abhas with a :: _ => Roster.value a | [] => EmptyString end;
         selectedAbhaNumber := p_abha_ref p |}
  end.

End WithEnv.

(** [copy.splice(i, 1)], [i] being the index of a row on the screen. *)
Fixpoint splice1 {A : Type} (i : nat) (l : list A) : list A :=
  match l, i with
  | [], _ => []
  | _ :: r, O => r
  | x :: r, S k => x :: splice1 k r
  end.

Definition removeResult (i : nat) (prev : list ResultRow) : list ResultRow :=
  if (List.length prev <=? 1)%nat then prev else splice1 i prev.

Definition removeSpecimen (i : nat) (prev : list SpecimenRow) : list SpecimenRow :=
  if (List.length prev <=? 1)%nat then prev else splice1 i prev.

(** The fields the form passes to [updateResult]. *)
Inductive ResultField : Type := codeTextField | codeSnomedField | valueField.

Definition withField (r : ResultRow) (field : ResultField) (value : string) : ResultRow :=
  match field with
  | codeTextField =>
      {| res_id := res_id r; codeText := value; codeSnomed := codeSnomed r;
         res_value := res_value r |}
  | codeSnomedField =>
      {| res_id := res_id r; codeText := codeText r; codeSnomed := value;
         res_value := res_value r |}
  | valueField =>
      {| res_id := res_id r; codeText := codeText r; codeSnomed := codeSnomed r;
         res_value := value |}
  end.

(** [copy[i] = x]. *)
Fixpoint setAt {A : Type} (i : nat) (x : A) (l : list A) : list A :=
  match l, i with
  | [], _ => []
  | _ :: r, O => x :: r
  | y :: r, S k => y :: setAt k x r
  end.

(** [updateResult]: [copy[i][field] = value] is a [TypeError] ([None])
    when there is no row [i]. *)
Definition updateResult (i : nat) (field : ResultField) (value : string)
    (prev : list ResultRow) : option (list ResultRow) :=
  match nth_error prev i with
  | Some r => Some (setAt i (withField r field value) prev)
  | None => None
  end.

(** [updateSpecimen], called with the field [typeText]. *)
Definition updateSpecimen (i : nat) (value : string)
    (prev : list SpecimenRow) : option (list SpecimenRow) :=
  match nth_error prev i with
  | Some s => Some (setAt i {| spec_id := spec_id s; typeText := value |} prev)
  | None => None
  end.

(** A file of the file input: its name, its media type and the base64
    text of its content ([None] when it cannot be read). *)
Record PickedFile : Type := {
  pf_name : string;
  pf_type : string;
  pf_payload : option string
}.

(** What [readAsDataURL] yields for a file of media type [type]. *)
Definition dataURL (type payload : string) : string :=
  "data:" ^^ type ^^ ";base64," ^^ payload.

Definition allowedTypes : list string := ["application/pdf"; "image/jpeg"; "image/png"].

Section Attachments.
Variable E : Env.

(** [readFile] of [handleAttachmentsChange]: [None] is [null].  The
    second part of a data URL split at its commas always exists. *)
Definition readFile (file : PickedFile) : M (option Attachment) :=
  if negb (existsb (String.eqb (pf_type file)) allowedTypes) then ret None
  else
    match pf_payload file with
    | None => ret None
    | Some payload =>
        let base64 := nth 1 (split (dataURL (pf_type file) payload) ",") EmptyString in
        id <- uuidv4 E ;;
        ret (Some {| att_id := id; att_name := pf_name file; mime := pf_type file;
                     base64 := base64 |})
    end.

(** [arr.filter(Boolean)]. *)
Fixpoint filterBoolean {A : Type} (l : list (option A)) : list A :=
  match l with
  | [] => []
  | Some x :: r => x :: filterBoolean r
  | None :: r => filterBoolean r
  end.

(** [handleAttachmentsChange]: the attachments it stores.  The files are
    read one after the other. *)
Definition handleAttachmentsChange (filesList : option (list PickedFile)) : M (list Attachment) :=
  match filesList with
  | None | Some [] => ret []
  | Some files =>
      arr <- mapM readFile files ;;
      ret (filterBoolean arr)
  end.

End Attachments.

Definition removeAttachment (i : nat) (prev : list Attachment) : list Attachment :=
  splice1 i prev.

End DiagnosticHandlers.
(* ------------------------------------------------------------------ *)
(** * Properties *)

(** ** Strings *)

Section StringFacts.
Import JS.

Lemma truthy_true_iff (s : string) : truthy s = true <-> s <> EmptyString.
Proof.
  unfold truthy. destruct (String.eqb_spec s EmptyString) as [->|n]; simpl; split; congruence.
Qed.

Lemma truthy_false_iff (s : string) : truthy s = false <-> s = EmptyString.
Proof.
  unfold truthy. destruct (String.eqb_spec s EmptyString) as [->|n]; simpl; split; congruence.
Qed.

Lemma truthy_cons (c : ascii) (r : string) : truthy (String c r) = true.
Proof. reflexivity. Qed.

Lemma append_empty_r (s : string) : s ^^ EmptyString = s.
Proof. induction s as [|c r IH]; simpl; [reflexivity | now rewrite IH]. Qed.

Lemma append_assoc (a b c : string) : (a ^^ b) ^^ c = a ^^ b ^^ c.
Proof. induction a as [|x r IH]; simpl; [reflexivity | now rewrite IH]. Qed.

Lemma append_length (a b : string) :
  String.length (a ^^ b) = String.length a + String.length b.
Proof. induction a as [|x r IH]; simpl; [reflexivity | now rewrite IH]. Qed.

(** A string with no white space at either end is its own trim. *)
Definition noWhiteSpace (s : string) : Prop :=
  forall c, includes s c = true -> isWhiteSpace c = false.

Lemma includes_cons (c d : ascii) (r : string) :
  includes (String d r) c = (d =? c)%char || includes r c.
Proof. reflexivity. Qed.

Lemma trimEnd_noWhiteSpace (s : string) : noWhiteSpace s -> trimEnd s = s.
Proof.
  induction s as [|c r IH]; intros H; simpl; [reflexivity|].
  rewrite IH.
  - assert (Hc : isWhiteSpace c = false).
    { apply H. simpl. now rewrite Ascii.eqb_refl. }
    rewrite Hc, andb_false_r. reflexivity.
  - intros d Hd. apply H. simpl. rewrite Hd. apply orb_true_r.
Qed.

Lemma trimStart_noWhiteSpace (s : string) : noWhiteSpace s -> trimStart s = s.
Proof.
  destruct s as [|c r]; intros H; simpl; [reflexivity|].
  rewrite (H c); [reflexivity|]. simpl. now rewrite Ascii.eqb_refl.
Qed.

Lemma trim_noWhiteSpace (s : string) : noWhiteSpace s -> trim s = s.
Proof.
  intros H. unfold trim. rewrite trimStart_noWhiteSpace by assumption.
  now apply trimEnd_noWhiteSpace.
Qed.

Lemma trim_empty : trim EmptyString = EmptyString.
Proof. reflexivity. Qed.

Lemma isDigit_not_white (c : ascii) : isDigit c = true -> isWhiteSpace c = false.
Proof.
  unfold isDigit, isWhiteSpace. intros H.
  apply andb_true_iff in H as [H1 H2].
  apply Nat.leb_le in H1, H2.
  repeat (apply orb_false_iff; split);
    try apply andb_false_iff; try (apply Nat.eqb_neq; lia).
  right. apply Nat.leb_gt. lia.
Qed.

Lemma eqb_hyphen_not_white (c : ascii) : (c =? "-")%char = true -> isWhiteSpace c = false.
Proof. intros H. apply Ascii.eqb_eq in H. subst. reflexivity. Qed.

(** A string that matches [YYYY-MM-DD] holds no white space. *)
Lemma test_noWhiteSpace (s : string) : test_yyyy_mm_dd s = true -> noWhiteSpace s.
Proof.
  unfold test_yyyy_mm_dd. intros H c Hc.
  destruct s as [|a0 [|a1 [|a2 [|a3 [|a4 [|a5 [|a6 [|a7 [|a8 [|a9 [|a10 s]]]]]]]]]]];
    simpl in H; try discriminate.
  do 9 (apply andb_true_iff in H as [H ?]).
  simpl in Hc.
  repeat (apply orb_true_iff in Hc as [Hc|Hc];
          [apply Ascii.eqb_eq in Hc; subst c;
           first [now apply isDigit_not_white | now apply eqb_hyphen_not_white]|]).
  discriminate Hc.
Qed.

Lemma test_trim (s : string) : test_yyyy_mm_dd s = true -> trim s = s.
Proof. intros H. apply trim_noWhiteSpace. now apply test_noWhiteSpace. Qed.

Lemma test_nonempty (s : string) : test_yyyy_mm_dd s = true -> truthy s = true.
Proof. destruct s; [discriminate | reflexivity]. Qed.

(** [split] and [join] are inverse to each other on parts free of the
    separator. *)
Lemma split_nonempty (s : string) (sep : ascii) : split s sep <> [].
Proof.
  destruct s as [|c r]; simpl; [discriminate|].
  destruct (c =? sep)%char; [discriminate|]. destruct (split r sep); discriminate.
Qed.

Lemma join_cons (x y : string) (l : list string) (sep : string) :
  join (x :: y :: l) sep = x ^^ sep ^^ join (y :: l) sep.
Proof. reflexivity. Qed.

Lemma join_split (s : string) (sep : ascii) :
  join (split s sep) (String sep EmptyString) = s.
Proof.
  induction s as [|c r IH]; simpl; [reflexivity|].
  destruct (Ascii.eqb_spec c sep) as [->|n].
  - destruct (split r sep) as [|h t] eqn:Hs; [now apply split_nonempty in Hs|].
    rewrite join_cons, IH. reflexivity.
  - destruct (split r sep) as [|h [|h' t]] eqn:Hs; [now apply split_nonempty in Hs| |].
    + simpl in *. now rewrite IH.
    + rewrite join_cons. rewrite join_cons in IH. cbn [String.append]. f_equal. exact IH.
Qed.

Lemma split_free (s : string) (sep : ascii) :
  Forall (fun part => includes part sep = false) (split s sep).
Proof.
  induction s as [|c r IH]; simpl; [now repeat constructor|].
  destruct (Ascii.eqb_spec c sep) as [->|n].
  - constructor; [reflexivity | assumption].
  - apply Ascii.eqb_neq in n.
    destruct (split r sep) as [|h t].
    + constructor; [simpl; now rewrite n | constructor].
    + inversion IH; subst. constructor; [|assumption].
      simpl. now rewrite n.
Qed.

Lemma split_free_part (part rest : string) (sep : ascii) :
  includes part sep = false ->
  split (part ^^ String sep rest) sep = part :: split rest sep.
Proof.
  induction part as [|c r IH]; simpl; intros H.
  - now rewrite Ascii.eqb_refl.
  - apply orb_false_iff in H as [Hc Hr]. rewrite Hc, IH by assumption. reflexivity.
Qed.

Lemma split_free_last (part : string) (sep : ascii) :
  includes part sep = false -> split part sep = [part].
Proof.
  induction part as [|c r IH]; simpl; intros H; [reflexivity|].
  apply orb_false_iff in H as [Hc Hr]. rewrite Hc, IH by assumption. reflexivity.
Qed.

End StringFacts.

(** ** Date-only normalization (C5) *)

Section DateOnly.
Import JS.

(** The separator an input is read with: a hyphen when it has one,
    else a slash when it has one. *)
Definition separator (s : string) : option ascii :=
  if includes s "-" then Some "-"%char
  else if includes s "/" then Some "/"%char else None.

(** [s] is [dd sep mm sep yyyy], the three parts free of [sep]. *)
Definition three_part (s : string) (sep : ascii) (dd mm yyyy : string) : Prop :=
  s = dd ^^ String sep (mm ^^ String sep yyyy)
  /\ includes dd sep = false /\ includes mm sep = false /\ includes yyyy sep = false.

Definition reordered (dd mm yyyy : string) : string :=
  yyyy ^^ "-" ^^ padStart mm 2 "0" ^^ "-" ^^ padStart dd 2 "0".

Lemma three_part_split (s : string) (sep : ascii) (dd mm yyyy : string) :
  three_part s sep dd mm yyyy <-> split s sep = [dd; mm; yyyy].
Proof.
  split.
  - intros (-> & Hd & Hm & Hy).
    rewrite split_free_part by assumption. rewrite split_free_part by assumption.
    now rewrite split_free_last.
  - intros H. pose proof (join_split s sep) as J. pose proof (split_free s sep) as F.
    rewrite H in J, F. simpl in J.
    inversion F as [|? ? Hd F1]; subst. inversion F1 as [|? ? Hm F2]; subst.
    inversion F2 as [|? ? Hy _]; subst.
    repeat split; assumption || now rewrite <- J.
Qed.

Lemma App_ddmmyyyyToISO_unfold (v : string) :
  App.ddmmyyyyToISO v =
  if negb (truthy v) then None
  else if test_yyyy_mm_dd (trim v) then Some (trim v)
  else match separator (trim v) with
       | None => None
       | Some sep => match split (trim v) sep with
                     | [dd; mm; yyyy] => Some (reordered dd mm yyyy)
                     | _ => None
                     end
       end.
Proof. reflexivity. Qed.

Lemma Diag_ddmmyyyyToISO_unfold (v : string) :
  DiagnosticReportForm.ddmmyyyyToISO v =
  if negb (truthy v) then EmptyString
  else if test_yyyy_mm_dd (trim v) then trim v
  else match separator (trim v) with
       | None => trim v
       | Some sep => match split (trim v) sep with
                     | [d; m; y] =>
                         if (String.length d =? 4)%nat then trim v
                         else if (String.length y =? 4)%nat then reordered d m y
                         else trim v
                     | _ => trim v
                     end
       end.
Proof. reflexivity. Qed.

(** C5.  An input in no recognized format: the normalizer of the
    diagnostic-report form hands it back as it is, where the normalizer
    of the same name in the immunization builder yields undefined.  The
    immunization builder in turn reorders any three parts without looking
    at them, so that a year-first date with slashes comes out day-last,
    where the normalizer of the diagnostic-report form leaves it alone. *)
Theorem ddmmyyyyToISO_passes_unrecognized_through :
  test_yyyy_mm_dd "hello" = false
  /\ separator "hello" = None
  /\ DiagnosticReportForm.ddmmyyyyToISO "hello" = "hello"
  /\ App.ddmmyyyyToISO "hello" = None
  /\ test_yyyy_mm_dd "2025/01/15" = false
  /\ App.ddmmyyyyToISO "2025/01/15" = Some "15-01-2025"
  /\ DiagnosticReportForm.ddmmyyyyToISO "2025/01/15" = "2025/01/15".
Proof. repeat split; reflexivity. Qed.

(** Both normalizers by cases.  Both hand back an input that matches
    YYYY-MM-DD, and the trimmed input when that is what matches.
    Otherwise the trimmed input is read with its separator; when it has
    exactly three parts, the immunization builder reorders them and the
    diagnostic-report form reorders them only if the first part is not
    four characters long and the last one is.  In every other case the
    immunization builder yields undefined and the diagnostic-report form
    the trimmed input. *)
Lemma ddmmyyyyToISO_by_cases :
  (forall v, test_yyyy_mm_dd v = true ->
     App.ddmmyyyyToISO v = Some v /\ DiagnosticReportForm.ddmmyyyyToISO v = v)
  /\ (forall v, v <> EmptyString -> test_yyyy_mm_dd (trim v) = true ->
        App.ddmmyyyyToISO v = Some (trim v)
        /\ DiagnosticReportForm.ddmmyyyyToISO v = trim v)
  /\ (forall v sep dd mm yyyy,
        v <> EmptyString -> test_yyyy_mm_dd (trim v) = false ->
        separator (trim v) = Some sep -> three_part (trim v) sep dd mm yyyy ->
        App.ddmmyyyyToISO v = Some (reordered dd mm yyyy)
        /\ DiagnosticReportForm.ddmmyyyyToISO v =
             if (String.length dd =? 4)%nat then trim v
             else if (String.length yyyy =? 4)%nat then reordered dd mm yyyy
             else trim v)
  /\ (forall v,
        v = EmptyString
        \/ (test_yyyy_mm_dd (trim v) = false
            /\ (separator (trim v) = None
                \/ exists sep, separator (trim v) = Some sep
                               /\ forall dd mm yyyy, ~ three_part (trim v) sep dd mm yyyy)) ->
        App.ddmmyyyyToISO v = None /\ DiagnosticReportForm.ddmmyyyyToISO v = trim v).
Proof.
  split; [|split; [|split]].
  - intros v H.
    rewrite App_ddmmyyyyToISO_unfold, Diag_ddmmyyyyToISO_unfold.
    rewrite (test_nonempty v H), (test_trim v H), H. now split.
  - intros v Hv H.
    rewrite App_ddmmyyyyToISO_unfold, Diag_ddmmyyyyToISO_unfold.
    apply truthy_true_iff in Hv. rewrite Hv, H. now split.
  - intros v sep dd mm yyyy Hv Ht Hs H3.
    rewrite App_ddmmyyyyToISO_unfold, Diag_ddmmyyyyToISO_unfold.
    apply truthy_true_iff in Hv. rewrite Hv, Ht, Hs. simpl.
    apply three_part_split in H3. rewrite H3. now split.
  - intros v [->|[Ht [Hs|(sep & Hs & Hn)]]]; [now split| |];
      rewrite App_ddmmyyyyToISO_unfold, Diag_ddmmyyyyToISO_unfold.
    + destruct (truthy v) eqn:Hv; simpl.
      * rewrite Ht, Hs. now split.
      * apply truthy_false_iff in Hv. subst. now split.
    + destruct (truthy v) eqn:Hv; simpl.
      * rewrite Ht, Hs.
        destruct (split (trim v) sep) as [|a [|b [|c [|d l]]]] eqn:Hsp; try now split.
        exfalso. apply (Hn a b c). now apply three_part_split.
      * apply truthy_false_iff in Hv. subst. now split.
Qed.

(** The cases of [ddmmyyyyToISO_by_cases] leave no input out. *)
Lemma ddmmyyyyToISO_cases_exhaustive (v : string) :
  v = EmptyString
  \/ test_yyyy_mm_dd (trim v) = true
  \/ (test_yyyy_mm_dd (trim v) = false
      /\ (separator (trim v) = None
          \/ exists sep, separator (trim v) = Some sep
               /\ ((exists dd mm yyyy, three_part (trim v) sep dd mm yyyy)
                   \/ forall dd mm yyyy, ~ three_part (trim v) sep dd mm yyyy))).
Proof.
  destruct (test_yyyy_mm_dd (trim v)) eqn:Ht; [now right; left|].
  right; right. split; [reflexivity|].
  destruct (separator (trim v)) as [sep|] eqn:Hs; [|now left].
  right. exists sep. split; [reflexivity|].
  destruct (split (trim v) sep) as [|a [|b [|c [|d l]]]] eqn:Hsp;
    try (right; intros dd mm yyyy H3; apply three_part_split in H3; congruence).
  left. exists a, b, c. now apply three_part_split.
Qed.

End DateOnly.
(** ** Running the effect monad *)

Section Running.
Import JS JSDate Effects Runtime.
Local Open Scope js_scope.

Lemma bind_Ok {A B} (m : M A) (k : A -> M B) (w w' : World) (b : B) :
  bind m k w = Ok b w' -> exists a w1, m w = Ok a w1 /\ k a w1 = Ok b w'.
Proof.
  unfold bind. destruct (m w) as [a w1|e]; [|discriminate].
  intros H. now exists a, w1.
Qed.

Lemma Ok_inj {A} (a b : A) (w w' : World) : Ok a w = Ok b w' -> a = b /\ w = w'.
Proof. intros H. injection H as -> ->. now split. Qed.

Lemma ret_Ok {A} (a b : A) (w w' : World) : ret a w = Ok b w' -> a = b /\ w = w'.
Proof. unfold ret. apply Ok_inj. Qed.

(** The world after [n] more random numbers. *)
Definition advance (n : nat) (w : World) : World :=
  {| rand_pos := rand_pos w + n; clock_pos := clock_pos w |}.

Variable E : Env.

(** The identifier [uuidv4] makes of the random numbers from [pos] on. *)
Definition uuid_from (pos : nat) : string :=
  match uuidv4 E {| rand_pos := pos; clock_pos := 0 |} with
  | Ok id _ => id
  | Throw _ => EmptyString
  end.

Lemma uuidv4_run (w : World) :
  uuidv4 E w = Ok (uuid_from (rand_pos w)) (advance 31 w).
Proof.
  destruct w as [r c]. unfold uuid_from, advance. cbn [rand_pos clock_pos].
  rewrite (Nat.add_comm r 31). reflexivity.
Qed.

Lemma append_truthy_r (a b : string) : truthy b = true -> truthy (a ^^ b) = true.
Proof. destruct a; [now simpl | reflexivity]. Qed.

(** An identifier is never the empty text. *)
Lemma uuid_from_truthy (pos : nat) : truthy (uuid_from pos) = true.
Proof.
  unfold uuid_from. cbn -[toStringRadix truthy].
  do 8 apply append_truthy_r. reflexivity.
Qed.

Opaque uuid_from Runtime.uuidv4.

Lemma uuidv4_inv (w w1 : World) (id : string) :
  uuidv4 E w = Ok id w1 -> id = uuid_from (rand_pos w) /\ rand_pos w1 = rand_pos w + 31.
Proof.
  intros H. pose proof (uuidv4_run w) as R.
  assert (R2 : Ok id w1 = Ok (uuid_from (rand_pos w)) (advance 31 w))
    by (etransitivity; [symmetry; exact H | exact R]).
  apply Ok_inj in R2 as [-> ->]. split; reflexivity.
Qed.

(** The identifiers made by [n] calls in a row, the first at [pos]. *)
Definition drawn (pos n : nat) : list string :=
  map (fun i => uuid_from (pos + 31 * i)) (seq 0 n).

Lemma drawn_length (pos n : nat) : List.length (drawn pos n) = n.
Proof. unfold drawn. now rewrite length_map, length_seq. Qed.

Lemma drawn_S (pos n : nat) : drawn pos (S n) = uuid_from pos :: drawn (pos + 31) n.
Proof.
  unfold drawn. cbn [seq map]. rewrite <- seq_shift, map_map. f_equal.
  - f_equal. lia.
  - apply map_ext. intros i. f_equal. lia.
Qed.

Lemma drawn_app (pos a b : nat) : drawn pos (a + b) = drawn pos a ++ drawn (pos + 31 * a) b.
Proof.
  revert pos. induction a as [|a IH]; intros pos.
  - replace (pos + 31 * 0) with pos by lia. reflexivity.
  - change (S a + b) with (S (a + b)). rewrite !drawn_S, IH. cbn [app]. f_equal. f_equal. f_equal. lia.
Qed.

Lemma drawn_truthy (pos n : nat) (id : string) : In id (drawn pos n) -> truthy id = true.
Proof.
  unfold drawn. intros H. apply in_map_iff in H as (i & <- & _). apply uuid_from_truthy.
Qed.

Lemma mapM_uuid_inv {A} (l : list A) (w w1 : World) (ids : list string) :
  mapM (fun _ => uuidv4 E) l w = Ok ids w1 ->
  ids = drawn (rand_pos w) (List.length l) /\ rand_pos w1 = rand_pos w + 31 * List.length l.
Proof.
  revert w ids. induction l as [|x l IH]; intros w ids H; cbn [mapM] in H.
  - apply ret_Ok in H as [<- <-]. split; [reflexivity | cbn [List.length]; lia].
  - apply bind_Ok in H as (id & w2 & Hid & H).
    apply bind_Ok in H as (rest & w3 & Hrest & H).
    apply ret_Ok in H as [<- <-].
    apply uuidv4_inv in Hid as [-> Hw2]. apply IH in Hrest as [-> Hw3].
    split.
    + change (List.length (x :: l)) with (S (List.length l)). rewrite drawn_S.
      now rewrite Hw2.
    + rewrite Hw3, Hw2. cbn [List.length]. lia.
Qed.

Lemma uuid_if_inv (cond : bool) (w w1 : World) (id : option string) :
  App.uuid_if E cond w = Ok id w1 ->
  id = (if cond then Some (uuid_from (rand_pos w)) else None)
  /\ rand_pos w1 = rand_pos w + (if cond then 31 else 0).
Proof.
  unfold App.uuid_if. destruct cond; intros H.
  - apply bind_Ok in H as (x & w2 & Hx & H). apply ret_Ok in H as [<- <-].
    apply uuidv4_inv in Hx as [-> Hw]. now split.
  - apply ret_Ok in H as [<- <-]. split; [reflexivity | lia].
Qed.

(** *** Computations that cannot fail *)

Definition total {A} (m : M A) : Prop := forall w, exists a w', m w = Ok a w'.

Lemma total_ret {A} (a : A) : total (ret a).
Proof. intros w. now exists a, w. Qed.

Lemma total_bind {A B} (m : M A) (k : A -> M B) :
  total m -> (forall a, total (k a)) -> total (bind m k).
Proof.
  intros Hm Hk w. destruct (Hm w) as (a & w1 & Ha). destruct (Hk a w1) as (b & w2 & Hb).
  exists b, w2. unfold bind. now rewrite Ha.
Qed.

Lemma total_uuidv4 : total (uuidv4 E).
Proof. intros w. rewrite uuidv4_run. eauto. Qed.

Lemma total_new_Date_now : total (new_Date_now E).
Proof. intros w. unfold new_Date_now. eauto. Qed.

Lemma total_mapM {A B} (f : A -> M B) (l : list A) :
  (forall x, In x l -> total (f x)) -> total (mapM f l).
Proof.
  induction l as [|x l IH]; intros H; cbn [mapM].
  - apply total_ret.
  - apply total_bind; [apply H; now left|]. intros y.
    apply total_bind; [apply IH; intros z Hz; apply H; now right|].
    intros ys. apply total_ret.
Qed.

Lemma total_mapM_indexed {A B} (f : A -> nat -> M B) (l : list A) (i : nat) :
  (forall x j, In x l -> total (f x j)) -> total (App.mapM_indexed f l i).
Proof.
  revert i. induction l as [|x l IH]; intros i H; cbn [App.mapM_indexed].
  - apply total_ret.
  - apply total_bind; [apply H; now left|]. intros y.
    apply total_bind; [apply IH; intros z j Hz; apply H; now right|].
    intros ys. apply total_ret.
Qed.

Lemma total_uuid_if (cond : bool) : total (App.uuid_if E cond).
Proof.
  unfold App.uuid_if. destruct cond; [|apply total_ret].
  apply total_bind; [apply total_uuidv4 | intros; apply total_ret].
Qed.

Lemma total_localDatetimeToISOWithOffset (s : string) :
  total (App.localDatetimeToISOWithOffset E s).
Proof.
  unfold App.localDatetimeToISOWithOffset. destruct (negb (truthy s)); [|apply total_ret].
  apply total_bind; [apply total_new_Date_now | intros; apply total_ret].
Qed.

(** *** Steps that draw no random number *)

Definition keeps_rand {A} (m : M A) : Prop :=
  forall w a w', m w = Ok a w' -> rand_pos w' = rand_pos w.

Lemma keeps_ret {A} (a : A) : keeps_rand (ret a).
Proof. intros w b w' H. now apply ret_Ok in H as [_ <-]. Qed.

Lemma keeps_throw {A} (e : string) : keeps_rand (@throw A e).
Proof. intros w b w' H. discriminate H. Qed.

Lemma keeps_bind {A B} (m : M A) (k : A -> M B) :
  keeps_rand m -> (forall a, keeps_rand (k a)) -> keeps_rand (bind m k).
Proof.
  intros Hm Hk w b w' H. apply bind_Ok in H as (a & w1 & Ha & Hb).
  apply Hm in Ha. apply Hk in Hb. congruence.
Qed.

Lemma keeps_new_Date_now : keeps_rand (new_Date_now E).
Proof. intros w a w' H. unfold new_Date_now in H. now apply Ok_inj in H as [_ <-]. Qed.

Lemma keeps_localDatetimeToISOWithOffset (s : string) :
  keeps_rand (App.localDatetimeToISOWithOffset E s).
Proof.
  unfold App.localDatetimeToISOWithOffset. destruct (negb (truthy s)); [|apply keeps_ret].
  apply keeps_bind; [apply keeps_new_Date_now | intros; apply keeps_ret].
Qed.

Lemma keeps_mapM_indexed {A B} (f : A -> nat -> M B) (l : list A) (i : nat) :
  (forall x j, keeps_rand (f x j)) -> keeps_rand (App.mapM_indexed f l i).
Proof.
  intros H. revert i. induction l as [|x l IH]; intros i; cbn [App.mapM_indexed].
  - apply keeps_ret.
  - apply keeps_bind; [apply H|]. intros y.
    apply keeps_bind; [apply IH|]. intros ys. apply keeps_ret.
Qed.

End Running.

Opaque uuid_from Runtime.uuidv4.
(** ** The immunization builder, step by step *)

Section AppSteps.
Import JS JSDate Effects Runtime Roster App.
Local Open Scope js_scope.

Variable E : Env.

Lemma keeps_toISOString_or_throw (d : Date) : keeps_rand (toISOString_or_throw d).
Proof.
  unfold toISOString_or_throw. destruct (toISOString d); [apply keeps_ret | apply keeps_throw].
Qed.

Lemma keeps_now_toISOString : keeps_rand (now_toISOString E).
Proof.
  apply keeps_bind; [apply keeps_new_Date_now | intros; apply keeps_toISOString_or_throw].
Qed.

Lemma keeps_occurrence (m : Immunization) : keeps_rand (occurrence E m).
Proof.
  unfold occurrence.
  destruct (truthy (occurrenceDate m)); [|apply keeps_now_toISOString].
  destruct (includes (occurrenceDate m) "T"); [apply keeps_toISOString_or_throw|].
  destruct (ddmmyyyyToISO (occurrenceDate m)) as [s|]; [|apply keeps_now_toISOString].
  destruct (truthy s); [apply keeps_ret | apply keeps_now_toISOString].
Qed.

Lemma keeps_buildEncounterResource (st : State) (ids : Ids) :
  keeps_rand (buildEncounterResource E st ids).
Proof.
  unfold buildEncounterResource. destruct (encounterId ids) as [id|]; [|apply keeps_ret].
  destruct (negb (truthy id)); [apply keeps_ret|].
  apply keeps_bind; [apply keeps_new_Date_now | intros; apply keeps_ret].
Qed.

Lemma keeps_contentOf (f : option File) : keeps_rand (contentOf f).
Proof.
  unfold contentOf. destruct f as [f|]; [|apply keeps_ret].
  apply keeps_bind; [|intros; apply keeps_ret].
  unfold fileToBase64NoPrefix. destruct (f_result f) as [res|]; [|apply keeps_throw].
  destruct (indexOf res "base64,"); apply keeps_ret.
Qed.

Lemma keeps_docLoop (st : State) (ids : Ids) (authoredOn : string)
  (fs : list (option File)) (i : nat) :
  keeps_rand (docLoop ids authoredOn fs i).
Proof.
  revert i. induction fs as [|f fs IH]; intros i; cbn [docLoop].
  - apply keeps_ret.
  - apply keeps_bind; [apply keeps_contentOf|]. intros [[ct data] t].
    apply keeps_bind; [apply IH|]. intros rest. apply keeps_ret.
Qed.

(** What the encounter builder returns. *)
Lemma buildEncounterResource_inv (st : State) (ids : Ids) (w w' : World) (r : option JS.value) :
  buildEncounterResource E st ids w = Ok r w' ->
  match encounterId ids with
  | Some id =>
      if truthy id then exists start, r = Some (encounterResource st ids id start) else r = None
  | None => r = None
  end.
Proof.
  unfold buildEncounterResource. destruct (encounterId ids) as [id|].
  - destruct (truthy id); cbn [negb]; intros H.
    + apply bind_Ok in H as (d & w1 & _ & H). apply ret_Ok in H as [<- _]. eauto.
    + now apply ret_Ok in H as [<- _].
  - intros H. now apply ret_Ok in H as [<- _].
Qed.

(** The resources of the immunization rows, each with the occurrence
    text it was given, the first at index [i]. *)
Fixpoint immunizations_from (ids : Ids) (i : nat) (rows : list (Immunization * string))
  : list JS.value :=
  match rows with
  | [] => []
  | (m, occ) :: r =>
      immunizationResource ids m (at_index (immIds ids) i) occ :: immunizations_from ids (S i) r
  end.

Lemma buildImmunizations_inv (ids : Ids) (l : list Immunization) (i : nat)
  (w w' : World) (rs : list JS.value) :
  mapM_indexed (buildImmunization E ids) l i w = Ok rs w' ->
  exists occs, List.length occs = List.length l
               /\ rs = immunizations_from ids i (combine l occs).
Proof.
  revert i w w' rs. induction l as [|m l IH]; intros i w w' rs H; cbn [mapM_indexed] in H.
  - apply ret_Ok in H as [<- _]. now exists [].
  - apply bind_Ok in H as (r & w1 & Hr & H).
    apply bind_Ok in H as (rest & w2 & Hrest & H).
    apply ret_Ok in H as [<- _].
    unfold buildImmunization in Hr. apply bind_Ok in Hr as (occ & w3 & _ & Hr).
    apply ret_Ok in Hr as [<- _].
    apply IH in Hrest as (occs & L & ->).
    exists (occ :: occs). split; [cbn [List.length]; now rewrite L | reflexivity].
Qed.

(** The binary and the document reference of each element of
    [toProcess], each with the media type, payload and title it was
    given, the first at index [i]. *)
Fixpoint pairs_from (ids : Ids) (authoredOn : string) (i : nat)
  (contents : list (string * string * string)) : list (JS.value * JS.value) :=
  match contents with
  | [] => []
  | (contentType, dataB64, title) :: r =>
      (binaryResource (at_index (docBinaryIds ids) i) contentType dataB64,
       docRefResource ids authoredOn (at_index (docRefIds ids) i)
         (at_index (docBinaryIds ids) i) contentType title)
      :: pairs_from ids authoredOn (S i) r
  end.

Definition placeholder_content : string * string * string :=
  ("application/pdf", PLACEHOLDER_PDF_B64, "placeholder.pdf").

Lemma docLoop_inv (ids : Ids) (authoredOn : string) (fs : list (option File)) (i : nat)
  (w w' : World) (binaries docRefs : list JS.value) :
  docLoop ids authoredOn fs i w = Ok (binaries, docRefs) w' ->
  exists contents,
    List.length contents = List.length fs
    /\ binaries = map fst (pairs_from ids authoredOn i contents)
    /\ docRefs = map snd (pairs_from ids authoredOn i contents)
    /\ Forall2 (fun f c => f = None -> c = placeholder_content) fs contents.
Proof.
  revert i w w' binaries docRefs.
  induction fs as [|f fs IH]; intros i w w' bs ds H; cbn [docLoop] in H.
  - apply ret_Ok in H as [H _]. injection H as <- <-. exists []. repeat split. constructor.
  - apply bind_Ok in H as ([[ct data] t] & w1 & Hc & H).
    apply bind_Ok in H as ([bs' ds'] & w2 & Hrest & H).
    apply ret_Ok in H as [H _]. cbn [fst snd] in H. injection H as <- <-.
    apply IH in Hrest as (cs & L & -> & -> & F).
    exists ((ct, data, t) :: cs).
    split; [cbn [List.length]; now rewrite L|].
    split; [reflexivity|]. split; [reflexivity|].
    constructor; [|exact F].
    intros ->. cbn [contentOf] in Hc. apply ret_Ok in Hc as [Hc _]. now symmetry.
Qed.

End AppSteps.
(** ** What a successful immunization build is made of *)

Section AppBuild.
Import JS JSDate Effects Runtime Roster App.
Local Open Scope js_scope.

Variable E : Env.

Definition opt_id (id : option string) : list string :=
  match id with Some s => [s] | None => [] end.

(** Every resource identifier of a build, in the order they are drawn. *)
Definition all_ids (ids : Ids) : list string :=
  [compId ids; patientId ids; practitionerId ids]
  ++ opt_id (encounterId ids) ++ opt_id (custodianId ids) ++ immIds ids
  ++ opt_id (immRecId ids) ++ docBinaryIds ids ++ docRefIds ids.

Definition count (b : bool) : nat := if b then 1 else 0.

(** How many resources a build makes. *)
Definition resource_count (st : State) : nat :=
  3 + count (truthy (encounterText st)) + count (truthy (custodianName st))
  + List.length (immunizations st) + count (truthy (immRecText st))
  + List.length (toProcess st) + List.length (toProcess st).

Definition is_some {A} (o : option A) : bool :=
  match o with Some _ => true | None => false end.

Lemma drawn_one (r : nat) : [uuid_from E r] = drawn E r 1.
Proof. unfold drawn. cbn [seq map]. do 2 f_equal. lia. Qed.

Lemma drawn_opt (r : nat) (c : bool) :
  opt_id (if c then Some (uuid_from E r) else None) = drawn E r (count c).
Proof. destruct c; [apply drawn_one | reflexivity]. Qed.

Lemma if_31_count (c : bool) : (if c then 31 else 0) = 31 * count c.
Proof. now destruct c. Qed.

Lemma drawn_chain (r r' a b : nat) :
  r' = r + 31 * a -> drawn E r a ++ drawn E r' b = drawn E r (a + b).
Proof. intros ->. symmetry. apply drawn_app. Qed.

Ltac step H a w Ha := apply bind_Ok in H as (a & w & Ha & H); cbv beta in H.

(** The parts of a bundle that [build] returns. *)
Record Parts : Type := {
  ids : Ids;
  authoredOn : string;
  author : Practitioner;
  encounterRes : option JS.value;
  immunizationResources : list JS.value;
  binaries : list JS.value;
  docRefs : list JS.value
}.

Definition entries_of (st : State) (p : Patient) (x : Parts) : list JS.value :=
  [bundleEntry (buildComposition st (ids x) (authoredOn x) (docRefs x));
   bundleEntry (buildPatientResource st (ids x) p);
   bundleEntry (buildPractitionerResource (ids x) (author x))]
  ++ optional (encounterRes x)
  ++ optional (buildCustodianOrg st (ids x))
  ++ map bundleEntry (immunizationResources x)
  ++ optional (buildImmRecResource E st (ids x) (authoredOn x))
  ++ map bundleEntry (docRefs x)
  ++ map bundleEntry (binaries x).

Lemma build_inv (st : State) (p : Patient) (b : JS.value) (w : World) :
  build E st p start = Ok b w ->
  exists x : Parts,
    all_ids (ids x) = drawn E 0 (resource_count st)
    /\ is_some (encounterId (ids x)) = truthy (encounterText st)
    /\ is_some (custodianId (ids x)) = truthy (custodianName st)
    /\ is_some (immRecId (ids x)) = truthy (immRecText st)
    /\ List.length (immIds (ids x)) = List.length (immunizations st)
    /\ List.length (docBinaryIds (ids x)) = List.length (toProcess st)
    /\ List.length (docRefIds (ids x)) = List.length (toProcess st)
    /\ (exists w1 w2, buildEncounterResource E st (ids x) w1 = Ok (encounterRes x) w2)
    /\ (exists w1 w2,
          buildImmunizationResources E st (ids x) w1 = Ok (immunizationResources x) w2)
    /\ (exists w1 w2,
          buildDocAndBinaryResources st (ids x) (authoredOn x) w1 = Ok (binaries x, docRefs x) w2)
    /\ Bundle.entries b = entries_of st p x.
Proof.
  unfold build. intros H.
  step H a0 w0 H0. apply keeps_localDatetimeToISOWithOffset in H0.
  step H c w1 H1. apply uuidv4_inv in H1 as [-> R1].
  step H pid w2 H2. apply uuidv4_inv in H2 as [-> R2].
  step H prid w3 H3. apply uuidv4_inv in H3 as [-> R3].
  step H eid w4 H4. apply uuid_if_inv in H4 as [-> R4].
  step H cid w5 H5. apply uuid_if_inv in H5 as [-> R5].
  step H iids w6 H6. apply mapM_uuid_inv in H6 as [-> R6].
  step H rid w7 H7. apply uuid_if_inv in H7 as [-> R7].
  step H bids w8 H8. apply mapM_uuid_inv in H8 as [-> R8].
  step H dids w9 H9. apply mapM_uuid_inv in H9 as [Hd R9].
  rewrite drawn_length in Hd, R9. subst dids.
  cbv zeta in H.
  destruct (selectedPractitioner st) as [pr|] eqn:Hpr;
    [|apply bind_Ok in H as (? & ? & Hthrow & _); discriminate Hthrow].
  step H pres w10 H10. apply ret_Ok in H10 as [<- <-].
  step H enc w11 H11.
  step H imms w12 H12.
  step H docs w13 H13. destruct docs as [bins drs].
  step H bu w14 H14. step H lu w15 H15. step H iu w16 H16. step H ts w17 H17.
  apply ret_Ok in H as [<- _].
  match type of H11 with
  | buildEncounterResource _ _ ?i _ = _ =>
      exists {| ids := i; authoredOn := a0; author := pr; encounterRes := enc;
                immunizationResources := imms; binaries := bins; docRefs := drs |}
  end.
  cbn [ids authoredOn author encounterRes immunizationResources binaries docRefs
       compId patientId practitionerId encounterId custodianId immIds immRecId
       docBinaryIds docRefIds].
  split.
  2: { split. { destruct (truthy (encounterText st)); reflexivity. }
       split. { destruct (truthy (custodianName st)); reflexivity. }
       split. { destruct (truthy (immRecText st)); reflexivity. }
       split. { apply drawn_length. }
       split. { apply drawn_length. }
       split. { apply drawn_length. }
       split. { do 2 eexists. exact H11. }
       split. { do 2 eexists. exact H12. }
       split. { do 2 eexists. exact H13. }
       unfold Bundle.entries, entries_of.
       cbn [get lookup elements String.eqb Ascii.eqb Bool.eqb
            ids authoredOn author encounterRes immunizationResources binaries docRefs].
       reflexivity. }
  unfold all_ids.
  cbn [compId patientId practitionerId encounterId custodianId immIds immRecId
       docBinaryIds docRefIds app].
  rewrite !drawn_opt.
  change (uuid_from E (rand_pos w0) :: uuid_from E (rand_pos w1) :: uuid_from E (rand_pos w2) :: ?l)
    with ([uuid_from E (rand_pos w0)] ++ [uuid_from E (rand_pos w1)]
          ++ [uuid_from E (rand_pos w2)] ++ l).
  rewrite !drawn_one.
  cbn [rand_pos start] in H0. rewrite if_31_count in R4, R5, R7.
  repeat (rewrite drawn_chain by lia).
  rewrite H0. f_equal. unfold resource_count. lia.
Qed.

End AppBuild.
(** ** The references held by each resource of the immunization bundle *)

Section AppReferences.
Import JS JSDate Effects Runtime Roster App Bundle.

Variable E : Env.

Lemma references_if (c : bool) (a b : JS.value) :
  references (if c then a else b) = if c then references a else references b.
Proof. now destruct c. Qed.

Lemma flat_references_if (c : bool) (a b : list JS.value) :
  flat_map references (if c then a else b)
  = if c then flat_map references a else flat_map references b.
Proof. now destruct c. Qed.

Lemma if_same {A} (c : bool) (a : A) : (if c then a else a) = a.
Proof. now destruct c. Qed.

Lemma references_nonempty_or_undefined (xs : list JS.value) :
  references (nonempty_or_undefined xs) = flat_map references xs.
Proof. now destruct xs. Qed.

Lemma references_text_or_undefined (s : string) : references (text_or_undefined s) = [].
Proof. unfold text_or_undefined. now destruct (truthy s). Qed.

Lemma references_str_or_undefined (s : string) : references (str_or_undefined s) = [].
Proof. unfold str_or_undefined. now destruct (truthy s). Qed.

Lemma references_buildNarrative (t h : string) : references (buildNarrative t h) = [].
Proof. reflexivity. Qed.

Lemma references_profile (u : string) : references (profile u) = [].
Proof. reflexivity. Qed.

Lemma references_reference (id : JS.value) : references (reference id) = [urn id].
Proof. reflexivity. Qed.

Lemma references_at_index (l : list string) (i : nat) : references (at_index l i) = [].
Proof. unfold at_index. now destruct (nth_error l i). Qed.

Lemma references_buildPatientResource (st : State) (ids : Ids) (p : Patient) :
  references (buildPatientResource st ids p) = [].
Proof.
  unfold buildPatientResource.
  cbn [references is_reference_key String.eqb Ascii.eqb Bool.eqb orb app].
  rewrite !references_nonempty_or_undefined, !references_text_or_undefined, !flat_map_app,
    !flat_references_if.
  cbn [flat_map references is_reference_key String.eqb Ascii.eqb Bool.eqb orb app].
  rewrite !if_same, references_if. cbn [references].
  destruct (ddmmyyyyToISO (p_dob p)); [rewrite references_str_or_undefined|];
    now rewrite if_same.
Qed.

Lemma references_buildPractitionerResource (ids : Ids) (pr : Practitioner) :
  references (buildPractitionerResource ids pr) = [].
Proof.
  unfold buildPractitionerResource.
  cbn [references is_reference_key String.eqb Ascii.eqb Bool.eqb orb app flat_map].
  rewrite !flat_map_app, !flat_references_if, references_if.
  cbn [flat_map references is_reference_key String.eqb Ascii.eqb Bool.eqb orb app].
  now rewrite !if_same.
Qed.

Lemma references_encounterResource (st : State) (ids : Ids) (id start : string) :
  references (encounterResource st ids id start) = [urn (VStr (patientId ids))].
Proof. reflexivity. Qed.

Lemma references_buildCustodianOrg (st : State) (ids : Ids) (r : JS.value) :
  buildCustodianOrg st ids = Some r -> references r = [].
Proof.
  unfold buildCustodianOrg. destruct (custodianId ids) as [id|]; [|discriminate].
  destruct (negb (truthy id)); [discriminate|]. intros H. injection H as <-. reflexivity.
Qed.

Lemma references_immunizationResource (ids : Ids) (m : Immunization) (i : nat) (occ : string) :
  references (immunizationResource ids m (at_index (immIds ids) i) occ)
  = [urn (VStr (patientId ids))].
Proof.
  unfold immunizationResource.
  cbn [references is_reference_key String.eqb Ascii.eqb Bool.eqb orb app].
  now rewrite references_at_index, references_str_or_undefined.
Qed.

Lemma references_buildImmRecResource (st : State) (ids : Ids) (a : string) (r : JS.value) :
  buildImmRecResource E st ids a = Some r -> references r = [urn (VStr (patientId ids))].
Proof.
  unfold buildImmRecResource. destruct (immRecId ids) as [id|]; [|discriminate].
  destruct (negb (truthy id)); [discriminate|]. intros H. injection H as <-.
  cbn [references is_reference_key String.eqb Ascii.eqb Bool.eqb orb app flat_map].
  rewrite references_text_or_undefined, references_if. cbn [references flat_map app].
  now rewrite if_same.
Qed.

Lemma references_binaryResource (ids : list string) (i : nat) (ct data : string) :
  references (binaryResource (at_index ids i) ct data) = [].
Proof.
  unfold binaryResource.
  cbn [references is_reference_key String.eqb Ascii.eqb Bool.eqb orb app].
  now rewrite references_at_index.
Qed.

Lemma references_docRefResource (ids : Ids) (a : string) (i : nat) (ct t : string) :
  references (docRefResource ids a (at_index (docRefIds ids) i)
                (at_index (docBinaryIds ids) i) ct t)
  = [urn (VStr (patientId ids)); urn (at_index (docBinaryIds ids) i)].
Proof.
  unfold docRefResource.
  cbn [references is_reference_key String.eqb Ascii.eqb Bool.eqb orb app flat_map
       SNOMED_IMM_RECORD].
  now rewrite references_at_index.
Qed.

Lemma references_sectionEntry (id : JS.value) (type : string) :
  references (sectionEntry id type) = [urn id].
Proof. reflexivity. Qed.

Lemma flat_references_map_sectionEntry {A} (f : A -> JS.value) (type : string) (l : list A) :
  flat_map references (map (fun a => sectionEntry (f a) type) l) = map (fun a => urn (f a)) l.
Proof. induction l as [|a l IH]; [reflexivity|]. cbn [map flat_map]. now rewrite IH. Qed.

(** The references of the composition: its subject, encounter, author and
    custodian, then one per section entry. *)
Lemma references_buildComposition (st : State) (ids : Ids) (a : string) (docs : list JS.value) :
  references (buildComposition st ids a docs)
  = [urn (VStr (patientId ids))]
    ++ (if truthy_id (encounterId ids)
        then [urn (match encounterId ids with Some id => VStr id | None => VNull end)] else [])
    ++ [urn (VStr (practitionerId ids))]
    ++ (if truthy_id (custodianId ids)
        then [urn (match custodianId ids with Some id => VStr id | None => VNull end)] else [])
    ++ map (fun id => urn (VStr id)) (immIds ids)
    ++ (match immRecId ids with
        | Some id => if truthy id then [urn (VStr id)] else []
        | None => []
        end)
    ++ map (fun dr => urn (get dr "id")) docs.
Proof.
  unfold buildComposition.
  set (entries := _ ++ _ ++ map _ docs).
  assert (Hentries : flat_map references entries
                     = map (fun id => urn (VStr id)) (immIds ids)
                       ++ (match immRecId ids with
                           | Some id => if truthy id then [urn (VStr id)] else []
                           | None => []
                           end)
                       ++ map (fun dr => urn (get dr "id")) docs).
  { unfold entries. rewrite !flat_map_app, !flat_references_map_sectionEntry.
    do 2 f_equal. destruct (immRecId ids) as [id|]; [|reflexivity].
    now destruct (truthy id). }
  assert (Htext : references (match entries with
                              | [] => VObj [("status", VStr "generated");
                                            ("div", VStr ("<div xmlns=" ^^ dq ^^ "http://www.w3.org/1999/xhtml" ^^ dq
                                                   ^^ " lang=" ^^ dq ^^ "en-IN" ^^ dq ^^ " xml:lang=" ^^ dq
                                                   ^^ "en-IN" ^^ dq ^^ "><p>No immunization entries</p></div>"))]
                              | _ => VUndef
                              end) = []) by now destruct entries.
  clearbody entries.
  destruct (truthy_id (encounterId ids)), (truthy_id (custodianId ids));
    cbn [references is_reference_key String.eqb Ascii.eqb Bool.eqb orb app flat_map
         SNOMED_IMM_RECORD reference];
    rewrite references_nonempty_or_undefined, Hentries, Htext, references_profile,
      references_buildNarrative, ?app_nil_r;
    destruct (authorName st); reflexivity.
Qed.

End AppReferences.
(** ** The shape of every bundle the immunization builder returns *)

Section AppShape.
Import JS JSDate Effects Runtime Roster App Bundle.

Variable E : Env.

Definition opt_list {A} (o : option A) : list A :=
  match o with Some a => [a] | None => [] end.

(** The resources of a bundle, in entry order. *)
Definition resources_of (st : State) (p : Patient) (x : Parts) : list JS.value :=
  [buildComposition st (ids x) (authoredOn x) (docRefs x);
   buildPatientResource st (ids x) p;
   buildPractitionerResource (ids x) (author x)]
  ++ opt_list (encounterRes x)
  ++ opt_list (buildCustodianOrg st (ids x))
  ++ immunizationResources x
  ++ opt_list (buildImmRecResource E st (ids x) (authoredOn x))
  ++ docRefs x
  ++ binaries x.

(** What is known of the parts of a bundle that was built. *)
Record Shape (st : State) (p : Patient) (x : Parts) : Prop := {
  shape_ids : all_ids (ids x) = drawn E 0 (resource_count st);
  shape_encounterId : is_some (encounterId (ids x)) = truthy (encounterText st);
  shape_custodianId : is_some (custodianId (ids x)) = truthy (custodianName st);
  shape_immRecId : is_some (immRecId (ids x)) = truthy (immRecText st);
  shape_immIds : List.length (immIds (ids x)) = List.length (immunizations st);
  shape_docBinaryIds : List.length (docBinaryIds (ids x)) = List.length (toProcess st);
  shape_docRefIds : List.length (docRefIds (ids x)) = List.length (toProcess st);
  shape_encounter :
    exists start,
      encounterRes x = option_map (fun id => encounterResource st (ids x) id start)
                         (encounterId (ids x));
  shape_immunizations :
    exists occs, List.length occs = List.length (immunizations st)
                 /\ immunizationResources x
                    = immunizations_from (ids x) 0 (combine (immunizations st) occs);
  shape_documents :
    exists contents,
      List.length contents = List.length (toProcess st)
      /\ binaries x = map fst (pairs_from (ids x) (authoredOn x) 0 contents)
      /\ docRefs x = map snd (pairs_from (ids x) (authoredOn x) 0 contents)
      /\ Forall2 (fun f c => f = None -> c = placeholder_content) (toProcess st) contents
}.

Lemma all_ids_truthy (st : State) (x : Parts) (id : string) :
  all_ids (ids x) = drawn E 0 (resource_count st) -> In id (all_ids (ids x)) ->
  truthy id = true.
Proof. intros -> H. now apply drawn_truthy in H. Qed.

Lemma onBuildBundle_Built (st : State) (b : JS.value) :
  onBuildBundle E st = Built b ->
  validateBeforeBuild st = []
  /\ exists p x, selectedPatient st = Some p /\ Shape st p x
                 /\ entries b = map bundleEntry (resources_of st p x).
Proof.
  unfold onBuildBundle. intros HB.
  destruct (validateBeforeBuild st) as [|e es]; [|discriminate HB].
  cbn [List.length Nat.eqb negb] in HB. split; [reflexivity|].
  destruct (selectedPatient st) as [p|]; [|discriminate HB].
  destruct (build E st p start) as [b' w|e] eqn:Hb; [|discriminate HB].
  injection HB as ->.
  apply build_inv in Hb as (x & Hids & He & Hc & Hr & Li & Lb & Ld & Henc & Himm & Hdoc & Hent).
  exists p, x. split; [reflexivity|]. split.
  - constructor; try assumption.
    + destruct Henc as (w1 & w2 & Henc). apply buildEncounterResource_inv in Henc.
      destruct (encounterId (ids x)) as [id|] eqn:Hid.
      * assert (T : truthy id = true).
        { apply (all_ids_truthy st x); [assumption|]. unfold all_ids. rewrite Hid.
          cbn. auto. }
        rewrite T in Henc. destruct Henc as (s & ->). now exists s.
      * exists EmptyString. now rewrite Henc.
    + destruct Himm as (w1 & w2 & Himm). now apply buildImmunizations_inv in Himm.
    + destruct Hdoc as (w1 & w2 & Hdoc). now apply docLoop_inv in Hdoc.
  - rewrite Hent. unfold entries_of, resources_of, optional.
    rewrite !map_app. cbn [map app].
    repeat f_equal;
      match goal with |- context [match ?o with Some _ => _ | None => _ end] =>
        now destruct o end.
Qed.

End AppShape.
(** ** Identifiers and references of the immunization bundle *)

Section AppClosure.
Import JS JSDate Effects Runtime Roster App Bundle.

Variable E : Env.

Lemma at_index_cons (a : string) (l : list string) (j : nat) :
  at_index (a :: l) (S j) = at_index l j.
Proof. reflexivity. Qed.

Lemma map_at_index {A} (f : JS.value -> A) (l : list string) :
  map (fun j => f (at_index l j)) (seq 0 (List.length l)) = map (fun id => f (VStr id)) l.
Proof.
  induction l as [|a l IH]; [reflexivity|].
  cbn [List.length seq map]. rewrite <- seq_shift, map_map. f_equal. exact IH.
Qed.

Lemma at_index_In (l : list string) (j : nat) :
  j < List.length l -> exists id, at_index l j = VStr id /\ In id l.
Proof.
  intros H. unfold at_index. destruct (nth_error l j) as [id|] eqn:Hn.
  - exists id. split; [reflexivity|]. now apply nth_error_In in Hn.
  - apply nth_error_None in Hn. lia.
Qed.

Lemma resource_bundleEntry (r : JS.value) : resource (bundleEntry r) = r.
Proof. reflexivity. Qed.

Lemma fullUrl_bundleEntry (r : JS.value) :
  fullUrl (bundleEntry r) = VStr ("urn:uuid:" ^^ id_of r).
Proof. reflexivity. Qed.

Lemma resources_map_bundleEntry (rs : list JS.value) : map resource (map bundleEntry rs) = rs.
Proof. rewrite map_map. apply map_id. Qed.

Lemma id_of_immunizations_from (ids : Ids) (i : nat) (rows : list (Immunization * string)) :
  map id_of (immunizations_from ids i rows)
  = map (fun j => ToString (at_index (immIds ids) j)) (seq i (List.length rows)).
Proof.
  revert i. induction rows as [|[m occ] rows IH]; intros i; [reflexivity|].
  cbn [immunizations_from map List.length seq]. now rewrite IH.
Qed.

Lemma length_pairs_from (ids : Ids) (a : string) (i : nat)
  (cs : list (string * string * string)) :
  List.length (pairs_from ids a i cs) = List.length cs.
Proof.
  revert i. induction cs as [|[[ct d] t] cs IH]; intros i; [reflexivity|].
  cbn [pairs_from List.length]. now rewrite IH.
Qed.

Lemma id_of_binaries (ids : Ids) (a : string) (i : nat) (cs : list (string * string * string)) :
  map id_of (map fst (pairs_from ids a i cs))
  = map (fun j => ToString (at_index (docBinaryIds ids) j)) (seq i (List.length cs)).
Proof.
  revert i. induction cs as [|[[ct d] t] cs IH]; intros i; [reflexivity|].
  cbn [pairs_from map List.length seq fst]. now rewrite IH.
Qed.

Lemma id_of_docRefs (ids : Ids) (a : string) (i : nat) (cs : list (string * string * string)) :
  map id_of (map snd (pairs_from ids a i cs))
  = map (fun j => ToString (at_index (docRefIds ids) j)) (seq i (List.length cs)).
Proof.
  revert i. induction cs as [|[[ct d] t] cs IH]; intros i; [reflexivity|].
  cbn [pairs_from map List.length seq snd]. now rewrite IH.
Qed.

Lemma urn_id_of_docRefs (ids : Ids) (a : string) (i : nat) (cs : list (string * string * string)) :
  map (fun dr => urn (get dr "id")) (map snd (pairs_from ids a i cs))
  = map (fun j => urn (at_index (docRefIds ids) j)) (seq i (List.length cs)).
Proof.
  revert i. induction cs as [|[[ct d] t] cs IH]; intros i; [reflexivity|].
  cbn [pairs_from map List.length seq snd]. now rewrite IH.
Qed.

Variables (st : State) (p : Patient) (x : Parts).
Hypothesis shape : Shape E st p x.

(** The identifiers of the entries, in entry order. *)
Definition ids_in_entry_order : list string :=
  [compId (ids x); patientId (ids x); practitionerId (ids x)]
  ++ opt_id (encounterId (ids x)) ++ opt_id (custodianId (ids x)) ++ immIds (ids x)
  ++ opt_id (immRecId (ids x)) ++ docRefIds (ids x) ++ docBinaryIds (ids x).

Lemma ids_in_entry_order_Permutation : Permutation ids_in_entry_order (all_ids (ids x)).
Proof.
  unfold ids_in_entry_order, all_ids.
  repeat (apply Permutation_app; [apply Permutation_refl|]).
  apply Permutation_app_comm.
Qed.

Lemma In_ids_truthy (id : string) : In id ids_in_entry_order -> truthy id = true.
Proof.
  intros H. apply (all_ids_truthy E st x); [apply shape|].
  now apply (Permutation_in _ ids_in_entry_order_Permutation).
Qed.

Lemma encounterId_truthy (id : string) : encounterId (ids x) = Some id -> truthy id = true.
Proof.
  intros H. apply In_ids_truthy. unfold ids_in_entry_order. rewrite H.
  cbn [opt_id app]. do 3 right. now left.
Qed.

Lemma custodianId_truthy (id : string) : custodianId (ids x) = Some id -> truthy id = true.
Proof.
  intros H. apply In_ids_truthy. unfold ids_in_entry_order. rewrite H. cbn [app].
  do 3 right. apply in_or_app. right. now left.
Qed.

Lemma immRecId_truthy (id : string) : immRecId (ids x) = Some id -> truthy id = true.
Proof.
  intros H. apply In_ids_truthy. unfold ids_in_entry_order. rewrite H. cbn [app].
  do 3 right. do 3 (apply in_or_app; right). now left.
Qed.

Lemma buildCustodianOrg_shape :
  map id_of (opt_list (buildCustodianOrg st (ids x))) = opt_id (custodianId (ids x)).
Proof.
  unfold buildCustodianOrg. destruct (custodianId (ids x)) as [id|] eqn:H; [|reflexivity].
  now rewrite (custodianId_truthy id H).
Qed.

Lemma buildImmRecResource_shape :
  map id_of (opt_list (buildImmRecResource E st (ids x) (authoredOn x)))
  = opt_id (immRecId (ids x)).
Proof.
  unfold buildImmRecResource. destruct (immRecId (ids x)) as [id|] eqn:H; [|reflexivity].
  now rewrite (immRecId_truthy id H).
Qed.

Lemma encounterRes_shape : map id_of (opt_list (encounterRes x)) = opt_id (encounterId (ids x)).
Proof.
  destruct (shape_encounter E st p x shape) as (s & ->).
  now destruct (encounterId (ids x)).
Qed.

Lemma immunizationResources_shape : map id_of (immunizationResources x) = immIds (ids x).
Proof.
  destruct (shape_immunizations E st p x shape) as (occs & L & ->).
  rewrite id_of_immunizations_from, length_combine, L, Nat.min_id.
  rewrite <- (shape_immIds E st p x shape), (map_at_index ToString). apply map_id.
Qed.

Lemma docRefs_shape : map id_of (docRefs x) = docRefIds (ids x).
Proof.
  destruct (shape_documents E st p x shape) as (cs & L & _ & -> & _).
  rewrite id_of_docRefs, L, <- (shape_docRefIds E st p x shape), (map_at_index ToString).
  apply map_id.
Qed.

Lemma binaries_shape : map id_of (binaries x) = docBinaryIds (ids x).
Proof.
  destruct (shape_documents E st p x shape) as (cs & L & -> & _ & _).
  rewrite id_of_binaries, L, <- (shape_docBinaryIds E st p x shape), (map_at_index ToString).
  apply map_id.
Qed.

Lemma id_of_buildComposition (a : string) (docs : list JS.value) :
  id_of (buildComposition st (ids x) a docs) = compId (ids x).
Proof. reflexivity. Qed.

(** The identifier of each entry's resource. *)
Lemma id_of_resources : map id_of (resources_of E st p x) = ids_in_entry_order.
Proof.
  unfold resources_of, ids_in_entry_order. rewrite !map_app.
  rewrite encounterRes_shape, buildCustodianOrg_shape, immunizationResources_shape,
    buildImmRecResource_shape, docRefs_shape, binaries_shape.
  reflexivity.
Qed.

(** A text that refers to an entry of the bundle. *)
Definition resolves (s : string) : Prop :=
  exists id, s = "urn:uuid:" ^^ id /\ In id ids_in_entry_order.

Lemma resolves_in (id : string) : In id ids_in_entry_order -> resolves (urn (VStr id)).
Proof. intros H. now exists id. Qed.

Lemma resolves_patientId : resolves (urn (VStr (patientId (ids x)))).
Proof. apply resolves_in. unfold ids_in_entry_order. cbn [app]. right. now left. Qed.

Lemma In_immIds (id : string) : In id (immIds (ids x)) -> In id ids_in_entry_order.
Proof. intros H. unfold ids_in_entry_order. cbn [app]. do 3 right. do 2 (apply in_or_app; right).
  apply in_or_app. now left. Qed.

Lemma In_docRefIds (id : string) : In id (docRefIds (ids x)) -> In id ids_in_entry_order.
Proof. intros H. unfold ids_in_entry_order. cbn [app]. do 3 right. do 4 (apply in_or_app; right).
  apply in_or_app. now left. Qed.

Lemma In_docBinaryIds (id : string) : In id (docBinaryIds (ids x)) -> In id ids_in_entry_order.
Proof. intros H. unfold ids_in_entry_order. cbn [app]. do 3 right. now do 5 (apply in_or_app; right). Qed.

Lemma references_pairs_from (i : nat) (cs : list (string * string * string)) (pr : JS.value * JS.value) :
  i + List.length cs <= List.length (docBinaryIds (ids x)) ->
  In pr (pairs_from (ids x) (authoredOn x) i cs) ->
  references (fst pr) = [] /\ Forall resolves (references (snd pr)).
Proof.
  revert i. induction cs as [|[[ct d] t] cs IH]; intros i L H; [destruct H|].
  cbn [pairs_from List.length] in *. destruct H as [<-|H]; [|apply (IH (S i)); [lia | exact H]].
  cbn [fst snd]. split; [apply references_binaryResource|].
  rewrite references_docRefResource.
  destruct (at_index_In (docBinaryIds (ids x)) i) as (id & -> & Hin); [lia|].
  repeat constructor; [apply resolves_patientId|].
  apply resolves_in. now apply In_docBinaryIds.
Qed.

(** No resource of the bundle refers to anything but an entry of the bundle. *)
Lemma references_resolve (r : JS.value) :
  In r (resources_of E st p x) -> Forall resolves (references r).
Proof.
  unfold resources_of. intros H.
  destruct (shape_documents E st p x shape) as (cs & Lc & Hb & Hd & _).
  cbn [app] in H. destruct H as [<-|[<-|[<-|H]]].
  - rewrite references_buildComposition. repeat (apply Forall_app; split).
    + repeat constructor. apply resolves_patientId.
    + destruct (encounterId (ids x)) as [id|] eqn:He; [|constructor].
      cbn [truthy_id]. rewrite (encounterId_truthy id He). repeat constructor.
      apply resolves_in. unfold ids_in_entry_order. rewrite He. cbn [app opt_id]. do 3 right. now left.
    + repeat constructor. apply resolves_in. unfold ids_in_entry_order. cbn [app]. do 2 right. now left.
    + destruct (custodianId (ids x)) as [id|] eqn:Hc; [|constructor].
      cbn [truthy_id]. rewrite (custodianId_truthy id Hc). repeat constructor.
      apply resolves_in. unfold ids_in_entry_order. rewrite Hc. cbn [app].
      do 3 right. apply in_or_app. right. now left.
    + apply Forall_forall. intros s Hs. apply in_map_iff in Hs as (id & <- & Hid).
      apply resolves_in. now apply In_immIds.
    + destruct (immRecId (ids x)) as [id|] eqn:Hr; [|constructor].
      rewrite (immRecId_truthy id Hr). repeat constructor.
      apply resolves_in. unfold ids_in_entry_order. rewrite Hr. cbn [app].
      do 3 right. do 3 (apply in_or_app; right). now left.
    + rewrite Hd, urn_id_of_docRefs, Lc, <- (shape_docRefIds E st p x shape), map_at_index.
      apply Forall_forall. intros s Hs. apply in_map_iff in Hs as (id & <- & Hid).
      apply resolves_in. now apply In_docRefIds.
  - rewrite references_buildPatientResource. constructor.
  - rewrite references_buildPractitionerResource. constructor.
  - repeat (apply in_app_or in H as [H|H]).
    + destruct (shape_encounter E st p x shape) as (s & He). rewrite He in H.
      destruct (encounterId (ids x)) as [id|]; [|destruct H].
      destruct H as [<-|[]]. rewrite references_encounterResource.
      repeat constructor. apply resolves_patientId.
    + destruct (buildCustodianOrg st (ids x)) as [c|] eqn:Hc; [|destruct H].
      destruct H as [<-|[]]. rewrite (references_buildCustodianOrg st (ids x) c Hc). constructor.
    + destruct (shape_immunizations E st p x shape) as (occs & _ & Hi). rewrite Hi in H.
      clear Hi. revert H. generalize 0. generalize (combine (immunizations st) occs).
      induction l as [|[m occ] l IH]; intros i H; [destruct H|].
      destruct H as [<-|H]; [|now apply (IH (S i))].
      rewrite references_immunizationResource. repeat constructor. apply resolves_patientId.
    + destruct (buildImmRecResource E st (ids x) (authoredOn x)) as [c|] eqn:Hc; [|destruct H].
      destruct H as [<-|[]]. rewrite (references_buildImmRecResource E st (ids x) _ c Hc).
      repeat constructor. apply resolves_patientId.
    + rewrite Hd in H. apply in_map_iff in H as (pr & <- & H).
      apply references_pairs_from in H; [apply H|].
      rewrite Lc, (shape_docBinaryIds E st p x shape). lia.
    + rewrite Hb in H. apply in_map_iff in H as (pr & <- & H).
      apply references_pairs_from in H; [|rewrite Lc, (shape_docBinaryIds E st p x shape); lia].
      destruct H as [-> _]. constructor.
Qed.

End AppClosure.
(** ** Referential closure, order and placeholder of the immunization bundle *)

Section AppBundle.
Import JS JSDate Effects Runtime Roster App Bundle.

Fixpoint nodupb (l : list string) : bool :=
  match l with
  | [] => true
  | a :: r => negb (existsb (String.eqb a) r) && nodupb r
  end.

Lemma nodupb_NoDup (l : list string) : nodupb l = true -> NoDup l.
Proof.
  induction l as [|a l IH]; intros H; [constructor|].
  cbn [nodupb] in H. apply andb_true_iff in H as [Ha Hl].
  constructor; [|now apply IH].
  intros Hin. apply negb_true_iff in Ha.
  assert (existsb (String.eqb a) l = true); [|congruence].
  apply existsb_exists. exists a. split; [assumption | apply String.eqb_refl].
Qed.

Lemma NoDup_count_occ_1 (l : list string) (a : string) :
  NoDup l -> In a l -> count_occ string_dec l a = 1.
Proof.
  intros N H. pose proof (proj1 (NoDup_count_occ string_dec l) N a) as Hle.
  apply (count_occ_In string_dec) in H. lia.
Qed.

(** A room of the environment and a form state to run the builder on. *)
Definition sample_env : Env :=
  {| random16 := fun k => Z.of_nat (k mod 16);
     clock := fun k => (1735705800000 + Z.of_nat k * 1000)%Z;
     timezoneOffset := fun _ => (-330)%Z;
     Date_parse := fun _ => Some 1735705800000%Z;
     localeCompare := fun a b => match String_as_OT.cmp a b with
                                 | Lt => (-1)%Z | Eq => 0%Z | Gt => 1%Z
                                 end |}.

Definition asha : Patient :=
  {| p_id := "1"; p_name := "Asha Singh"; p_gender := "F"; p_dob := "15-06-1990";
     p_birthDate := EmptyString; p_mobile := "9000000000"; p_phone := EmptyString;
     p_email := EmptyString; p_address := EmptyString; p_mrn := "MRN-001";
     p_user_ref_id := EmptyString; p_user_id := EmptyString; p_abha_ref := EmptyString;
     p_additional_attributes_abha_addresses := VUndef;
     p_abha_addresses := VArr [VStr "asha@abdm";
                               VObj [("address", VStr "asha.singh@abdm");
                                     ("isPrimary", VBool true)]] |}.

Definition bcg : Immunization :=
  {| vaccineText := "BCG"; occurrenceDate := EmptyString; imm_status := "completed";
     lotNumber := EmptyString |}.

(** The scenario of the immunization form as it opens, once the roster is
    loaded: one BCG row, no file. *)
Definition scenario : State :=
  {| selectedPatient := Some asha; selectedAbha := "asha.singh@abdm";
     selectedPractitionerIdx := 0; status := "final"; title := "Immunization Record";
     dateTimeLocal := "2025-01-01T10:00"; encounterText := EmptyString;
     custodianName := EmptyString; immunizations := [bcg];
     immRecText := EmptyString; immRecDateLocal := EmptyString; files := [] |}.

(** A fuller state: encounter, custodian, two rows, a recommendation and
    one uploaded file. *)
Definition full_state : State :=
  {| selectedPatient := Some asha; selectedAbha := EmptyString;
     selectedPractitionerIdx := 1; status := "final"; title := "Immunization Record";
     dateTimeLocal := EmptyString; encounterText := "OPD visit";
     custodianName := "City Clinic";
     immunizations := [bcg; {| vaccineText := "OPV"; occurrenceDate := "02/01/2025";
                               imm_status := "completed"; lotNumber := "L-7" |}];
     immRecText := "MMR at 9 months"; immRecDateLocal := EmptyString;
     files := [{| f_name := "card.pdf"; f_type := "application/pdf";
                  f_result := Some "data:application/pdf;base64,QUJD" |}] |}.

Definition bundle_of (E : Env) (st : State) : JS.value :=
  match onBuildBundle E st with
  | Built b => b
  | _ => VUndef
  end.

Variable E : Env.

(** C1.  In every bundle the immunization builder returns, provided the
    identifiers drawn for its resources are pairwise distinct: each
    entry's [fullUrl] is [urn:uuid:] followed by the [id] of its own
    resource; every reference text held by any resource is [urn:uuid:<id>]
    for an [id] that is the identifier of exactly one entry; no two
    entries share an identifier; and the entries' identifiers are exactly
    the identifiers that were drawn, none left out. *)
Theorem referential_closure (st : State) (b : JS.value) :
  onBuildBundle E st = Built b ->
  NoDup (drawn E 0 (resource_count st)) ->
  (forall e, In e (entries b) -> fullUrl e = VStr ("urn:uuid:" ^^ id_of (resource e)))
  /\ (forall e s, In e (entries b) -> In s (references (resource e)) ->
        exists id, s = "urn:uuid:" ^^ id /\ count_occ string_dec (entry_ids b) id = 1)
  /\ NoDup (entry_ids b)
  /\ Permutation (entry_ids b) (drawn E 0 (resource_count st)).
Proof.
  intros H N. apply onBuildBundle_Built in H as (_ & p & x & _ & S & Hent).
  assert (Hids : entry_ids b = ids_in_entry_order x).
  { unfold entry_ids, resources. rewrite Hent, resources_map_bundleEntry.
    now apply id_of_resources. }
  assert (P : Permutation (entry_ids b) (drawn E 0 (resource_count st))).
  { rewrite Hids, <- (shape_ids E st p x S). apply ids_in_entry_order_Permutation. }
  assert (N' : NoDup (entry_ids b)).
  { apply (Permutation_NoDup (l := drawn E 0 (resource_count st))); [|exact N].
    now apply Permutation_sym. }
  repeat split; try assumption.
  - intros e He. rewrite Hent in He. apply in_map_iff in He as (r & <- & _).
    apply fullUrl_bundleEntry.
  - intros e s He Hs. rewrite Hent in He. apply in_map_iff in He as (r & <- & Hr).
    rewrite resource_bundleEntry in Hs.
    pose proof (references_resolve E st p x S r Hr) as F.
    rewrite Forall_forall in F. destruct (F s Hs) as (id & -> & Hid).
    exists id. split; [reflexivity|]. apply NoDup_count_occ_1; [assumption|].
    now rewrite Hids.
Qed.

End AppBundle.

Lemma referential_closure_witness :
  App.onBuildBundle sample_env full_state = App.Built (bundle_of sample_env full_state)
  /\ NoDup (drawn sample_env 0 (resource_count full_state))
  /\ NoDup (Bundle.entry_ids (bundle_of sample_env full_state)).
Proof.
  assert (H : App.onBuildBundle sample_env full_state = App.Built (bundle_of sample_env full_state))
    by (vm_compute; reflexivity).
  assert (N : NoDup (drawn sample_env 0 (resource_count full_state)))
    by (apply nodupb_NoDup; vm_compute; reflexivity).
  split; [exact H|]. split; [exact N|].
  exact (proj1 (proj2 (proj2 (referential_closure sample_env full_state _ H N)))).
Defined.
(** ** Resource types, the placeholder and the section of the immunization bundle *)

Section AppTypes.
Import JS JSDate Effects Runtime Roster App Bundle.

Variable E : Env.

Lemma toProcess_length (st : State) : 1 <= List.length (toProcess st).
Proof.
  unfold toProcess. destruct (files st); cbn [List.length map]; lia.
Qed.

Lemma toProcess_files (st : State) :
  files st <> [] -> toProcess st = map Some (files st).
Proof. unfold toProcess. now destruct (files st). Qed.

Lemma if_repeat {A} (c : bool) (a : A) : (if c then [a] else []) = repeat a (count c).
Proof. now destruct c. Qed.

Lemma resourceType_immunizations_from (ids : Ids) (i : nat) (rows : list (Immunization * string)) :
  map resourceType (immunizations_from ids i rows) = repeat "Immunization" (List.length rows).
Proof.
  revert i. induction rows as [|[m occ] rows IH]; intros i; [reflexivity|].
  cbn [immunizations_from map List.length repeat]. now rewrite IH.
Qed.

Lemma resourceType_binaries (ids : Ids) (a : string) (i : nat)
  (cs : list (string * string * string)) :
  map resourceType (map fst (pairs_from ids a i cs)) = repeat "Binary" (List.length cs).
Proof.
  revert i. induction cs as [|[[ct d] t] cs IH]; intros i; [reflexivity|].
  cbn [pairs_from map List.length repeat fst]. now rewrite IH.
Qed.

Lemma resourceType_docRefs (ids : Ids) (a : string) (i : nat)
  (cs : list (string * string * string)) :
  map resourceType (map snd (pairs_from ids a i cs))
  = repeat "DocumentReference" (List.length cs).
Proof.
  revert i. induction cs as [|[[ct d] t] cs IH]; intros i; [reflexivity|].
  cbn [pairs_from map List.length repeat snd]. now rewrite IH.
Qed.

Variables (st : State) (p : Patient) (x : Parts).
Hypothesis shape : Shape E st p x.

(** The types of the resources, in entry order. *)
Definition types_in_entry_order : list string :=
  ["Composition"; "Patient"; "Practitioner"]
  ++ repeat "Encounter" (count (truthy (encounterText st)))
  ++ repeat "Organization" (count (truthy (custodianName st)))
  ++ repeat "Immunization" (List.length (immunizations st))
  ++ repeat "ImmunizationRecommendation" (count (truthy (immRecText st)))
  ++ repeat "DocumentReference" (List.length (toProcess st))
  ++ repeat "Binary" (List.length (toProcess st)).

Lemma resourceType_resources : map resourceType (resources_of E st p x) = types_in_entry_order.
Proof.
  unfold resources_of, types_in_entry_order. rewrite !map_app.
  destruct (shape_encounter E st p x shape) as (s & He).
  destruct (shape_immunizations E st p x shape) as (occs & Lo & Hi).
  destruct (shape_documents E st p x shape) as (cs & Lc & Hb & Hd & _).
  rewrite He, Hi, Hb, Hd, resourceType_immunizations_from, resourceType_binaries,
    resourceType_docRefs, length_combine, Lo, Nat.min_id, Lc.
  rewrite <- (shape_encounterId E st p x shape), <- (shape_custodianId E st p x shape),
    <- (shape_immRecId E st p x shape).
  cbn [map app]. do 3 f_equal. f_equal; [now destruct (encounterId (ids x))|].
  f_equal.
  { unfold buildCustodianOrg. destruct (custodianId (ids x)) as [id|] eqn:H; [|reflexivity].
    now rewrite (custodianId_truthy E st p x shape id H). }
  f_equal. f_equal.
  unfold buildImmRecResource. destruct (immRecId (ids x)) as [id|] eqn:H; [|reflexivity].
  now rewrite (immRecId_truthy E st p x shape id H).
Qed.

(** The vaccine texts of the immunization resources follow the rows. *)
Definition vaccine_of (r : JS.value) : JS.value := get (get r "vaccineCode") "text".

Lemma vaccine_of_immunizations_from (ids : Ids) (i : nat) (l : list Immunization)
  (occs : list string) :
  List.length occs = List.length l ->
  map vaccine_of (immunizations_from ids i (combine l occs))
  = map (fun m => VStr (or_else (vaccineText m) "Unknown vaccine")) l.
Proof.
  revert i occs. induction l as [|m l IH]; intros i [|occ occs] L; try discriminate L;
    [reflexivity|].
  cbn [combine immunizations_from map]. rewrite IH by (cbn [List.length] in L; lia).
  reflexivity.
Qed.

Lemma immunizations_in_row_order :
  map vaccine_of (immunizationResources x)
  = map (fun m => VStr (or_else (vaccineText m) "Unknown vaccine")) (immunizations st).
Proof.
  destruct (shape_immunizations E st p x shape) as (occs & Lo & ->).
  now apply vaccine_of_immunizations_from.
Qed.

(** The composition of a built bundle has a section with entries. *)
Lemma section_of_buildComposition (a : string) (docs : list JS.value) :
  docs <> [] ->
  exists section e es,
    get (buildComposition st (ids x) a docs) "section" = VArr [section]
    /\ get section "entry" = VArr (e :: es)
    /\ get section "text" = VUndef.
Proof.
  intros Hd. unfold buildComposition.
  set (entries := _ ++ _ ++ map _ docs).
  assert (He : exists e es, entries = e :: es).
  { destruct entries as [|e es] eqn:Heq; [|now exists e, es].
    unfold entries in Heq. apply app_eq_nil in Heq as [_ Heq].
    apply app_eq_nil in Heq as [_ Heq]. apply map_eq_nil in Heq. contradiction. }
  destruct He as (e & es & ->).
  destruct (truthy_id (encounterId (ids x))), (truthy_id (custodianId (ids x)));
    cbn [app get lookup String.eqb Ascii.eqb Bool.eqb]; do 3 eexists;
    (split; [reflexivity|]); split; reflexivity.
Qed.

Lemma docRefs_nonempty : docRefs x <> [].
Proof.
  destruct (shape_documents E st p x shape) as (cs & Lc & _ & -> & _).
  pose proof (toProcess_length st) as L.
  destruct cs as [|[[ct d] t] cs]; [cbn [List.length] in Lc; lia | discriminate].
Qed.

End AppTypes.

Section AppTheorems.
Import JS JSDate Effects Runtime Roster App Bundle.

Variable E : Env.

Lemma resources_of_built (st : State) (b : JS.value) (p : Patient) (x : Parts) :
  entries b = map bundleEntry (resources_of E st p x) -> resources b = resources_of E st p x.
Proof. intros H. unfold resources. rewrite H. apply resources_map_bundleEntry. Qed.

(** C10.  In every bundle the immunization builder returns, the first
    resource is the composition, its one section lists at least one entry,
    and the section carries no narrative of its own: the branch that
    writes the text of an empty section is never taken. *)
Theorem section_never_empty (st : State) (b : JS.value) :
  onBuildBundle E st = Built b ->
  exists composition rest section e es,
    resources b = composition :: rest
    /\ resourceType composition = "Composition"
    /\ get composition "section" = VArr [section]
    /\ get section "entry" = VArr (e :: es)
    /\ get section "text" = VUndef.
Proof.
  intros H. apply onBuildBundle_Built in H as (_ & p & x & _ & S & Hent).
  apply resources_of_built in Hent.
  destruct (section_of_buildComposition st x (authoredOn x) (docRefs x)
              (docRefs_nonempty E st p x S)) as (section & e & es & H1 & H2 & H3).
  exists (buildComposition st (ids x) (authoredOn x) (docRefs x)).
  eexists. exists section, e, es.
  split; [rewrite Hent; unfold resources_of; cbn [app]; reflexivity|].
  split; [reflexivity|]. now repeat split.
Qed.

(** The attachment of a document reference: where it points. *)
Definition attachment_url (docRef : JS.value) : JS.value :=
  match get docRef "content" with
  | VArr [content] => get (get content "attachment") "url"
  | _ => VUndef
  end.

Lemma of_type_repeat_other (t t' : string) (rs : list JS.value) (n : nat) :
  map resourceType rs = repeat t' n -> t' <> t -> of_type t rs = [].
Proof.
  revert n. induction rs as [|r rs IH]; intros n H Hne; [reflexivity|].
  destruct n as [|n]; [discriminate H|]. cbn [map repeat] in H. injection H as Hr Hrs.
  cbn [of_type filter]. rewrite Hr, (proj2 (String.eqb_neq t' t) Hne).
  now apply (IH n).
Qed.

Lemma of_type_repeat_same (t : string) (rs : list JS.value) (n : nat) :
  map resourceType rs = repeat t n -> of_type t rs = rs.
Proof.
  revert n. induction rs as [|r rs IH]; intros n H; [reflexivity|].
  destruct n as [|n]; [discriminate H|]. cbn [map repeat] in H. injection H as Hr Hrs.
  cbn [of_type filter]. rewrite Hr, String.eqb_refl. f_equal. now apply (IH n).
Qed.

Lemma of_type_app (t : string) (a b : list JS.value) :
  of_type t (a ++ b) = of_type t a ++ of_type t b.
Proof. apply filter_app. Qed.

Lemma resourceType_opt_encounter (st : State) (x : Parts) (s : string) :
  map resourceType (opt_list (option_map (fun id => encounterResource st (ids x) id s)
                                (encounterId (ids x))))
  = repeat "Encounter" (count (is_some (encounterId (ids x)))).
Proof. now destruct (encounterId (ids x)). Qed.

Lemma resourceType_opt_custodian (st : State) (x : Parts) :
  exists n, map resourceType (opt_list (buildCustodianOrg st (ids x))) = repeat "Organization" n.
Proof.
  unfold buildCustodianOrg. destruct (custodianId (ids x)) as [id|]; [|now exists 0].
  destruct (negb (truthy id)); [now exists 0 | now exists 1].
Qed.

Lemma resourceType_opt_immRec (st : State) (x : Parts) :
  exists n, map resourceType (opt_list (buildImmRecResource E st (ids x) (authoredOn x)))
            = repeat "ImmunizationRecommendation" n.
Proof.
  unfold buildImmRecResource. destruct (immRecId (ids x)) as [id|]; [|now exists 0].
  destruct (negb (truthy id)); [now exists 0 | now exists 1].
Qed.

(** The binaries and the document references of a bundle are those of
    the attachment stage, and nothing else has their type. *)
Lemma attachments_of_built (st : State) (p : Patient) (x : Parts) :
  Shape E st p x ->
  of_type "Binary" (resources_of E st p x) = binaries x
  /\ of_type "DocumentReference" (resources_of E st p x) = docRefs x.
Proof.
  intros S. unfold resources_of.
  destruct (shape_encounter E st p x S) as (s & He).
  destruct (shape_immunizations E st p x S) as (occs & Lo & Hi).
  destruct (shape_documents E st p x S) as (cs & Lc & Hb & Hd & _).
  destruct (resourceType_opt_custodian st x) as (nc & Hc).
  destruct (resourceType_opt_immRec st x) as (nr & Hr).
  pose proof (resourceType_opt_encounter st x s) as Het. rewrite <- He in Het.
  pose proof (resourceType_immunizations_from (ids x) 0 (combine (immunizations st) occs)) as Hit.
  rewrite <- Hi in Hit.
  pose proof (resourceType_binaries (ids x) (authoredOn x) 0 cs) as Hbt. rewrite <- Hb in Hbt.
  pose proof (resourceType_docRefs (ids x) (authoredOn x) 0 cs) as Hdt. rewrite <- Hd in Hdt.
  rewrite !of_type_app.
  split.
  - rewrite (of_type_repeat_other _ _ _ _ Het), (of_type_repeat_other _ _ _ _ Hc),
      (of_type_repeat_other _ _ _ _ Hit), (of_type_repeat_other _ _ _ _ Hr),
      (of_type_repeat_other _ _ _ _ Hdt), (of_type_repeat_same _ _ _ Hbt) by discriminate.
    reflexivity.
  - rewrite (of_type_repeat_other _ _ _ _ Het), (of_type_repeat_other _ _ _ _ Hc),
      (of_type_repeat_other _ _ _ _ Hit), (of_type_repeat_other _ _ _ _ Hr),
      (of_type_repeat_other _ _ _ _ Hbt), (of_type_repeat_same _ _ _ Hdt) by discriminate.
    cbn [of_type filter app]. now rewrite app_nil_r.
Qed.

(** C7.  When no file is uploaded, the bundle the immunization builder
    returns holds exactly one Binary and exactly one DocumentReference;
    the binary carries the fixed placeholder payload as a PDF, and the
    document reference points at it. *)
Theorem placeholder_pair (st : State) (b : JS.value) :
  onBuildBundle E st = Built b ->
  files st = [] ->
  exists binary docRef,
    of_type "Binary" (resources b) = [binary]
    /\ of_type "DocumentReference" (resources b) = [docRef]
    /\ get binary "data" = VStr PLACEHOLDER_PDF_B64
    /\ get binary "contentType" = VStr "application/pdf"
    /\ attachment_url docRef = VStr ("urn:uuid:" ^^ id_of binary).
Proof.
  intros H Hf. apply onBuildBundle_Built in H as (_ & p & x & _ & S & Hent).
  apply resources_of_built in Hent. rewrite Hent.
  destruct (attachments_of_built st p x S) as (-> & ->).
  destruct (shape_documents E st p x S) as (cs & Lc & -> & -> & F).
  unfold toProcess in Lc, F. rewrite Hf in Lc, F.
  destruct cs as [|c [|c' cs]]; try discriminate Lc.
  inversion F as [|? ? ? ? Hc _]; subst. rewrite (Hc eq_refl).
  cbn [pairs_from placeholder_content map fst snd].
  do 2 eexists. split; [reflexivity|]. split; [reflexivity|].
  split; [reflexivity|]. split; [reflexivity|]. reflexivity.
Qed.

End AppTheorems.

Lemma placeholder_pair_witness :
  App.files scenario = []
  /\ exists binary docRef,
       Bundle.of_type "Binary" (Bundle.resources (bundle_of sample_env scenario)) = [binary]
       /\ Bundle.of_type "DocumentReference" (Bundle.resources (bundle_of sample_env scenario))
          = [docRef].
Proof.
  split; [reflexivity|].
  assert (H : App.onBuildBundle sample_env scenario = App.Built (bundle_of sample_env scenario))
    by (vm_compute; reflexivity).
  destruct (placeholder_pair sample_env scenario _ H eq_refl)
    as (binary & docRef & H1 & H2 & _).
  exists binary, docRef. split; [exact H1 | exact H2].
Defined.

Lemma section_never_empty_witness :
  exists composition rest,
    Bundle.resources (bundle_of sample_env scenario) = composition :: rest
    /\ Bundle.resourceType composition = "Composition".
Proof.
  assert (H : App.onBuildBundle sample_env scenario = App.Built (bundle_of sample_env scenario))
    by (vm_compute; reflexivity).
  destruct (section_never_empty sample_env scenario _ H)
    as (composition & rest & section & e & es & H1 & H2 & _).
  exists composition, rest. split; [exact H1 | exact H2].
Defined.
(** ** The diagnostic-report builder, step by step *)

Module DiagnosticSteps.
Import JS JSDate Effects Runtime Roster DiagnosticReportForm.
Local Open Scope js_scope.

Section Steps.
Variable E : Env.

Lemma keeps_getISOWithOffsetFromDateInput (dateInput : string) :
  keeps_rand (getISOWithOffsetFromDateInput E dateInput).
Proof.
  unfold getISOWithOffsetFromDateInput.
  apply keeps_bind; [apply keeps_new_Date_now|]. intros now.
  apply keeps_bind.
  - destruct (truthy dateInput); [|apply keeps_ret].
    destruct (test_yyyy_mm_dd dateInput); [apply keeps_ret | apply keeps_new_Date_now].
  - intros d. apply keeps_bind; [apply keeps_toISOString_or_throw | intros; apply keeps_ret].
Qed.

Variable st : State.
Variables compId patientId practitionerId diagId : string.
Variables obsIds specimenIds docIds : list string.

Fixpoint observations_from (i : nat) (rows : list (ResultRow * string)) : list JS.value :=
  match rows with
  | [] => []
  | (r, time) :: rest =>
      observationResource st patientId practitionerId r (at_index obsIds i) time
      :: observations_from (S i) rest
  end.

Fixpoint specimens_from (i : nat) (rows : list (SpecimenRow * string)) : list JS.value :=
  match rows with
  | [] => []
  | (s, time) :: rest =>
      specimenResource st patientId s (at_index specimenIds i) time :: specimens_from (S i) rest
  end.

Fixpoint documents_from (i : nat) (rows : list (Attachment * string)) : list JS.value :=
  match rows with
  | [] => []
  | (att, time) :: rest =>
      documentResource st patientId att (at_index docIds i) time :: documents_from (S i) rest
  end.

Lemma buildObservations_inv (l : list ResultRow) (i : nat) (w w' : World) (rs : list JS.value) :
  App.mapM_indexed (buildObservation E st patientId practitionerId obsIds) l i w = Ok rs w' ->
  rand_pos w' = rand_pos w
  /\ exists times, List.length times = List.length l
                   /\ rs = observations_from i (combine l times).
Proof.
  revert i w w' rs. induction l as [|r l IH]; intros i w w' rs H; cbn [App.mapM_indexed] in H.
  - apply ret_Ok in H as [<- <-]. split; [reflexivity | now exists []].
  - apply bind_Ok in H as (o & w1 & Ho & H).
    apply bind_Ok in H as (rest & w2 & Hrest & H).
    apply ret_Ok in H as [<- <-].
    unfold buildObservation in Ho. apply bind_Ok in Ho as (time & w3 & Ht & Ho).
    apply ret_Ok in Ho as [<- <-].
    assert (R : rand_pos w3 = rand_pos w).
    { destruct (truthy (effectiveDate st));
        now apply keeps_getISOWithOffsetFromDateInput in Ht. }
    apply IH in Hrest as (R2 & times & L & ->).
    split; [congruence|].
    exists (time :: times). split; [cbn [List.length]; now rewrite L | reflexivity].
Qed.

Lemma buildSpecimens_inv (l : list SpecimenRow) (i : nat) (w w' : World) (rs : list JS.value) :
  App.mapM_indexed (buildSpecimen E st patientId specimenIds) l i w = Ok rs w' ->
  rand_pos w' = rand_pos w
  /\ exists times, List.length times = List.length l
                   /\ rs = specimens_from i (combine l times).
Proof.
  revert i w w' rs. induction l as [|r l IH]; intros i w w' rs H; cbn [App.mapM_indexed] in H.
  - apply ret_Ok in H as [<- <-]. split; [reflexivity | now exists []].
  - apply bind_Ok in H as (o & w1 & Ho & H).
    apply bind_Ok in H as (rest & w2 & Hrest & H).
    apply ret_Ok in H as [<- <-].
    unfold buildSpecimen in Ho. apply bind_Ok in Ho as (time & w3 & Ht & Ho).
    apply ret_Ok in Ho as [<- <-].
    apply keeps_getISOWithOffsetFromDateInput in Ht.
    apply IH in Hrest as (R2 & times & L & ->).
    split; [congruence|].
    exists (time :: times). split; [cbn [List.length]; now rewrite L | reflexivity].
Qed.

Lemma buildDocuments_inv (l : list Attachment) (i : nat) (w w' : World) (rs : list JS.value) :
  App.mapM_indexed (buildDocument E st patientId docIds) l i w = Ok rs w' ->
  rand_pos w' = rand_pos w
  /\ exists times, List.length times = List.length l
                   /\ rs = documents_from i (combine l times).
Proof.
  revert i w w' rs. induction l as [|r l IH]; intros i w w' rs H; cbn [App.mapM_indexed] in H.
  - apply ret_Ok in H as [<- <-]. split; [reflexivity | now exists []].
  - apply bind_Ok in H as (o & w1 & Ho & H).
    apply bind_Ok in H as (rest & w2 & Hrest & H).
    apply ret_Ok in H as [<- <-].
    unfold buildDocument in Ho. apply bind_Ok in Ho as (time & w3 & Ht & Ho).
    apply ret_Ok in Ho as [<- <-].
    apply keeps_getISOWithOffsetFromDateInput in Ht.
    apply IH in Hrest as (R2 & times & L & ->).
    split; [congruence|].
    exists (time :: times). split; [cbn [List.length]; now rewrite L | reflexivity].
Qed.

End Steps.

(** The parts of a bundle that [buildBundle] returns. *)
Record Parts : Type := {
  compId : string;
  patientId : string;
  practitionerId : string;
  diagId : string;
  obsIds : list string;
  specimenIds : list string;
  docIds : list string;
  observationTimes : list string;
  specimenTimes : list string;
  documentTimes : list string;
  issued : string
}.

Section Build.
Variable E : Env.
Variable st : State.

Definition observations (x : Parts) : list JS.value :=
  observations_from st (patientId x) (practitionerId x) (obsIds x) 0
    (combine (results st) (observationTimes x)).

Definition specimenResources (x : Parts) : list JS.value :=
  specimens_from st (patientId x) (specimenIds x) 0 (combine (specimens st) (specimenTimes x)).

Definition documents (x : Parts) : list JS.value :=
  documents_from st (patientId x) (docIds x) 0 (combine (attachments st) (documentTimes x)).

Definition docEntries (x : Parts) : list JS.value :=
  map (fun d => VObj [("reference", VStr (urn (get d "id"))); ("type", VStr "DocumentReference")])
      (documents x).

(** The resources of a bundle, in entry order. *)
Definition resources_of (x : Parts) : list JS.value :=
  [compositionResource st (compId x) (patientId x) (practitionerId x) (diagId x) (docEntries x);
   patientResource st (patientId x);
   practitionerResource st (practitionerId x);
   diagnosticReportResource st (patientId x) (practitionerId x) (diagId x)
     (observations x) (specimenResources x) (issued x)]
  ++ observations x ++ specimenResources x ++ documents x.

(** Every resource identifier of a build, in the order they are drawn. *)
Definition all_ids (x : Parts) : list string :=
  [compId x; patientId x; practitionerId x; diagId x] ++ obsIds x ++ specimenIds x ++ docIds x.

Definition resource_count : nat :=
  4 + List.length (results st) + List.length (specimens st) + List.length (attachments st).

(** The four checks [buildBundle] starts with. *)
Definition required_present : bool :=
  truthy (prac_name (practitioner st)) && truthy (license (practitioner st))
  && truthy (name (patient st)) && truthy (mrn (patient st)) && truthy (gender (patient st))
  && truthy (diagCodeText st) && truthy (issuedDate st).

Record Shape (x : Parts) : Prop := {
  shape_ids : all_ids x = drawn E 0 resource_count;
  shape_obsIds : List.length (obsIds x) = List.length (results st);
  shape_specimenIds : List.length (specimenIds x) = List.length (specimens st);
  shape_docIds : List.length (docIds x) = List.length (attachments st);
  shape_observationTimes : List.length (observationTimes x) = List.length (results st);
  shape_specimenTimes : List.length (specimenTimes x) = List.length (specimens st);
  shape_documentTimes : List.length (documentTimes x) = List.length (attachments st)
}.

Ltac step H a w Ha := apply bind_Ok in H as (a & w & Ha & H); cbv beta in H.

Lemma id_compositionResource (c p pr d : string) (de : list JS.value) :
  get (compositionResource st c p pr d de) "id" = VStr c.
Proof. reflexivity. Qed.

Lemma id_patientResource (p : string) : get (patientResource st p) "id" = VStr p.
Proof. reflexivity. Qed.

Lemma id_practitionerResource (pr : string) : get (practitionerResource st pr) "id" = VStr pr.
Proof. reflexivity. Qed.

Lemma id_diagnosticReportResource (p pr d : string) (os ss : list JS.value) (iss : string) :
  get (diagnosticReportResource st p pr d os ss iss) "id" = VStr d.
Proof. reflexivity. Qed.

Lemma buildBundle_inv (b : JS.value) (w : World) :
  buildBundle E st start = Ok b w ->
  required_present = true
  /\ exists x, Shape x
       /\ Bundle.entries b
          = map (fun r => bundleEntry (get r "id") r) (resources_of x).
Proof.
  unfold buildBundle, required_present. intros H.
  destruct (truthy (prac_name (practitioner st))); [|discriminate H].
  destruct (truthy (license (practitioner st))); [|discriminate H].
  destruct (truthy (name (patient st))); [|discriminate H].
  destruct (truthy (mrn (patient st))); [|discriminate H].
  destruct (truthy (gender (patient st))); [|discriminate H].
  destruct (truthy (diagCodeText st)); [|discriminate H].
  destruct (truthy (issuedDate st)); [|discriminate H].
  cbn [negb orb andb] in H |- *. split; [reflexivity|].
  step H c w1 H1. apply uuidv4_inv in H1 as [-> R1].
  step H pid w2 H2. apply uuidv4_inv in H2 as [-> R2].
  step H prid w3 H3. apply uuidv4_inv in H3 as [-> R3].
  step H did w4 H4. apply uuidv4_inv in H4 as [-> R4].
  step H oids w5 H5. apply mapM_uuid_inv in H5 as [-> R5].
  step H sids w6 H6. apply mapM_uuid_inv in H6 as [-> R6].
  step H dids w7 H7. apply mapM_uuid_inv in H7 as [-> R7].
  step H bu w8 H8. step H lu w9 H9. step H iu w10 H10. step H ts w11 H11.
  step H obs w12 H12. apply buildObservations_inv in H12 as (_ & otimes & Lo & ->).
  step H specs w13 H13. apply buildSpecimens_inv in H13 as (_ & stimes & Ls & ->).
  step H docs w14 H14. apply buildDocuments_inv in H14 as (_ & dtimes & Ld & ->).
  step H iss w15 H15. cbv zeta in H.
  apply ret_Ok in H as [<- _].
  exists {| compId := uuid_from E (rand_pos start); patientId := uuid_from E (rand_pos w1);
            practitionerId := uuid_from E (rand_pos w2); diagId := uuid_from E (rand_pos w3);
            obsIds := drawn E (rand_pos w4) (List.length (results st));
            specimenIds := drawn E (rand_pos w5) (List.length (specimens st));
            docIds := drawn E (rand_pos w6) (List.length (attachments st));
            observationTimes := otimes; specimenTimes := stimes; documentTimes := dtimes;
            issued := iss |}.
  split.
  - constructor; cbn [obsIds specimenIds docIds observationTimes specimenTimes documentTimes];
      try assumption; try apply drawn_length.
    unfold all_ids, resource_count.
    cbn [compId patientId practitionerId diagId obsIds specimenIds docIds app].
    change (uuid_from E (rand_pos start) :: uuid_from E (rand_pos w1)
            :: uuid_from E (rand_pos w2) :: uuid_from E (rand_pos w3) :: ?l)
      with ([uuid_from E (rand_pos start)] ++ [uuid_from E (rand_pos w1)]
            ++ [uuid_from E (rand_pos w2)] ++ [uuid_from E (rand_pos w3)] ++ l).
    rewrite !drawn_one. cbn [rand_pos start] in *.
    clear - R1 R2 R3 R4 R5 R6.
    repeat (rewrite drawn_chain by lia). f_equal. lia.
  - unfold Bundle.entries, resources_of, docEntries, observations, specimenResources, documents.
    cbn [get lookup elements String.eqb Ascii.eqb Bool.eqb
         compId patientId practitionerId diagId obsIds specimenIds docIds
         observationTimes specimenTimes documentTimes issued].
    rewrite !map_app. cbn [map].
    rewrite id_compositionResource, id_patientResource, id_practitionerResource,
      id_diagnosticReportResource.
    reflexivity.
Qed.

Lemma handleSubmit_Bundle (b : JS.value) :
  handleSubmit E st = Bundle b ->
  required_present = true
  /\ exists x, Shape x
       /\ Bundle.resources b = resources_of x
       /\ Bundle.entries b = map (fun r => bundleEntry (get r "id") r) (resources_of x).
Proof.
  unfold handleSubmit. destruct (buildBundle E st start) as [b' w|e] eqn:Hb; [|discriminate].
  intros H. injection H as ->. apply buildBundle_inv in Hb as (Hreq & x & S & Hent).
  split; [assumption|]. exists x. split; [exact S|]. split; [|exact Hent].
  unfold Bundle.resources. rewrite Hent, map_map. apply map_id.
Qed.

End Build.
End DiagnosticSteps.
(** ** The order of the entries (C3) *)

Section EntryOrder.
Import JS Bundle.

(** A list made of runs: each type repeated a number of times. *)
Definition runs (blocks : list (string * nat)) : list string :=
  flat_map (fun b => repeat (fst b) (snd b)) blocks.

Lemma Forall_repeat {A} (P : A -> Prop) (a : A) (n : nat) : P a -> Forall P (repeat a n).
Proof. intros H. induction n; cbn [repeat]; now constructor. Qed.

Lemma StronglySorted_repeat_app (a : nat) (n : nat) (l : list nat) :
  Forall (le a) l -> StronglySorted le l -> StronglySorted le (repeat a n ++ l).
Proof.
  intros F S. induction n as [|n IH]; [exact S|].
  cbn [repeat app]. constructor; [exact IH|].
  apply Forall_app. split; [apply Forall_repeat; lia | exact F].
Qed.

(** Runs whose types come in rank order give a list in rank order. *)
Lemma runs_sorted (blocks : list (string * nat)) :
  StronglySorted le (map (fun b => rank (fst b)) blocks) ->
  StronglySorted le (map rank (runs blocks)).
Proof.
  induction blocks as [|[t n] blocks IH]; intros S; [constructor|].
  cbn [map fst] in S. apply StronglySorted_inv in S as [S F].
  unfold runs. cbn [flat_map fst snd]. rewrite map_app, map_repeat.
  apply StronglySorted_repeat_app; [|now apply IH].
  clear IH S. induction blocks as [|[t' n'] blocks IH]; [constructor|].
  cbn [map fst] in F. inversion F as [|? ? Hle F']; subst.
  cbn [flat_map fst snd]. rewrite map_app, map_repeat.
  apply Forall_app. split; [now apply Forall_repeat | now apply IH].
Qed.

End EntryOrder.

Section EntryOrderTheorem.
Import JS Bundle.

Lemma App_types_sorted (st : App.State) :
  StronglySorted le (map rank (types_in_entry_order st)).
Proof.
  replace (types_in_entry_order st)
    with (runs [("Composition", 1); ("Patient", 1); ("Practitioner", 1);
                ("Encounter", count (truthy (App.encounterText st)));
                ("Organization", count (truthy (App.custodianName st)));
                ("Immunization", List.length (App.immunizations st));
                ("ImmunizationRecommendation", count (truthy (App.immRecText st)));
                ("DocumentReference", List.length (App.toProcess st));
                ("Binary", List.length (App.toProcess st))])
    by (unfold runs, types_in_entry_order; cbn [flat_map fst snd repeat app];
        now rewrite app_nil_r).
  apply runs_sorted. cbn. repeat constructor; lia.
Qed.

Lemma immunizations_of_built (E : JSDate.Env) (st : App.State) (p : Roster.Patient) (x : Parts) :
  Shape E st p x ->
  of_type "Immunization" (resources_of E st p x) = immunizationResources x.
Proof.
  intros S. unfold resources_of.
  destruct (shape_encounter E st p x S) as (s & He).
  destruct (shape_immunizations E st p x S) as (occs & Lo & Hi).
  destruct (shape_documents E st p x S) as (cs & Lc & Hb & Hd & _).
  destruct (resourceType_opt_custodian st x) as (nc & Hc).
  destruct (resourceType_opt_immRec E st x) as (nr & Hr).
  pose proof (resourceType_opt_encounter st x s) as Het. rewrite <- He in Het.
  pose proof (resourceType_immunizations_from (ids x) 0
                (combine (App.immunizations st) occs)) as Hit.
  rewrite <- Hi in Hit.
  pose proof (resourceType_binaries (ids x) (authoredOn x) 0 cs) as Hbt. rewrite <- Hb in Hbt.
  pose proof (resourceType_docRefs (ids x) (authoredOn x) 0 cs) as Hdt. rewrite <- Hd in Hdt.
  rewrite !of_type_app.
  rewrite (of_type_repeat_other _ _ _ _ Het), (of_type_repeat_other _ _ _ _ Hc),
    (of_type_repeat_same _ _ _ Hit), (of_type_repeat_other _ _ _ _ Hr),
    (of_type_repeat_other _ _ _ _ Hdt), (of_type_repeat_other _ _ _ _ Hbt) by discriminate.
  cbn [of_type filter app]. now rewrite !app_nil_r.
Qed.

Import DiagnosticReportForm DiagnosticSteps.

(** The types of the resources of the diagnostic-report bundle. *)
Definition diagnostic_types (st : State) : list string :=
  ["Composition"; "Patient"; "Practitioner"; "DiagnosticReport"]
  ++ repeat "Observation" (List.length (results st))
  ++ repeat "Specimen" (List.length (specimens st))
  ++ repeat "DocumentReference" (List.length (attachments st)).

Lemma diagnostic_types_sorted (st : State) :
  StronglySorted le (map rank (diagnostic_types st)).
Proof.
  replace (diagnostic_types st)
    with (runs [("Composition", 1); ("Patient", 1); ("Practitioner", 1);
                ("DiagnosticReport", 1);
                ("Observation", List.length (results st));
                ("Specimen", List.length (specimens st));
                ("DocumentReference", List.length (attachments st))])
    by (unfold runs, diagnostic_types; cbn [flat_map fst snd repeat app];
        now rewrite app_nil_r).
  apply runs_sorted. cbn. repeat constructor; lia.
Qed.

Section Rows.
Variable st : State.
Variables p pr : string.
Variable idl : list string.

Lemma resourceType_observations_from (i : nat) (rows : list (ResultRow * string)) :
  map resourceType (observations_from st p pr idl i rows)
  = repeat "Observation" (List.length rows).
Proof.
  revert i. induction rows as [|[r t] rows IH]; intros i; [reflexivity|].
  cbn [observations_from map List.length repeat]. now rewrite IH.
Qed.

Lemma resourceType_specimens_from (i : nat) (rows : list (SpecimenRow * string)) :
  map resourceType (specimens_from st p idl i rows) = repeat "Specimen" (List.length rows).
Proof.
  revert i. induction rows as [|[r t] rows IH]; intros i; [reflexivity|].
  cbn [specimens_from map List.length repeat]. now rewrite IH.
Qed.

Lemma resourceType_documents_from (i : nat) (rows : list (Attachment * string)) :
  map resourceType (documents_from st p idl i rows)
  = repeat "DocumentReference" (List.length rows).
Proof.
  revert i. induction rows as [|[r t] rows IH]; intros i; [reflexivity|].
  cbn [documents_from map List.length repeat]. now rewrite IH.
Qed.

(** What an observation, a specimen and a document reference say of
    the row they come from. *)
Definition code_text (r : JS.value) : JS.value := get (get r "code") "text".
Definition attachment_title (r : JS.value) : JS.value :=
  match get r "content" with
  | VArr [content] => get (get content "attachment") "title"
  | _ => VUndef
  end.

Lemma code_text_codeOf (snomed text : string) : get (codeOf snomed text) "text" = VStr text.
Proof. unfold codeOf. now destruct (truthy snomed && truthy (trim snomed)). Qed.

Lemma code_text_observations_from (i : nat) (l : list ResultRow) (times : list string) :
  List.length times = List.length l ->
  map code_text (observations_from st p pr idl i (combine l times))
  = map (fun r => VStr (codeText r)) l.
Proof.
  revert i times. induction l as [|r l IH]; intros i [|t ts] L; try discriminate L;
    [reflexivity|].
  cbn [combine observations_from map]. rewrite IH by (cbn [List.length] in L; lia).
  f_equal. unfold code_text, observationResource.
  cbn [get lookup String.eqb Ascii.eqb Bool.eqb]. apply code_text_codeOf.
Qed.

Lemma attachment_title_documents_from (i : nat) (l : list Attachment) (times : list string) :
  List.length times = List.length l ->
  map attachment_title (documents_from st p idl i (combine l times))
  = map (fun a => VStr (att_name a)) l.
Proof.
  revert i times. induction l as [|r l IH]; intros i [|t ts] L; try discriminate L;
    [reflexivity|].
  cbn [combine documents_from map]. rewrite IH by (cbn [List.length] in L; lia).
  reflexivity.
Qed.

End Rows.

Lemma diagnostic_resourceType_resources (E : JSDate.Env) (st : State) (x : Parts) :
  DiagnosticSteps.Shape E st x ->
  map resourceType (DiagnosticSteps.resources_of st x) = diagnostic_types st.
Proof.
  intros S. unfold DiagnosticSteps.resources_of, diagnostic_types, observations,
    specimenResources, documents.
  rewrite !map_app, resourceType_observations_from, resourceType_specimens_from,
    resourceType_documents_from, !length_combine.
  rewrite (shape_observationTimes E st x S), (shape_specimenTimes E st x S),
    (shape_documentTimes E st x S), !Nat.min_id.
  reflexivity.
Qed.

Lemma diagnostic_rows_of_built (E : JSDate.Env) (st : State) (x : Parts) :
  DiagnosticSteps.Shape E st x ->
  of_type "Observation" (DiagnosticSteps.resources_of st x) = observations st x
  /\ of_type "DocumentReference" (DiagnosticSteps.resources_of st x) = documents st x.
Proof.
  intros S. unfold DiagnosticSteps.resources_of.
  pose proof (resourceType_observations_from st (patientId x) (practitionerId x) (obsIds x) 0
                (combine (results st) (observationTimes x))) as Ho.
  pose proof (resourceType_specimens_from st (patientId x) (specimenIds x) 0
                (combine (specimens st) (specimenTimes x))) as Hs.
  pose proof (resourceType_documents_from st (patientId x) (docIds x) 0
                (combine (attachments st) (documentTimes x))) as Hd.
  fold (observations st x) in Ho. fold (specimenResources st x) in Hs.
  fold (documents st x) in Hd.
  rewrite !of_type_app. split.
  - rewrite (of_type_repeat_same _ _ _ Ho), (of_type_repeat_other _ _ _ _ Hs),
      (of_type_repeat_other _ _ _ _ Hd) by discriminate.
    cbn [of_type filter app]. now rewrite app_nil_r.
  - rewrite (of_type_repeat_other _ _ _ _ Ho), (of_type_repeat_other _ _ _ _ Hs),
      (of_type_repeat_same _ _ _ Hd) by discriminate.
    reflexivity.
Qed.

(** C3.  The entries of every bundle come in one fixed order.  In the
    immunization bundle: composition, patient, practitioner, then the
    encounter and the custodian organization when their text is given, the
    immunizations in the order of the rows, the recommendation when its
    text is given, the document references and last the binaries.  In the
    diagnostic-report bundle: composition, patient, practitioner, the
    diagnostic report, then the observations in the order of the result
    rows, the specimens and the document references in the order of the
    attachments.  Both orders follow the ranks of [Bundle.rank]. *)
Theorem entry_order :
  (forall E st b, App.onBuildBundle E st = App.Built b ->
     map resourceType (resources b) = types_in_entry_order st
     /\ StronglySorted le (map rank (map resourceType (resources b)))
     /\ map vaccine_of (of_type "Immunization" (resources b))
        = map (fun m => VStr (or_else (App.vaccineText m) "Unknown vaccine"))
            (App.immunizations st))
  /\ (forall E st b, handleSubmit E st = Bundle b ->
        map resourceType (resources b) = diagnostic_types st
        /\ StronglySorted le (map rank (map resourceType (resources b)))
        /\ map code_text (of_type "Observation" (resources b))
           = map (fun r => VStr (codeText r)) (results st)
        /\ map attachment_title (of_type "DocumentReference" (resources b))
           = map (fun a => VStr (att_name a)) (attachments st)).
Proof.
  split.
  - intros E st b H. apply onBuildBundle_Built in H as (_ & p & x & _ & S & Hent).
    apply resources_of_built in Hent. rewrite Hent.
    rewrite (resourceType_resources E st p x S). split; [reflexivity|].
    split; [apply App_types_sorted|].
    rewrite (immunizations_of_built E st p x S). now apply immunizations_in_row_order with (E := E) (p := p).
  - intros E st b H. apply handleSubmit_Bundle in H as (_ & x & S & Hres & _).
    rewrite Hres, (diagnostic_resourceType_resources E st x S).
    split; [reflexivity|]. split; [apply diagnostic_types_sorted|].
    destruct (diagnostic_rows_of_built E st x S) as (-> & ->).
    split.
    + apply code_text_observations_from. apply (shape_observationTimes E st x S).
    + apply attachment_title_documents_from. apply (shape_documentTimes E st x S).
Qed.

End EntryOrderTheorem.
(** ** The gate before a build (C2) *)

Section Gate.
Import JS JSDate Effects Runtime Roster.

Lemma truthy_trim (s : string) :
  truthy s && truthy (trim s) = truthy (trim s).
Proof. destruct s; [reflexivity|]. now rewrite truthy_cons. Qed.

(** A text that is empty once trimmed. *)
Definition blank (s : string) : Prop := trim s = EmptyString.

Lemma truthy_trim_false (s : string) : truthy (trim s) = false <-> blank s.
Proof. apply truthy_false_iff. Qed.

Section AppGate.
Import App.
Variable E : Env.
Variable st : State.

Definition no_patient : Prop := selectedPatient st = None.
Definition no_status : Prop := status st = EmptyString.
Definition no_title : Prop := blank (title st).
Definition no_content : Prop :=
  Forall (fun i => blank (vaccineText i)) (immunizations st)
  /\ blank (immRecText st) /\ files st = [].

Lemma hasImms_false : hasImms st = false <-> Forall (fun i => blank (vaccineText i)) (immunizations st).
Proof.
  unfold hasImms. split.
  - intros H. apply Forall_forall. intros i Hi. apply truthy_trim_false.
    destruct (truthy (trim (vaccineText i))) eqn:T; [|reflexivity].
    assert (X : existsb (fun i => truthy (vaccineText i) && truthy (trim (vaccineText i)))
                  (immunizations st) = true).
    { apply existsb_exists. exists i. split; [assumption|]. now rewrite truthy_trim. }
    rewrite X, andb_true_r in H. destruct (immunizations st); [destruct Hi | discriminate H].
  - intros F. apply andb_false_iff. right.
    destruct (existsb _ (immunizations st)) eqn:X; [|reflexivity].
    apply existsb_exists in X as (i & Hi & T). rewrite truthy_trim in T.
    rewrite Forall_forall in F. apply F in Hi. apply truthy_trim_false in Hi. congruence.
Qed.

Lemma hasImmRec_false : hasImmRec st = false <-> blank (immRecText st).
Proof. unfold hasImmRec. rewrite truthy_trim. apply truthy_trim_false. Qed.

Lemma hasDocs_false : hasDocs st = false <-> files st = [].
Proof. unfold hasDocs. destruct (files st); cbn; split; congruence. Qed.

Lemma content_false : hasImms st || hasImmRec st || hasDocs st = false <-> no_content.
Proof.
  unfold no_content. rewrite !orb_false_iff, hasImms_false, hasImmRec_false, hasDocs_false.
  tauto.
Qed.

Lemma title_false :
  negb (truthy (title st)) || negb (truthy (trim (title st))) = true <-> no_title.
Proof.
  unfold no_title. rewrite <- truthy_trim_false.
  destruct (title st); [cbn; tauto|]. rewrite truthy_cons. cbn [negb orb].
  now rewrite negb_true_iff.
Qed.

Definition msg_patient : string := "Select a patient (required).".
Definition msg_status : string := "Status is required.".
Definition msg_title : string := "Title is required.".
Definition msg_content : string :=
  "Add at least one immunization, or an immunization recommendation, or upload at least one document.".

(** Each message is reported exactly when its condition is violated. *)
Lemma validateBeforeBuild_messages :
  (In msg_patient (validateBeforeBuild st) <-> no_patient)
  /\ (In msg_status (validateBeforeBuild st) <-> no_status)
  /\ (In msg_title (validateBeforeBuild st) <-> no_title)
  /\ (In msg_content (validateBeforeBuild st) <-> no_content)
  /\ (forall m, In m (validateBeforeBuild st) ->
        m = msg_patient \/ m = msg_status \/ m = msg_title \/ m = msg_content).
Proof.
  unfold validateBeforeBuild. rewrite <- content_false, <- title_false.
  unfold no_patient, no_status. rewrite <- (truthy_false_iff (status st)).
  destruct (selectedPatient st), (truthy (status st)),
    (negb (truthy (title st)) || negb (truthy (trim (title st)))),
    (hasImms st || hasImmRec st || hasDocs st);
    cbn [negb app In]; unfold msg_patient, msg_status, msg_title, msg_content;
    repeat split; intros; try discriminate; try tauto;
    repeat match goal with
           | H : _ \/ _ |- _ => destruct H
           | H : False |- _ => destruct H
           | H : ?a = ?b |- _ => first [discriminate H | subst]
           end; tauto.
Qed.

Lemma validateBeforeBuild_nil :
  validateBeforeBuild st = []
  <-> ~ no_patient /\ ~ no_status /\ ~ no_title /\ ~ no_content.
Proof.
  destruct validateBeforeBuild_messages as (P & S & T & C & Only).
  split.
  - intros H. rewrite H in P, S, T, C. cbn [In] in *. tauto.
  - intros (NP & NS & NT & NC).
    destruct (validateBeforeBuild st) as [|m l] eqn:Hv; [reflexivity|].
    exfalso.
    destruct (Only m (or_introl eq_refl)) as [-> | [-> | [-> | ->]]];
      [apply NP, P | apply NS, S | apply NT, T | apply NC, C]; now left.
Qed.


(** *** A build that passes the gate goes through *)

Definition files_readable : Prop := Forall (fun f => f_result f <> None) (files st).

Definition occurrences_parse : Prop :=
  Forall (fun m => includes (occurrenceDate m) "T" = true ->
                   Date_parse E (occurrenceDate m) <> None) (immunizations st).

Lemma total_toISOString_or_throw (t : Z) : total (toISOString_or_throw (Some t)).
Proof. unfold toISOString_or_throw, toISOString. apply total_ret. Qed.

Lemma total_now_toISOString : total (now_toISOString E).
Proof.
  intros w. unfold now_toISOString, bind, new_Date_now.
  apply total_toISOString_or_throw.
Qed.

Lemma total_occurrence (m : Immunization) :
  (includes (occurrenceDate m) "T" = true -> Date_parse E (occurrenceDate m) <> None) ->
  total (occurrence E m).
Proof.
  intros H. unfold occurrence.
  destruct (truthy (occurrenceDate m)); [|apply total_now_toISOString].
  destruct (includes (occurrenceDate m) "T").
  - unfold new_Date. destruct (Date_parse E (occurrenceDate m)) as [t|];
      [apply total_toISOString_or_throw | now destruct H].
  - destruct (ddmmyyyyToISO (occurrenceDate m)) as [s|]; [|apply total_now_toISOString].
    destruct (truthy s); [apply total_ret | apply total_now_toISOString].
Qed.

Lemma total_contentOf (f : option File) :
  (forall f', f = Some f' -> f_result f' <> None) -> total (contentOf f).
Proof.
  intros H. unfold contentOf. destruct f as [f|]; [|apply total_ret].
  apply total_bind; [|intros; apply total_ret].
  unfold fileToBase64NoPrefix. destruct (f_result f) as [res|] eqn:R.
  - destruct (indexOf res "base64,"); apply total_ret.
  - now destruct (H f eq_refl).
Qed.

Lemma total_docLoop (ids : Ids) (a : string) (fs : list (option File)) (i : nat) :
  (forall f', In (Some f') fs -> f_result f' <> None) -> total (docLoop ids a fs i).
Proof.
  revert i. induction fs as [|f fs IH]; intros i H; cbn [docLoop].
  - apply total_ret.
  - apply total_bind.
    + apply total_contentOf. intros f' ->. apply H. now left.
    + intros [[ct d] t]. apply total_bind; [|intros; apply total_ret].
      apply IH. intros f' Hf. apply H. now right.
Qed.

Lemma selectedPractitioner_some : exists pr, selectedPractitioner st = Some pr.
Proof.
  unfold selectedPractitioner.
  destruct (practitioner_at (selectedPractitionerIdx st)) as [pr|]; [now exists pr|].
  now eexists.
Qed.

Lemma total_build (p : Patient) : files_readable -> occurrences_parse -> total (build E st p).
Proof.
  intros Hf Ho. unfold build.
  apply total_bind; [apply total_localDatetimeToISOWithOffset|]. intros a.
  do 3 (apply total_bind; [apply total_uuidv4|]; intros ?).
  do 2 (apply total_bind; [apply total_uuid_if|]; intros ?).
  apply total_bind; [apply total_mapM; intros; apply total_uuidv4|]. intros ?.
  apply total_bind; [apply total_uuid_if|]. intros ?.
  do 2 (apply total_bind; [apply total_mapM; intros; apply total_uuidv4|]; intros ?).
  cbv zeta. destruct selectedPractitioner_some as (pr & ->).
  apply total_bind; [apply total_ret|]. intros ?.
  apply total_bind.
  { unfold buildEncounterResource. cbn [encounterId].
    match goal with |- total (match ?o with _ => _ end) => destruct o as [id|] end;
      [|apply total_ret].
    destruct (negb (truthy id)); [apply total_ret|].
    apply total_bind; [apply total_new_Date_now | intros; apply total_ret]. }
  intros ?. apply total_bind.
  { unfold buildImmunizationResources. apply total_mapM_indexed. intros m j Hm.
    unfold buildImmunization. apply total_bind; [|intros; apply total_ret].
    apply total_occurrence. unfold occurrences_parse in Ho. rewrite Forall_forall in Ho.
    now apply Ho. }
  intros ?. apply total_bind.
  { unfold buildDocAndBinaryResources. apply total_docLoop. intros f' Hin.
    unfold files_readable in Hf. rewrite Forall_forall in Hf. apply Hf.
    unfold toProcess in Hin. destruct (files st) as [|f0 fs0] eqn:Hfs.
    - destruct Hin as [Hin|[]]. discriminate Hin.
    - apply in_map_iff in Hin as (f'' & Heq & Hin). now injection Heq as <-. }
  intros [bins drs].
  apply total_bind; [apply total_uuidv4|]. intros ?.
  apply total_bind; [apply total_new_Date_now|]. intros ?.
  apply total_bind; [apply total_uuidv4|]. intros ?.
  apply total_bind; [apply total_new_Date_now|]. intros ?.
  apply total_ret.
Qed.


End AppGate.

Section DiagGate.
Import DiagnosticReportForm DiagnosticSteps.
Variable E : Env.
Variable st : State.


Definition practitioner_present : bool :=
  truthy (prac_name (practitioner st)) && truthy (license (practitioner st)).
Definition patient_present : bool :=
  truthy (name (patient st)) && truthy (mrn (patient st)) && truthy (gender (patient st)).


(** *** The only failure left after the four checks *)









Lemma total_getISOWithOffsetFromDateInput (s : string) :
  (forall text, Date_parse E text <> None) -> total (getISOWithOffsetFromDateInput E s).
Proof.
  intros Hp w. unfold getISOWithOffsetFromDateInput, bind, new_Date_now.
  destruct (truthy s); [destruct (test_yyyy_mm_dd s)|].
  - unfold ret at 1, new_Date.
    match goal with |- context [Date_parse E ?t] =>
      destruct (Date_parse E t) as [z|] eqn:P; [|now destruct (Hp t)] end.
    unfold App.toISOString_or_throw, toISOString, ret. eauto.
  - unfold App.toISOString_or_throw, toISOString, ret. eauto.
  - unfold App.toISOString_or_throw, toISOString, ret. eauto.
Qed.

Lemma total_buildBundle :
  required_present st = true -> (forall text, Date_parse E text <> None) ->
  total (buildBundle E st).
Proof.
  intros Hr Hp. unfold required_present in Hr.
  repeat (apply andb_true_iff in Hr as [Hr ?]).
  unfold buildBundle.
  repeat match goal with H : truthy _ = true |- _ => rewrite H; clear H end.
  cbn [negb orb].
  do 4 (apply total_bind; [apply total_uuidv4|]; intros ?).
  do 3 (apply total_bind; [apply total_mapM; intros; apply total_uuidv4|]; intros ?).
  apply total_bind; [apply total_uuidv4|]. intros ?.
  apply total_bind; [now apply total_getISOWithOffsetFromDateInput|]. intros ?.
  apply total_bind; [apply total_uuidv4|]. intros ?.
  apply total_bind; [now apply total_getISOWithOffsetFromDateInput|]. intros ?.
  apply total_bind.
  { apply total_mapM_indexed. intros r j _. unfold buildObservation.
    apply total_bind; [|intros; apply total_ret].
    destruct (truthy (effectiveDate st)); now apply total_getISOWithOffsetFromDateInput. }
  intros ?. apply total_bind.
  { apply total_mapM_indexed. intros r j _. unfold buildSpecimen.
    apply total_bind; [|intros; apply total_ret].
    now apply total_getISOWithOffsetFromDateInput. }
  intros ?. apply total_bind.
  { apply total_mapM_indexed. intros r j _. unfold buildDocument.
    apply total_bind; [|intros; apply total_ret].
    now apply total_getISOWithOffsetFromDateInput. }
  intros ?. apply total_bind; [now apply total_getISOWithOffsetFromDateInput|]. intros ?.
  apply total_ret.
Qed.


Lemma required_present_split :
  required_present st = practitioner_present && patient_present
                        && truthy (diagCodeText st) && truthy (issuedDate st).
Proof.
  unfold required_present, practitioner_present, patient_present.
  now rewrite !andb_assoc.
Qed.


Lemma handleSubmit_Bundle_of_checks :
  required_present st = true -> (forall text, Date_parse E text <> None) ->
  exists b, handleSubmit E st = Bundle b.
Proof.
  intros Hr Hp. unfold handleSubmit.
  destruct (total_buildBundle Hr Hp start) as (b & w & ->). now exists b.
Qed.

End DiagGate.
End Gate.
(** A diagnostic-report form filled in but for its title. *)
Definition lab_state : DiagnosticReportForm.State :=
  {| DiagnosticReportForm.practitioner :=
       {| DiagnosticReportForm.prac_id := "prac-1";
          DiagnosticReportForm.prac_name := "Dr. ABC";
          DiagnosticReportForm.license := "LIC-TEMP-0001" |};
     DiagnosticReportForm.patient := DiagnosticReportForm.patientFormOf asha;
     DiagnosticReportForm.title := EmptyString;
     DiagnosticReportForm.diagStatus := EmptyString;
     DiagnosticReportForm.diagCategory := "LAB";
     DiagnosticReportForm.diagCodeText := "Complete blood count";
     DiagnosticReportForm.diagCodeSNOMED := EmptyString;
     DiagnosticReportForm.issuedDate := "2025-01-01";
     DiagnosticReportForm.effectiveDate := EmptyString;
     DiagnosticReportForm.results :=
       [{| DiagnosticReportForm.res_id := "r1"; DiagnosticReportForm.codeText := "Hemoglobin";
           DiagnosticReportForm.codeSnomed := EmptyString;
           DiagnosticReportForm.res_value := "13.5 g/dL" |}];
     DiagnosticReportForm.specimens :=
       [{| DiagnosticReportForm.spec_id := "s1";
           DiagnosticReportForm.typeText := "Blood sample" |}];
     DiagnosticReportForm.attachments := [] |}.




Definition lab_bundle_of (E : JSDate.Env) (st : DiagnosticReportForm.State) : JS.value :=
  match DiagnosticReportForm.handleSubmit E st with
  | DiagnosticReportForm.Bundle b => b
  | DiagnosticReportForm.ErrorMsg _ => JS.VUndef
  end.



(** ** Gender normalization (C6) *)

Section Gender.
Import JS Bundle DiagnosticReportForm DiagnosticSteps.

Definition first_is (c lower upper : ascii) : bool := (c =? lower)%char || (c =? upper)%char.

Lemma startsWith_lower (c : ascii) (r : string) (letter upper : ascii) :
  lowerChar upper = letter -> lowerChar letter = letter ->
  (forall d, lowerChar d = letter -> d = letter \/ d = upper) ->
  startsWith (toLowerCase (String c r)) (String letter EmptyString) = first_is c letter upper.
Proof.
  intros Hu Hl Hinv. unfold startsWith, first_is. cbn [toLowerCase String.prefix].
  destruct (ascii_dec letter (lowerChar c)) as [e|n].
  - symmetry in e. destruct (Hinv c e) as [->| ->].
    + rewrite Ascii.eqb_refl. now destruct r.
    + rewrite (Ascii.eqb_refl upper), orb_true_r. now destruct r.
  - symmetry. apply orb_false_iff. split; apply Ascii.eqb_neq; intros ->; congruence.
Qed.

Lemma lowerChar_inv (letter upper d : ascii) :
  (letter = "m" /\ upper = "M" \/ letter = "f" /\ upper = "F" \/ letter = "o" /\ upper = "O")%char ->
  lowerChar d = letter -> d = letter \/ d = upper.
Proof.
  intros [[-> ->]|[[-> ->]|[-> ->]]];
    destruct d as [[] [] [] [] [] [] [] []]; vm_compute; intros H;
    first [discriminate H | now left | now right].
Qed.

(** [mapGender] looks at the first character only, whatever its case. *)
Lemma mapGender_first_letter (c : ascii) (r : string) :
  mapGender (String c r) =
  if first_is c "m" "M" then "male"
  else if first_is c "f" "F" then "female"
  else if first_is c "o" "O" then "other"
  else "unknown".
Proof.
  unfold mapGender. rewrite truthy_cons. cbn [negb].
  rewrite (startsWith_lower c r "m" "M"), (startsWith_lower c r "f" "F"),
    (startsWith_lower c r "o" "O");
    try reflexivity; intros d; apply lowerChar_inv; tauto.
Qed.

Definition gender_codes : list string := ["male"; "female"; "other"; "unknown"].

Lemma mapGender_closed (g : string) : g <> EmptyString -> In (mapGender g) gender_codes.
Proof.
  destruct g as [|c r]; [congruence|]. intros _. rewrite mapGender_first_letter.
  unfold gender_codes.
  destruct (first_is c "m" "M"); [now left|].
  destruct (first_is c "f" "F"); [right; now left|].
  destruct (first_is c "o" "O"); [do 2 right; now left | do 3 right; now left].
Qed.

(** The patient of the diagnostic-report bundle carries the gender of
    the form as it is. *)
Lemma patient_gender_of_bundle (E : JSDate.Env) (st : State) (b : JS.value) :
  handleSubmit E st = Bundle b ->
  exists r, nth_error (resources b) 1 = Some r
            /\ resourceType r = "Patient"
            /\ get r "gender" = VStr (gender (patient st)).
Proof.
  intros H. apply handleSubmit_Bundle in H as (_ & x & _ & -> & _).
  exists (patientResource st (patientId x)). repeat split.
Qed.

(** A missing gender is mapped to the empty text, which is none of the
    four codes. *)
Lemma mapGender_of_empty_is_no_code :
  mapGender EmptyString = EmptyString /\ ~ In (mapGender EmptyString) gender_codes.
Proof.
  split; [reflexivity|]. cbn. intros [H|[H|[H|[H|[]]]]]; discriminate H.
Qed.

(** [mapGender] maps the empty text to the empty text, and every other
    text by its first character, whatever its case: m to male, f to
    female, o to other, anything else to unknown.  The form stores the
    mapped gender of the selected roster entry, and the diagnostic-report
    bundle carries the gender of the form in its Patient resource; so a
    roster gender F comes out as female there. *)
Lemma gender_normalization :
  mapGender EmptyString = EmptyString
  /\ (forall c r,
        mapGender (String c r) =
        if first_is c "m" "M" then "male"
        else if first_is c "f" "F" then "female"
        else if first_is c "o" "O" then "other"
        else "unknown")
  /\ (forall g, g <> EmptyString -> In (mapGender g) gender_codes)
  /\ (forall p, gender (patientFormOf p) = mapGender (Roster.p_gender p))
  /\ (forall E p st b,
        patient st = patientFormOf p -> Roster.p_gender p = "F" ->
        handleSubmit E st = Bundle b ->
        exists r, nth_error (resources b) 1 = Some r
                  /\ resourceType r = "Patient" /\ get r "gender" = VStr "female").
Proof.
  split; [reflexivity|]. split; [exact mapGender_first_letter|].
  split; [exact mapGender_closed|]. split; [reflexivity|].
  intros E p st b Hp Hg H.
  destruct (patient_gender_of_bundle E st b H) as (r & H1 & H2 & H3).
  exists r. repeat split; try assumption.
  rewrite H3, Hp. cbn [gender patientFormOf]. now rewrite Hg.
Qed.

(** The immunization builder only lower-cases the gender of the roster. *)
Lemma App_patient_gender (st : App.State) (ids : App.Ids) (p : Roster.Patient) :
  get (App.buildPatientResource st ids p) "gender"
  = if truthy (Roster.p_gender p) then VStr (toLowerCase (Roster.p_gender p)) else VUndef.
Proof. reflexivity. Qed.

End Gender.

(** C6.  The subject builder of the immunization form only lower-cases
    the gender of the selected roster entry.  The entry of the opening
    form has gender F: the Patient resource of the bundle built from it
    has gender f, where [mapGender] of the diagnostic-report form gives
    female for the same entry. *)
Theorem buildPatientResource_lower_cases_gender :
  App.selectedPatient scenario = Some asha
  /\ Roster.p_gender asha = "F"
  /\ DiagnosticReportForm.mapGender (Roster.p_gender asha) = "female"
  /\ App.onBuildBundle sample_env scenario = App.Built (bundle_of sample_env scenario)
  /\ (exists r, nth_error (Bundle.resources (bundle_of sample_env scenario)) 1 = Some r
                /\ Bundle.resourceType r = "Patient"
                /\ JS.get r "gender" = JS.VStr "f")
  /\ (forall st ids p,
        JS.get (App.buildPatientResource st ids p) "gender"
        = if JS.truthy (Roster.p_gender p)
          then JS.VStr (JS.toLowerCase (Roster.p_gender p)) else JS.VUndef).
Proof.
  split; [reflexivity|]. split; [reflexivity|]. split; [reflexivity|].
  split; [vm_compute; reflexivity|].
  split; [|reflexivity].
  exists (nth 1 (Bundle.resources (bundle_of sample_env scenario)) JS.VUndef).
  split; [vm_compute; reflexivity|]. split; vm_compute; reflexivity.
Qed.

Lemma gender_normalization_witness :
  exists r, nth_error (Bundle.resources (lab_bundle_of sample_env lab_state)) 1 = Some r
            /\ JS.get r "gender" = JS.VStr "female".
Proof.
  assert (H : DiagnosticReportForm.handleSubmit sample_env lab_state
              = DiagnosticReportForm.Bundle (lab_bundle_of sample_env lab_state))
    by (vm_compute; reflexivity).
  destruct (proj2 (proj2 (proj2 (proj2 gender_normalization)))
              sample_env asha lab_state _ eq_refl eq_refl H) as (r & H1 & _ & H3).
  exists r. split; [exact H1 | exact H3].
Defined.
(** ** Address normalization (C8) *)

Section Addresses.
Import JS Roster App.
Local Open Scope Z_scope.

Variable E : JSDate.Env.

Let lc := JSDate.localeCompare E.

(** What is asked of [localeCompare]: it is a consistent comparison. *)
Definition consistent_localeCompare : Prop :=
  (forall a b, lc a b < 0 <-> 0 < lc b a)
  /\ (forall a b c, lc a b <= 0 -> lc b c <= 0 -> lc a c <= 0).

Definition before (a b : AbhaOption) : Prop := compareAbha E a b <= 0.

Lemma compareAbha_cases (a b : AbhaOption) :
  compareAbha E a b =
  match primary a, primary b with
  | true, false => -1
  | false, true => 1
  | _, _ => lc (value a) (value b)
  end.
Proof. unfold compareAbha. now destruct (primary a), (primary b). Qed.

Hypothesis consistent : consistent_localeCompare.

Lemma compareAbha_antisym (a b : AbhaOption) :
  compareAbha E a b < 0 <-> 0 < compareAbha E b a.
Proof.
  destruct consistent as [A _]. rewrite !compareAbha_cases.
  destruct (primary a), (primary b); try apply A; lia.
Qed.

Lemma before_trans (a b c : AbhaOption) : before a b -> before b c -> before a c.
Proof.
  destruct consistent as [_ T]. unfold before. rewrite !compareAbha_cases.
  destruct (primary a), (primary b), (primary c); try lia; apply T.
Qed.

Lemma before_total (a b : AbhaOption) : ~ compareAbha E a b < 0 -> before b a.
Proof.
  intros H. unfold before.
  destruct (Z.lt_trichotomy (compareAbha E b a) 0) as [L|[L|L]]; try lia.
  exfalso. apply H. apply compareAbha_antisym. lia.
Qed.

Lemma insert_In (x y : AbhaOption) (l : list AbhaOption) :
  In y (insert E x l) -> y = x \/ In y l.
Proof.
  induction l as [|z l IH]; cbn [insert]; [intros [<-|[]]; now left|].
  destruct (compareAbha E x z <? 0).
  - intros [<-|H]; [now left | now right].
  - intros [<-|H]; [right; now left|]. destruct (IH H); [now left | right; now right].
Qed.

Lemma insert_sorted (x : AbhaOption) (l : list AbhaOption) :
  StronglySorted before l -> StronglySorted before (insert E x l).
Proof.
  induction l as [|y l IH]; intros S; cbn [insert].
  - repeat constructor.
  - apply StronglySorted_inv in S as [S F].
    destruct (compareAbha E x y <? 0) eqn:C.
    + apply Z.ltb_lt in C. constructor; [now constructor|].
      assert (B : before x y) by (unfold before; lia).
      constructor; [exact B|]. apply Forall_forall. intros z Hz.
      rewrite Forall_forall in F. apply (before_trans x y z B). now apply F.
    + apply Z.ltb_ge in C. constructor; [now apply IH|].
      apply Forall_forall. intros z Hz. apply insert_In in Hz as [->|Hz].
      * apply before_total. lia.
      * rewrite Forall_forall in F. now apply F.
Qed.

Lemma fold_insert_sorted (l acc : list AbhaOption) :
  StronglySorted before acc ->
  StronglySorted before (fold_left (fun acc x => insert E x acc) l acc).
Proof.
  revert acc. induction l as [|x l IH]; intros acc S; cbn [fold_left]; [exact S|].
  apply IH. now apply insert_sorted.
Qed.

Lemma sort_sorted (l : list AbhaOption) : StronglySorted before (sort E l).
Proof. apply fold_insert_sorted. constructor. Qed.

(** Sorting leaves a sorted list as it is. *)
Lemma insert_last (x : AbhaOption) (l : list AbhaOption) :
  Forall (fun y => before y x) l -> insert E x l = l ++ [x].
Proof.
  induction l as [|y l IH]; intros F; [reflexivity|].
  inversion F as [|? ? B F']; subst. cbn [insert app].
  destruct (compareAbha E x y <? 0) eqn:C.
  - apply Z.ltb_lt in C. apply compareAbha_antisym in C. unfold before in B. lia.
  - now rewrite IH.
Qed.

Lemma fold_insert_of_sorted (l acc : list AbhaOption) :
  StronglySorted before (acc ++ l) ->
  fold_left (fun acc x => insert E x acc) l acc = acc ++ l.
Proof.
  revert acc. induction l as [|x l IH]; intros acc S; cbn [fold_left].
  - now rewrite app_nil_r.
  - rewrite insert_last.
    + rewrite IH; rewrite <- app_assoc; [reflexivity | exact S].
    + clear IH. induction acc as [|y acc IHa]; [constructor|].
      cbn [app] in S. apply StronglySorted_inv in S as [S F]. constructor.
      * rewrite Forall_forall in F. apply F. apply in_or_app. right. now left.
      * now apply IHa.
Qed.

Lemma sort_of_sorted (l : list AbhaOption) : StronglySorted before l -> sort E l = l.
Proof. intros S. unfold sort. now rewrite fold_insert_of_sorted. Qed.

(** Primary addresses first, equal flags by [localeCompare] of the value. *)
Definition primary_first (a b : AbhaOption) : Prop :=
  (primary b = true -> primary a = true)
  /\ (primary a = primary b -> lc (value a) (value b) <= 0).

Lemma before_primary_first (a b : AbhaOption) : before a b -> primary_first a b.
Proof.
  unfold before, primary_first. rewrite compareAbha_cases.
  destruct (primary a), (primary b); split; intros; try lia; try discriminate; reflexivity.
Qed.

Lemma StronglySorted_impl {A} (R S : A -> A -> Prop) (l : list A) :
  (forall a b, R a b -> S a b) -> StronglySorted R l -> StronglySorted S l.
Proof.
  intros H. induction 1 as [|a l Hs IH F]; constructor; [exact IH|].
  revert F. apply Forall_impl. apply H.
Qed.

End Addresses.

Section Renormalize.
Import JS Roster App.

Variable E : JSDate.Env.

(** The JSON text of a normalized address, as [JSON.stringify] gives it. *)
Definition json_text (a : AbhaOption) : string :=
  "{" ^^ join [dq ^^ "value" ^^ dq ^^ ":" ^^ dq ^^ quoteBody (value a) ^^ dq;
               dq ^^ "label" ^^ dq ^^ ":" ^^ dq ^^ quoteBody (label a) ^^ dq;
               dq ^^ "primary" ^^ dq ^^ ":" ^^ (if primary a then "true" else "false")] ","
  ^^ "}".

(** What the normalizer makes of an address it has itself produced: an
    opaque object, kept as its JSON text and never primary. *)
Definition reencoded (a : AbhaOption) : AbhaOption :=
  {| value := json_text a; label := json_text a; primary := false |}.

Lemma JSON_stringify_AbhaOption (a : AbhaOption) :
  JSON_stringify (AbhaOption_object a) = Some (json_text a).
Proof.
  destruct a as [v l b]. unfold AbhaOption_object, json_text. cbn [value label primary].
  destruct b; reflexivity.
Qed.

Lemma normalizeItem_AbhaOption (a : AbhaOption) :
  normalizeItem (AbhaOption_object a) = Some (reencoded a).
Proof.
  unfold normalizeItem. cbn [ToBoolean negb AbhaOption_object get lookup String.eqb Ascii.eqb Bool.eqb].
  fold (AbhaOption_object a). now rewrite JSON_stringify_AbhaOption.
Qed.

Lemma mapFilter_AbhaOption (l : list AbhaOption) :
  mapFilter (map AbhaOption_object l) = map reencoded l.
Proof.
  induction l as [|a l IH]; [reflexivity|].
  cbn [map mapFilter]. now rewrite normalizeItem_AbhaOption, IH.
Qed.

(** A roster entry whose address list is [out], a list the normalizer
    has produced. *)
Definition holds_addresses (q : Patient) (out : list AbhaOption) : Prop :=
  p_additional_attributes_abha_addresses q = VArr (map AbhaOption_object out)
  \/ (p_additional_attributes_abha_addresses q = VUndef
      /\ p_abha_addresses q = VArr (map AbhaOption_object out)).

Lemma renormalize (q : Patient) (out : list AbhaOption) :
  holds_addresses q out ->
  normalizeAbhaAddresses E (Some q) = sort E (map reencoded out).
Proof.
  unfold normalizeAbhaAddresses. intros [H|[H1 H2]].
  - rewrite H. cbn [ToBoolean isArray andb elements]. now rewrite mapFilter_AbhaOption.
  - rewrite H1, H2. cbn [ToBoolean isArray andb elements]. now rewrite mapFilter_AbhaOption.
Qed.

(** *** The result of renormalizing is never the list one started from *)

Lemma quoteBody_length (s : string) : String.length s <= String.length (quoteBody s).
Proof.
  induction s as [|c r IH]; [reflexivity|]. cbn [quoteBody String.length].
  rewrite append_length.
  assert (1 <= String.length
                 (let n := nat_of_ascii c in
                  if (n =? 34)%nat then "\" ^^ dq
                  else if (n =? 92)%nat then "\\"
                  else if (n =? 8)%nat then "\b"
                  else if (n =? 12)%nat then "\f"
                  else if (n =? 10)%nat then "\n"
                  else if (n =? 13)%nat then "\r"
                  else if (n =? 9)%nat then "\t"
                  else if (n <? 32)%nat then "\u" ^^ hex4 n
                  else String c EmptyString)); [|cbv zeta in *; lia].
  cbv zeta.
  repeat match goal with |- context [if ?b then _ else _] => destruct b end;
    cbn [String.length String.append dq]; lia.
Qed.

Lemma json_text_longer (a : AbhaOption) :
  String.length (value a) < String.length (json_text a).
Proof.
  unfold json_text. pose proof (quoteBody_length (value a)). cbn [join].
  repeat (rewrite append_length; cbn [String.length dq]). lia.
Qed.

Fixpoint total_length (l : list AbhaOption) : nat :=
  match l with
  | [] => 0
  | a :: r => String.length (value a) + total_length r
  end.

Lemma insert_Permutation (x : AbhaOption) (l : list AbhaOption) :
  Permutation (insert E x l) (x :: l).
Proof.
  induction l as [|y l IH]; cbn [insert]; [apply Permutation_refl|].
  destruct (compareAbha E x y <? 0)%Z; [apply Permutation_refl|].
  apply perm_trans with (y :: x :: l); [now constructor | apply perm_swap].
Qed.

Lemma fold_insert_Permutation (l acc : list AbhaOption) :
  Permutation (fold_left (fun acc x => insert E x acc) l acc) (l ++ acc).
Proof.
  revert acc. induction l as [|x l IH]; intros acc; cbn [fold_left app];
    [apply Permutation_refl|].
  apply perm_trans with (l ++ insert E x acc); [apply IH|].
  apply perm_trans with (l ++ x :: acc).
  - apply Permutation_app_head. apply insert_Permutation.
  - apply Permutation_sym. apply Permutation_middle.
Qed.

Lemma sort_Permutation (l : list AbhaOption) : Permutation (sort E l) l.
Proof. unfold sort. rewrite <- (app_nil_r l) at 2. apply fold_insert_Permutation. Qed.

Lemma total_length_Permutation (l l' : list AbhaOption) :
  Permutation l l' -> total_length l = total_length l'.
Proof.
  intros P.
  induction P as [|x l l' P IH|x y l|l l' l'' P1 IH1 P2 IH2]; cbn [total_length].
  - reflexivity.
  - now rewrite IH.
  - rewrite !Nat.add_assoc. f_equal. apply Nat.add_comm.
  - now rewrite IH1.
Qed.

Lemma total_length_reencoded (l : list AbhaOption) :
  l <> [] -> total_length l < total_length (map reencoded l).
Proof.
  induction l as [|a l IH]; [congruence|]. intros _.
  cbn [map total_length value reencoded].
  pose proof (json_text_longer a) as La. destruct l as [|b l]; [cbn [map total_length]; lia|].
  assert (Hne : b :: l <> []) by discriminate. specialize (IH Hne). lia.
Qed.

Lemma renormalize_differs (q : Patient) (out : list AbhaOption) :
  holds_addresses q out -> out <> [] -> normalizeAbhaAddresses E (Some q) <> out.
Proof.
  intros H Hne Heq. rewrite (renormalize q out H) in Heq.
  pose proof (total_length_Permutation _ _ (sort_Permutation (map reencoded out))) as L.
  rewrite Heq in L. pose proof (total_length_reencoded out Hne). lia.
Qed.

End Renormalize.

(** The roster entry of the sample patient with her address list replaced
    by the normalized one. *)
Definition asha_renormalized : Roster.Patient :=
  {| Roster.p_id := "1"; Roster.p_name := "Asha Singh"; Roster.p_gender := "F";
     Roster.p_dob := "15-06-1990"; Roster.p_birthDate := EmptyString;
     Roster.p_mobile := "9000000000"; Roster.p_phone := EmptyString;
     Roster.p_email := EmptyString; Roster.p_address := EmptyString;
     Roster.p_mrn := "MRN-001"; Roster.p_user_ref_id := EmptyString;
     Roster.p_user_id := EmptyString; Roster.p_abha_ref := EmptyString;
     Roster.p_additional_attributes_abha_addresses := JS.VUndef;
     Roster.p_abha_addresses :=
       JS.VArr (map Roster.AbhaOption_object
                  (App.normalizeAbhaAddresses sample_env (Some asha))) |}.

(** C8, as the claim has it: normalizing a roster entry whose address
    list is a normalized list does not give that list back. *)
Lemma normalizeAbhaAddresses_not_idempotent :
  App.normalizeAbhaAddresses sample_env (Some asha)
  = [{| Roster.value := "asha.singh@abdm"; Roster.label := "asha.singh@abdm (primary)";
        Roster.primary := true |};
     {| Roster.value := "asha@abdm"; Roster.label := "asha@abdm"; Roster.primary := false |}]
  /\ App.normalizeAbhaAddresses sample_env (Some asha_renormalized)
     <> App.normalizeAbhaAddresses sample_env (Some asha).
Proof.
  split; [vm_compute; reflexivity|].
  intros H. vm_compute in H. discriminate H.
Qed.

(** C8, amended.  With a consistent [localeCompare], the normalized list
    has every primary address before every other one, addresses of equal
    flag in [localeCompare] order of their value, and sorting it again
    changes nothing.  The normalizer itself is not idempotent: given a
    roster entry whose address list is a normalized list, it keeps each
    element as the JSON text of the object, never primary, and sorts
    those; the result differs from the list it was given unless that list
    is empty. *)
Theorem normalizeAbhaAddresses_sorted (E : JSDate.Env) (p : option Roster.Patient) :
  consistent_localeCompare E ->
  StronglySorted (primary_first E) (App.normalizeAbhaAddresses E p)
  /\ App.sort E (App.normalizeAbhaAddresses E p) = App.normalizeAbhaAddresses E p
  /\ (forall q, holds_addresses q (App.normalizeAbhaAddresses E p) ->
        App.normalizeAbhaAddresses E (Some q)
        = App.sort E (map reencoded (App.normalizeAbhaAddresses E p))
        /\ (App.normalizeAbhaAddresses E p <> [] ->
            App.normalizeAbhaAddresses E (Some q) <> App.normalizeAbhaAddresses E p)).
Proof.
  intros C.
  assert (S : StronglySorted (before E) (App.normalizeAbhaAddresses E p))
    by (apply sort_sorted; exact C).
  split; [|split].
  - revert S. apply StronglySorted_impl. apply before_primary_first.
  - now apply sort_of_sorted.
  - intros q H. split; [now apply renormalize | now apply renormalize_differs].
Qed.

Lemma sample_localeCompare_consistent : consistent_localeCompare sample_env.
Proof.
  split; cbn [JSDate.localeCompare sample_env].
  - intros a b. rewrite (String_as_OT.cmp_antisym a b).
    destruct (String_as_OT.cmp b a); cbn [CompOpp]; lia.
  - intros a b c.
    destruct (String_as_OT.cmp a b) eqn:AB; [|
      |intros; lia].
    + apply String_as_OT.cmp_eq in AB. subst. tauto.
    + destruct (String_as_OT.cmp b c) eqn:BC; [| |intros; lia].
      * apply String_as_OT.cmp_eq in BC. subst. rewrite AB. lia.
      * apply String_as_OT.cmp_lt in AB, BC.
        pose proof (String_as_OT.lt_trans _ _ _ AB BC) as AC.
        apply String_as_OT.cmp_lt in AC. rewrite AC. lia.
Qed.

Lemma normalizeAbhaAddresses_sorted_witness :
  consistent_localeCompare sample_env
  /\ StronglySorted (primary_first sample_env) (App.normalizeAbhaAddresses sample_env (Some asha)).
Proof.
  split; [exact sample_localeCompare_consistent|].
  exact (proj1 (normalizeAbhaAddresses_sorted sample_env (Some asha)
                  sample_localeCompare_consistent)).
Defined.

(* ------------------------------------------------------------------ *)
(** ** Narratives *)

Section Narrative.

Import JS Xhtml.

Lemma scan_plain (t s : string) (stack : list string) :
  plain t = true -> scan (t ^^ s) stack Text = scan s stack Text.
Proof.
  unfold plain. induction t as [|c r IH]; intros H; [reflexivity|].
  cbn [includes] in H. apply andb_true_iff in H as [H1 H2].
  apply negb_true_iff, orb_false_iff in H1 as [Hc1 Hr1].
  apply negb_true_iff, orb_false_iff in H2 as [Hc2 Hr2].
  cbn [String.append scan]. rewrite Hc1, Hc2. apply IH.
  now rewrite Hr1, Hr2.
Qed.

Lemma afterTag_app (body : string) (stack stack' rest : list string) :
  afterTag body stack = Some stack' ->
  afterTag body (stack ++ rest) = Some (stack' ++ rest).
Proof.
  unfold afterTag. destruct body as [|c name]; [discriminate|].
  destruct (c =? "/")%char.
  - destruct stack as [|top below]; [discriminate|]. cbn [app].
    destruct (top =? name); [|discriminate]. now intros [= ->].
  - destruct (validName (tagName (String c name))); [|discriminate].
    destruct (endsWithSlash (String c name)); now intros [= <-].
Qed.

(** A well-formed fragment leaves the elements open around it as they
    were. *)
Lemma scan_fragment (s1 s2 : string) :
  forall (stack rest : list string) (m : mode),
    scan s1 stack m = true ->
    scan (s1 ^^ s2) (stack ++ rest) m = scan s2 rest Text.
Proof.
  induction s1 as [|c r IH]; intros stack rest m H.
  - cbn [scan] in H. destruct m; try discriminate.
    destruct stack; [reflexivity | discriminate].
  - cbn [String.append scan] in *. destruct m as [|body|n].
    + destruct (c =? "<")%char; [now apply IH|].
      destruct (c =? "&")%char; now apply IH.
    + destruct (c =? ">")%char.
      * destruct (afterTag body stack) as [stack'|] eqn:Ht; [|discriminate].
        rewrite (afterTag_app _ _ _ rest Ht). now apply IH.
      * destruct (c =? "<")%char; [discriminate | now apply IH].
    + destruct (c =? ";")%char.
      * destruct (n =? 0)%nat; [discriminate | now apply IH].
      * destruct (isLetter c || isDigit c || (c =? "#")%char); [now apply IH | discriminate].
Qed.

Lemma scan_well_formed (s1 s2 : string) (rest : list string) :
  well_formed s1 = true -> scan (s1 ^^ s2) rest Text = scan s2 rest Text.
Proof. intros H. exact (scan_fragment s1 s2 [] rest Text H). Qed.

Lemma scan_narrative_open (s : string) (stack : list string) :
  scan (App.narrative_open ^^ s) stack Text = scan s ("div" :: stack) Text.
Proof. reflexivity. Qed.

Lemma scan_open_h3 (s : string) (stack : list string) :
  scan ("<h3>" ^^ s) stack Text = scan s ("h3" :: stack) Text.
Proof. reflexivity. Qed.

Lemma scan_close_h3 (s : string) (stack : list string) :
  scan ("</h3>" ^^ s) ("h3" :: stack) Text = scan s stack Text.
Proof. reflexivity. Qed.

Lemma scan_open_p (s : string) (stack : list string) :
  scan ("<p>" ^^ s) stack Text = scan s ("p" :: stack) Text.
Proof. reflexivity. Qed.

Lemma scan_close_p (s : string) (stack : list string) :
  scan ("</p>" ^^ s) ("p" :: stack) Text = scan s stack Text.
Proof. reflexivity. Qed.

(** The markup that both [buildNarrative]s assemble. *)
Definition narrative_markup (title inner : string) : string :=
  App.narrative_open ^^ "<h3>" ^^ title ^^ "</h3>" ^^ inner ^^ "</div>".

Lemma narrative_markup_App (title inner : string) :
  get (App.buildNarrative title inner) "div" = VStr (narrative_markup title inner).
Proof. reflexivity. Qed.

Lemma narrative_markup_Diagnostic (title inner : string) :
  DiagnosticReportForm.buildNarrative title inner = narrative_markup title inner.
Proof. reflexivity. Qed.

Lemma narrative_markup_well_formed (title inner : string) :
  plain title = true -> well_formed inner = true ->
  well_formed (narrative_markup title inner) = true.
Proof.
  intros Ht Hi. unfold well_formed, narrative_markup.
  rewrite scan_narrative_open, scan_open_h3, (scan_plain _ _ _ Ht), scan_close_h3.
  rewrite (scan_well_formed _ _ _ Hi). reflexivity.
Qed.

(** A paragraph of text. *)
Lemma paragraph_well_formed (t : string) :
  plain t = true -> well_formed ("<p>" ^^ t ^^ "</p>") = true.
Proof.
  intros Ht. unfold well_formed.
  rewrite scan_open_p, (scan_plain _ _ _ Ht). reflexivity.
Qed.

Lemma well_formed_app (s1 s2 : string) :
  well_formed s1 = true -> well_formed s2 = true -> well_formed (s1 ^^ s2) = true.
Proof. intros H1 H2. unfold well_formed. now rewrite (scan_well_formed _ _ _ H1). Qed.

(** The text of a resource's narrative. *)
Definition narrative_of (r : JS.value) : string := ToString (get (get r "text") "div").

End Narrative.

(** The opening form with a comparison sign in its title. *)
Definition scenario_with_markup : App.State :=
  {| App.selectedPatient := App.selectedPatient scenario;
     App.selectedAbha := App.selectedAbha scenario;
     App.selectedPractitionerIdx := App.selectedPractitionerIdx scenario;
     App.status := App.status scenario;
     App.title := "Dose < 1 ml";
     App.dateTimeLocal := App.dateTimeLocal scenario;
     App.encounterText := App.encounterText scenario;
     App.custodianName := App.custodianName scenario;
     App.immunizations := App.immunizations scenario;
     App.immRecText := App.immRecText scenario;
     App.immRecDateLocal := App.immRecDateLocal scenario;
     App.files := App.files scenario |}.

(** The title of the form reaches the Composition narrative as it was
    typed: a title with a comparison sign gives a narrative that is not
    well formed. *)
Lemma narrative_breaks_on_markup_in_title :
  exists composition rest,
    App.onBuildBundle sample_env scenario_with_markup
    = App.Built (bundle_of sample_env scenario_with_markup)
    /\ Bundle.resources (bundle_of sample_env scenario_with_markup) = composition :: rest
    /\ narrative_of composition
       = narrative_markup "Composition" "<p>Dose < 1 ml</p><p>Author: Dr. A. Verma</p>"
    /\ Xhtml.well_formed (narrative_of composition) = false.
Proof.
  exists (hd JS.VUndef (Bundle.resources (bundle_of sample_env scenario_with_markup))),
         (tl (Bundle.resources (bundle_of sample_env scenario_with_markup))).
  split; [vm_compute; reflexivity|].
  split; [vm_compute; reflexivity|].
  split; vm_compute; reflexivity.
Qed.

(** Neither [buildNarrative] escapes what it is given: the title and
    the inner markup are placed between the fixed tags as they are.  The
    narrative is a well-formed fragment whenever the title holds neither
    [<] nor [&] and the inner markup is itself well formed; a paragraph
    of text without these two characters is such an inner markup. *)
Lemma buildNarrative_of_well_formed_inner (title inner : string) :
  Xhtml.plain title = true ->
  Xhtml.well_formed inner = true ->
  JS.get (App.buildNarrative title inner) "div" = JS.VStr (narrative_markup title inner)
  /\ DiagnosticReportForm.buildNarrative title inner = narrative_markup title inner
  /\ Xhtml.well_formed (narrative_markup title inner) = true
  /\ (forall text, Xhtml.plain text = true ->
        Xhtml.well_formed
          (DiagnosticReportForm.buildNarrative title ("<p>" ^^ text ^^ "</p>" ^^ inner)) = true).
Proof.
  intros Ht Hi. split; [reflexivity|]. split; [reflexivity|].
  split; [now apply narrative_markup_well_formed|].
  intros text Hx. rewrite narrative_markup_Diagnostic.
  apply narrative_markup_well_formed; [exact Ht|].
  replace ("<p>" ^^ text ^^ "</p>" ^^ inner) with (("<p>" ^^ text ^^ "</p>") ^^ inner).
  - apply well_formed_app; [now apply paragraph_well_formed | exact Hi].
  - now rewrite !append_assoc.
Qed.

(* ------------------------------------------------------------------ *)
(** ** Timestamps *)

(** C4.  At 04:30:00 UTC on 1 January 2025, in a zone five and a half
    hours ahead of UTC, the local wall clock reads 10:00:00.  The
    immunization form renders the local clock with the offset; the
    diagnostic-report form renders the UTC clock, with milliseconds,
    followed by the same local offset. *)
Theorem getISOWithOffsetFromDateInput_renders_utc_clock :
  JSDate.clock sample_env 0 = 1735705800000%Z
  /\ JSDate.timezoneOffset sample_env 1735705800000 = (-330)%Z
  /\ App.localDatetimeToISOWithOffset sample_env EmptyString Effects.start
     = Effects.Ok "2025-01-01T10:00:00+05:30" {| Effects.rand_pos := 0; Effects.clock_pos := 1 |}
  /\ DiagnosticReportForm.getISOWithOffsetFromDateInput sample_env EmptyString Effects.start
     = Effects.Ok "2025-01-01T04:30:00.000+05:30"
         {| Effects.rand_pos := 0; Effects.clock_pos := 1 |}
  /\ DiagnosticReportForm.getISOWithOffsetFromDateInput sample_env "2025-01-01" Effects.start
     = Effects.Ok "2025-01-01T04:30:00.000+05:30"
         {| Effects.rand_pos := 0; Effects.clock_pos := 1 |}.
Proof.
  split; [reflexivity|]. split; [reflexivity|].
  split; [vm_compute; reflexivity|]. split; vm_compute; reflexivity.
Qed.

(* ------------------------------------------------------------------ *)
(** ** The rows and files of the immunization form *)

Section AppRows.
Import JS Roster App AppHandlers.

Lemma filteri_all {A : Type} (l : list A) (k i : nat) :
  i < k -> filteri (fun _ idx => negb (idx =? i)%nat) l k = l.
Proof.
  revert k. induction l as [|x l IH]; intros k H; cbn [filteri]; [reflexivity|].
  destruct (Nat.eqb_spec k i); [lia|]. cbn [negb]. f_equal. apply IH. lia.
Qed.

Lemma filteri_remove {A : Type} (l : list A) (k i : nat) :
  filteri (fun _ idx => negb (idx =? k + i)%nat) l k = firstn i l ++ skipn (S i) l.
Proof.
  revert k i. induction l as [|x l IH]; intros k i; cbn [filteri].
  - now destruct i.
  - destruct i as [|j].
    + rewrite Nat.add_0_r, Nat.eqb_refl. cbn [negb firstn skipn app].
      apply filteri_all. lia.
    + destruct (Nat.eqb_spec k (k + S j)); [lia|]. cbn [negb firstn skipn app].
      f_equal. replace (k + S j) with (S k + j) by lia. apply IH.
Qed.

Lemma filteri_map {A B : Type} (f : A -> B) (keep : nat -> bool) (l : list A) (k : nat) :
  filteri (fun _ idx => keep idx) (map f l) k = map f (filteri (fun _ idx => keep idx) l k).
Proof.
  revert k. induction l as [|x l IH]; intros k; cbn [filteri map]; [reflexivity|].
  destruct (keep k); cbn [map]; now rewrite IH.
Qed.

Lemma mapi_length {A B : Type} (f : A -> nat -> B) (l : list A) (k : nat) :
  List.length (mapi f l k) = List.length l.
Proof. revert k. induction l as [|x l IH]; intros k; cbn [mapi List.length]; congruence. Qed.

Lemma mapi_nth_error {A B : Type} (f : A -> nat -> B) (l : list A) (k j : nat) :
  nth_error (mapi f l k) j = option_map (fun x => f x (k + j)) (nth_error l j).
Proof.
  revert k j. induction l as [|x l IH]; intros k j; cbn [mapi].
  - now destruct j.
  - destruct j as [|j]; cbn [nth_error option_map].
    + now rewrite Nat.add_0_r.
    + rewrite IH. now replace (S k + j) with (k + S j) by lia.
Qed.

Lemma removeImmunization_firstn_skipn (i : nat) (prev : list Immunization) :
  removeImmunization i prev = firstn i prev ++ skipn (S i) prev.
Proof. apply (filteri_remove prev 0 i). Qed.

Lemma removeImmunization_length (i : nat) (prev : list Immunization) :
  i < List.length prev -> S (List.length (removeImmunization i prev)) = List.length prev.
Proof.
  intros L. rewrite removeImmunization_firstn_skipn, length_app, length_firstn, length_skipn. lia.
Qed.

(** Removing a row deletes the row at that index and no other; when
    there is no such row nothing is removed. *)
Theorem removeImmunization_deletes_one (i : nat) (prev : list Immunization) :
  removeImmunization i prev = firstn i prev ++ skipn (S i) prev
  /\ (i < List.length prev -> S (List.length (removeImmunization i prev)) = List.length prev)
  /\ (List.length prev <= i -> removeImmunization i prev = prev).
Proof.
  split; [apply removeImmunization_firstn_skipn|]. split.
  - apply removeImmunization_length.
  - intros L. rewrite removeImmunization_firstn_skipn, firstn_all2, skipn_all2, app_nil_r by lia.
    reflexivity.
Qed.

(** Editing a field changes the row at that index, in that field, and
    leaves every other row and the number of rows as they were. *)
Theorem updateImmunization_changes_one (i : nat) (key : Key) (val : string)
    (prev : list Immunization) :
  List.length (updateImmunization i key val prev) = List.length prev
  /\ nth_error (updateImmunization i key val prev) i
     = option_map (fun m => withKey m key val) (nth_error prev i)
  /\ (forall j, j <> i ->
        nth_error (updateImmunization i key val prev) j = nth_error prev j).
Proof.
  unfold updateImmunization. split; [apply mapi_length|]. split.
  - rewrite mapi_nth_error. cbn [Nat.add]. rewrite Nat.eqb_refl. reflexivity.
  - intros j Hj. rewrite mapi_nth_error. cbn [Nat.add].
    destruct (Nat.eqb_spec j i); [contradiction|]. now destruct (nth_error prev j).
Qed.

Lemma handle_nonempty (rows : list Immunization) (e : RowEvent) :
  rows <> [] -> enabled rows e = true -> handle rows e <> [].
Proof.
  intros Hn He. destruct e as [|i key val|i]; cbn [handle].
  - unfold addImmunization. now destruct rows.
  - intros Hu. apply Hn. apply length_zero_iff_nil.
    rewrite <- (mapi_length (fun m idx => if (idx =? i)%nat then withKey m key val else m) rows 0).
    unfold updateImmunization in Hu. now rewrite Hu.
  - cbn [enabled] in He. apply andb_true_iff in He as [Hi H1].
    apply Nat.ltb_lt in Hi. apply negb_true_iff, Nat.eqb_neq in H1.
    pose proof (removeImmunization_length i rows Hi) as Hl. intros Hr. rewrite Hr in Hl. cbn [List.length] in Hl. lia.
Qed.

Lemma after_nonempty (events : list RowEvent) :
  forall rows rows', rows <> [] -> after rows events = Some rows' -> rows' <> [].
Proof.
  induction events as [|e r IH]; intros rows rows' Hn H; cbn [after] in H.
  - now injection H as <-.
  - destruct (enabled rows e) eqn:He; [|discriminate].
    apply (IH _ _ (handle_nonempty rows e Hn He) H).
Qed.

(** Whatever the user does with the buttons and fields of the rows, the
    form never runs out of rows: the form opens with one row, and the
    remove button is disabled while one row is left. *)
Theorem rows_never_empty (events : list RowEvent) (rows : list Immunization) :
  after initialImmunizations events = Some rows -> rows <> [].
Proof. apply after_nonempty. discriminate. Qed.

(** The names shown for the picked files are the names of the picked
    files, after picking and after every removal. *)
Theorem preview_names_follow_files (picked : option (list File)) (removals : list nat) :
  let u := fold_left (fun u i => removeFileAtIndex i u) removals (onFilesPicked picked) in
  filePreviewNames u = map f_name (files u).
Proof.
  cbv zeta.
  assert (G : forall u, filePreviewNames u = map f_name (files u) ->
                        filePreviewNames (fold_left (fun u i => removeFileAtIndex i u) removals u)
                        = map f_name (files (fold_left (fun u i => removeFileAtIndex i u) removals u))).
  { induction removals as [|i r IH]; intros u Hu; cbn [fold_left]; [exact Hu|].
    apply IH. unfold removeFileAtIndex. cbn [filePreviewNames files]. rewrite Hu.
    apply (filteri_map f_name (fun idx => negb (idx =? i)%nat)). }
  apply G. reflexivity.
Qed.

(** A bundle built from the rows the user can reach holds at least one
    Immunization resource. *)
Theorem built_from_form_has_immunization (E : JSDate.Env) (events : list RowEvent)
    (st : State) (b : JS.value) :
  after initialImmunizations events = Some (immunizations st) ->
  onBuildBundle E st = Built b ->
  List.length (Bundle.of_type "Immunization" (Bundle.resources b))
  = List.length (immunizations st)
  /\ Bundle.of_type "Immunization" (Bundle.resources b) <> [].
Proof.
  intros Ha Hb. apply after_nonempty in Ha; [|discriminate].
  apply onBuildBundle_Built in Hb as (_ & p & x & _ & S & He).
  rewrite (resources_of_built E st b p x He), (immunizations_of_built E st p x S).
  assert (L : List.length (immunizationResources x) = List.length (immunizations st)).
  { rewrite <- (length_map vaccine_of), (immunizations_in_row_order E st p x S).
    apply length_map. }
  split; [exact L|]. intros Hn. rewrite Hn in L. cbn [List.length] in L.
  destruct (immunizations st); [now apply Ha | discriminate].
Qed.

End AppRows.

Lemma removeImmunization_deletes_one_witness :
  AppHandlers.removeImmunization 0 (AppHandlers.addImmunization AppHandlers.initialImmunizations)
  = [{| App.vaccineText := EmptyString; App.occurrenceDate := EmptyString;
        App.imm_status := "completed"; App.lotNumber := EmptyString |}].
Proof.
  exact (proj1 (removeImmunization_deletes_one 0
                  (AppHandlers.addImmunization AppHandlers.initialImmunizations))).
Defined.

Lemma rows_never_empty_witness :
  AppHandlers.updateImmunization 0 AppHandlers.vaccineTextKey "OPV"
    (AppHandlers.removeImmunization 0
       (AppHandlers.addImmunization AppHandlers.initialImmunizations)) <> [].
Proof.
  exact (rows_never_empty
           [AppHandlers.ClickAdd; AppHandlers.ClickRemove 0;
            AppHandlers.Edit 0 AppHandlers.vaccineTextKey "OPV"] _ eq_refl).
Defined.

Lemma built_from_form_has_immunization_witness :
  List.length (Bundle.of_type "Immunization" (Bundle.resources (bundle_of sample_env scenario))) = 1.
Proof.
  assert (H : App.onBuildBundle sample_env scenario = App.Built (bundle_of sample_env scenario))
    by (vm_compute; reflexivity).
  exact (proj1 (built_from_form_has_immunization sample_env [] scenario _ eq_refl H)).
Defined.

(* ------------------------------------------------------------------ *)
(** ** The address options and the selection of a patient *)

Section Selection.
Import JS Roster App.

Variable E : JSDate.Env.

(** The list the normalizer reads in a roster entry. *)
Definition rawAddresses (p : option Patient) : list JS.value :=
  match p with
  | None => []
  | Some p =>
      if ToBoolean (p_additional_attributes_abha_addresses p)
         && isArray (p_additional_attributes_abha_addresses p)
      then elements (p_additional_attributes_abha_addresses p)
      else if isArray (p_abha_addresses p) then elements (p_abha_addresses p)
      else []
  end.

Lemma normalizeAbhaAddresses_unfold (p : option Patient) :
  normalizeAbhaAddresses E p = sort E (mapFilter (rawAddresses p)).
Proof. now destruct p. Qed.

(** How an option is labelled. *)
Definition labelled (a : AbhaOption) : Prop :=
  label a = value a \/ (label a = value a ^^ " (primary)" /\ primary a = true).

Lemma normalizeItem_labelled (item : JS.value) (a : AbhaOption) :
  normalizeItem item = Some a -> labelled a.
Proof.
  unfold normalizeItem, labelled. destruct (ToBoolean item); [|discriminate]. cbn [negb].
  assert (G : (if ToBoolean (get item "address")
               then Some {| value := ToString (get item "address");
                            label := if ToBoolean (get item "isPrimary")
                                     then ToString (get item "address") ^^ " (primary)"
                                     else ToString (get item "address");
                            primary := ToBoolean (get item "isPrimary") |}
               else match JSON_stringify item with
                    | Some v => Some {| value := v; label := v;
                                        primary := ToBoolean (get item "isPrimary") |}
                    | None => None
                    end) = Some a ->
              label a = value a \/ label a = value a ^^ " (primary)" /\ primary a = true).
  { destruct (ToBoolean (get item "address")).
    - intros [= <-]. cbn [label value primary].
      destruct (ToBoolean (get item "isPrimary")); [right; now split | now left].
    - destruct (JSON_stringify item); [|discriminate]. intros [= <-]. now left. }
  destruct item; try discriminate; try exact G.
  intros [= <-]. now left.
Qed.

Lemma mapFilter_labelled (raw : list JS.value) : Forall labelled (mapFilter raw).
Proof.
  induction raw as [|item r IH]; cbn [mapFilter]; [constructor|].
  destruct (normalizeItem item) as [a|] eqn:H; [|exact IH].
  constructor; [now apply normalizeItem_labelled in H | exact IH].
Qed.

Lemma mapFilter_length (raw : list JS.value) : List.length (mapFilter raw) <= List.length raw.
Proof.
  induction raw as [|item r IH]; cbn [mapFilter List.length]; [lia|].
  destruct (normalizeItem item); cbn [List.length]; lia.
Qed.

Lemma mapFilter_string (raw : list JS.value) (s : string) :
  s <> EmptyString -> In (VStr s) raw ->
  In {| value := s; label := s; primary := false |} (mapFilter raw).
Proof.
  intros Hs. induction raw as [|item r IH]; [contradiction|].
  cbn [mapFilter]. intros [->|Hin].
  - unfold normalizeItem. cbn [ToBoolean]. unfold truthy.
    destruct (String.eqb_spec s EmptyString); [contradiction|]. now left.
  - destruct (normalizeItem item); [right|]; now apply IH.
Qed.

(** The options are the normalized items of the roster entry, none lost
    and none added by the sort; each is labelled by its value, with the
    suffix (primary) on primary ones only; a string of the roster gives
    a non-primary option of that value. *)
Theorem normalizeAbhaAddresses_options (p : option Patient) :
  Permutation (normalizeAbhaAddresses E p) (mapFilter (rawAddresses p))
  /\ List.length (normalizeAbhaAddresses E p) <= List.length (rawAddresses p)
  /\ (forall a, In a (normalizeAbhaAddresses E p) -> labelled a)
  /\ (forall s, s <> EmptyString -> In (VStr s) (rawAddresses p) ->
        In {| value := s; label := s; primary := false |} (normalizeAbhaAddresses E p)).
Proof.
  rewrite normalizeAbhaAddresses_unfold.
  pose proof (sort_Permutation E (mapFilter (rawAddresses p))) as P.
  split; [exact P|]. split.
  - rewrite (Permutation_length P). apply mapFilter_length.
  - split.
    + intros a Ha. apply (Permutation_in _ P) in Ha.
      exact (proj1 (Forall_forall _ _) (mapFilter_labelled _) a Ha).
    + intros s Hs Hin. apply (Permutation_in _ (Permutation_sym P)).
      now apply mapFilter_string.
Qed.

(** The head of the options is primary as soon as one option is. *)
Lemma head_primary (l : list AbhaOption) (a : AbhaOption) :
  StronglySorted (before E) l -> In a l -> primary a = true ->
  exists h r, l = h :: r /\ primary h = true.
Proof.
  intros S Hin Hp. destruct l as [|h r]; [contradiction|].
  exists h, r. split; [reflexivity|].
  destruct Hin as [->|Hin]; [exact Hp|].
  apply StronglySorted_inv in S as [_ F].
  apply (proj1 (Forall_forall _ _) F) in Hin.
  apply before_primary_first in Hin. now apply Hin.
Qed.

(** After a patient is selected, the address selected by default is the
    first option; it is a primary address whenever the patient has one,
    and there is none when the patient has no address.  Both forms
    select the same address. *)
Theorem default_address_is_primary (p : Patient) :
  consistent_localeCompare E ->
  snd (AppHandlers.abhaEffect E (Some p))
  = match normalizeAbhaAddresses E (Some p) with a :: _ => value a | [] => EmptyString end
  /\ (forall patientsList idx prev,
        DiagnosticHandlers.patient_at patientsList idx = Some p ->
        DiagnosticHandlers.selectedAbha
          (DiagnosticHandlers.handlePatientSelect E patientsList idx prev)
        = snd (AppHandlers.abhaEffect E (Some p)))
  /\ (forall a, In a (normalizeAbhaAddresses E (Some p)) -> primary a = true ->
        exists h, In h (normalizeAbhaAddresses E (Some p)) /\ primary h = true
                  /\ snd (AppHandlers.abhaEffect E (Some p)) = value h).
Proof.
  intros C. split; [reflexivity|]. split.
  - intros patientsList idx prev H. unfold DiagnosticHandlers.handlePatientSelect.
    rewrite H. reflexivity.
  - intros a Ha Hp.
    pose proof (sort_sorted E C (mapFilter (rawAddresses (Some p)))) as S.
    rewrite <- normalizeAbhaAddresses_unfold in S.
    destruct (head_primary _ a S Ha Hp) as (h & r & Hl & Hh).
    exists h. cbn [AppHandlers.abhaEffect snd]. rewrite Hl.
    split; [now left|]. split; [exact Hh | reflexivity].
Qed.

End Selection.

Lemma default_address_is_primary_witness :
  snd (AppHandlers.abhaEffect sample_env (Some asha)) = "asha.singh@abdm".
Proof.
  exact (proj1 (default_address_is_primary sample_env asha sample_localeCompare_consistent)).
Defined.

(* ------------------------------------------------------------------ *)
(** ** The rows and attachments of the diagnostic-report form *)

Section DiagnosticRows.
Import JS JSDate Effects Runtime DiagnosticReportForm DiagnosticHandlers.
Local Open Scope js_scope.

Lemma splice1_firstn_skipn {A : Type} (i : nat) (l : list A) :
  splice1 i l = firstn i l ++ skipn (S i) l.
Proof.
  revert i. induction l as [|x l IH]; intros i; [now destruct i|].
  destruct i as [|i]; cbn [splice1 firstn skipn app]; [reflexivity|]. now rewrite IH.
Qed.

Lemma splice1_length {A : Type} (i : nat) (l : list A) :
  i < List.length l -> S (List.length (splice1 i l)) = List.length l.
Proof.
  intros L. rewrite splice1_firstn_skipn, length_app, length_firstn, length_skipn. lia.
Qed.

Lemma splice1_outside {A : Type} (i : nat) (l : list A) :
  List.length l <= i -> splice1 i l = l.
Proof.
  intros L. rewrite splice1_firstn_skipn, firstn_all2, skipn_all2, app_nil_r by lia.
  reflexivity.
Qed.

(** [removeResult] and [removeSpecimen] never take the last row away: a
    list that has a row still has one afterwards.  With two rows or
    more they delete the row at the index and no other.
    [removeAttachment] has no such guard: it deletes the attachment at
    the index, the last one too. *)
Theorem remove_keeps_a_row (i : nat) :
  (forall prev : list ResultRow,
     (prev <> [] -> removeResult i prev <> [])
     /\ (List.length prev <= 1 -> removeResult i prev = prev)
     /\ (2 <= List.length prev -> removeResult i prev = firstn i prev ++ skipn (S i) prev))
  /\ (forall prev : list SpecimenRow,
        (prev <> [] -> removeSpecimen i prev <> [])
        /\ (List.length prev <= 1 -> removeSpecimen i prev = prev)
        /\ (2 <= List.length prev ->
            removeSpecimen i prev = firstn i prev ++ skipn (S i) prev))
  /\ (forall prev : list Attachment,
        removeAttachment i prev = firstn i prev ++ skipn (S i) prev
        /\ forall a, removeAttachment 0 [a] = []).
Proof.
  assert (G : forall (A : Type) (prev : list A),
            let out := if (List.length prev <=? 1)%nat then prev else splice1 i prev in
            (prev <> [] -> out <> [])
            /\ (List.length prev <= 1 -> out = prev)
            /\ (2 <= List.length prev -> out = firstn i prev ++ skipn (S i) prev)).
  { intros A prev. cbv zeta. destruct (Nat.leb_spec (List.length prev) 1) as [L|L].
    - split; [tauto|]. split; [reflexivity | lia].
    - split; [|split; [lia | intros _; apply splice1_firstn_skipn]].
      intros _ Hn. destruct (Nat.lt_ge_cases i (List.length prev)) as [Hi|Hi].
      + apply splice1_length in Hi. rewrite Hn in Hi. cbn [List.length] in Hi. lia.
      + rewrite (splice1_outside _ _ Hi) in Hn. rewrite Hn in L. cbn [List.length] in L. lia. }
  split; [intros prev; apply (G ResultRow)|].
  split; [intros prev; apply (G SpecimenRow)|].
  intros prev. split; [apply splice1_firstn_skipn | reflexivity].
Qed.

Lemma setAt_length {A : Type} (i : nat) (x : A) (l : list A) :
  List.length (setAt i x l) = List.length l.
Proof.
  revert i. induction l as [|y l IH]; intros i; [now destruct i|].
  destruct i; cbn [setAt List.length]; [reflexivity | now rewrite IH].
Qed.

Lemma setAt_nth_error {A : Type} (i j : nat) (x : A) (l : list A) :
  nth_error (setAt i x l) j
  = if (j =? i)%nat then option_map (fun _ => x) (nth_error l j) else nth_error l j.
Proof.
  revert i j. induction l as [|y l IH]; intros i j.
  - destruct i, j; cbn [setAt nth_error option_map]; now destruct (_ =? _)%nat.
  - destruct i as [|i], j as [|j]; cbn [setAt nth_error option_map Nat.eqb]; try reflexivity.
    apply IH.
Qed.

(** Editing a result changes the named field of the row at the index and
    nothing else; the identifier of every row stays.  When there is no
    row at the index the update fails.  The same holds of the type of
    a specimen. *)
Theorem updateResult_changes_one (i : nat) (field : ResultField) (value : string)
    (prev : list ResultRow) :
  (updateResult i field value prev = None <-> List.length prev <= i)
  /\ (forall next, updateResult i field value prev = Some next ->
        List.length next = List.length prev
        /\ map res_id next = map res_id prev
        /\ nth_error next i = option_map (fun r => withField r field value) (nth_error prev i)
        /\ (forall j, j <> i -> nth_error next j = nth_error prev j))
  /\ (forall (rows : list SpecimenRow),
        (updateSpecimen i value rows = None <-> List.length rows <= i)
        /\ (forall next, updateSpecimen i value rows = Some next ->
              List.length next = List.length rows
              /\ map spec_id next = map spec_id rows
              /\ option_map typeText (nth_error next i) = Some value
              /\ (forall j, j <> i -> nth_error next j = nth_error rows j))).
Proof.
  assert (S : forall (rows : list SpecimenRow),
            (updateSpecimen i value rows = None <-> List.length rows <= i)
            /\ (forall next, updateSpecimen i value rows = Some next ->
                  List.length next = List.length rows
                  /\ map spec_id next = map spec_id rows
                  /\ option_map typeText (nth_error next i) = Some value
                  /\ (forall j, j <> i -> nth_error next j = nth_error rows j))).
  { intros rows. unfold updateSpecimen. split.
    - destruct (nth_error rows i) as [r|] eqn:H.
      + split; [discriminate|]. intros L. apply nth_error_None in L. congruence.
      + split; [intros _; now apply nth_error_None | reflexivity].
    - intros next. destruct (nth_error rows i) as [r|] eqn:H; [|discriminate].
      intros [= <-]. split; [apply setAt_length|]. split; [|split].
      + apply nth_error_ext. intros j. rewrite !nth_error_map, setAt_nth_error.
        destruct (Nat.eqb_spec j i) as [->|]; [|reflexivity].
        rewrite H. reflexivity.
      + rewrite setAt_nth_error, Nat.eqb_refl, H. reflexivity.
      + intros j Hj. rewrite setAt_nth_error. now destruct (Nat.eqb_spec j i). }
  assert (R : (updateResult i field value prev = None <-> List.length prev <= i)
              /\ (forall next, updateResult i field value prev = Some next ->
                    List.length next = List.length prev
                    /\ map res_id next = map res_id prev
                    /\ nth_error next i
                       = option_map (fun r => withField r field value) (nth_error prev i)
                    /\ (forall j, j <> i -> nth_error next j = nth_error prev j))).
  {
    unfold updateResult. split.
    - destruct (nth_error prev i) as [r|] eqn:H.
      + split; [discriminate|]. intros L. apply nth_error_None in L. congruence.
      + split; [intros _; now apply nth_error_None | reflexivity].
    - intros next. destruct (nth_error prev i) as [r|] eqn:H; [|discriminate].
      intros [= <-]. split; [apply setAt_length|]. split; [|split].
      + apply nth_error_ext. intros j. rewrite !nth_error_map, setAt_nth_error.
        destruct (Nat.eqb_spec j i) as [->|]; [|reflexivity].
        rewrite H. cbn [option_map]. now destruct field.
      + rewrite setAt_nth_error, Nat.eqb_refl, H. reflexivity.
      + intros j Hj. rewrite setAt_nth_error. now destruct (Nat.eqb_spec j i).
  }
  destruct R as [R1 R2]. split; [exact R1|]. split; [exact R2 | exact S].
Qed.

End DiagnosticRows.

Section DiagnosticAttachments.
Import JS JSDate Effects Runtime DiagnosticReportForm DiagnosticHandlers.
Local Open Scope js_scope.

Variable E : Env.

(** The files [handleAttachmentsChange] keeps: an allowed media type and
    a content that could be read. *)
Definition kept (f : PickedFile) : bool :=
  existsb (String.eqb (pf_type f)) allowedTypes && is_some (pf_payload f).

(** The base64 text an attachment holds for a payload. *)
Definition base64_of (type payload : string) : string :=
  nth 1 (split (dataURL type payload) ",") EmptyString.

Lemma allowed_In (type : string) :
  existsb (String.eqb type) allowedTypes = true <-> In type allowedTypes.
Proof.
  rewrite existsb_exists. split.
  - intros (x & Hx & Heq). apply String.eqb_eq in Heq. now subst.
  - intros H. exists type. split; [exact H | apply String.eqb_refl].
Qed.

(** The data URL of a file of an allowed type splits at its comma into
    the header and the payload. *)
Lemma base64_of_allowed (type payload : string) :
  In type allowedTypes -> base64_of type payload = hd EmptyString (split payload ",").
Proof.
  intros H. unfold base64_of, dataURL.
  assert (G : forall header, includes header "," = false ->
                nth 1 (split (header ^^ String "," payload) ",") EmptyString
                = hd EmptyString (split payload ",")).
  { intros header Hh. rewrite (split_free_part _ _ _ Hh). cbn [nth].
    destruct (split payload ","); reflexivity. }
  destruct H as [<-|[<-|[<-|[]]]].
  - apply (G "data:application/pdf;base64"). reflexivity.
  - apply (G "data:image/jpeg;base64"). reflexivity.
  - apply (G "data:image/png;base64"). reflexivity.
Qed.

Lemma base64_of_payload (type payload : string) :
  In type allowedTypes -> includes payload "," = false -> base64_of type payload = payload.
Proof.
  intros H Hp. rewrite (base64_of_allowed _ _ H), (split_free_last _ _ Hp). reflexivity.
Qed.

(** The attachments made of a list of files, the first identifier being
    drawn at [pos]. *)
Fixpoint attachments_from (pos : nat) (files : list PickedFile) : list Attachment :=
  match files with
  | [] => []
  | f :: r =>
      if kept f then
        {| att_id := uuid_from E pos; att_name := pf_name f; mime := pf_type f;
           base64 := base64_of (pf_type f)
                       (match pf_payload f with Some p => p | None => EmptyString end) |}
        :: attachments_from (pos + 31) r
      else attachments_from pos r
  end.

Lemma readFile_run (f : PickedFile) (w : World) :
  readFile E f w
  = if kept f
    then Ok (Some {| att_id := uuid_from E (rand_pos w); att_name := pf_name f;
                     mime := pf_type f;
                     base64 := base64_of (pf_type f)
                                 (match pf_payload f with Some p => p | None => EmptyString end) |})
            (advance 31 w)
    else Ok None w.
Proof.
  unfold readFile, kept.
  destruct (existsb (String.eqb (pf_type f)) allowedTypes); cbn [negb andb]; [|reflexivity].
  destruct (pf_payload f) as [payload|]; cbn [is_some]; [|reflexivity].
  unfold bind. rewrite uuidv4_run. reflexivity.
Qed.

Lemma advance_0 (w : World) : advance 0 w = w.
Proof. destruct w as [r c]. unfold advance. cbn [rand_pos clock_pos]. now rewrite Nat.add_0_r. Qed.

Lemma advance_advance (a b : nat) (w : World) : advance b (advance a w) = advance (a + b) w.
Proof. unfold advance. cbn [rand_pos clock_pos]. now rewrite Nat.add_assoc. Qed.

Lemma mapM_readFile_run (files : list PickedFile) (w : World) :
  exists arr,
    mapM (readFile E) files w
    = Ok arr (advance (31 * List.length (attachments_from (rand_pos w) files)) w)
    /\ filterBoolean arr = attachments_from (rand_pos w) files.
Proof.
  revert w. induction files as [|f r IH]; intros w; cbn [mapM attachments_from].
  - exists []. cbn [List.length]. rewrite Nat.mul_0_r, advance_0. now split.
  - unfold bind at 1. rewrite readFile_run. destruct (kept f).
    + destruct (IH (advance 31 w)) as (arr & Hrun & Hf).
      cbn [advance rand_pos] in Hrun, Hf.
      eexists. unfold bind. rewrite Hrun. unfold ret. split.
      * f_equal. cbn [List.length]. rewrite advance_advance. f_equal. lia.
      * cbn [filterBoolean]. now rewrite Hf.
    + destruct (IH w) as (arr & Hrun & Hf).
      eexists. unfold bind. rewrite Hrun. unfold ret. split; [reflexivity|].
      cbn [filterBoolean]. exact Hf.
Qed.

Lemma attachments_from_names (pos : nat) (files : list PickedFile) :
  map att_name (attachments_from pos files) = map pf_name (filter kept files)
  /\ map mime (attachments_from pos files) = map pf_type (filter kept files).
Proof.
  revert pos. induction files as [|f r IH]; intros pos; cbn [attachments_from filter];
    [now split|].
  destruct (kept f); [|apply IH]. cbn [map att_name mime]. destruct (IH (pos + 31)) as [-> ->].
  now split.
Qed.

Lemma attachments_from_ids (pos : nat) (files : list PickedFile) :
  map att_id (attachments_from pos files)
  = drawn E pos (List.length (attachments_from pos files)).
Proof.
  revert pos. induction files as [|f r IH]; intros pos; cbn [attachments_from]; [reflexivity|].
  destruct (kept f); [|apply IH]. cbn [map att_id List.length]. now rewrite drawn_S, IH.
Qed.

Lemma attachments_from_allowed (pos : nat) (files : list PickedFile) :
  Forall (fun a => In (mime a) allowedTypes) (attachments_from pos files).
Proof.
  revert pos. induction files as [|f r IH]; intros pos; cbn [attachments_from]; [constructor|].
  destruct (kept f) eqn:K; [|apply IH]. constructor; [|apply IH].
  cbn [mime]. unfold kept in K. apply andb_true_iff in K as [K _]. now apply allowed_In.
Qed.

Lemma attachments_from_payloads (pos : nat) (files : list PickedFile) :
  (forall f payload, In f files -> pf_payload f = Some payload ->
                     includes payload "," = false) ->
  map (fun a => Some (base64 a)) (attachments_from pos files)
  = map pf_payload (filter kept files).
Proof.
  revert pos. induction files as [|f r IH]; intros pos H; cbn [attachments_from filter];
    [reflexivity|].
  assert (Hr : forall f payload, In f r -> pf_payload f = Some payload ->
                                 includes payload "," = false)
    by (intros g q Hg; apply H; now right).
  destruct (kept f) eqn:K; [|now apply IH]. cbn [map base64]. rewrite IH by exact Hr.
  f_equal. unfold kept in K. apply andb_true_iff in K as [Kt Kp].
  destruct (pf_payload f) as [payload|] eqn:P; [|discriminate Kp].
  f_equal. apply base64_of_payload; [now apply allowed_In|].
  apply (H f payload); [now left | exact P].
Qed.

(** The files picked for the diagnostic-report form. *)
Definition files_of (filesList : option (list PickedFile)) : list PickedFile :=
  match filesList with Some l => l | None => [] end.

Lemma handleAttachmentsChange_run (filesList : option (list PickedFile)) (w : World) :
  handleAttachmentsChange E filesList w
  = Ok (attachments_from (rand_pos w) (files_of filesList))
       (advance (31 * List.length (attachments_from (rand_pos w) (files_of filesList))) w).
Proof.
  unfold handleAttachmentsChange.
  destruct filesList as [[|f r]|]; cbn [files_of attachments_from List.length];
    try (rewrite Nat.mul_0_r, advance_0; reflexivity).
  destruct (mapM_readFile_run (f :: r) w) as (arr & Hrun & Hf).
  unfold bind. rewrite Hrun. unfold ret. now rewrite Hf.
Qed.

(** [handleAttachmentsChange] never fails.  It keeps, in the order of
    the files, those of type PDF, JPEG or PNG that could be read, under
    their name and type, each with a fresh identifier; every other file
    is dropped.  When the payloads hold no comma (base64 has none), an
    attachment holds the payload of its file. *)
Theorem handleAttachmentsChange_keeps_readable (filesList : option (list PickedFile))
    (w : World) :
  exists atts,
    handleAttachmentsChange E filesList w = Ok atts (advance (31 * List.length atts) w)
    /\ map att_name atts = map pf_name (filter kept (files_of filesList))
    /\ map mime atts = map pf_type (filter kept (files_of filesList))
    /\ map att_id atts = drawn E (rand_pos w) (List.length atts)
    /\ Forall (fun a => In (mime a) allowedTypes) atts
    /\ ((forall f payload, In f (files_of filesList) -> pf_payload f = Some payload ->
                           includes payload "," = false) ->
        map (fun a => Some (base64 a)) atts = map pf_payload (filter kept (files_of filesList))).
Proof.
  exists (attachments_from (rand_pos w) (files_of filesList)).
  split; [apply handleAttachmentsChange_run|].
  split; [apply attachments_from_names|]. split; [apply attachments_from_names|].
  split; [apply attachments_from_ids|]. split; [apply attachments_from_allowed|].
  apply attachments_from_payloads.
Qed.

(** What a document reference says of the type and of the content of
    its attachment. *)
Definition attachment_contentType (r : JS.value) : JS.value :=
  match get r "content" with
  | VArr [content] => get (get content "attachment") "contentType"
  | _ => VUndef
  end.

Definition attachment_data (r : JS.value) : JS.value :=
  match get r "content" with
  | VArr [content] => get (get content "attachment") "data"
  | _ => VUndef
  end.

Lemma attachment_of_documents_from (st : State) (p : string) (idl : list string) (i : nat)
    (l : list Attachment) (times : list string) :
  List.length times = List.length l ->
  map attachment_contentType (DiagnosticSteps.documents_from st p idl i (combine l times))
  = map (fun a => VStr (mime a)) l
  /\ map attachment_data (DiagnosticSteps.documents_from st p idl i (combine l times))
     = map (fun a => VStr (base64 a)) l.
Proof.
  revert i times. induction l as [|r l IH]; intros i [|t ts] L; try discriminate L;
    [now split|].
  cbn [combine DiagnosticSteps.documents_from map].
  destruct (IH (S i) ts) as [-> ->]; [cbn [List.length] in L; lia|]. now split.
Qed.

(** The document references of a diagnostic-report bundle built from
    the attachments that [handleAttachmentsChange] stored: one for each
    file that was kept, in the order of the files, of type PDF, JPEG or
    PNG, and carrying the payload of its file. *)
Theorem bundle_carries_kept_files (filesList : option (list PickedFile)) (w w' : World)
    (st : State) (b : JS.value) :
  handleAttachmentsChange E filesList w = Ok (attachments st) w' ->
  (forall f payload, In f (files_of filesList) -> pf_payload f = Some payload ->
                     includes payload "," = false) ->
  handleSubmit E st = Bundle b ->
  let docs := Bundle.of_type "DocumentReference" (Bundle.resources b) in
  map attachment_title docs = map (fun f => VStr (pf_name f)) (filter kept (files_of filesList))
  /\ map attachment_contentType docs
     = map (fun f => VStr (pf_type f)) (filter kept (files_of filesList))
  /\ map (fun d => match attachment_data d with VStr s => Some s | _ => None end) docs
     = map pf_payload (filter kept (files_of filesList))
  /\ Forall (fun d => exists type, attachment_contentType d = VStr type /\ In type allowedTypes)
            docs.
Proof.
  intros Hatt Hp Hb. cbv zeta.
  rewrite handleAttachmentsChange_run in Hatt. apply Ok_inj in Hatt as [Hatt _].
  apply DiagnosticSteps.handleSubmit_Bundle in Hb as (_ & x & S & -> & _).
  destruct (diagnostic_rows_of_built E st x S) as (_ & ->).
  unfold DiagnosticSteps.documents.
  pose proof (DiagnosticSteps.shape_documentTimes E st x S) as L.
  destruct (attachment_of_documents_from st (DiagnosticSteps.patientId x)
              (DiagnosticSteps.docIds x) 0 (attachments st)
              (DiagnosticSteps.documentTimes x) L) as [Hc Hd].
  pose proof (attachment_title_documents_from st (DiagnosticSteps.patientId x)
                (DiagnosticSteps.docIds x) 0 (attachments st)
                (DiagnosticSteps.documentTimes x) L) as Ht.
  set (docs := DiagnosticSteps.documents_from st (DiagnosticSteps.patientId x)
                 (DiagnosticSteps.docIds x) 0
                 (combine (attachments st) (DiagnosticSteps.documentTimes x))) in *.
  destruct (attachments_from_names (rand_pos w) (files_of filesList)) as [Hn Hm].
  pose proof (attachments_from_payloads (rand_pos w) (files_of filesList) Hp) as Hpay.
  pose proof (attachments_from_allowed (rand_pos w) (files_of filesList)) as Ha.
  rewrite Hatt in Hn, Hm, Hpay, Ha.
  split; [|split; [|split]].
  - rewrite Ht, <- (map_map att_name VStr), Hn, map_map. reflexivity.
  - rewrite Hc, <- (map_map mime VStr), Hm, map_map. reflexivity.
  - rewrite <- Hpay.
    transitivity (map (fun v => match v with VStr s => Some s | _ => None end)
                      (map attachment_data docs)); [now rewrite map_map|].
    rewrite Hd, map_map. reflexivity.
  - apply Forall_forall. intros d Hin.
    assert (Hin' : In (attachment_contentType d) (map attachment_contentType docs))
      by now apply in_map.
    rewrite Hc in Hin'. apply in_map_iff in Hin' as (a & Heq & Hia).
    exists (mime a). split; [now symmetry|].
    exact (proj1 (Forall_forall _ _) Ha a Hia).
Qed.

End DiagnosticAttachments.

(** Three picked files: a PDF, a text file and a PNG that cannot be read. *)
Definition lab_picked : list DiagnosticHandlers.PickedFile :=
  [{| DiagnosticHandlers.pf_name := "cbc.pdf"; DiagnosticHandlers.pf_type := "application/pdf";
      DiagnosticHandlers.pf_payload := Some "JVBERi0xLjQK" |};
   {| DiagnosticHandlers.pf_name := "notes.txt"; DiagnosticHandlers.pf_type := "text/plain";
      DiagnosticHandlers.pf_payload := Some "aGVsbG8=" |};
   {| DiagnosticHandlers.pf_name := "scan.png"; DiagnosticHandlers.pf_type := "image/png";
      DiagnosticHandlers.pf_payload := None |}].

(** A complete diagnostic-report form holding what was kept of them. *)
Definition lab_state_with_files : DiagnosticReportForm.State :=
  {| DiagnosticReportForm.practitioner := DiagnosticReportForm.practitioner lab_state;
     DiagnosticReportForm.patient := DiagnosticReportForm.patient lab_state;
     DiagnosticReportForm.title := "Laboratory report";
     DiagnosticReportForm.diagStatus := "final";
     DiagnosticReportForm.diagCategory := DiagnosticReportForm.diagCategory lab_state;
     DiagnosticReportForm.diagCodeText := DiagnosticReportForm.diagCodeText lab_state;
     DiagnosticReportForm.diagCodeSNOMED := DiagnosticReportForm.diagCodeSNOMED lab_state;
     DiagnosticReportForm.issuedDate := DiagnosticReportForm.issuedDate lab_state;
     DiagnosticReportForm.effectiveDate := DiagnosticReportForm.effectiveDate lab_state;
     DiagnosticReportForm.results := DiagnosticReportForm.results lab_state;
     DiagnosticReportForm.specimens := DiagnosticReportForm.specimens lab_state;
     DiagnosticReportForm.attachments := attachments_from sample_env 0 lab_picked |}.

Lemma bundle_carries_kept_files_witness :
  map attachment_contentType
    (Bundle.of_type "DocumentReference"
       (Bundle.resources (lab_bundle_of sample_env lab_state_with_files)))
  = [JS.VStr "application/pdf"].
Proof.
  assert (Hb : DiagnosticReportForm.handleSubmit sample_env lab_state_with_files
               = DiagnosticReportForm.Bundle (lab_bundle_of sample_env lab_state_with_files))
    by (vm_compute; reflexivity).
  assert (Ha : DiagnosticHandlers.handleAttachmentsChange sample_env (Some lab_picked)
                 Effects.start
               = Effects.Ok (DiagnosticReportForm.attachments lab_state_with_files)
                   {| Effects.rand_pos := 31; Effects.clock_pos := 0 |})
    by (vm_compute; reflexivity).
  assert (Hp : forall f payload, In f (files_of (Some lab_picked)) ->
                 DiagnosticHandlers.pf_payload f = Some payload ->
                 JS.includes payload "," = false).
  { intros f payload Hin Hf. cbn [files_of lab_picked In] in Hin.
    destruct Hin as [<-|[<-|[<-|[]]]]; cbn [DiagnosticHandlers.pf_payload] in Hf;
      inversion Hf; reflexivity. }
  exact (proj1 (proj2 (bundle_carries_kept_files sample_env (Some lab_picked) _ _
                         lab_state_with_files _ Ha Hp Hb))).
Defined.

(* ------------------------------------------------------------------ *)
(** ** The practitioner of the diagnostic-report form *)

Section GlobalPractitioner.
Import JS JSDate Effects Runtime DiagnosticHandlers.
Local Open Scope js_scope.

Variable E : Env.

Lemma or_value_truthy (a b : JS.value) : ToBoolean b = true -> ToBoolean (or_value a b) = true.
Proof. intros H. unfold or_value. now destruct (ToBoolean a) eqn:Ha. Qed.

Lemma or_value_left (a b : JS.value) : ToBoolean a = true -> or_value a b = a.
Proof. intros H. unfold or_value. now rewrite H. Qed.

Lemma or_value_right (a b : JS.value) : ToBoolean a = false -> or_value a b = b.
Proof. intros H. unfold or_value. now rewrite H. Qed.

Lemma temp_id_truthy (u : string) : ToBoolean (VStr ("TEMP-" ^^ u)) = true.
Proof. reflexivity. Qed.

(** The practitioner the form would fall back to, its identifier made
    of the random numbers from [pos] on. *)
Definition fallback_from (pos : nat) : Resolved :=
  {| r_id := VStr ("TEMP-" ^^ uuid_from E pos);
     r_name := VStr "Dr. ABC";
     r_license := VStr "LIC-TEMP-0001" |}.

(** The global practitioner that is looked at: the FHIR one first. *)
Definition global_of (GlobalPractitionerFHIR GlobalPractitioner : JS.value) : JS.value :=
  or_value (or_value GlobalPractitionerFHIR GlobalPractitioner) VNull.

Lemma resolveGlobalPractitioner_run (fhir flat : JS.value) (w : World) :
  exists r,
    resolveGlobalPractitioner E fhir flat w = Ok r (advance 31 w)
    /\ ToBoolean (r_id r) = true /\ ToBoolean (r_name r) = true
    /\ ToBoolean (r_license r) = true
    /\ (ToBoolean (global_of fhir flat) = false -> r = fallback_from (rand_pos w))
    /\ (isObject (global_of fhir flat) = true ->
        isString (get (global_of fhir flat) "name") = true ->
        ToBoolean (get (global_of fhir flat) "name") = true ->
        r = {| r_id := or_value (get (global_of fhir flat) "id")
                         (r_id (fallback_from (rand_pos w)));
               r_name := get (global_of fhir flat) "name";
               r_license := or_value (get (global_of fhir flat) "license")
                              (r_license (fallback_from (rand_pos w))) |}).
Proof.
  unfold resolveGlobalPractitioner, bind. rewrite uuidv4_run.
  fold (fallback_from (rand_pos w)). fold (global_of fhir flat).
  destruct (ToBoolean (global_of fhir flat)) eqn:Hg; cbn [negb].
  - destruct (isObject (global_of fhir flat)
              && ToBoolean (get (global_of fhir flat) "name")
              && isString (get (global_of fhir flat) "name")) eqn:Hflat.
    + eexists. split; [reflexivity|]. cbn [r_id r_name r_license].
      apply andb_true_iff in Hflat as [Hflat Hs]. apply andb_true_iff in Hflat as [Ho Hn].
      split; [now apply or_value_truthy|]. split; [now apply or_value_truthy|].
      split; [now apply or_value_truthy|]. split; [discriminate|].
      intros _ _ _. now rewrite (or_value_left _ _ Hn).
    + eexists. split; [reflexivity|]. cbn [r_id r_name r_license].
      split; [now apply or_value_truthy|]. split; [now apply or_value_truthy|].
      split; [now apply or_value_truthy|]. split; [discriminate|].
      intros Ho Hs Hn. rewrite Ho, Hs, Hn in Hflat. discriminate Hflat.
  - eexists. split; [reflexivity|]. cbn [r_id r_name r_license].
    repeat split. intros Ho. destruct (global_of fhir flat); discriminate.
Qed.

(** Whatever the page has set as global practitioner, the practitioner
    the form starts with has an identifier, a name and a licence: each
    of the three is truthy, so the practitioner check of [buildBundle]
    passes on it.  One identifier is drawn in every case. *)
Theorem resolveGlobalPractitioner_complete (GlobalPractitionerFHIR GlobalPractitioner : JS.value)
    (w : World) :
  exists r,
    resolveGlobalPractitioner E GlobalPractitionerFHIR GlobalPractitioner w
    = Ok r (advance 31 w)
    /\ ToBoolean (r_id r) = true /\ ToBoolean (r_name r) = true
    /\ ToBoolean (r_license r) = true.
Proof.
  destruct (resolveGlobalPractitioner_run GlobalPractitionerFHIR GlobalPractitioner w)
    as (r & H & Hi & Hn & Hl & _).
  exists r. split; [exact H|]. split; [exact Hi|]. split; [exact Hn | exact Hl].
Qed.

(** With no global practitioner (none set, or a falsy one) the form
    falls back to Dr. ABC with the temporary licence and a fresh
    temporary identifier. *)
Theorem resolveGlobalPractitioner_fallback (GlobalPractitionerFHIR GlobalPractitioner : JS.value)
    (w : World) :
  ToBoolean GlobalPractitionerFHIR = false -> ToBoolean GlobalPractitioner = false ->
  resolveGlobalPractitioner E GlobalPractitionerFHIR GlobalPractitioner w
  = Ok {| r_id := VStr ("TEMP-" ^^ uuid_from E (rand_pos w));
          r_name := VStr "Dr. ABC";
          r_license := VStr "LIC-TEMP-0001" |} (advance 31 w).
Proof.
  intros Hf Hg.
  destruct (resolveGlobalPractitioner_run GlobalPractitionerFHIR GlobalPractitioner w)
    as (r & H & _ & _ & _ & Hfb & _).
  rewrite H. f_equal. apply Hfb. unfold global_of.
  rewrite (or_value_right _ _ Hf), (or_value_right _ _ Hg). reflexivity.
Qed.

(** A global practitioner that is already flat, with a name that is a
    non-empty string, is taken as it is; the FHIR global is looked at
    before the other one. *)
Theorem resolveGlobalPractitioner_flat (GlobalPractitionerFHIR GlobalPractitioner : JS.value)
    (fields : list (string * JS.value)) (id name license : string) (w : World) :
  global_of GlobalPractitionerFHIR GlobalPractitioner = VObj fields ->
  lookup fields "id" = VStr id -> lookup fields "name" = VStr name ->
  lookup fields "license" = VStr license ->
  id <> EmptyString -> name <> EmptyString -> license <> EmptyString ->
  resolveGlobalPractitioner E GlobalPractitionerFHIR GlobalPractitioner w
  = Ok {| r_id := VStr id; r_name := VStr name; r_license := VStr license |} (advance 31 w)
  /\ (ToBoolean GlobalPractitionerFHIR = true ->
      global_of GlobalPractitionerFHIR GlobalPractitioner = GlobalPractitionerFHIR).
Proof.
  intros Hg Hi Hn Hl Ni Nn Nl.
  destruct (resolveGlobalPractitioner_run GlobalPractitionerFHIR GlobalPractitioner w)
    as (r & H & _ & _ & _ & _ & Hflat).
  split.
  - rewrite H. f_equal. rewrite Hflat; rewrite Hg; cbn [get isObject]; rewrite ?Hn;
      try reflexivity.
    + rewrite Hi, Hl. f_equal; apply or_value_left; cbn [ToBoolean];
        now apply truthy_true_iff.
    + cbn [ToBoolean]. now apply truthy_true_iff.
  - intros Hf. unfold global_of. rewrite (or_value_left _ GlobalPractitioner Hf).
    now apply or_value_left.
Qed.

End GlobalPractitioner.

Lemma resolveGlobalPractitioner_fallback_witness :
  exists id,
    DiagnosticHandlers.resolveGlobalPractitioner sample_env JS.VUndef JS.VUndef Effects.start
    = Effects.Ok {| DiagnosticHandlers.r_id := JS.VStr ("TEMP-" ^^ id);
                    DiagnosticHandlers.r_name := JS.VStr "Dr. ABC";
                    DiagnosticHandlers.r_license := JS.VStr "LIC-TEMP-0001" |}
        (advance 31 Effects.start).
Proof.
  exists (uuid_from sample_env 0).
  exact (resolveGlobalPractitioner_fallback sample_env JS.VUndef JS.VUndef Effects.start
           eq_refl eq_refl).
Defined.

Lemma resolveGlobalPractitioner_flat_witness :
  DiagnosticHandlers.resolveGlobalPractitioner sample_env JS.VUndef
    (JS.VObj [("id", JS.VStr "prac-7"); ("name", JS.VStr "Dr. C. Iyer");
              ("license", JS.VStr "KMC-77")]) Effects.start
  = Effects.Ok {| DiagnosticHandlers.r_id := JS.VStr "prac-7";
                  DiagnosticHandlers.r_name := JS.VStr "Dr. C. Iyer";
                  DiagnosticHandlers.r_license := JS.VStr "KMC-77" |}
      (advance 31 Effects.start).
Proof.
  refine (proj1 (resolveGlobalPractitioner_flat sample_env JS.VUndef
                   (JS.VObj [("id", JS.VStr "prac-7"); ("name", JS.VStr "Dr. C. Iyer");
                             ("license", JS.VStr "KMC-77")])
                   _ "prac-7" "Dr. C. Iyer" "KMC-77" Effects.start
                   eq_refl eq_refl eq_refl eq_refl _ _ _)); discriminate.
Defined.

(* ------------------------------------------------------------------ *)
(** ** Dates typed as day, month and year *)

Section DayMonthYear.
Import JS JSDate Effects Runtime.

Fixpoint allDigits (s : string) : bool :=
  match s with
  | EmptyString => true
  | String c r => isDigit c && allDigits r
  end.

(** One or two digits. *)
Definition short_number (s : string) : Prop :=
  allDigits s = true /\ 1 <= String.length s <= 2.

(** A hyphen or a slash. *)
Definition date_separator (sep : ascii) : Prop := sep = "-"%char \/ sep = "/"%char.

Lemma digit_is_no_separator (c sep : ascii) :
  isDigit c = true -> date_separator sep -> (c =? sep)%char = false.
Proof.
  intros H [->| ->]; apply Ascii.eqb_neq; intros ->; discriminate H.
Qed.

Lemma includes_append (a b : string) (c : ascii) :
  includes (a ^^ b) c = includes a c || includes b c.
Proof.
  induction a as [|x r IH]; cbn [String.append includes]; [reflexivity|].
  now rewrite IH, orb_assoc.
Qed.

Lemma includes_digits (s : string) (c : ascii) :
  allDigits s = true -> isDigit c = false -> includes s c = false.
Proof.
  induction s as [|x r IH]; intros H Hc; [reflexivity|].
  cbn [allDigits] in H. apply andb_true_iff in H as [Hx Hr]. cbn [includes].
  rewrite (IH Hr Hc), orb_false_r. apply Ascii.eqb_neq. intros ->. congruence.
Qed.

Lemma includes_digits_digit (s : string) (c : ascii) :
  allDigits s = true -> includes s c = true -> isDigit c = true.
Proof.
  intros H Hc. destruct (isDigit c) eqn:D; [reflexivity|].
  now rewrite (includes_digits s c H D) in Hc.
Qed.

Lemma separator_is_no_digit (sep : ascii) : date_separator sep -> isDigit sep = false.
Proof. now intros [->| ->]. Qed.

Lemma separator_not_white (sep : ascii) : date_separator sep -> isWhiteSpace sep = false.
Proof. now intros [->| ->]. Qed.

(** The text [d sep m sep y]. *)
Definition day_month_year (d m y : string) (sep : ascii) : string :=
  d ^^ String sep (m ^^ String sep y).

Section Typed.
Variables d m y : string.
Variable sep : ascii.
Hypothesis Hd : short_number d.
Hypothesis Hm : short_number m.
Hypothesis Hy : allDigits y = true /\ String.length y = 4.
Hypothesis Hsep : date_separator sep.

Lemma typed_includes (c : ascii) :
  includes (day_month_year d m y sep) c = true -> isDigit c = true \/ c = sep.
Proof.
  unfold day_month_year. rewrite includes_append. cbn [includes].
  rewrite includes_append. cbn [includes]. intros H.
  repeat (apply orb_true_iff in H as [H|H]).
  - left. exact (includes_digits_digit d c (proj1 Hd) H).
  - right. apply Ascii.eqb_eq in H. now symmetry.
  - left. exact (includes_digits_digit m c (proj1 Hm) H).
  - right. apply Ascii.eqb_eq in H. now symmetry.
  - left. exact (includes_digits_digit y c (proj1 Hy) H).
Qed.

Lemma typed_trim : trim (day_month_year d m y sep) = (day_month_year d m y sep).
Proof.
  apply trim_noWhiteSpace. intros c Hc.
  destruct (typed_includes c Hc) as [H| ->];
    [now apply isDigit_not_white | now apply separator_not_white].
Qed.

Lemma typed_truthy : truthy (day_month_year d m y sep) = true.
Proof.
  unfold day_month_year. destruct d; [|reflexivity].
  reflexivity.
Qed.

Lemma typed_no_match : test_yyyy_mm_dd (day_month_year d m y sep) = false.
Proof.
  destruct (test_yyyy_mm_dd (day_month_year d m y sep)) eqn:T; [|reflexivity]. exfalso.
  pose proof (separator_is_no_digit sep Hsep) as Ns.
  unfold test_yyyy_mm_dd, day_month_year in T.
  destruct Hd as [_ Ld].
  destruct d as [|d1 [|d2 [|d3 r]]]; cbn [String.length] in Ld; try lia;
    cbn [String.append list_ascii_of_string] in T.
  - destruct (list_ascii_of_string (m ^^ String sep y))
      as [|a2 [|a3 [|a4 [|a5 [|a6 [|a7 [|a8 [|a9 [|a10 l]]]]]]]]]; try discriminate T.
    rewrite Ns in T. rewrite andb_false_r in T. discriminate T.
  - destruct (list_ascii_of_string (m ^^ String sep y))
      as [|a3 [|a4 [|a5 [|a6 [|a7 [|a8 [|a9 [|a10 l]]]]]]]]; try discriminate T.
    rewrite Ns in T. rewrite !andb_false_r in T. discriminate T.
Qed.

Lemma typed_separator : separator (day_month_year d m y sep) = Some sep.
Proof.
  unfold separator.
  assert (Hin : includes (day_month_year d m y sep) sep = true).
  { unfold day_month_year. rewrite includes_append. cbn [includes].
    now rewrite Ascii.eqb_refl, orb_true_r. }
  destruct Hsep as [e|e].
  - rewrite e in Hin |- *. now rewrite Hin.
  - destruct (includes (day_month_year d m y sep) "-") eqn:Hh.
    + destruct (typed_includes _ Hh) as [H|H]; [discriminate H|].
      rewrite e in H. discriminate H.
    + rewrite e in Hin |- *. now rewrite Hin.
Qed.

Lemma typed_three_part : three_part (day_month_year d m y sep) sep d m y.
Proof.
  pose proof (separator_is_no_digit sep Hsep) as Ns.
  split; [reflexivity|].
  split; [|split]; apply includes_digits; try exact Ns;
    [apply Hd | apply Hm | apply Hy].
Qed.

Lemma typed_reordered_matches :
  test_yyyy_mm_dd (reordered d m y) = true /\ String.length (reordered d m y) = 10.
Proof.
  destruct Hd as [Dd Ld], Hm as [Dm Lm], Hy as [Dy Ly].
  destruct y as [|y1 [|y2 [|y3 [|y4 [|y5 r]]]]]; cbn [String.length] in Ly; try lia.
  cbn [allDigits] in Dy.
  repeat (apply andb_true_iff in Dy as [? Dy]).
  destruct d as [|d1 [|d2 [|d3 rd]]]; cbn [String.length] in Ld; try lia;
    destruct m as [|m1 [|m2 [|m3 rm]]]; cbn [String.length] in Lm; try lia;
    cbn [allDigits] in Dd, Dm;
    repeat (apply andb_true_iff in Dd as [? Dd]);
    repeat (apply andb_true_iff in Dm as [? Dm]);
    unfold reordered, test_yyyy_mm_dd, padStart;
    cbn [String.length Nat.leb Nat.sub repeatTo String.append list_ascii_of_string];
    repeat match goal with H : isDigit _ = true |- _ => rewrite H; clear H end;
    split; reflexivity.
Qed.

End Typed.

(** A date typed as day, month and year, the day and the month of one
    or two digits, the year of four, with hyphens or with slashes: both
    normalizers turn it into year, month and day, the day and the month
    padded to two digits; the result has the ten characters of
    YYYY-MM-DD, and it is what the Immunization resource of such a row
    gets as its occurrence. *)
Theorem ddmmyyyyToISO_of_day_month_year (d m y : string) (sep : ascii) :
  short_number d -> short_number m ->
  allDigits y = true /\ String.length y = 4 ->
  date_separator sep ->
  App.ddmmyyyyToISO (day_month_year d m y sep) = Some (reordered d m y)
  /\ DiagnosticReportForm.ddmmyyyyToISO (day_month_year d m y sep) = reordered d m y
  /\ test_yyyy_mm_dd (reordered d m y) = true
  /\ String.length (reordered d m y) = 10
  /\ (forall E vaccine status lot w,
        App.occurrence E {| App.vaccineText := vaccine;
                            App.occurrenceDate := day_month_year d m y sep;
                            App.imm_status := status; App.lotNumber := lot |} w
        = Ok (reordered d m y) w).
Proof.
  intros Hd Hm Hy Hsep.
  assert (Ht : trim (day_month_year d m y sep) = day_month_year d m y sep)
    by (apply typed_trim; assumption).
  assert (Hv : truthy (day_month_year d m y sep) = true)
    by (apply typed_truthy; assumption).
  assert (Hn : test_yyyy_mm_dd (day_month_year d m y sep) = false)
    by (apply typed_no_match; assumption).
  assert (Hs : separator (day_month_year d m y sep) = Some sep)
    by (apply typed_separator; assumption).
  assert (H3 : three_part (day_month_year d m y sep) sep d m y)
    by (apply typed_three_part; assumption).
  assert (Hrl : test_yyyy_mm_dd (reordered d m y) = true
                /\ String.length (reordered d m y) = 10)
    by (apply typed_reordered_matches; assumption).
  destruct Hrl as [Hr Hl].
  apply three_part_split in H3.
  assert (HA : App.ddmmyyyyToISO (day_month_year d m y sep) = Some (reordered d m y)).
  { rewrite App_ddmmyyyyToISO_unfold, Hv, Ht, Hn, Hs, H3. reflexivity. }
  split; [exact HA|]. split; [|split; [exact Hr|split; [exact Hl|]]].
  - rewrite Diag_ddmmyyyyToISO_unfold, Hv, Ht, Hn, Hs, H3. cbn [negb].
    destruct Hd as [_ Ld], Hy as [_ Ly]. rewrite Ly.
    destruct (Nat.eqb_spec (String.length d) 4); [lia | reflexivity].
  - intros E vaccine status lot w. unfold App.occurrence. cbn [App.occurrenceDate].
    rewrite Hv, HA.
    assert (HT : includes (day_month_year d m y sep) "T" = false).
    { destruct (includes (day_month_year d m y sep) "T") eqn:I; [|reflexivity].
      assert (H : isDigit "T" = true \/ "T"%char = sep)
        by (apply (typed_includes d m y sep); assumption).
      destruct H as [H|H]; [discriminate H | destruct Hsep as [->| ->]; discriminate H]. }
    rewrite HT. now rewrite (test_nonempty _ Hr).
Qed.

(** A date that already has the form YYYY-MM-DD, as a date field of
    the browser gives it, goes through both normalizers and into the
    Immunization resource unchanged. *)
Theorem occurrence_of_iso_date (E : Env) (v : string) :
  test_yyyy_mm_dd v = true ->
  App.ddmmyyyyToISO v = Some v
  /\ DiagnosticReportForm.ddmmyyyyToISO v = v
  /\ (forall vaccine status lot w,
        App.occurrence E {| App.vaccineText := vaccine; App.occurrenceDate := v;
                            App.imm_status := status; App.lotNumber := lot |} w
        = Ok v w).
Proof.
  intros H. pose proof (test_trim v H) as Ht. pose proof (test_nonempty v H) as Hv.
  assert (HA : App.ddmmyyyyToISO v = Some v)
    by (rewrite App_ddmmyyyyToISO_unfold, Hv, Ht, H; reflexivity).
  split; [exact HA|]. split.
  - rewrite Diag_ddmmyyyyToISO_unfold, Hv, Ht, H. reflexivity.
  - intros vaccine status lot w. unfold App.occurrence. cbn [App.occurrenceDate].
    rewrite Hv, HA, Hv.
    assert (HT : includes v "T" = false).
    { destruct (includes v "T") eqn:I; [|reflexivity].
      unfold test_yyyy_mm_dd in H.
      destruct v as [|a0 [|a1 [|a2 [|a3 [|a4 [|a5 [|a6 [|a7 [|a8 [|a9 [|a10 s]]]]]]]]]]];
        cbn [list_ascii_of_string] in H; try discriminate H.
      do 9 (apply andb_true_iff in H as [H ?]).
      cbn [includes] in I.
      repeat (apply orb_true_iff in I as [I|I];
              [apply Ascii.eqb_eq in I; subst;
               match goal with K : _ = true |- _ => discriminate K end|]).
      discriminate I. }
    now rewrite HT.
Qed.

End DayMonthYear.

Lemma ddmmyyyyToISO_of_day_month_year_witness :
  App.ddmmyyyyToISO "15-06-1990" = Some "1990-06-15"
  /\ DiagnosticReportForm.ddmmyyyyToISO "5/6/1990" = "1990-06-05".
Proof.
  split.
  - refine (proj1 (ddmmyyyyToISO_of_day_month_year "15" "06" "1990" "-" _ _ _ _)).
    + split; [reflexivity | cbn; lia].
    + split; [reflexivity | cbn; lia].
    + split; reflexivity.
    + now left.
  - refine (proj1 (proj2 (ddmmyyyyToISO_of_day_month_year "5" "6" "1990" "/" _ _ _ _))).
    + split; [reflexivity | cbn; lia].
    + split; [reflexivity | cbn; lia].
    + split; reflexivity.
    + now right.
Defined.

Lemma occurrence_of_iso_date_witness : App.ddmmyyyyToISO "2025-01-02" = Some "2025-01-02".
Proof. exact (proj1 (occurrence_of_iso_date sample_env "2025-01-02" eq_refl)). Defined.

(* ------------------------------------------------------------------ *)
(** ** Gender codes and timestamps at the edges *)

Section GenderCodes.
Import JS DiagnosticReportForm.

(** Mapping a gender twice is mapping it once: the four codes and the
    empty text are mapped to themselves, so a gender that went through
    [mapGender] can go through it again. *)
Theorem mapGender_idempotent (g : string) :
  mapGender (mapGender g) = mapGender g
  /\ (forall code, In code gender_codes -> mapGender code = code).
Proof.
  assert (F : forall code, In code gender_codes -> mapGender code = code).
  { intros code [<-|[<-|[<-|[<-|[]]]]]; reflexivity. }
  split; [|exact F].
  destruct (String.eqb_spec g EmptyString) as [->|n]; [reflexivity|].
  apply F. now apply mapGender_closed.
Qed.

End GenderCodes.

Section TimestampEdges.
Import JS JSDate Effects Runtime.
Local Open Scope js_scope.

Variable E : Env.

(** The text [isoWithLocalOffsetFromDate] makes of an invalid date. *)
Definition NaN_timestamp : string := "NaN-NaN-NaNTNaN:NaN:NaN-NaN:NaN".

Lemma isoWithLocalOffsetFromDate_invalid : App.isoWithLocalOffsetFromDate E None = NaN_timestamp.
Proof. reflexivity. Qed.

(** A date-time text that cannot be parsed does not make the
    immunization form fail: the timestamp is the text made of NaN
    fields, and neither the clock nor the random numbers are touched. *)
Theorem localDatetimeToISOWithOffset_of_unparsable (text : string) (w : World) :
  text <> EmptyString -> Date_parse E text = None ->
  App.localDatetimeToISOWithOffset E text w = Ok NaN_timestamp w.
Proof.
  intros Hn Hp. unfold App.localDatetimeToISOWithOffset.
  apply truthy_true_iff in Hn. rewrite Hn. cbn [negb]. unfold new_Date. rewrite Hp.
  reflexivity.
Qed.

(** One more tick of the clock. *)
Definition tick (w : World) : World :=
  {| rand_pos := rand_pos w; clock_pos := S (clock_pos w) |}.

(** The text the diagnostic-report form parses for a date [day]: the
    date with the local time of day of [now]. *)
Definition local_text (day : string) (now : Date) : string :=
  day ^^ "T" ^^ padStart (String_of_number (getHours E now)) 2 "0" ^^ ":"
  ^^ padStart (String_of_number (getMinutes E now)) 2 "0" ^^ ":"
  ^^ padStart (String_of_number (getSeconds E now)) 2 "0".

(** [getISOWithOffsetFromDateInput] by cases.  Without a date it never
    fails and reads the clock once.  A date that is not of the form
    YYYY-MM-DD is not looked at: the result is that of no date, one
    tick of the clock later.  A date of the form YYYY-MM-DD is parsed
    with the time of day of now; when the parse fails the function
    throws the message of [toISOString] on an invalid date. *)
Theorem getISOWithOffsetFromDateInput_cases (dateInput : string) (w : World) :
  (exists s, DiagnosticReportForm.getISOWithOffsetFromDateInput E EmptyString w = Ok s (tick w))
  /\ (dateInput <> EmptyString -> test_yyyy_mm_dd dateInput = false ->
      DiagnosticReportForm.getISOWithOffsetFromDateInput E dateInput w
      = DiagnosticReportForm.getISOWithOffsetFromDateInput E EmptyString (tick w))
  /\ (test_yyyy_mm_dd dateInput = true ->
      Date_parse E (local_text dateInput (Some (clock E (clock_pos w)))) = None ->
      DiagnosticReportForm.getISOWithOffsetFromDateInput E dateInput w
      = Throw "Invalid time value").
Proof.
  split; [|split].
  - unfold DiagnosticReportForm.getISOWithOffsetFromDateInput, bind, new_Date_now.
    cbn [truthy String.eqb negb]. unfold ret at 1.
    unfold App.toISOString_or_throw, toISOString, ret. eexists. reflexivity.
  - intros Hn Ht. apply truthy_true_iff in Hn.
    unfold DiagnosticReportForm.getISOWithOffsetFromDateInput, bind, new_Date_now.
    rewrite Hn, Ht. reflexivity.
  - intros Ht Hp. pose proof (test_nonempty _ Ht) as Hn.
    unfold DiagnosticReportForm.getISOWithOffsetFromDateInput, bind, new_Date_now.
    rewrite Hn, Ht. unfold ret at 1, new_Date. fold (local_text dateInput (Some (clock E (clock_pos w)))).
    rewrite Hp. reflexivity.
Qed.

End TimestampEdges.

(** The sample environment, with a parser that accepts nothing. *)
Definition sample_env_no_parse : JSDate.Env :=
  {| JSDate.random16 := JSDate.random16 sample_env; JSDate.clock := JSDate.clock sample_env;
     JSDate.timezoneOffset := JSDate.timezoneOffset sample_env;
     JSDate.Date_parse := fun _ => None;
     JSDate.localeCompare := JSDate.localeCompare sample_env |}.

Lemma localDatetimeToISOWithOffset_of_unparsable_witness :
  App.localDatetimeToISOWithOffset sample_env_no_parse "tomorrow" Effects.start
  = Effects.Ok "NaN-NaN-NaNTNaN:NaN:NaN-NaN:NaN" Effects.start.
Proof.
  refine (localDatetimeToISOWithOffset_of_unparsable sample_env_no_parse "tomorrow"
            Effects.start _ eq_refl).
  discriminate.
Defined.

(* ------------------------------------------------------------------ *)
(** ** What the timestamp of the diagnostic-report form is made of *)

Section UtcClock.
Import JS JSDate Effects Runtime.
Local Open Scope js_scope.

Lemma digitChar_not_Z (d : N) : (d < 10)%N -> (digitChar d =? "Z")%char = false.
Proof.
  intros H. unfold digitChar. destruct (N.ltb_spec d 10) as [_|L]; [|lia].
  assert (C : (d = 0 \/ d = 1 \/ d = 2 \/ d = 3 \/ d = 4 \/ d = 5 \/ d = 6 \/ d = 7
               \/ d = 8 \/ d = 9)%N) by lia.
  repeat (destruct C as [->|C]; [reflexivity|]). now subst.
Qed.

Lemma toRadix_no_Z (fuel : nat) (n : N) (acc : string) :
  includes acc "Z" = false -> includes (toRadix fuel 10 n acc) "Z" = false.
Proof.
  revert n acc. induction fuel as [|f IH]; intros n acc H; cbn [toRadix]; [exact H|].
  assert (H' : includes (String (digitChar (n mod 10)) acc) "Z" = false).
  { cbn [includes]. rewrite H, orb_false_r. apply digitChar_not_Z.
    apply N.mod_lt. discriminate. }
  destruct (n <? 10)%N; [exact H' | now apply IH].
Qed.

Lemma Number_toString_no_Z (z : Z) : includes (Number_toString z) "Z" = false.
Proof.
  unfold Number_toString, toStringRadix.
  destruct (z <? 0)%Z; [cbn [String.append includes Ascii.eqb Bool.eqb orb]|];
    now apply toRadix_no_Z.
Qed.

Lemma repeatTo_no_Z (fill cur : string) (n : nat) :
  includes fill "Z" = false -> includes cur "Z" = false ->
  includes (repeatTo fill cur n) "Z" = false.
Proof.
  intros Hf. revert cur. induction n as [|n IH]; intros cur Hc; cbn [repeatTo]; [reflexivity|].
  destruct cur as [|c r].
  - destruct fill as [|c r]; [reflexivity|].
    cbn [includes] in Hf |- *. apply orb_false_iff in Hf as [Hc' Hr].
    rewrite Hc'. cbn [orb]. apply IH. exact Hr.
  - cbn [includes] in Hc |- *. apply orb_false_iff in Hc as [Hc' Hr].
    rewrite Hc'. cbn [orb]. apply IH. exact Hr.
Qed.

Lemma pad0_no_Z (width : nat) (z : Z) : includes (pad0 width z) "Z" = false.
Proof.
  unfold pad0, padStart. destruct (width <=? String.length (Number_toString z))%nat.
  - apply Number_toString_no_Z.
  - rewrite includes_append, Number_toString_no_Z, orb_false_r.
    now apply repeatTo_no_Z.
Qed.

Lemma isoYear_no_Z (y : Z) : includes (isoYear y) "Z" = false.
Proof.
  unfold isoYear. destruct ((0 <=? y)%Z && (y <=? 9999)%Z); [apply pad0_no_Z|].
  rewrite includes_append, pad0_no_Z, orb_false_r. now destruct (y <? 0)%Z.
Qed.

(** The UTC date and time of day of a time value, with milliseconds, as
    [toISOString] writes them before its final Z. *)
Definition utc_clock (t : Z) : string :=
  isoYear (YearFromTime t) ^^ "-" ^^ pad0 2 (MonthFromTime t + 1) ^^ "-"
  ^^ pad0 2 (DateFromTime t) ^^ "T" ^^ pad0 2 (HourFromTime t) ^^ ":"
  ^^ pad0 2 (MinFromTime t) ^^ ":" ^^ pad0 2 (SecFromTime t) ^^ "."
  ^^ pad0 3 (msFromTime t).

Lemma toISOString_utc_clock (t : Z) : toISOString (Some t) = Some (utc_clock t ^^ "Z").
Proof. unfold toISOString, utc_clock. now rewrite !append_assoc. Qed.

Lemma utc_clock_no_Z (t : Z) : includes (utc_clock t) "Z" = false.
Proof.
  unfold utc_clock.
  repeat (rewrite includes_append; cbn [includes Ascii.eqb Bool.eqb orb andb]).
  now rewrite isoYear_no_Z, !pad0_no_Z.
Qed.

Lemma index_after (body rest : string) (c : ascii) :
  includes body c = false ->
  String.index 0 (String c EmptyString) (body ^^ String c rest) = Some (String.length body).
Proof.
  induction body as [|x r IH]; intros H; cbn [String.append String.length].
  - cbn [String.index String.prefix]. destruct (ascii_dec c c); [|congruence].
    now destruct rest.
  - cbn [includes] in H. apply orb_false_iff in H as [Hx Hr]. apply Ascii.eqb_neq in Hx.
    cbn [String.index String.prefix]. destruct (ascii_dec c x); [congruence|].
    now rewrite (IH Hr).
Qed.

Lemma substring_prefix (body rest : string) :
  String.substring 0 (String.length body) (body ^^ rest) = body.
Proof.
  induction body as [|x r IH]; cbn [String.append String.length String.substring].
  - now destruct rest.
  - now rewrite IH.
Qed.

Lemma substring_suffix (body rest : string) :
  String.substring (String.length body) (String.length rest) (body ^^ rest) = rest.
Proof.
  induction body as [|x r IH]; cbn [String.append String.length String.substring]; [|exact IH].
  induction rest as [|y s IHs]; [reflexivity|]. cbn [String.length String.substring].
  now rewrite IHs.
Qed.

(** Replacing the first occurrence of a character that the text before
    it does not hold. *)
Lemma replaceFirst_after (body rest replacement : string) (c : ascii) :
  includes body c = false ->
  replaceFirst (body ^^ String c rest) (String c EmptyString) replacement
  = body ^^ replacement ^^ rest.
Proof.
  intros H. unfold replaceFirst, indexOf, sliceFrom. rewrite (index_after _ _ _ H).
  rewrite substring_prefix. f_equal. f_equal.
  cbn [String.length]. rewrite append_length. cbn [String.length].
  replace (String.length body + 1) with (String.length (body ^^ String c EmptyString))
    by (rewrite append_length; reflexivity).
  replace (String.length body + S (String.length rest)
           - String.length (body ^^ String c EmptyString))
    with (String.length rest) by (rewrite append_length; cbn [String.length]; lia).
  replace (body ^^ String c rest) with ((body ^^ String c EmptyString) ^^ rest)
    by (now rewrite append_assoc).
  apply substring_suffix.
Qed.

Variable E : Env.

(** The local offset as both forms write it: a sign, then the hours
    and the minutes of the offset, each padded to two digits. *)
Definition offset_text (timezoneOffsetMin : Z) : string :=
  (if (0 <? timezoneOffsetMin)%Z then "-" else "+")
  ^^ padStart (Number_toString (Z.abs timezoneOffsetMin / 60)) 2 "0" ^^ ":"
  ^^ padStart (Number_toString (Z.rem (Z.abs timezoneOffsetMin) 60)) 2 "0".

Lemma getISOWithOffsetFromDateInput_of (t : Z) (k : string -> M string) (w : World) :
  bind (App.toISOString_or_throw (Some t)) k w = k (utc_clock t ^^ "Z") w.
Proof.
  unfold bind, App.toISOString_or_throw. rewrite toISOString_utc_clock. reflexivity.
Qed.

(** Whenever the diagnostic-report form makes a timestamp, it is made
    of the UTC date and time of day of an instant, milliseconds
    included, followed by the local offset of that instant: the clock
    fields are not moved by the offset written after them.  Without a
    date the instant is the one the clock gives. *)
Theorem getISOWithOffsetFromDateInput_utc_fields (dateInput : string) (w w' : World)
    (s : string) :
  DiagnosticReportForm.getISOWithOffsetFromDateInput E dateInput w = Ok s w' ->
  (exists t, s = utc_clock t ^^ offset_text (timezoneOffset E t))
  /\ (dateInput = EmptyString ->
      s = utc_clock (clock E (clock_pos w))
          ^^ offset_text (timezoneOffset E (clock E (clock_pos w)))).
Proof.
  assert (G : forall t w1 w2 r,
            bind (App.toISOString_or_throw (Some t))
              (fun iso => ret (replaceFirst iso "Z"
                 ((if (0 <? timezoneOffset E t)%Z then "-" else "+")
                  ^^ padStart (String_of_number (Some (Z.abs (timezoneOffset E t) / 60)%Z)) 2 "0"
                  ^^ ":"
                  ^^ padStart (String_of_number (Some (Z.rem (Z.abs (timezoneOffset E t)) 60)))
                       2 "0"))) w1 = Ok r w2 ->
            r = utc_clock t ^^ offset_text (timezoneOffset E t)).
  { intros t w1 w2 r H. rewrite getISOWithOffsetFromDateInput_of in H.
    apply ret_Ok in H as [<- _].
    replace (utc_clock t ^^ "Z") with (utc_clock t ^^ String "Z" EmptyString) by reflexivity.
    rewrite (replaceFirst_after _ _ _ _ (utc_clock_no_Z t)).
    now rewrite append_empty_r. }
  unfold DiagnosticReportForm.getISOWithOffsetFromDateInput. intros H.
  apply bind_Ok in H as (now & w1 & Hnow & H).
  unfold new_Date_now in Hnow. apply Ok_inj in Hnow as [<- <-].
  apply bind_Ok in H as (d & w2 & Hd & H).
  cbv zeta in H.
  destruct d as [t|].
  - apply G in H. split; [now exists t|].
    intros ->. cbn [truthy String.eqb negb] in Hd. apply ret_Ok in Hd as [Hd _].
    injection Hd as <-. exact H.
  - apply bind_Ok in H as (iso & w3 & Hiso & _). discriminate Hiso.
Qed.

End UtcClock.

Lemma getISOWithOffsetFromDateInput_utc_fields_witness :
  exists t, "2025-01-01T04:30:00.000+05:30"
            = utc_clock t ^^ offset_text (JSDate.timezoneOffset sample_env t).
Proof.
  refine (proj1 (getISOWithOffsetFromDateInput_utc_fields sample_env EmptyString Effects.start
                   {| Effects.rand_pos := 0; Effects.clock_pos := 1 |} _ _)).
  vm_compute. reflexivity.
Defined.

(* ------------------------------------------------------------------ *)
(** ** The number of entries of a bundle *)

Section EntryCount.
Import JS Bundle.

(** The immunization bundle has one entry for the composition, the
    patient and the practitioner, one for the encounter and one for the
    custodian when their text is given, one for each row, one for the
    recommendation when its text is given, and a document reference and
    a binary for each file, or for the placeholder when there is none. *)
Theorem immunization_entry_count (E : JSDate.Env) (st : App.State) (b : JS.value) :
  App.onBuildBundle E st = App.Built b ->
  List.length (entries b)
  = 3 + count (truthy (App.encounterText st)) + count (truthy (App.custodianName st))
    + List.length (App.immunizations st) + count (truthy (App.immRecText st))
    + 2 * Nat.max 1 (List.length (App.files st)).
Proof.
  intros H. apply onBuildBundle_Built in H as (_ & p & x & _ & S & Hent).
  pose proof (resourceType_resources E st p x S) as T.
  apply (f_equal (@List.length string)) in T.
  rewrite length_map in T. rewrite Hent, length_map, T.
  unfold types_in_entry_order. rewrite !length_app, !repeat_length. cbn [List.length].
  assert (L : List.length (App.toProcess st) = Nat.max 1 (List.length (App.files st))).
  { unfold App.toProcess. destruct (App.files st) as [|f fs]; [reflexivity|].
    cbn [List.length Nat.ltb Nat.leb]. rewrite length_map. cbn [List.length]. lia. }
  rewrite L. lia.
Qed.

(** The diagnostic-report bundle has one entry for the composition,
    the patient, the practitioner and the diagnostic report, and one
    for each result row, each specimen row and each attachment. *)
Theorem diagnostic_entry_count (E : JSDate.Env) (st : DiagnosticReportForm.State)
    (b : JS.value) :
  DiagnosticReportForm.handleSubmit E st = DiagnosticReportForm.Bundle b ->
  List.length (entries b)
  = 4 + List.length (DiagnosticReportForm.results st)
    + List.length (DiagnosticReportForm.specimens st)
    + List.length (DiagnosticReportForm.attachments st).
Proof.
  intros H. apply DiagnosticSteps.handleSubmit_Bundle in H as (_ & x & S & _ & Hent).
  pose proof (diagnostic_resourceType_resources E st x S) as T.
  apply (f_equal (@List.length string)) in T.
  rewrite length_map in T. rewrite Hent, length_map, T.
  unfold diagnostic_types. rewrite !length_app, !repeat_length. cbn [List.length]. lia.
Qed.

End EntryCount.

Lemma immunization_entry_count_witness :
  List.length (Bundle.entries (bundle_of sample_env scenario)) = 6.
Proof.
  assert (H : App.onBuildBundle sample_env scenario = App.Built (bundle_of sample_env scenario))
    by (vm_compute; reflexivity).
  exact (immunization_entry_count sample_env scenario _ H).
Defined.

Lemma diagnostic_entry_count_witness :
  List.length (Bundle.entries (lab_bundle_of sample_env lab_state)) = 6.
Proof.
  assert (H : DiagnosticReportForm.handleSubmit sample_env lab_state
              = DiagnosticReportForm.Bundle (lab_bundle_of sample_env lab_state))
    by (vm_compute; reflexivity).
  exact (diagnostic_entry_count sample_env lab_state _ H).
Defined.

(* ------------------------------------------------------------------ *)
(** ** Identifiers and references of the diagnostic-report bundle *)

Section DiagnosticClosure.
Import JS JSDate Effects Runtime Bundle DiagnosticReportForm DiagnosticSteps.

Lemma diag_at_index_same : DiagnosticReportForm.at_index = App.at_index.
Proof. reflexivity. Qed.

Lemma references_codeOf (snomed text : string) : references (codeOf snomed text) = [].
Proof. unfold codeOf. now destruct (truthy snomed && truthy (trim snomed)). Qed.

Lemma references_diag_at_index (l : list string) (i : nat) :
  references (DiagnosticReportForm.at_index l i) = [].
Proof. unfold DiagnosticReportForm.at_index. now destruct (nth_error l i). Qed.

Lemma references_diagCategoryCoding (st : State) :
  references (diagCategoryCoding st) = []
  /\ references (get (diagCategoryCoding st) "display") = [].
Proof. unfold diagCategoryCoding. now destruct (diagCategory st =? "IMG"). Qed.

Variable st : State.
Variables p pr : string.

Lemma references_observationResource (r : ResultRow) (l : list string) (i : nat) (t : string) :
  references (observationResource st p pr r (DiagnosticReportForm.at_index l i) t)
  = [urn (VStr p); urn (VStr pr)].
Proof.
  unfold observationResource.
  cbn [references is_reference_key String.eqb Ascii.eqb Bool.eqb orb app flat_map
       referenceTo profile narrative].
  rewrite references_diag_at_index, references_codeOf, references_if.
  cbn [references app]. now rewrite if_same.
Qed.

Lemma references_specimenResource (s : SpecimenRow) (l : list string) (i : nat) (t : string) :
  references (specimenResource st p s (DiagnosticReportForm.at_index l i) t) = [urn (VStr p)].
Proof.
  unfold specimenResource.
  cbn [references is_reference_key String.eqb Ascii.eqb Bool.eqb orb app flat_map
       referenceTo profile narrative].
  rewrite references_diag_at_index, references_if.
  cbn [references is_reference_key String.eqb Ascii.eqb Bool.eqb orb app]. now rewrite if_same.
Qed.

Lemma references_documentResource (a : Attachment) (l : list string) (i : nat) (t : string) :
  references (documentResource st p a (DiagnosticReportForm.at_index l i) t) = [urn (VStr p)].
Proof.
  unfold documentResource.
  cbn [references is_reference_key String.eqb Ascii.eqb Bool.eqb orb app flat_map
       referenceTo profile narrative LOINC_LAB_REPORT].
  now rewrite references_diag_at_index.
Qed.

Lemma references_patientResource : references (patientResource st p) = [].
Proof.
  unfold patientResource.
  cbn [references is_reference_key String.eqb Ascii.eqb Bool.eqb orb app flat_map
       profile narrative].
  rewrite !references_if. cbn [references flat_map app]. now rewrite !if_same.
Qed.

Lemma references_practitionerResource : references (practitionerResource st pr) = [].
Proof. reflexivity. Qed.

Lemma flat_references_map_reference (l : list JS.value) :
  flat_map references (map (fun o => VObj [("reference", VStr (urn (get o "id")))]) l)
  = map (fun o => urn (get o "id")) l.
Proof. induction l as [|a l IH]; [reflexivity|]. cbn [map flat_map]. now rewrite IH. Qed.

Lemma flat_references_docEntries (l : list JS.value) :
  flat_map references
    (map (fun d => VObj [("reference", VStr (urn (get d "id"))); ("type", VStr "DocumentReference")])
         l)
  = map (fun d => urn (get d "id")) l.
Proof. induction l as [|a l IH]; [reflexivity|]. cbn [map flat_map]. now rewrite IH. Qed.

Lemma references_diagnosticReportResource (d : string) (os ss : list JS.value) (iss : string) :
  references (diagnosticReportResource st p pr d os ss iss)
  = [urn (VStr p); urn (VStr pr)]
    ++ map (fun o => urn (get o "id")) os ++ map (fun s => urn (get s "id")) ss.
Proof.
  unfold diagnosticReportResource.
  destruct (references_diagCategoryCoding st) as [Hc Hd].
  cbn [references is_reference_key String.eqb Ascii.eqb Bool.eqb orb app flat_map
       referenceTo profile narrative].
  rewrite !flat_references_map_reference, references_codeOf, Hc, Hd.
  cbn [app]. now rewrite !app_nil_r.
Qed.

Lemma references_compositionResource (c d : string) (docs : list JS.value) :
  references (compositionResource st c p pr d
                (map (fun x => VObj [("reference", VStr (urn (get x "id")));
                                     ("type", VStr "DocumentReference")]) docs))
  = [urn (VStr p); urn (VStr pr); urn (VStr d)] ++ map (fun x => urn (get x "id")) docs.
Proof.
  unfold compositionResource.
  cbn [references is_reference_key String.eqb Ascii.eqb Bool.eqb orb app flat_map
       referenceTo profile narrative LOINC_LAB_REPORT].
  rewrite flat_references_docEntries. now rewrite !app_nil_r.
Qed.

Lemma id_of_observations_from (l : list string) (i : nat) (rows : list (ResultRow * string)) :
  map (fun o => get o "id") (observations_from st p pr l i rows)
  = map (fun j => App.at_index l j) (seq i (List.length rows)).
Proof.
  revert i. induction rows as [|[r t] rows IH]; intros i; [reflexivity|].
  cbn [observations_from map List.length seq]. now rewrite IH.
Qed.

Lemma id_of_specimens_from (l : list string) (i : nat) (rows : list (SpecimenRow * string)) :
  map (fun o => get o "id") (specimens_from st p l i rows)
  = map (fun j => App.at_index l j) (seq i (List.length rows)).
Proof.
  revert i. induction rows as [|[r t] rows IH]; intros i; [reflexivity|].
  cbn [specimens_from map List.length seq]. now rewrite IH.
Qed.

Lemma id_of_documents_from (l : list string) (i : nat) (rows : list (Attachment * string)) :
  map (fun o => get o "id") (documents_from st p l i rows)
  = map (fun j => App.at_index l j) (seq i (List.length rows)).
Proof.
  revert i. induction rows as [|[r t] rows IH]; intros i; [reflexivity|].
  cbn [documents_from map List.length seq]. now rewrite IH.
Qed.

Lemma ids_of_rows {A} (l : list string) (rows : list A) (times : list string) :
  List.length l = List.length rows -> List.length times = List.length rows ->
  map (fun j => App.at_index l j) (seq 0 (List.length (combine rows times))) = map VStr l.
Proof.
  intros Hl Ht. rewrite length_combine, Ht, Nat.min_id, <- Hl.
  apply (map_at_index (fun v => v)).
Qed.

End DiagnosticClosure.

Section DiagnosticClosureTheorem.
Import JS JSDate Effects Runtime Bundle DiagnosticReportForm DiagnosticSteps.

Variable E : Env.
Variable st : State.
Variable x : Parts.
Hypothesis shape : Shape E st x.

(** The identifiers of the rows' resources are the identifiers drawn
    for them, in order. *)
Lemma ids_of_observations : map (fun o => get o "id") (observations st x) = map VStr (obsIds x).
Proof.
  unfold observations. rewrite id_of_observations_from.
  apply ids_of_rows; [apply (shape_obsIds E st x shape) | apply (shape_observationTimes E st x shape)].
Qed.

Lemma ids_of_specimens :
  map (fun o => get o "id") (specimenResources st x) = map VStr (specimenIds x).
Proof.
  unfold specimenResources. rewrite id_of_specimens_from.
  apply ids_of_rows; [apply (shape_specimenIds E st x shape) | apply (shape_specimenTimes E st x shape)].
Qed.

Lemma ids_of_documents : map (fun o => get o "id") (documents st x) = map VStr (docIds x).
Proof.
  unfold documents. rewrite id_of_documents_from.
  apply ids_of_rows; [apply (shape_docIds E st x shape) | apply (shape_documentTimes E st x shape)].
Qed.

Lemma map_compose_get {A} (f : JS.value -> A) (l : list JS.value) (ids : list string) :
  map (fun o => get o "id") l = map VStr ids ->
  map (fun o => f (get o "id")) l = map (fun id => f (VStr id)) ids.
Proof.
  intros H. rewrite <- (map_map (fun o => get o "id") f), H, map_map. reflexivity.
Qed.

Lemma id_of_rows (l : list JS.value) (ids : list string) :
  map (fun o => get o "id") l = map VStr ids -> map id_of l = ids.
Proof.
  intros H. change (map id_of l) with (map (fun o => ToString (get o "id")) l).
  rewrite (map_compose_get ToString _ _ H). cbn [ToString]. apply map_id.
Qed.

Lemma diag_id_of_resources : map id_of (DiagnosticSteps.resources_of st x) = DiagnosticSteps.all_ids x.
Proof.
  unfold DiagnosticSteps.resources_of, DiagnosticSteps.all_ids. rewrite !map_app.
  rewrite (id_of_rows _ _ ids_of_observations), (id_of_rows _ _ ids_of_specimens),
    (id_of_rows _ _ ids_of_documents).
  reflexivity.
Qed.

(** A text that refers to an entry of the diagnostic-report bundle. *)
Definition diag_resolves (s : string) : Prop :=
  exists id, s = "urn:uuid:" ^^ id /\ In id (DiagnosticSteps.all_ids x).

Lemma diag_resolves_patient : diag_resolves (urn (VStr (patientId x))).
Proof. exists (patientId x). split; [reflexivity|]. right. now left. Qed.

Lemma diag_resolves_practitioner : diag_resolves (urn (VStr (practitionerId x))).
Proof. exists (practitionerId x). split; [reflexivity|]. do 2 right. now left. Qed.

Lemma diag_resolves_report : diag_resolves (urn (VStr (diagId x))).
Proof. exists (diagId x). split; [reflexivity|]. do 3 right. now left. Qed.

Lemma diag_resolves_rows (l : list JS.value) (ids : list string) :
  map (fun o => get o "id") l = map VStr ids ->
  (forall id, In id ids -> In id (DiagnosticSteps.all_ids x)) ->
  Forall diag_resolves (map (fun o => urn (get o "id")) l).
Proof.
  intros H Hin. rewrite (map_compose_get urn _ _ H).
  apply Forall_forall. intros s Hs. apply in_map_iff in Hs as (id & <- & Hid).
  exists id. split; [reflexivity | now apply Hin].
Qed.

Lemma In_obsIds (id : string) : In id (obsIds x) -> In id (DiagnosticSteps.all_ids x).
Proof. intros H. unfold DiagnosticSteps.all_ids. cbn [app]. do 4 right. apply in_or_app. now left. Qed.

Lemma In_specimenIds (id : string) : In id (specimenIds x) -> In id (DiagnosticSteps.all_ids x).
Proof.
  intros H. unfold DiagnosticSteps.all_ids. cbn [app]. do 4 right.
  apply in_or_app. right. apply in_or_app. now left.
Qed.

Lemma In_docIds (id : string) : In id (docIds x) -> In id (DiagnosticSteps.all_ids x).
Proof.
  intros H. unfold DiagnosticSteps.all_ids. cbn [app]. do 4 right.
  now do 2 (apply in_or_app; right).
Qed.

Lemma references_rows_resolve (r : JS.value) :
  In r (observations st x) \/ In r (specimenResources st x) \/ In r (documents st x) ->
  Forall diag_resolves (references r).
Proof.
  unfold observations, specimenResources, documents. intros [H|[H|H]]; revert H.
  - generalize 0. generalize (combine (results st) (observationTimes x)).
    induction l as [|[row t] l IH]; intros i H; [destruct H|].
    destruct H as [<-|H]; [|now apply (IH (S i))].
    rewrite references_observationResource.
    repeat constructor; [apply diag_resolves_patient | apply diag_resolves_practitioner].
  - generalize 0. generalize (combine (specimens st) (specimenTimes x)).
    induction l as [|[row t] l IH]; intros i H; [destruct H|].
    destruct H as [<-|H]; [|now apply (IH (S i))].
    rewrite references_specimenResource. repeat constructor. apply diag_resolves_patient.
  - generalize 0. generalize (combine (attachments st) (documentTimes x)).
    induction l as [|[row t] l IH]; intros i H; [destruct H|].
    destruct H as [<-|H]; [|now apply (IH (S i))].
    rewrite references_documentResource. repeat constructor. apply diag_resolves_patient.
Qed.

Lemma diag_references_resolve (r : JS.value) :
  In r (DiagnosticSteps.resources_of st x) -> Forall diag_resolves (references r).
Proof.
  unfold DiagnosticSteps.resources_of. intros H. cbn [app] in H.
  destruct H as [<-|[<-|[<-|[<-|H]]]].
  - unfold docEntries. rewrite references_compositionResource. apply Forall_app. split.
    + repeat constructor;
        [apply diag_resolves_patient | apply diag_resolves_practitioner | apply diag_resolves_report].
    + apply (diag_resolves_rows _ _ ids_of_documents In_docIds).
  - rewrite references_patientResource. constructor.
  - rewrite references_practitionerResource. constructor.
  - rewrite references_diagnosticReportResource. repeat (apply Forall_app; split).
    + repeat constructor; [apply diag_resolves_patient | apply diag_resolves_practitioner].
    + apply (diag_resolves_rows _ _ ids_of_observations In_obsIds).
    + apply (diag_resolves_rows _ _ ids_of_specimens In_specimenIds).
  - apply references_rows_resolve. apply in_app_or in H as [H|H]; [now left|].
    apply in_app_or in H as [H|H]; [right; now left | right; now right].
Qed.

End DiagnosticClosureTheorem.

Section DiagnosticClosureStatement.
Import JS JSDate Effects Runtime Bundle DiagnosticReportForm DiagnosticSteps.

Variable E : Env.

Lemma specimens_of_built (st : State) (x : Parts) :
  DiagnosticSteps.Shape E st x ->
  of_type "Specimen" (DiagnosticSteps.resources_of st x) = specimenResources st x.
Proof.
  intros S. unfold DiagnosticSteps.resources_of.
  pose proof (resourceType_observations_from st (patientId x) (practitionerId x) (obsIds x) 0
                (combine (results st) (observationTimes x))) as Ho.
  pose proof (resourceType_specimens_from st (patientId x) (specimenIds x) 0
                (combine (specimens st) (specimenTimes x))) as Hs.
  pose proof (resourceType_documents_from st (patientId x) (docIds x) 0
                (combine (attachments st) (documentTimes x))) as Hd.
  fold (observations st x) in Ho. fold (specimenResources st x) in Hs.
  fold (documents st x) in Hd.
  rewrite !of_type_app.
  rewrite (of_type_repeat_other _ _ _ _ Ho), (of_type_repeat_same _ _ _ Hs),
    (of_type_repeat_other _ _ _ _ Hd) by discriminate.
  cbn [of_type filter app]. now rewrite app_nil_r.
Qed.

(** In every bundle the diagnostic-report form returns, provided the
    identifiers drawn for its resources are pairwise distinct: each
    entry's [fullUrl] is [urn:uuid:] followed by the [id] of its own
    resource; every reference text held by any resource is
    [urn:uuid:<id>] for an [id] that is the identifier of exactly one
    entry; and the identifiers of the entries are the identifiers that
    were drawn, in the order they were drawn. *)
Theorem diagnostic_referential_closure (st : State) (b : JS.value) :
  handleSubmit E st = Bundle b ->
  NoDup (drawn E 0 (DiagnosticSteps.resource_count st)) ->
  (forall e, In e (entries b) -> fullUrl e = VStr ("urn:uuid:" ^^ id_of (resource e)))
  /\ (forall e s, In e (entries b) -> In s (references (resource e)) ->
        exists id, s = "urn:uuid:" ^^ id /\ count_occ string_dec (entry_ids b) id = 1)
  /\ NoDup (entry_ids b)
  /\ entry_ids b = drawn E 0 (DiagnosticSteps.resource_count st).
Proof.
  intros H N. apply handleSubmit_Bundle in H as (_ & x & S & Hres & Hent).
  assert (Hids : entry_ids b = drawn E 0 (DiagnosticSteps.resource_count st)).
  { unfold entry_ids. rewrite Hres, (diag_id_of_resources E st x S).
    apply (shape_ids E st x S). }
  split; [|split; [|split; [now rewrite Hids | exact Hids]]].
  - intros e He. rewrite Hent in He. apply in_map_iff in He as (r & <- & _). reflexivity.
  - intros e s He Hs. rewrite Hent in He. apply in_map_iff in He as (r & <- & Hr).
    change (resource (bundleEntry (get r "id") r)) with r in Hs.
    pose proof (diag_references_resolve E st x S r Hr) as F.
    rewrite Forall_forall in F. destruct (F s Hs) as (id & -> & Hid).
    exists id. split; [reflexivity|]. apply NoDup_count_occ_1; [now rewrite Hids|].
    rewrite Hids, <- (shape_ids E st x S). exact Hid.
Qed.

(** What links the resources of a diagnostic-report bundle: the
    diagnostic report, fourth in the bundle, lists as results the
    observations of the bundle and as specimens its specimens, each by
    its [fullUrl] and in entry order; the section of the composition
    lists the diagnostic report and then every document reference. *)
Theorem diagnostic_report_links (st : State) (b : JS.value) :
  handleSubmit E st = Bundle b ->
  exists composition patient practitioner report rest,
    resources b = composition :: patient :: practitioner :: report :: rest
    /\ get report "result"
       = VArr (map (fun o => VObj [("reference", VStr ("urn:uuid:" ^^ id_of o))])
                   (of_type "Observation" (resources b)))
    /\ get report "specimen"
       = VArr (map (fun s => VObj [("reference", VStr ("urn:uuid:" ^^ id_of s))])
                   (of_type "Specimen" (resources b)))
    /\ (exists section,
          get composition "section" = VArr [section]
          /\ get section "entry"
             = VArr (VObj [("reference", VStr ("urn:uuid:" ^^ id_of report));
                           ("type", VStr "DiagnosticReport")]
                     :: map (fun d => VObj [("reference", VStr ("urn:uuid:" ^^ id_of d));
                                            ("type", VStr "DocumentReference")])
                            (of_type "DocumentReference" (resources b)))).
Proof.
  intros H. apply handleSubmit_Bundle in H as (_ & x & S & Hres & _).
  rewrite Hres. destruct (diagnostic_rows_of_built E st x S) as (-> & ->).
  rewrite (specimens_of_built st x S).
  unfold DiagnosticSteps.resources_of. cbn [app].
  do 5 eexists. split; [reflexivity|].
  split; [reflexivity|]. split; [reflexivity|].
  eexists. split; reflexivity.
Qed.

End DiagnosticClosureStatement.

Lemma diagnostic_referential_closure_witness :
  NoDup (Bundle.entry_ids (lab_bundle_of sample_env lab_state_with_files)).
Proof.
  assert (H : DiagnosticReportForm.handleSubmit sample_env lab_state_with_files
              = DiagnosticReportForm.Bundle (lab_bundle_of sample_env lab_state_with_files))
    by (vm_compute; reflexivity).
  assert (N : NoDup (drawn sample_env 0 (DiagnosticSteps.resource_count lab_state_with_files)))
    by (apply nodupb_NoDup; vm_compute; reflexivity).
  exact (proj1 (proj2 (proj2 (diagnostic_referential_closure sample_env
                                lab_state_with_files _ H N)))).
Defined.

Lemma diagnostic_report_links_witness :
  exists composition patient practitioner report rest,
    Bundle.resources (lab_bundle_of sample_env lab_state_with_files)
    = composition :: patient :: practitioner :: report :: rest.
Proof.
  assert (H : DiagnosticReportForm.handleSubmit sample_env lab_state_with_files
              = DiagnosticReportForm.Bundle (lab_bundle_of sample_env lab_state_with_files))
    by (vm_compute; reflexivity).
  destruct (diagnostic_report_links sample_env lab_state_with_files _ H)
    as (c & p & pr & report & rest & Hr & _).
  exists c, p, pr, report, rest. exact Hr.
Defined.

(* ------------------------------------------------------------------ *)
(** ** The form of an identifier *)

Section UuidForm.
Import JS JSDate Effects Runtime.
Local Open Scope js_scope.

(** A lower-case hexadecimal digit. *)
Definition isHex (c : ascii) : bool :=
  let n := nat_of_ascii c in isDigit c || ((97 <=? n)%nat && (n <=? 102)%nat).

(** One of 8, 9, a and b. *)
Definition isVariant (c : ascii) : bool :=
  (c =? "8")%char || (c =? "9")%char || (c =? "a")%char || (c =? "b")%char.

(** [s] follows [template]: a hexadecimal digit for each x, one of 8, 9,
    a, b for each y, and every other character as it is. *)
Fixpoint follows (template s : string) : bool :=
  match template, s with
  | EmptyString, EmptyString => true
  | String c t, String d r =>
      (if (c =? "x")%char then isHex d
       else if (c =? "y")%char then isVariant d
       else (d =? c)%char)
      && follows t r
  | _, _ => false
  end.

(** How many random numbers a template takes. *)
Fixpoint draws (template : string) : nat :=
  match template with
  | EmptyString => 0
  | String c t => (if (c =? "x")%char || (c =? "y")%char then 1 else 0) + draws t
  end.

Lemma sixteen_cases (r : Z) :
  (0 <= r < 16)%Z ->
  (r = 0 \/ r = 1 \/ r = 2 \/ r = 3 \/ r = 4 \/ r = 5 \/ r = 6 \/ r = 7 \/ r = 8 \/ r = 9
   \/ r = 10 \/ r = 11 \/ r = 12 \/ r = 13 \/ r = 14 \/ r = 15)%Z.
Proof. lia. Qed.

Lemma hex_of_random (r : Z) :
  (0 <= r < 16)%Z ->
  (exists d, toStringRadix 16 r = String d EmptyString /\ isHex d = true)
  /\ (exists d, toStringRadix 16 (Z.lor (Z.land r 3) 8) = String d EmptyString
                /\ isVariant d = true).
Proof.
  intros H. apply sixteen_cases in H.
  repeat (destruct H as [->|H]; [split; eexists; split; reflexivity|]).
  subst. split; eexists; split; reflexivity.
Qed.

Lemma follows_length (template s : string) :
  follows template s = true -> String.length s = String.length template.
Proof.
  revert s. induction template as [|c t IH]; intros [|d r] H; try discriminate H;
    [reflexivity|].
  cbn [follows] in H. apply andb_true_iff in H as [_ H]. cbn [String.length].
  now rewrite (IH r H).
Qed.

(** A character of the template that is neither x nor y is found at
    the same place in what follows it. *)
Lemma follows_get (template s : string) (i : nat) (c : ascii) :
  follows template s = true -> String.get i template = Some c ->
  (c =? "x")%char = false -> (c =? "y")%char = false ->
  String.get i s = Some c.
Proof.
  revert s i. induction template as [|a t IH]; intros [|d r] i H G Hx Hy;
    try discriminate H; try discriminate G.
  cbn [follows] in H. apply andb_true_iff in H as [Hc H].
  destruct i as [|i]; cbn [String.get] in G |- *.
  - injection G as ->. rewrite Hx, Hy in Hc. apply Ascii.eqb_eq in Hc. now subst.
  - now apply (IH r i).
Qed.

Variable E : Env.

(** The random numbers are the integers from 0 to 15. *)
Definition random_in_range : Prop := forall k, (0 <= random16 E k < 16)%Z.

Hypothesis range : random_in_range.

Lemma uuid_char_run (c : ascii) (w : World) :
  exists d,
    uuid_char E c w
    = Ok (String d EmptyString)
         (advance (if (c =? "x")%char || (c =? "y")%char then 1 else 0) w)
    /\ (if (c =? "x")%char then isHex d
        else if (c =? "y")%char then isVariant d
        else (d =? c)%char) = true.
Proof.
  unfold uuid_char.
  destruct (hex_of_random (random16 E (rand_pos w)) (range _)) as ((dx & Hx & Ix) & (dy & Hy & Iy)).
  destruct (c =? "x")%char eqn:Cx; cbn [orb].
  - exists dx. unfold bind, Math_random16, ret. rewrite Hx. split; [|exact Ix].
    f_equal. unfold advance. cbn [rand_pos clock_pos]. f_equal. lia.
  - destruct (c =? "y")%char eqn:Cy.
    + exists dy. unfold bind, Math_random16, ret. rewrite Hy. split; [|exact Iy].
      f_equal. unfold advance. cbn [rand_pos clock_pos]. f_equal. lia.
    + exists c. unfold ret. rewrite advance_0. split; [reflexivity | apply Ascii.eqb_refl].
Qed.

Lemma replace_xy_run (template : string) (w : World) :
  exists s,
    replace_xy E template w = Ok s (advance (draws template) w)
    /\ follows template s = true.
Proof.
  revert w. induction template as [|c t IH]; intros w; cbn [replace_xy draws].
  - exists EmptyString. unfold ret. rewrite advance_0. now split.
  - destruct (uuid_char_run c w) as (d & Hd & Fd).
    destruct (IH (advance (if (c =? "x")%char || (c =? "y")%char then 1 else 0) w))
      as (s & Hs & Fs).
    exists (String d s). unfold bind. rewrite Hd, Hs. unfold ret.
    rewrite advance_advance. split; [reflexivity|].
    cbn [follows]. now rewrite Fd, Fs.
Qed.

Transparent Runtime.uuidv4.

Lemma uuidv4_replace_xy :
  uuidv4 E = replace_xy E "xxxxxxxx-xxxx-4xxx-yxxx-xxxxxxxxxxxx".
Proof. reflexivity. Qed.

Opaque Runtime.uuidv4.

Lemma uuid_from_follows (pos : nat) :
  follows "xxxxxxxx-xxxx-4xxx-yxxx-xxxxxxxxxxxx" (uuid_from E pos) = true.
Proof.
  destruct (replace_xy_run "xxxxxxxx-xxxx-4xxx-yxxx-xxxxxxxxxxxx"
              {| rand_pos := pos; clock_pos := 0 |}) as (s & Hs & Fs).
  rewrite <- uuidv4_replace_xy, uuidv4_run in Hs. apply Ok_inj in Hs as [Hs _].
  cbn [rand_pos] in Hs. now rewrite Hs.
Qed.

End UuidForm.

(** With random numbers from 0 to 15, [uuidv4] never fails, takes 31
    random numbers and returns a version-4 identifier: 36 characters,
    hyphens after the 8th, 13th, 18th and 23rd, the digit 4 as 15th
    character, one of 8, 9, a, b as 20th, and lower-case hexadecimal
    digits everywhere else. *)
Theorem uuidv4_is_version_4 (E : JSDate.Env) (w : Effects.World) :
  random_in_range E ->
  exists id,
    Runtime.uuidv4 E w = Effects.Ok id (advance 31 w)
    /\ follows "xxxxxxxx-xxxx-4xxx-yxxx-xxxxxxxxxxxx" id = true
    /\ String.length id = 36
    /\ String.get 8 id = Some "-"%char /\ String.get 13 id = Some "-"%char
    /\ String.get 14 id = Some "4"%char
    /\ String.get 18 id = Some "-"%char /\ String.get 23 id = Some "-"%char.
Proof.
  intros R. exists (uuid_from E (Effects.rand_pos w)).
  pose proof (uuid_from_follows E R (Effects.rand_pos w)) as F.
  split; [apply uuidv4_run|]. split; [exact F|].
  split; [exact (follows_length _ _ F)|].
  repeat split; apply (follows_get _ _ _ _ F); reflexivity.
Qed.

Lemma sample_random_in_range : random_in_range sample_env.
Proof.
  intros k. cbn [JSDate.random16 sample_env].
  pose proof (Nat.mod_upper_bound k 16). lia.
Qed.

Lemma uuidv4_is_version_4_witness :
  exists id, Runtime.uuidv4 sample_env Effects.start = Effects.Ok id (advance 31 Effects.start)
             /\ String.length id = 36.
Proof.
  destruct (uuidv4_is_version_4 sample_env Effects.start sample_random_in_range)
    as (id & H & _ & L & _).
  exists id. split; [exact H | exact L].
Defined.

Opaque Runtime.uuidv4.

(* ------------------------------------------------------------------ *)
(** ** The payload of an uploaded file *)

Section Payload.
Import JS JSDate Effects Runtime App.

Lemma prefix_marker_false (header rest : string) :
  header <> EmptyString -> includes header "," = false ->
  String.prefix "base64," (header ^^ "base64," ^^ rest) = false.
Proof.
  intros Hn Hc.
  destruct header as [|c0 [|c1 [|c2 [|c3 [|c4 [|c5 [|c6 r]]]]]]]; [congruence| | | | | | |];
    cbn [String.append String.prefix];
    repeat match goal with
           | |- context [ascii_dec ?a ?b] => destruct (ascii_dec a b); try reflexivity
           end;
    try discriminate.
  subst. cbn [includes Ascii.eqb Bool.eqb orb andb] in Hc. discriminate Hc.
Qed.

Lemma index_marker (header rest : string) :
  includes header "," = false ->
  String.index 0 "base64," (header ^^ "base64," ^^ rest) = Some (String.length header).
Proof.
  induction header as [|c r IH]; intros Hc.
  - cbn [String.append String.length]. cbn [String.index String.prefix].
    repeat match goal with
           | |- context [ascii_dec ?a ?b] => destruct (ascii_dec a b); [|congruence]
           end.
    now destruct rest.
  - pose proof (prefix_marker_false (String c r) rest ltac:(discriminate) Hc) as P.
    cbn [includes] in Hc. apply orb_false_iff in Hc as [_ Hr].
    change (String c r ^^ "base64," ^^ rest) with (String c (r ^^ "base64," ^^ rest)) in P |- *.
    cbn [String.length].
    change (String.index 0 "base64," (String c (r ^^ "base64," ^^ rest)))
      with (if String.prefix "base64," (String c (r ^^ "base64," ^^ rest)) then Some 0
            else match String.index 0 "base64," (r ^^ "base64," ^^ rest) with
                 | Some n => Some (S n)
                 | None => None
                 end).
    now rewrite P, (IH Hr).
Qed.

Lemma sliceFrom_marker (header payload : string) :
  sliceFrom (header ^^ "base64," ^^ payload) (String.length header + 7) = payload.
Proof.
  unfold sliceFrom.
  replace (header ^^ "base64," ^^ payload) with ((header ^^ "base64,") ^^ payload)
    by now rewrite append_assoc.
  set (h := header ^^ "base64,").
  replace (String.length header + 7) with (String.length h)
    by (unfold h; rewrite append_length; reflexivity).
  replace (String.length (h ^^ payload) - String.length h) with (String.length payload)
    by (rewrite append_length; lia).
  apply substring_suffix.
Qed.

Variable E : Env.

Lemma fileToBase64NoPrefix_marker (f : File) (header payload : string) (w : World) :
  f_result f = Some (header ^^ "base64," ^^ payload) -> includes header "," = false ->
  fileToBase64NoPrefix f w = Ok payload w.
Proof.
  intros Hr Hc. unfold fileToBase64NoPrefix, indexOf. rewrite Hr.
  rewrite (index_marker _ _ Hc), sliceFrom_marker. reflexivity.
Qed.

(** Reading a file.  When the reader fails the promise is rejected with
    File read error.  A result that holds the marker [base64,] after a
    header without a comma, as every data URL does, gives what follows
    the marker; a result without the marker is given back whole.  A data
    URL of a PDF, JPEG or PNG file gives the same payload here as in the
    diagnostic-report form.  What a picked file contributes to its
    Binary and DocumentReference is its type, or PDF when it has none,
    this payload, and its name, or placeholder.pdf when it has none. *)
Theorem fileToBase64NoPrefix_payload (w : World) :
  (forall f, f_result f = None -> fileToBase64NoPrefix f w = Throw "File read error")
  /\ (forall f header payload,
        f_result f = Some (header ^^ "base64," ^^ payload) ->
        includes header "," = false ->
        fileToBase64NoPrefix f w = Ok payload w
        /\ contentOf (Some f) w
           = Ok (or_else (f_type f) "application/pdf", payload,
                 or_else (f_name f) "placeholder.pdf") w)
  /\ (forall f res,
        f_result f = Some res -> indexOf res "base64," = None ->
        fileToBase64NoPrefix f w = Ok res w)
  /\ (forall f payload,
        In (f_type f) DiagnosticHandlers.allowedTypes -> includes payload "," = false ->
        f_result f = Some (DiagnosticHandlers.dataURL (f_type f) payload) ->
        fileToBase64NoPrefix f w = Ok (base64_of (f_type f) payload) w).
Proof.
  split; [|split; [|split]].
  - intros f H. unfold fileToBase64NoPrefix. now rewrite H.
  - intros f header payload Hr Hc.
    pose proof (fileToBase64NoPrefix_marker f header payload w Hr Hc) as H.
    split; [exact H|]. unfold contentOf, bind. now rewrite H.
  - intros f res Hr H. unfold fileToBase64NoPrefix. now rewrite Hr, H.
  - intros f payload Ht Hp Hr. rewrite (base64_of_payload _ _ Ht Hp).
    unfold DiagnosticHandlers.dataURL in Hr.
    destruct Ht as [Ht|[Ht|[Ht|[]]]]; rewrite <- Ht in Hr.
    + apply (fileToBase64NoPrefix_marker f "data:application/pdf;" payload w Hr). reflexivity.
    + apply (fileToBase64NoPrefix_marker f "data:image/jpeg;" payload w Hr). reflexivity.
    + apply (fileToBase64NoPrefix_marker f "data:image/png;" payload w Hr). reflexivity.
Qed.

End Payload.

(* ------------------------------------------------------------------ *)
(** ** How a build of the immunization bundle can fail *)

Section AppFailures.
Import JS JSDate Effects Runtime Roster App.
Local Open Scope js_scope.

(** A computation that throws [e] whatever the state of the world. *)
Definition always_throws {A} (e : string) (m : M A) : Prop := forall w, m w = Throw e.

Lemma always_bind_left {A B} (e : string) (m : M A) (k : A -> M B) :
  always_throws e m -> always_throws e (bind m k).
Proof. intros H w. unfold bind. now rewrite H. Qed.

Lemma always_bind_total {A B} (e : string) (m : M A) (k : A -> M B) :
  total m -> (forall a, always_throws e (k a)) -> always_throws e (bind m k).
Proof.
  intros Hm Hk w. destruct (Hm w) as (a & w1 & Ha). unfold bind. rewrite Ha. apply Hk.
Qed.

Variable E : Env.
Variable st : State.

(** A row whose date holds a time and cannot be parsed, and a file
    that cannot be read. *)
Definition bad_occurrence (m : Immunization) : Prop :=
  includes (occurrenceDate m) "T" = true /\ Date_parse E (occurrenceDate m) = None.

Definition unreadable (f : File) : Prop := f_result f = None.

Lemma bad_occurrence_dec (m : Immunization) :
  bad_occurrence m
  \/ (includes (occurrenceDate m) "T" = true -> Date_parse E (occurrenceDate m) <> None).
Proof.
  unfold bad_occurrence. destruct (includes (occurrenceDate m) "T"); [|right; discriminate].
  destruct (Date_parse E (occurrenceDate m)); [right; discriminate | left; now split].
Qed.

Lemma occurrences_parse_or_not :
  Exists bad_occurrence (immunizations st) \/ occurrences_parse E st.
Proof.
  unfold occurrences_parse. induction (immunizations st) as [|m l IH]; [right; constructor|].
  destruct (bad_occurrence_dec m) as [B|G]; [left; now constructor|].
  destruct IH as [IH|IH]; [left; now apply Exists_cons_tl | right; now constructor].
Qed.

Lemma files_readable_or_not : Exists unreadable (files st) \/ files_readable st.
Proof.
  unfold files_readable, unreadable. induction (files st) as [|f l IH]; [right; constructor|].
  destruct (f_result f) eqn:R.
  - destruct IH as [IH|IH]; [left; now apply Exists_cons_tl|].
    right. constructor; [congruence | exact IH].
  - left. now constructor.
Qed.

Lemma includes_truthy (s : string) (c : ascii) : includes s c = true -> truthy s = true.
Proof. destruct s; [discriminate | reflexivity]. Qed.

Lemma always_occurrence (m : Immunization) :
  bad_occurrence m -> always_throws "Invalid time value" (occurrence E m).
Proof.
  intros [HT HP] w. unfold occurrence.
  rewrite (includes_truthy _ _ HT), HT. unfold new_Date. rewrite HP. reflexivity.
Qed.

Lemma always_immunizations (ids : Ids) (l : list Immunization) (i : nat) :
  Exists bad_occurrence l ->
  always_throws "Invalid time value" (mapM_indexed (buildImmunization E ids) l i).
Proof.
  revert i. induction l as [|m l IH]; intros i H; [inversion H|].
  cbn [mapM_indexed].
  destruct (bad_occurrence_dec m) as [B|G].
  - apply always_bind_left. unfold buildImmunization. apply always_bind_left.
    now apply always_occurrence.
  - apply always_bind_total.
    + unfold buildImmunization. apply total_bind; [|intros; apply total_ret].
      now apply total_occurrence.
    + intros y. apply always_bind_left. apply IH.
      inversion H as [? ? B|? ? T]; subst; [|exact T].
      destruct B as [HT HP]. now destruct (G HT).
Qed.

Lemma always_docLoop (ids : Ids) (a : string) (fs : list (option File)) (i : nat) :
  (exists f, In (Some f) fs /\ unreadable f) ->
  always_throws "File read error" (docLoop ids a fs i).
Proof.
  revert i. induction fs as [|f fs IH]; intros i (g & Hin & Hg); [destruct Hin|].
  cbn [docLoop].
  assert (D : (exists f', f = Some f' /\ unreadable f')
              \/ (forall f', f = Some f' -> f_result f' <> None)).
  { destruct f as [f'|]; [|right; discriminate].
    destruct (f_result f') eqn:R; [right | left; now exists f'].
    intros f'' [= <-]. congruence. }
  destruct D as [(f' & -> & U)|T].
  - apply always_bind_left. intros w. unfold contentOf, bind, fileToBase64NoPrefix.
    unfold unreadable in U. now rewrite U.
  - apply always_bind_total; [now apply total_contentOf|].
    intros [[ct d] t]. apply always_bind_left. apply IH.
    exists g. split; [|exact Hg]. destruct Hin as [->|Hin]; [|exact Hin].
    unfold unreadable in Hg. now destruct (T g eq_refl).
Qed.

Lemma In_toProcess (f : File) : In f (files st) -> In (Some f) (toProcess st).
Proof.
  intros H. unfold toProcess. destruct (files st) as [|f0 fs]; [destruct H|].
  now apply in_map.
Qed.

Ltac through_ids :=
  unfold build;
  apply always_bind_total; [apply total_localDatetimeToISOWithOffset|]; intros ?;
  do 3 (apply always_bind_total; [apply total_uuidv4|]; intros ?);
  do 2 (apply always_bind_total; [apply total_uuid_if|]; intros ?);
  (apply always_bind_total; [apply total_mapM; intros; apply total_uuidv4|]; intros ?);
  (apply always_bind_total; [apply total_uuid_if|]; intros ?);
  do 2 (apply always_bind_total; [apply total_mapM; intros; apply total_uuidv4|]; intros ?);
  cbv zeta; destruct (selectedPractitioner_some st) as (pr & ->);
  (apply always_bind_total; [apply total_ret|]; intros ?);
  apply always_bind_total;
  [ unfold buildEncounterResource; cbn [encounterId];
    match goal with |- total (match ?o with _ => _ end) => destruct o end;
    [|apply total_ret];
    match goal with |- total (if ?c then _ else _) => destruct c end;
    [apply total_ret|];
    apply total_bind; [apply total_new_Date_now | intros; apply total_ret]
  | intros ? ].

Lemma always_build_occurrence (p : Patient) :
  Exists bad_occurrence (immunizations st) ->
  always_throws "Invalid time value" (build E st p).
Proof.
  intros H. through_ids.
  apply always_bind_left. unfold buildImmunizationResources. now apply always_immunizations.
Qed.

Lemma always_build_file (p : Patient) :
  occurrences_parse E st -> Exists unreadable (files st) ->
  always_throws "File read error" (build E st p).
Proof.
  intros Ho H. through_ids.
  apply always_bind_total.
  { unfold buildImmunizationResources. apply total_mapM_indexed. intros m j Hm.
    unfold buildImmunization. apply total_bind; [|intros; apply total_ret].
    apply total_occurrence. unfold occurrences_parse in Ho. rewrite Forall_forall in Ho.
    now apply Ho. }
  intros ?. apply always_bind_left. unfold buildDocAndBinaryResources.
  apply always_docLoop. apply Exists_exists in H as (f & Hin & Hf).
  exists f. split; [now apply In_toProcess | exact Hf].
Qed.

(** Past the gate, a build fails in two ways only.  A row whose date
    holds a time that cannot be parsed makes it fail with the message
    of [toISOString] on an invalid date; otherwise a file that cannot
    be read makes it fail with File read error; otherwise the bundle
    is built. *)
Theorem onBuildBundle_failures :
  validateBeforeBuild st = [] ->
  (Exists bad_occurrence (immunizations st) ->
   onBuildBundle E st = Failed "Invalid time value")
  /\ (occurrences_parse E st -> Exists unreadable (files st) ->
      onBuildBundle E st = Failed "File read error")
  /\ (occurrences_parse E st -> files_readable st -> exists b, onBuildBundle E st = Built b)
  /\ (forall message, onBuildBundle E st = Failed message ->
        message = "Invalid time value" \/ message = "File read error").
Proof.
  intros Hv. pose proof Hv as Hv'. apply validateBeforeBuild_nil in Hv' as (NP & _).
  unfold no_patient in NP. destruct (selectedPatient st) as [p|] eqn:Hp; [|now destruct NP].
  assert (U : onBuildBundle E st = match build E st p start with
                                   | Ok bundle _ => Built bundle
                                   | Throw message => Failed message
                                   end).
  { unfold onBuildBundle. rewrite Hv, Hp. reflexivity. }
  assert (A : Exists bad_occurrence (immunizations st) ->
              onBuildBundle E st = Failed "Invalid time value").
  { intros H. rewrite U, (always_build_occurrence p H start). reflexivity. }
  assert (B : occurrences_parse E st -> Exists unreadable (files st) ->
              onBuildBundle E st = Failed "File read error").
  { intros Ho H. rewrite U, (always_build_file p Ho H start). reflexivity. }
  assert (C : occurrences_parse E st -> files_readable st ->
              exists b, onBuildBundle E st = Built b).
  { intros Ho Hf. destruct (total_build E st p Hf Ho start) as (b & w & Hb).
    exists b. rewrite U, Hb. reflexivity. }
  split; [exact A|]. split; [exact B|]. split; [exact C|].
  intros message H.
  destruct occurrences_parse_or_not as [Bad|Ho].
  - left. rewrite (A Bad) in H. now injection H as <-.
  - destruct files_readable_or_not as [Bad|Hf].
    + right. rewrite (B Ho Bad) in H. now injection H as <-.
    + destruct (C Ho Hf) as (b & Hb). rewrite Hb in H. discriminate H.
Qed.

End AppFailures.

(** The opening form with a file that cannot be read. *)
Definition scenario_unreadable : App.State :=
  {| App.selectedPatient := App.selectedPatient scenario;
     App.selectedAbha := App.selectedAbha scenario;
     App.selectedPractitionerIdx := App.selectedPractitionerIdx scenario;
     App.status := App.status scenario;
     App.title := App.title scenario;
     App.dateTimeLocal := App.dateTimeLocal scenario;
     App.encounterText := App.encounterText scenario;
     App.custodianName := App.custodianName scenario;
     App.immunizations := App.immunizations scenario;
     App.immRecText := App.immRecText scenario;
     App.immRecDateLocal := App.immRecDateLocal scenario;
     App.files := [{| App.f_name := "card.pdf"; App.f_type := "application/pdf";
                      App.f_result := None |}] |}.

Lemma onBuildBundle_failures_witness :
  App.onBuildBundle sample_env scenario_unreadable = App.Failed "File read error".
Proof.
  refine (proj1 (proj2 (onBuildBundle_failures sample_env scenario_unreadable eq_refl)) _ _).
  - repeat constructor. discriminate.
  - constructor. reflexivity.
Defined.

(* ------------------------------------------------------------------ *)
(** ** The patient and the narratives of the diagnostic-report bundle *)

Section PatientTelecom.
Import JS Roster Bundle DiagnosticReportForm DiagnosticSteps.

(** The phone number of the form is international: a mobile number of
    the roster that does not start with + gets the prefix +91, so the
    number starts with + whenever the roster has a mobile number; and
    this number is the phone of the Patient resource in the bundle. *)
Theorem patient_phone_is_international (p : Patient) :
  p_mobile p <> EmptyString ->
  startsWith (phone (patientFormOf p)) "+" = true
  /\ phone (patientFormOf p)
     = (if startsWith (p_mobile p) "+" then p_mobile p else "+91" ^^ p_mobile p)
  /\ (forall E st b,
        patient st = patientFormOf p -> handleSubmit E st = Bundle b ->
        exists r, nth_error (resources b) 1 = Some r
                  /\ resourceType r = "Patient"
                  /\ get r "telecom"
                     = VArr [VObj [("system", VStr "phone");
                                   ("value", VStr (phone (patientFormOf p)));
                                   ("use", VStr "home")]]).
Proof.
  intros Hm. apply truthy_true_iff in Hm.
  assert (Hp : phone (patientFormOf p)
               = (if startsWith (p_mobile p) "+" then p_mobile p else "+91" ^^ p_mobile p)).
  { unfold patientFormOf. cbn [phone]. now rewrite Hm. }
  assert (Hs : startsWith (phone (patientFormOf p)) "+" = true).
  { rewrite Hp. destruct (startsWith (p_mobile p) "+") eqn:S; [exact S|].
    unfold startsWith. cbn [String.append String.prefix].
    destruct (ascii_dec "+" "+"); [|congruence]. now destruct (p_mobile p). }
  split; [exact Hs|]. split; [exact Hp|].
  intros E st b Hst H. apply handleSubmit_Bundle in H as (_ & x & _ & -> & _).
  exists (patientResource st (patientId x)). split; [reflexivity|]. split; [reflexivity|].
  unfold patientResource. cbn [get lookup String.eqb Ascii.eqb Bool.eqb].
  rewrite Hst.
  assert (Ht : truthy (phone (patientFormOf p)) = true).
  { destruct (phone (patientFormOf p)); [discriminate Hs | reflexivity]. }
  now rewrite Ht.
Qed.

End PatientTelecom.

Lemma patient_phone_is_international_witness :
  DiagnosticReportForm.phone (DiagnosticReportForm.patientFormOf asha) = "+919000000000".
Proof.
  refine (proj1 (proj2 (patient_phone_is_international asha _))). discriminate.
Defined.

Section DiagnosticNarratives.
Import JS Bundle Xhtml DiagnosticReportForm DiagnosticSteps.

Lemma plain_append (a b : string) : plain (a ^^ b) = plain a && plain b.
Proof.
  unfold plain. rewrite !includes_append.
  destruct (includes a "<"), (includes a "&"), (includes b "<"), (includes b "&"); reflexivity.
Qed.

(** A narrative whose body is one paragraph of text. *)
Lemma one_paragraph (title text : string) :
  plain title = true -> plain text = true ->
  well_formed (buildNarrative title ("<p>" ^^ text ^^ "</p>")) = true.
Proof.
  intros Ht Hx. rewrite narrative_markup_Diagnostic.
  apply narrative_markup_well_formed; [exact Ht | now apply paragraph_well_formed].
Qed.

(** A narrative whose body is two paragraphs of text. *)
Lemma two_paragraphs (title a b : string) :
  plain title = true -> plain a = true -> plain b = true ->
  well_formed (buildNarrative title ("<p>" ^^ a ^^ "</p><p>" ^^ b ^^ "</p>")) = true.
Proof.
  intros Ht Ha Hb. rewrite narrative_markup_Diagnostic.
  apply narrative_markup_well_formed; [exact Ht|].
  replace ("<p>" ^^ a ^^ "</p><p>" ^^ b ^^ "</p>")
    with (("<p>" ^^ a ^^ "</p>") ^^ ("<p>" ^^ b ^^ "</p>"))
    by (now rewrite !append_assoc).
  apply well_formed_app; now apply paragraph_well_formed.
Qed.

(** The form holds no text with a [<] or a [&] in it. *)
Definition plain_form (st : State) : bool :=
  plain (title st) && plain (issuedDate st)
  && plain (name (patient st)) && plain (mrn (patient st))
  && plain (prac_name (practitioner st))
  && plain (diagCodeText st) && plain (diagCategory st)
  && forallb (fun r => plain (codeText r) && plain (res_value r)) (results st)
  && forallb (fun s => plain (typeText s)) (specimens st)
  && forallb (fun a => plain (att_name a)) (attachments st).

Variable st : State.
Variables p pr : string.
Variable idl : list string.

Lemma narrative_observations_from (i : nat) (rows : list (ResultRow * string)) (r : JS.value) :
  Forall (fun row => plain (codeText (fst row)) && plain (res_value (fst row)) = true) rows ->
  In r (observations_from st p pr idl i rows) -> well_formed (narrative_of r) = true.
Proof.
  revert i. induction rows as [|[row t] rows IH]; intros i F H; [destruct H|].
  inversion F as [|? ? Hrow Frest]; subst. cbn [observations_from] in H.
  destruct H as [<-|H]; [|now apply (IH (S i))].
  cbn [fst] in Hrow. apply andb_true_iff in Hrow as [Hc Hv].
  unfold narrative_of, observationResource, narrative.
  cbn [get lookup String.eqb Ascii.eqb Bool.eqb ToString].
  replace ("<p>" ^^ codeText row ^^ ": " ^^ res_value row ^^ "</p>")
    with ("<p>" ^^ (codeText row ^^ ": " ^^ res_value row) ^^ "</p>")
    by (now rewrite !append_assoc).
  apply one_paragraph; [reflexivity|]. now rewrite !plain_append, Hc, Hv.
Qed.

Lemma narrative_specimens_from (i : nat) (rows : list (SpecimenRow * string)) (r : JS.value) :
  Forall (fun row => plain (typeText (fst row)) = true) rows ->
  In r (specimens_from st p idl i rows) -> well_formed (narrative_of r) = true.
Proof.
  revert i. induction rows as [|[row t] rows IH]; intros i F H; [destruct H|].
  inversion F as [|? ? Hrow Frest]; subst. cbn [specimens_from] in H.
  destruct H as [<-|H]; [|now apply (IH (S i))].
  cbn [fst] in Hrow.
  unfold narrative_of, specimenResource, narrative.
  cbn [get lookup String.eqb Ascii.eqb Bool.eqb ToString].
  now apply one_paragraph.
Qed.

Lemma narrative_documents_from (i : nat) (rows : list (Attachment * string)) (r : JS.value) :
  Forall (fun row => plain (att_name (fst row)) = true) rows ->
  In r (documents_from st p idl i rows) -> well_formed (narrative_of r) = true.
Proof.
  revert i. induction rows as [|[row t] rows IH]; intros i F H; [destruct H|].
  inversion F as [|? ? Hrow Frest]; subst. cbn [documents_from] in H.
  destruct H as [<-|H]; [|now apply (IH (S i))].
  cbn [fst] in Hrow.
  unfold narrative_of, documentResource, narrative.
  cbn [get lookup String.eqb Ascii.eqb Bool.eqb ToString].
  now apply one_paragraph.
Qed.

Lemma Forall_combine_fst {A B} (P : A -> bool) (l : list A) (times : list B) :
  forallb P l = true -> Forall (fun row => P (fst row) = true) (combine l times).
Proof.
  intros H. apply Forall_forall. intros [a t] Hin. apply in_combine_l in Hin.
  rewrite forallb_forall in H. now apply H.
Qed.

End DiagnosticNarratives.

(** The resources that the diagnostic-report form builds from texts
    without [<] and [&] have well-formed narratives, whatever their
    identifiers. *)
Lemma narratives_of_plain_form (st : DiagnosticReportForm.State) (x : DiagnosticSteps.Parts)
    (r : JS.value) :
  plain_form st = true ->
  In r (DiagnosticSteps.resources_of st x) -> Xhtml.well_formed (narrative_of r) = true.
Proof.
  intros Hp Hr. unfold plain_form in Hp.
  do 9 (apply andb_true_iff in Hp as [Hp ?]).
  unfold DiagnosticSteps.resources_of in Hr. cbn [app] in Hr.
  destruct Hr as [<-|[<-|[<-|[<-|Hr]]]].
  - unfold narrative_of, DiagnosticReportForm.compositionResource,
      DiagnosticReportForm.narrative.
    cbn [JS.get JS.lookup String.eqb Ascii.eqb Bool.eqb JS.ToString].
    replace ("<p>" ^^ DiagnosticReportForm.title st ^^ "</p><p>Date: "
             ^^ DiagnosticReportForm.issuedDate st ^^ "</p>")
      with ("<p>" ^^ DiagnosticReportForm.title st ^^ "</p><p>"
            ^^ ("Date: " ^^ DiagnosticReportForm.issuedDate st) ^^ "</p>")
      by (now rewrite !append_assoc).
    apply two_paragraphs; [reflexivity | assumption|].
    rewrite plain_append. cbn [andb]. assumption.
  - unfold narrative_of, DiagnosticReportForm.patientResource,
      DiagnosticReportForm.narrative.
    cbn [JS.get JS.lookup String.eqb Ascii.eqb Bool.eqb JS.ToString].
    replace ("<p>" ^^ DiagnosticReportForm.name (DiagnosticReportForm.patient st)
             ^^ " (MRN: " ^^ DiagnosticReportForm.mrn (DiagnosticReportForm.patient st)
             ^^ ")</p>")
      with ("<p>" ^^ (DiagnosticReportForm.name (DiagnosticReportForm.patient st)
                      ^^ " (MRN: "
                      ^^ DiagnosticReportForm.mrn (DiagnosticReportForm.patient st) ^^ ")")
            ^^ "</p>")
      by (now rewrite !append_assoc).
    apply one_paragraph; [reflexivity|].
    rewrite !plain_append.
    repeat match goal with K : Xhtml.plain _ = true |- _ => rewrite K; clear K end.
    reflexivity.
  - unfold narrative_of, DiagnosticReportForm.practitionerResource,
      DiagnosticReportForm.narrative.
    cbn [JS.get JS.lookup String.eqb Ascii.eqb Bool.eqb JS.ToString].
    apply one_paragraph; [reflexivity | assumption].
  - unfold narrative_of, DiagnosticReportForm.diagnosticReportResource,
      DiagnosticReportForm.narrative.
    cbn [JS.get JS.lookup String.eqb Ascii.eqb Bool.eqb JS.ToString].
    replace ("<p>" ^^ DiagnosticReportForm.diagCodeText st ^^ " ("
             ^^ DiagnosticReportForm.diagCategory st ^^ ")</p>")
      with ("<p>" ^^ (DiagnosticReportForm.diagCodeText st ^^ " ("
                      ^^ DiagnosticReportForm.diagCategory st ^^ ")") ^^ "</p>")
      by (now rewrite !append_assoc).
    apply one_paragraph; [reflexivity|].
    rewrite !plain_append.
    repeat match goal with K : Xhtml.plain _ = true |- _ => rewrite K; clear K end.
    reflexivity.
  - apply in_app_or in Hr as [Hr|Hr]; [|apply in_app_or in Hr as [Hr|Hr]].
    + unfold DiagnosticSteps.observations in Hr.
      apply narrative_observations_from in Hr; [exact Hr|].
      now apply (Forall_combine_fst
                   (fun r => Xhtml.plain (DiagnosticReportForm.codeText r)
                             && Xhtml.plain (DiagnosticReportForm.res_value r))).
    + unfold DiagnosticSteps.specimenResources in Hr.
      apply narrative_specimens_from in Hr; [exact Hr|].
      now apply (Forall_combine_fst (fun s => Xhtml.plain (DiagnosticReportForm.typeText s))).
    + unfold DiagnosticSteps.documents in Hr.
      apply narrative_documents_from in Hr; [exact Hr|].
      now apply (Forall_combine_fst (fun a => Xhtml.plain (DiagnosticReportForm.att_name a))).
Qed.

(** When no text of the diagnostic-report form holds a [<] or a [&],
    the narrative of every resource of the bundle is a well-formed
    fragment. *)
Theorem diagnostic_narratives_well_formed (E : JSDate.Env) (st : DiagnosticReportForm.State)
    (b : JS.value) :
  DiagnosticReportForm.handleSubmit E st = DiagnosticReportForm.Bundle b ->
  plain_form st = true ->
  forall r, In r (Bundle.resources b) -> Xhtml.well_formed (narrative_of r) = true.
Proof.
  intros H Hp r Hr.
  apply DiagnosticSteps.handleSubmit_Bundle in H as (_ & x & _ & Hres & _).
  rewrite Hres in Hr. exact (narratives_of_plain_form st x r Hp Hr).
Qed.

Lemma diagnostic_narratives_well_formed_witness :
  Forall (fun r => Xhtml.well_formed (narrative_of r) = true)
         (Bundle.resources (lab_bundle_of sample_env lab_state_with_files)).
Proof.
  assert (H : DiagnosticReportForm.handleSubmit sample_env lab_state_with_files
              = DiagnosticReportForm.Bundle (lab_bundle_of sample_env lab_state_with_files))
    by (vm_compute; reflexivity).
  assert (P : plain_form lab_state_with_files = true) by (vm_compute; reflexivity).
  apply Forall_forall.
  exact (diagnostic_narratives_well_formed sample_env lab_state_with_files _ H P).
Defined.

(* ------------------------------------------------------------------ *)
(** ** From the roster to the Patient resource *)

Section SelectedPatient.
Import JS Roster Bundle DiagnosticReportForm DiagnosticSteps.

(** The second resource of the bundle is the Patient, built from the
    patient fields of the form. *)
Lemma patient_of_bundle (E : JSDate.Env) (st : State) (b : JS.value) :
  handleSubmit E st = Bundle b ->
  exists id, nth_error (resources b) 1 = Some (patientResource st id).
Proof.
  intros H. apply handleSubmit_Bundle in H as (_ & x & _ & -> & _).
  now exists (patientId x).
Qed.

(** The form's normalizer on a date typed as day, month and year. *)
Lemma birthDate_of_day_month_year (d m y : string) (sep : ascii) :
  short_number d -> short_number m ->
  allDigits y = true /\ String.length y = 4 ->
  date_separator sep ->
  ddmmyyyyToISO (day_month_year d m y sep) = reordered d m y
  /\ truthy (reordered d m y) = true.
Proof.
  intros Hd Hm Hy Hsep.
  assert (H3 : three_part (day_month_year d m y sep) sep d m y)
    by (apply typed_three_part; assumption).
  apply three_part_split in H3.
  assert (Hr : test_yyyy_mm_dd (reordered d m y) = true)
    by (apply typed_reordered_matches; assumption).
  split; [|exact (test_nonempty _ Hr)].
  assert (Ht : trim (day_month_year d m y sep) = day_month_year d m y sep)
    by (apply typed_trim; assumption).
  assert (Hn : test_yyyy_mm_dd (day_month_year d m y sep) = false)
    by (apply typed_no_match; assumption).
  assert (Hs : separator (day_month_year d m y sep) = Some sep)
    by (apply typed_separator; assumption).
  assert (Hv : truthy (day_month_year d m y sep) = true)
    by (apply typed_truthy; assumption).
  rewrite Diag_ddmmyyyyToISO_unfold, Hv, Ht, Hn, Hs, H3.
  cbn [negb]. destruct Hd as [_ Ld], Hy as [_ Ly]. rewrite Ly.
  destruct (Nat.eqb_spec (String.length d) 4); [lia | reflexivity].
Qed.

(** What a selection in the patient list leads to in the bundle.  When
    the index is one of the roster, the Patient resource has the name of
    that entry, its gender mapped by [mapGender], its chart number when
    it has one, and, for a date of birth typed as day, month and year,
    the birth date as year, month and day.  When the index is outside the
    roster, the patient fields of the form stay as they were, and the
    bundle still names the patient selected before. *)
Theorem selected_patient_reaches_bundle (E : JSDate.Env) (patientsList : list Patient)
    (idx : number) (prev : DiagnosticHandlers.Selection) (st : State) (b : JS.value) :
  patient st
  = DiagnosticHandlers.patientForm
      (DiagnosticHandlers.handlePatientSelect E patientsList idx prev) ->
  handleSubmit E st = Bundle b ->
  exists r,
    nth_error (resources b) 1 = Some r
    /\ resourceType r = "Patient"
    /\ match DiagnosticHandlers.patient_at patientsList idx with
       | Some p =>
           get r "name" = VArr [VObj [("text", VStr (p_name p))]]
           /\ get r "gender" = VStr (mapGender (p_gender p))
           /\ (p_mrn p <> EmptyString ->
               get r "identifier"
               = VArr [VObj [("system", VStr "https://healthid.ndhm.gov.in");
                             ("value", VStr (p_mrn p))]])
           /\ (forall d m y sep,
                 p_dob p = day_month_year d m y sep ->
                 short_number d -> short_number m ->
                 allDigits y = true /\ String.length y = 4 ->
                 date_separator sep ->
                 get r "birthDate" = VStr (reordered d m y))
       | None =>
           get r "name"
           = VArr [VObj [("text", VStr (name (DiagnosticHandlers.patientForm prev)))]]
           /\ get r "gender" = VStr (gender (DiagnosticHandlers.patientForm prev))
           /\ get r "identifier"
              = VArr [VObj [("system", VStr "https://healthid.ndhm.gov.in");
                            ("value", VStr (mrn (DiagnosticHandlers.patientForm prev)))]]
       end.
Proof.
  intros Hp H. destruct (patient_of_bundle E st b H) as (id & Hr).
  exists (patientResource st id). split; [exact Hr|]. split; [reflexivity|].
  unfold DiagnosticHandlers.handlePatientSelect in Hp.
  unfold patientResource.
  cbn [get lookup String.eqb Ascii.eqb Bool.eqb].
  destruct (DiagnosticHandlers.patient_at patientsList idx) as [p|];
    cbn [DiagnosticHandlers.patientForm] in Hp; rewrite Hp.
  - split; [reflexivity|]. split; [reflexivity|]. split.
    + intros Hm. cbn [mrn patientFormOf]. unfold or_else at 1.
      apply truthy_true_iff in Hm. now rewrite Hm.
    + intros d m y sep Hdob Hd Hm Hy Hsep. cbn [birthDate patientFormOf].
      rewrite Hdob. unfold or_else.
      assert (Hv : truthy (day_month_year d m y sep) = true)
        by (apply typed_truthy; assumption).
      rewrite Hv.
      destruct (birthDate_of_day_month_year d m y sep Hd Hm Hy Hsep) as [-> ->].
      reflexivity.
  - split; [reflexivity|]. split; reflexivity.
Qed.

End SelectedPatient.

Lemma selected_patient_reaches_bundle_witness :
  exists r, nth_error (Bundle.resources (lab_bundle_of sample_env lab_state)) 1 = Some r
            /\ JS.get r "birthDate" = JS.VStr "1990-06-15".
Proof.
  assert (H : DiagnosticReportForm.handleSubmit sample_env lab_state
              = DiagnosticReportForm.Bundle (lab_bundle_of sample_env lab_state))
    by (vm_compute; reflexivity).
  destruct (selected_patient_reaches_bundle sample_env [asha] (Some 0%Z)
              {| DiagnosticHandlers.selectedPatientIdx := None;
                 DiagnosticHandlers.patientForm :=
                   {| DiagnosticReportForm.name := EmptyString;
                      DiagnosticReportForm.mrn := EmptyString;
                      DiagnosticReportForm.birthDate := EmptyString;
                      DiagnosticReportForm.gender := EmptyString;
                      DiagnosticReportForm.phone := EmptyString |};
                 DiagnosticHandlers.abhaList := [];
                 DiagnosticHandlers.selectedAbha := EmptyString;
                 DiagnosticHandlers.selectedAbhaNumber := EmptyString |}
              lab_state _ eq_refl H) as (r & Hr & _ & _ & _ & _ & Hb).
  exists r. split; [exact Hr|].
  apply (Hb "15" "06" "1990" "-"%char eq_refl).
  - split; [reflexivity | cbn; lia].
  - split; [reflexivity | cbn; lia].
  - split; reflexivity.
  - now left.
Defined.

(* ------------------------------------------------------------------ *)
(** ** Narratives of whole bundles (C9) *)

Section Yields.
Import JS JSDate Effects Runtime.
Local Open Scope js_scope.

(** Every result that [m] can return has the property [P]. *)
Definition yields {A} (m : M A) (P : A -> Prop) : Prop :=
  forall w a w', m w = Ok a w' -> P a.

Lemma yields_ret {A} (a : A) (P : A -> Prop) : P a -> yields (ret a) P.
Proof. intros H w b w' R. apply ret_Ok in R as [<- _]. exact H. Qed.

Lemma yields_throw {A} (e : string) (P : A -> Prop) : yields (@throw A e) P.
Proof. intros w a w' H. discriminate H. Qed.

Lemma yields_bind {A B} (m : M A) (k : A -> M B) (Q : A -> Prop) (P : B -> Prop) :
  yields m Q -> (forall a, Q a -> yields (k a) P) -> yields (bind m k) P.
Proof.
  intros Hm Hk w b w' H. apply bind_Ok in H as (a & w1 & Ha & H).
  exact (Hk a (Hm w a w1 Ha) w1 b w' H).
Qed.

Lemma yields_any {A} (m : M A) : yields m (fun _ => True).
Proof. intros w a w' _. exact I. Qed.

Lemma yields_mapM_indexed {A B} (f : A -> nat -> M B) (P : B -> Prop) (l : list A) (i : nat) :
  (forall x j, In x l -> yields (f x j) P) -> yields (App.mapM_indexed f l i) (Forall P).
Proof.
  revert i. induction l as [|x r IH]; intros i H; cbn [App.mapM_indexed].
  - apply yields_ret. constructor.
  - apply (yields_bind _ _ P); [apply H; now left|]. intros y Hy.
    apply (yields_bind _ _ (Forall P)); [apply IH; intros z j Hz; apply H; now right|].
    intros ys Hys. apply yields_ret. now constructor.
Qed.

End Yields.

Section Marks.
Import JS JSDate Xhtml.

Lemma plain_iff (s : string) :
  plain s = true <-> forall c, c = "<"%char \/ c = "&"%char -> includes s c = false.
Proof.
  unfold plain. split.
  - intros H c Hc. apply andb_true_iff in H as [H1 H2].
    apply negb_true_iff in H1, H2. now destruct Hc as [->| ->].
  - intros H. now rewrite (H "<"%char), (H "&"%char) by tauto.
Qed.

Variable c : ascii.
Hypothesis Hc : c = "<"%char \/ c = "&"%char.

Lemma unmarked_literal (s : string) : plain s = true -> includes s c = false.
Proof. intros H. now apply plain_iff. Qed.

Lemma unmarked_digitChar (d : N) : (d < 10)%N -> (digitChar d =? c)%char = false.
Proof.
  intros H. unfold digitChar. destruct (N.ltb_spec d 10) as [_|L]; [|lia].
  assert (C : (d = 0 \/ d = 1 \/ d = 2 \/ d = 3 \/ d = 4 \/ d = 5 \/ d = 6 \/ d = 7
               \/ d = 8 \/ d = 9)%N) by lia.
  destruct Hc as [->| ->];
    repeat (destruct C as [->|C]; [reflexivity|]); now subst.
Qed.

Lemma unmarked_toRadix (fuel : nat) (n : N) (acc : string) :
  includes acc c = false -> includes (toRadix fuel 10 n acc) c = false.
Proof.
  revert n acc. induction fuel as [|f IH]; intros n acc H; cbn [toRadix]; [exact H|].
  assert (H' : includes (String (digitChar (n mod 10)) acc) c = false).
  { cbn [includes]. rewrite H, orb_false_r. apply unmarked_digitChar.
    apply N.mod_lt. discriminate. }
  destruct (n <? 10)%N; [exact H' | now apply IH].
Qed.

Lemma unmarked_Number_toString (z : Z) : includes (Number_toString z) c = false.
Proof.
  unfold Number_toString, toStringRadix. destruct (z <? 0)%Z.
  - rewrite includes_append, (unmarked_literal "-" eq_refl). now apply unmarked_toRadix.
  - now apply unmarked_toRadix.
Qed.

Lemma unmarked_repeatTo (fill cur : string) (n : nat) :
  includes fill c = false -> includes cur c = false ->
  includes (repeatTo fill cur n) c = false.
Proof.
  intros Hf. revert cur. induction n as [|n IH]; intros cur Hcur; cbn [repeatTo]; [reflexivity|].
  destruct cur as [|x r].
  - destruct fill as [|x r]; [reflexivity|].
    cbn [includes] in Hf |- *. apply orb_false_iff in Hf as [Hx Hr].
    rewrite Hx. cbn [orb]. apply IH. exact Hr.
  - cbn [includes] in Hcur |- *. apply orb_false_iff in Hcur as [Hx Hr].
    rewrite Hx. cbn [orb]. apply IH. exact Hr.
Qed.

Lemma unmarked_padStart (s fill : string) (n : nat) :
  includes s c = false -> includes fill c = false -> includes (padStart s n fill) c = false.
Proof.
  intros Hs Hf. unfold padStart. destruct (n <=? String.length s)%nat; [exact Hs|].
  rewrite includes_append, Hs, orb_false_r. now apply unmarked_repeatTo.
Qed.

Lemma unmarked_pad0 (width : nat) (z : Z) : includes (pad0 width z) c = false.
Proof.
  apply unmarked_padStart; [apply unmarked_Number_toString | now apply unmarked_literal].
Qed.

Lemma unmarked_isoYear (y : Z) : includes (isoYear y) c = false.
Proof.
  unfold isoYear. destruct ((0 <=? y)%Z && (y <=? 9999)%Z); [apply unmarked_pad0|].
  rewrite includes_append, unmarked_pad0, orb_false_r.
  destruct (y <? 0)%Z; now apply unmarked_literal.
Qed.

Lemma unmarked_utc_clock (t : Z) : includes (utc_clock t ^^ "Z") c = false.
Proof.
  unfold utc_clock. rewrite !includes_append, unmarked_isoYear, !unmarked_pad0.
  rewrite (unmarked_literal "-" eq_refl), (unmarked_literal "T" eq_refl),
    (unmarked_literal ":" eq_refl), (unmarked_literal "." eq_refl),
    (unmarked_literal "Z" eq_refl).
  reflexivity.
Qed.

Lemma unmarked_toISOString (d : Date) (s : string) :
  toISOString d = Some s -> includes s c = false.
Proof.
  destruct d as [t|]; [|discriminate]. rewrite toISOString_utc_clock. intros H.
  assert (e : s = utc_clock t ^^ "Z") by congruence.
  rewrite e. apply unmarked_utc_clock.
Qed.

Lemma unmarked_trimStart (s : string) : includes s c = false -> includes (trimStart s) c = false.
Proof.
  induction s as [|x r IH]; intros H; [reflexivity|]. cbn [trimStart].
  destruct (isWhiteSpace x); [|exact H].
  cbn [includes] in H. apply orb_false_iff in H as [_ H]. now apply IH.
Qed.

Lemma unmarked_trimEnd (s : string) : includes s c = false -> includes (trimEnd s) c = false.
Proof.
  induction s as [|x r IH]; intros H; [reflexivity|]. cbn [trimEnd].
  cbn [includes] in H. apply orb_false_iff in H as [Hx Hr].
  destruct ((trimEnd r =? EmptyString) && isWhiteSpace x); [reflexivity|].
  cbn [includes]. now rewrite Hx, (IH Hr).
Qed.

Lemma unmarked_trim (s : string) : includes s c = false -> includes (trim s) c = false.
Proof. intros H. unfold trim. now apply unmarked_trimEnd, unmarked_trimStart. Qed.

Lemma unmarked_split (s : string) (sep : ascii) :
  includes s c = false -> Forall (fun part => includes part c = false) (split s sep).
Proof.
  induction s as [|x r IH]; intros H; cbn [split]; [now repeat constructor|].
  cbn [includes] in H. apply orb_false_iff in H as [Hx Hr]. specialize (IH Hr).
  destruct (x =? sep)%char; [now constructor|].
  destruct (split r sep) as [|h t].
  - repeat constructor. cbn [includes]. now rewrite Hx.
  - inversion IH as [|? ? Hh Ht]; subst. constructor; [|exact Ht].
    cbn [includes]. now rewrite Hx, Hh.
Qed.

Lemma unmarked_ddmmyyyyToISO (v s : string) :
  includes v c = false -> App.ddmmyyyyToISO v = Some s -> includes s c = false.
Proof.
  intros Hv. apply unmarked_trim in Hv. rewrite App_ddmmyyyyToISO_unfold.
  destruct (negb (truthy v)); [discriminate|].
  destruct (test_yyyy_mm_dd (trim v)); [now intros [= <-]|].
  destruct (separator (trim v)) as [sep|]; [|discriminate].
  pose proof (unmarked_split (trim v) sep Hv) as F.
  destruct (split (trim v) sep) as [|dd [|mm [|yyyy [|x l]]]]; try discriminate.
  intros [= <-].
  inversion F as [|? ? Hd F1]; subst. inversion F1 as [|? ? Hm F2]; subst.
  inversion F2 as [|? ? Hy _]; subst.
  unfold reordered. rewrite !includes_append, Hy.
  rewrite (unmarked_padStart mm "0" 2 Hm (unmarked_literal "0" eq_refl)).
  rewrite (unmarked_padStart dd "0" 2 Hd (unmarked_literal "0" eq_refl)).
  now rewrite (unmarked_literal "-" eq_refl).
Qed.

End Marks.

Section AppNarratives.
Import JS JSDate Effects Runtime Roster App Bundle Xhtml.
Local Open Scope js_scope.

Lemma plain_toISOString (d : Date) (s : string) : toISOString d = Some s -> plain s = true.
Proof. intros H. apply plain_iff. intros c Hc. exact (unmarked_toISOString c Hc d s H). Qed.

Lemma plain_ddmmyyyyToISO (v s : string) :
  plain v = true -> App.ddmmyyyyToISO v = Some s -> plain s = true.
Proof.
  intros Hv H. apply plain_iff. intros c Hc.
  apply (unmarked_ddmmyyyyToISO c Hc v s); [now apply plain_iff | exact H].
Qed.

Lemma plain_or_else (a b : string) :
  plain a = true -> plain b = true -> plain (or_else a b) = true.
Proof. intros Ha Hb. unfold or_else. now destruct (truthy a). Qed.

(** Text without [<] and [&] is a well-formed fragment. *)
Lemma plain_well_formed (s : string) : plain s = true -> well_formed s = true.
Proof.
  intros H. unfold well_formed. rewrite <- (append_empty_r s).
  now rewrite (scan_plain s EmptyString [] H).
Qed.

Lemma paragraphs_well_formed (a b : string) :
  plain a = true -> plain b = true ->
  well_formed ("<p>" ^^ a ^^ "</p><p>" ^^ b ^^ "</p>") = true.
Proof.
  intros Ha Hb.
  replace ("<p>" ^^ a ^^ "</p><p>" ^^ b ^^ "</p>")
    with (("<p>" ^^ a ^^ "</p>") ^^ ("<p>" ^^ b ^^ "</p>"))
    by (now rewrite !append_assoc).
  apply well_formed_app; now apply paragraph_well_formed.
Qed.

(** The narrative of a resource, when it has one, is a well-formed
    fragment. *)
Definition narrative_well_formed (r : JS.value) : Prop :=
  forall div, get (get r "text") "div" = VStr div -> well_formed div = true.

Lemma narrative_of_markup (r : JS.value) (title inner : string) :
  get r "text" = App.buildNarrative title inner ->
  plain title = true -> well_formed inner = true -> narrative_well_formed r.
Proof.
  intros Ht Hp Hi div H. rewrite Ht, narrative_markup_App in H. injection H as <-.
  now apply narrative_markup_well_formed.
Qed.

Lemma no_narrative (r : JS.value) : get r "text" = VUndef -> narrative_well_formed r.
Proof. intros Ht div H. rewrite Ht in H. discriminate H. Qed.

Lemma practitioner_at_In (i : Z) (pr : Practitioner) :
  practitioner_at i = Some pr -> In pr PRACTITIONERS.
Proof.
  unfold practitioner_at. destruct (0 <=? i)%Z; [|discriminate]. apply nth_error_In.
Qed.

(** The names and the qualifications of the practitioners of the form
    hold no [<] and no [&]. *)
Lemma plain_PRACTITIONERS (pr : Practitioner) :
  In pr PRACTITIONERS -> plain (prac_name pr) = true /\ plain (qualification pr) = true.
Proof. intros [<-|[<-|[]]]; split; reflexivity. Qed.

Section Built.
Variable E : Env.
Variable st : State.
Variable p : Patient.
Hypothesis plain_title : plain (title st) = true.
Hypothesis plain_encounter : plain (encounterText st) = true.
Hypothesis plain_custodian : plain (custodianName st) = true.
Hypothesis plain_patient :
  plain (p_name p) = true /\ plain (p_gender p) = true /\ plain (p_dob p) = true.
Hypothesis plain_rows :
  forall m, In m (immunizations st) ->
            plain (vaccineText m) = true /\ plain (occurrenceDate m) = true.
Hypothesis plain_files : forall f, In f (files st) -> plain (f_name f) = true.

Variable ids : Ids.
Variable authoredOn : string.

Lemma narrative_buildPatientResource : narrative_well_formed (buildPatientResource st ids p).
Proof.
  destruct plain_patient as (Hn & Hg & Hd).
  apply (narrative_of_markup _ "Patient"
           ("<p>" ^^ p_name p ^^ "</p><p>" ^^ (p_gender p ^^ " " ^^ p_dob p) ^^ "</p>")).
  - unfold buildPatientResource. cbn [get lookup String.eqb Ascii.eqb Bool.eqb].
    now rewrite !append_assoc.
  - reflexivity.
  - apply paragraphs_well_formed; [exact Hn|]. now rewrite !plain_append, Hg, Hd.
Qed.

Lemma narrative_buildPractitionerResource (pr : Practitioner) :
  selectedPractitioner st = Some pr -> narrative_well_formed (buildPractitionerResource ids pr).
Proof.
  intros H.
  assert (Hin : In pr PRACTITIONERS).
  { unfold selectedPractitioner in H.
    destruct (practitioner_at (selectedPractitionerIdx st)) as [q|] eqn:Hq.
    - injection H as <-. exact (practitioner_at_In _ _ Hq).
    - exact (practitioner_at_In _ _ H). }
  destruct (plain_PRACTITIONERS pr Hin) as [Hn Hq].
  apply (narrative_of_markup _ "Practitioner"
           ("<p>" ^^ prac_name pr ^^ "</p><p>" ^^ qualification pr ^^ "</p>"));
    [reflexivity | reflexivity | now apply paragraphs_well_formed].
Qed.

Lemma narrative_encounterResource (id start : string) :
  narrative_well_formed (encounterResource st ids id start).
Proof.
  apply (narrative_of_markup _ "Encounter" ("<p>" ^^ encounterText st ^^ "</p>"));
    [reflexivity | reflexivity | now apply paragraph_well_formed].
Qed.

Lemma yields_buildEncounterResource :
  yields (buildEncounterResource E st ids)
         (fun o => forall r, o = Some r -> narrative_well_formed r).
Proof.
  unfold buildEncounterResource. destruct (encounterId ids) as [id|].
  - destruct (negb (truthy id)).
    + apply yields_ret. discriminate.
    + apply (yields_bind _ _ (fun _ => True)); [apply yields_any|]. intros d _.
      apply yields_ret. intros r [= <-]. apply narrative_encounterResource.
  - apply yields_ret. discriminate.
Qed.

Lemma narrative_buildCustodianOrg (r : JS.value) :
  buildCustodianOrg st ids = Some r -> narrative_well_formed r.
Proof.
  unfold buildCustodianOrg. destruct (custodianId ids) as [id|]; [|discriminate].
  destruct (negb (truthy id)); [discriminate|]. intros [= <-].
  apply (narrative_of_markup _ "Organization" ("<p>" ^^ custodianName st ^^ "</p>"));
    [reflexivity | reflexivity | now apply paragraph_well_formed].
Qed.

Lemma yields_toISOString_or_throw (d : Date) :
  yields (toISOString_or_throw d) (fun s => plain s = true).
Proof.
  unfold toISOString_or_throw. destruct (toISOString d) as [s|] eqn:H.
  - apply yields_ret. exact (plain_toISOString d s H).
  - apply yields_throw.
Qed.

Lemma yields_now_toISOString : yields (now_toISOString E) (fun s => plain s = true).
Proof.
  unfold now_toISOString. apply (yields_bind _ _ (fun _ => True)); [apply yields_any|].
  intros d _. apply yields_toISOString_or_throw.
Qed.

(** The occurrence of a row holds no [<] and no [&] when the date of
    the row holds none. *)
Lemma yields_occurrence (m : Immunization) :
  plain (occurrenceDate m) = true -> yields (occurrence E m) (fun s => plain s = true).
Proof.
  intros H. unfold occurrence. destruct (truthy (occurrenceDate m)).
  - destruct (includes (occurrenceDate m) "T"); [apply yields_toISOString_or_throw|].
    destruct (ddmmyyyyToISO (occurrenceDate m)) as [s|] eqn:Hs; [|apply yields_now_toISOString].
    destruct (truthy s); [|apply yields_now_toISOString].
    apply yields_ret. exact (plain_ddmmyyyyToISO _ _ H Hs).
  - apply yields_now_toISOString.
Qed.

Lemma narrative_immunizationResource (m : Immunization) (id : JS.value) (occ : string) :
  plain (vaccineText m) = true -> plain occ = true ->
  narrative_well_formed (immunizationResource ids m id occ).
Proof.
  intros Hv Ho.
  apply (narrative_of_markup _ "Immunization"
           ("Vaccine: " ^^ or_else (vaccineText m) "Unknown" ^^ ", Date: " ^^ occ));
    [reflexivity | reflexivity|].
  apply plain_well_formed. rewrite !plain_append, Ho.
  now rewrite (plain_or_else (vaccineText m) "Unknown" Hv eq_refl).
Qed.

Lemma yields_buildImmunizationResources :
  yields (buildImmunizationResources E st ids) (Forall narrative_well_formed).
Proof.
  unfold buildImmunizationResources. apply yields_mapM_indexed. intros m j Hm.
  destruct (plain_rows m Hm) as [Hv Hd]. unfold buildImmunization.
  apply (yields_bind _ _ (fun s => plain s = true)); [now apply yields_occurrence|].
  intros occ Ho. apply yields_ret. now apply narrative_immunizationResource.
Qed.

Lemma narrative_buildImmRecResource (r : JS.value) :
  buildImmRecResource E st ids authoredOn = Some r -> narrative_well_formed r.
Proof.
  unfold buildImmRecResource. destruct (immRecId ids) as [id|]; [|discriminate].
  destruct (negb (truthy id)); [discriminate|]. intros [= <-].
  now apply no_narrative.
Qed.

Lemma yields_contentOf (f : option File) :
  (forall x, f = Some x -> plain (f_name x) = true) ->
  yields (contentOf f) (fun content => plain (snd content) = true).
Proof.
  intros H. unfold contentOf. destruct f as [x|].
  - apply (yields_bind _ _ (fun _ => True)); [apply yields_any|]. intros data _.
    apply yields_ret. cbn [snd]. apply plain_or_else; [now apply H | reflexivity].
  - apply yields_ret. reflexivity.
Qed.

Lemma narrative_docRefResource (docId binId : JS.value) (contentType title : string) :
  plain title = true ->
  narrative_well_formed (docRefResource ids authoredOn docId binId contentType title).
Proof.
  intros H.
  apply (narrative_of_markup _ "DocumentReference" ("<p>" ^^ title ^^ "</p>"));
    [reflexivity | reflexivity | now apply paragraph_well_formed].
Qed.

Lemma yields_docLoop (fs : list (option File)) (i : nat) :
  (forall x, In (Some x) fs -> plain (f_name x) = true) ->
  yields (docLoop ids authoredOn fs i)
         (fun built => Forall narrative_well_formed (fst built)
                       /\ Forall narrative_well_formed (snd built)).
Proof.
  revert i. induction fs as [|f r IH]; intros i H; cbn [docLoop].
  - apply yields_ret. split; constructor.
  - apply (yields_bind _ _ (fun content => plain (snd content) = true)).
    + apply yields_contentOf. intros x ->. apply H. now left.
    + intros [[contentType dataB64] title] Ht. cbn [snd] in Ht.
      apply (yields_bind _ _ (fun built => Forall narrative_well_formed (fst built)
                                           /\ Forall narrative_well_formed (snd built))).
      * apply IH. intros x Hx. apply H. now right.
      * intros rest [Hb Hd]. apply yields_ret. cbn [fst snd]. split.
        -- constructor; [now apply no_narrative | exact Hb].
        -- constructor; [now apply narrative_docRefResource | exact Hd].
Qed.

Lemma yields_buildDocAndBinaryResources :
  yields (buildDocAndBinaryResources st ids authoredOn)
         (fun built => Forall narrative_well_formed (fst built)
                       /\ Forall narrative_well_formed (snd built)).
Proof.
  unfold buildDocAndBinaryResources. apply yields_docLoop. intros x Hx.
  apply plain_files. unfold toProcess in Hx.
  destruct (files st) as [|f fs]; [destruct Hx as [Hx|[]]; discriminate Hx|].
  apply in_map_iff in Hx as (y & [= <-] & Hy). exact Hy.
Qed.

Lemma plain_authorName : plain (orElse (authorName st) EmptyString) = true.
Proof.
  unfold authorName.
  destruct (practitioner_at (selectedPractitionerIdx st)) as [pr|] eqn:H; [|reflexivity].
  cbn [option_map orElse].
  destruct (plain_PRACTITIONERS pr (practitioner_at_In _ _ H)) as [Hn _].
  now destruct (truthy (prac_name pr)).
Qed.

Lemma narrative_buildComposition (docRefsArr : list JS.value) :
  narrative_well_formed (buildComposition st ids authoredOn docRefsArr).
Proof.
  apply (narrative_of_markup _ "Composition"
           ("<p>" ^^ title st ^^ "</p><p>"
            ^^ ("Author: " ^^ orElse (authorName st) EmptyString) ^^ "</p>")).
  - unfold buildComposition. cbn [get lookup app String.eqb Ascii.eqb Bool.eqb].
    now rewrite !append_assoc.
  - reflexivity.
  - apply paragraphs_well_formed; [exact plain_title|].
    rewrite plain_append. exact plain_authorName.
Qed.

End Built.
End AppNarratives.

Section BuiltNarratives.
Import JS JSDate Effects Runtime Roster App Bundle Xhtml.
Local Open Scope js_scope.

(** No text of the immunization form that reaches a narrative holds a
    [<] or a [&]: the title, the encounter and the custodian, the name,
    the gender and the date of birth of the selected patient, the vaccine
    and the date of every row, the name of every file. *)
Definition plain_texts (st : State) : bool :=
  plain (title st) && plain (encounterText st) && plain (custodianName st)
  && match selectedPatient st with
     | Some p => plain (p_name p) && plain (p_gender p) && plain (p_dob p)
     | None => true
     end
  && forallb (fun m => plain (vaccineText m) && plain (occurrenceDate m)) (immunizations st)
  && forallb (fun f => plain (f_name f)) (files st).

Lemma resources_optional (o : option JS.value) :
  map resource (optional o) = match o with Some r => [r] | None => [] end.
Proof. now destruct o. Qed.

Lemma Forall_option (P : JS.value -> Prop) (o : option JS.value) :
  (forall r, o = Some r -> P r) -> Forall P match o with Some r => [r] | None => [] end.
Proof. intros H. destruct o as [r|]; constructor; [now apply H | constructor]. Qed.

(** Every bundle that [build] can return has well-formed narratives. *)
Lemma yields_build (E : Env) (st : State) (p : Patient) :
  plain (title st) = true -> plain (encounterText st) = true ->
  plain (custodianName st) = true ->
  plain (p_name p) = true /\ plain (p_gender p) = true /\ plain (p_dob p) = true ->
  (forall m, In m (immunizations st) ->
             plain (vaccineText m) = true /\ plain (occurrenceDate m) = true) ->
  (forall f, In f (files st) -> plain (f_name f) = true) ->
  yields (build E st p) (fun b => Forall narrative_well_formed (resources b)).
Proof.
  intros Ht He Hc Hp Hr Hf. unfold build.
  do 10 (apply (yields_bind _ _ (fun _ => True)); [apply yields_any|]; intros ? _; cbv beta).
  cbv zeta.
  apply (yields_bind _ _ narrative_well_formed).
  { destruct (selectedPractitioner st) as [pr|] eqn:Hpr; [|apply yields_throw].
    apply yields_ret. exact (narrative_buildPractitionerResource st _ pr Hpr). }
  intros practitionerRes Hprac. cbv beta.
  apply (yields_bind _ _ (fun o => forall r, o = Some r -> narrative_well_formed r)).
  { apply yields_buildEncounterResource. exact He. }
  intros encounterRes Henc. cbv beta.
  apply (yields_bind _ _ (Forall narrative_well_formed)).
  { apply yields_buildImmunizationResources. exact Hr. }
  intros imms Himm. cbv beta.
  apply (yields_bind _ _ (fun built => Forall narrative_well_formed (fst built)
                                       /\ Forall narrative_well_formed (snd built))).
  { apply yields_buildDocAndBinaryResources. exact Hf. }
  intros [bins drs] [Hb Hd]. cbn [fst snd] in Hb, Hd. cbv beta iota.
  do 4 (apply (yields_bind _ _ (fun _ => True)); [apply yields_any|]; intros ? _; cbv beta).
  apply yields_ret.
  unfold resources, entries. cbn [get lookup elements String.eqb Ascii.eqb Bool.eqb].
  rewrite !map_app, !resources_map_bundleEntry, !resources_optional.
  cbn [map]. rewrite !resource_bundleEntry.
  constructor; [apply narrative_buildComposition; exact Ht|].
  constructor; [apply narrative_buildPatientResource; exact Hp|].
  constructor; [exact Hprac|].
  apply Forall_app. split; [apply Forall_option; exact Henc|].
  apply Forall_app. split.
  { apply Forall_option. intros r H. apply (narrative_buildCustodianOrg st Hc _ r H). }
  apply Forall_app. split; [exact Himm|].
  apply Forall_app. split.
  { apply Forall_option. intros r H. apply (narrative_buildImmRecResource E st _ _ r H). }
  apply Forall_app. split; [exact Hd | exact Hb].
Qed.

End BuiltNarratives.

(** C9, amended.  Neither [buildNarrative] escapes what it is given: the
    title and the inner markup are placed between the fixed tags as they
    are.  In every bundle that the immunization form builds, the
    narrative of every resource that has one is a well-formed fragment,
    provided that no text of the form that reaches a narrative holds a
    [<] or a [&]; and so it is in every bundle that the diagnostic-report
    form builds. *)
Theorem narratives_well_formed_of_plain_texts :
  (forall title inner,
     JS.get (App.buildNarrative title inner) "div" = JS.VStr (narrative_markup title inner)
     /\ DiagnosticReportForm.buildNarrative title inner = narrative_markup title inner)
  /\ (forall (E : JSDate.Env) (st : App.State) (b : JS.value),
        App.onBuildBundle E st = App.Built b ->
        plain_texts st = true ->
        forall r div,
          In r (Bundle.resources b) ->
          JS.get (JS.get r "text") "div" = JS.VStr div ->
          Xhtml.well_formed div = true)
  /\ (forall (E : JSDate.Env) (st : DiagnosticReportForm.State) (b : JS.value),
        DiagnosticReportForm.handleSubmit E st = DiagnosticReportForm.Bundle b ->
        plain_form st = true ->
        forall r div,
          In r (Bundle.resources b) ->
          JS.get (JS.get r "text") "div" = JS.VStr div ->
          Xhtml.well_formed div = true).
Proof.
  split; [intros title inner; split; reflexivity|]. split.
  - intros E st b HB Hp r div Hr Hdiv. unfold App.onBuildBundle in HB.
    destruct (negb (List.length (App.validateBeforeBuild st) =? 0)%nat); [discriminate HB|].
    unfold plain_texts in Hp.
    destruct (App.selectedPatient st) as [p|]; [|discriminate HB].
    destruct (App.build E st p Effects.start) as [b' w|e] eqn:Hb; [|discriminate HB].
    injection HB as ->.
    apply andb_true_iff in Hp as [Hp Hfiles]. apply andb_true_iff in Hp as [Hp Hrows].
    apply andb_true_iff in Hp as [Hp Hpat]. apply andb_true_iff in Hp as [Hp Hcust].
    apply andb_true_iff in Hp as [Htitle Henc].
    apply andb_true_iff in Hpat as [Hpat Hdob]. apply andb_true_iff in Hpat as [Hname Hgender].
    rewrite forallb_forall in Hrows, Hfiles.
    assert (F : Forall narrative_well_formed (Bundle.resources b)).
    { apply (yields_build E st p Htitle Henc Hcust (conj Hname (conj Hgender Hdob)))
        with (w := Effects.start) (w' := w); [|exact Hfiles|exact Hb].
      intros m Hm. apply andb_true_iff. exact (Hrows m Hm). }
    rewrite Forall_forall in F. exact (F r Hr div Hdiv).
  - intros E st b HB Hp r div Hr Hdiv.
    apply DiagnosticSteps.handleSubmit_Bundle in HB as (_ & x & _ & Hres & _).
    rewrite Hres in Hr. pose proof (narratives_of_plain_form st x r Hp Hr) as W.
    unfold narrative_of in W. rewrite Hdiv in W. exact W.
Qed.

Lemma narratives_well_formed_of_plain_texts_witness :
  Forall narrative_well_formed (Bundle.resources (bundle_of sample_env full_state)).
Proof.
  assert (H : App.onBuildBundle sample_env full_state
              = App.Built (bundle_of sample_env full_state)) by (vm_compute; reflexivity).
  assert (P : plain_texts full_state = true) by (vm_compute; reflexivity).
  apply Forall_forall. intros r Hr div Hdiv.
  exact (proj1 (proj2 narratives_well_formed_of_plain_texts)
           sample_env full_state _ H P r div Hr Hdiv).
Defined.
